(* ===== verification/_CoqProject ===== *)
-Q . S2P
Prelude.v
JsString.v
JsValue.v
Effects.v
Browser.v
Identity.v
Tracking.v
PageState.v
Survey.v
Signup.v
Observer.v
View.v
Page.v
Machine.v
Invariants.v
Outputs.v
Schedule.v
Session.v
FlowSpec.v
Timers.v
Clock.v
Protocol.v
Independence.v
Lifecycle.v
Analytics.v
Markup.v
Animation.v
Home.v
Document.v
Typing.v
