(* ===== verification/Prelude.v ===== *)
(** * Verification of the landing page of blind_date_explained

    The repository is a single client-side React page
    ([src/src/app/page.tsx]), a utility module for two other analytics
    sinks that nothing imports ([src/src/lib/utils/analytics.ts]), a static
    layout ([src/src/app/layout.tsx]) and the configuration of the
    stylesheet ([src/tailwind.config.ts]).  The page keeps twelve [useState]
    cells and one [useRef] cell, installs two window listeners from a
    [useEffect], and reacts to clicks, typing, form submission, scrolling,
    page unload and timers.  Every reaction may call the Amplitude SDK
    through [trackEvent], which tags the event with an identifier kept in
    [localStorage].

    ** Files and what they model

    - [Prelude] (this file): libraries, the scope [js_scope], the tactics
      [split_andb], [case_all], [by_compute], [forall_list] and
      [elem_cases], the hint databases [js] and [js_rw], counting lemmas on
      lists.
    - [JsString]: the string built-ins that the page calls, on UTF-8
      encoded strings: [trim], [includes], [substring], the decimal
      rendering of [Date.now()].
    - [JsValue]: scalar values (numbers are binary64 floats), truthiness,
      the operator [||], [Math.round], objects as [gmap string JsVal] with
      spread.
    - [Effects]: the state and exception monad [JS] in which handlers are
      written, with [try_catch] and [try_finally]; two program logics over
      it: [emits_le] bounds the number of effects of a kind that a
      computation adds, [preserves R] says that a computation moves the
      state along a preorder [R].
    - [Browser]: the world outside the component: the environment
      variable, [localStorage] (which may refuse access), the clock and the
      random source, the trace of effects (SDK calls, console, alerts), and
      the interface [Sdk] of the analytics vendor with the class [Reliable]
      of the SDKs that do not throw.
    - [Identity]: [getOrCreateAnonymousUserId] (page.tsx 38-51); the
      relations [frame] (the configuration of the browser is unchanged and
      the trace grows) and [keeps id] (the stored identifier stays [id] and
      every added call names it).
    - [Tracking]: [trackEvent] (page.tsx 54-67); the class [Respected] of
      the relations that every operation on the world respects.
    - [PageState]: the [useState] cells, the ref, the pending timers, the
      configuration [Page] and the setters (page.tsx 8-22).
    - [Survey]: option lists, label tables, the four selection handlers and
      [onSubmitSurvey], split at its [await] (page.tsx 125-185, 535-661).
    - [Signup]: [onSubmit], split at its [await], and the timer that hides
      the success view (page.tsx 187-226, 761).
    - [Observer]: the [useEffect]: initialisation of the SDK,
      [handleScroll], [handleBeforeUnload], registration and cleanup of the
      listeners (page.tsx 70-123).
    - [View]: the abstraction of what [Home] renders that the transition
      system consults: which section is shown, which option is selected and
      which controls are enabled (page.tsx 494-787).
    - [Page]: the events of a session, [handle] (which code an event runs),
      [commit] (a render followed by the flush of the effect, with the
      dependency check), [enabled], and the interpreters [run] and
      [eager_run]; sessions on concrete inputs.
    - [Machine]: the pure machine [mstep] on the interface state [Ui] with
      outputs [Out], the interpretation [out_world] of an output in the
      world, and the refinement [step_join] / [run_join]: a step of the
      page is a step of the machine together with the interpretation of
      its outputs.
    - [Invariants]: invariants of the machine, by induction on runs
      ([mrun_invariant]): the listener registry, the latches, the
      submission in flight, the labels carried by the outputs, the number
      of page views, the alerts, the signup view.
    - [Outputs]: what a list of outputs does to the world: bounds on the
      events sent in any world, the alerts shown, the events sent exactly
      in a working browser, relations respected, nothing at all without a
      key.
    - [Schedule]: the eager schedule, in which a render follows every
      event: the listeners see the current cells, the scroll latch holds.
    - [Session]: the theorems on whole sessions, which combine the above.
    - [FlowSpec]: the two state machines of the description of the page
      (the survey flow and the signup flow) and the simulation of each by
      the page.
    - [Timers]: a measure on the pending timers, the relation [fire_step]
      and the function [drain] that lets the timers fire.
    - [Clock]: the timers with their deadlines (page.tsx 136, 210,
      217-219): a timed configuration [Timed] pairs the page with the
      deadline of each pending timer; [act] is an event of the user at the
      present time, [wait] lets time pass and fires the timers that fall
      due, in the order of their deadlines ([fire_next], [elapse]); the
      clock is the one that [Date.now()] reads.
    - [Protocol]: the protocol of the SDK, initialisation before use, as a
      property [init_first] of the calls of a trace; the relation [follows]
      (the SDK has received the calls of the trace and nothing else) and
      the class [InitFirst] of the SDKs that work once initialised.
    - [Independence]: what each of the two flows observes of the interface
      state ([survey_obs], [signup_obs]) and what an event is to a flow
      ([Touch]: a step of its own, a render, or nothing).
    - [Lifecycle]: what React does with the effect beyond the renders of a
      session: [unmount] runs the cleanup (page.tsx 118-121), and
      [strict_mount] is the first mount in development, in which React
      unmounts the component and mounts it again.
    - [Analytics]: the utility module analytics.ts: [trackEvent] (named
      [analytics_trackEvent]) and its five wrappers over the sinks [gtag]
      and [mixpanel], and the interface [EventParams] of the parameters.
    - [Markup]: the element trees that components return ([Node]: text,
      elements with props and children, arrays of children), with the
      notation [k =: v] for a prop in [markup_scope], and what React and
      the browser make of a tree: its elements, text, identifiers and
      in-page links, well-formedness, and the handlers that a user can
      trigger ([controls]).
    - [Animation]: what the animation library makes of the animation props
      of a tree once the animations have run, described from its
      documentation: the variant labels handed down to the elements that
      name none ([motions], [labels_at]), the target of each state, and the
      style of an element when it mounts, at rest and under the pointer
      ([mount_value], [rest_value], [gesture_value]).
    - [Home]: the JSX that [Home] returns (page.tsx 228-823) and the two
      animation variants (24-36), one definition per section and per
      control, with class names, animation props, keys and handlers as the
      source writes them; the reading [view_of] of a view off the markup.
    - [Document]: [metadata] and [RootLayout] of layout.tsx, [config] of
      tailwind.config.ts, and the two things that the stylesheet generator
      does with the configuration: matching file names against the
      [content] patterns and resolving class names against the theme.
    - [Typing]: the values that the cells and the ref take in a session.

    ** How React is modelled

    A handler is a closure created by a render: it reads the state
    variables of that render (the snapshot) and writes through setters,
    which change the cells seen by the next render.  A configuration [Page]
    keeps the cells, the snapshot of the last render ([rendered]), the
    window listeners that are registered, each identified by the snapshot
    that it closed over ([installed]), and the cleanup that React keeps for
    the effect ([cleanup]).  A click, a change of the input or a form
    submission runs its handler on [rendered] and is followed by [commit]:
    React re-renders and flushes effects before such an event ends.  Window
    listeners and timer continuations only run their code; the render that
    their updates cause is the separate event [Flush], which the
    environment schedules.  Theorems about [run] hold for every schedule;
    theorems about [eager_run] assume a render after every event.  An
    [await] on a timer is a pending continuation that holds the snapshot of
    the render that created it; the promises awaited in the page are
    resolved by timers and cannot be rejected, but the handlers are
    modelled and specified for a rejection too.

    ** What the theorems show

    - Handlers ([Survey], [Signup], [Observer], [Identity], [Tracking]):
      the behaviour of each handler on every branch, errors included: the
      event sent and its properties, the alert shown, the flags and timers
      afterwards; that [trackEvent] never throws; that an identifier, once
      returned, is returned again.
    - Refinement ([Machine], [Session.session_refines_machine]): the page
      is the pure machine with its outputs interpreted in the world; hence
      the interface does not depend on the analytics.
    - Sessions ([Session]): in every session, under every schedule, with
      any SDK and storage: at most one "start survey" and one
      "submit survey" event, at most four page views, survey events that
      carry labels of rendered options, one pair of listeners, one
      submission in flight, no alert but the request for a contact, the
      identifier preserved, no call without a key.  Under the eager
      schedule: at most one "scroll depth" event, and the unload listener
      decides by the current state.
    - Simulation ([FlowSpec]): every event of every session either leaves
      the state of the survey flow (unanswered, partial, ready, submitting,
      submitted) and of the signup flow (empty, filled, sending, sent)
      alone or takes the transition of the flow that belongs to it; and
      the survey can always be completed: after any session some sequence
      of events submits it.
    - Counterexamples ([Page], [Session]): sessions, evaluated by the
      kernel, in which the guarantees of the eager schedule fail without
      the render in between, and in which the code departs from its
      description (the page view is sent again, the survey starts only at
      the first question, the progress is that of the last question
      clicked).
    - Protocol ([Protocol]): in every session the calls that reach the SDK
      begin with [amplitude.init], the SDK receives the calls of the trace
      and nothing else, and an SDK that refuses calls before its
      initialisation never throws in a session.
    - Independence ([Independence]): the survey and the signup share no
      cell, timer, event or effect: an event of one flow is a render to
      the other or nothing, and what a flow enables and becomes depends on
      what that flow observes alone, in any browser.
    - Life cycle ([Lifecycle]): after any session the unmount leaves no
      listener registered and the window events reach nothing; it cancels
      no timer, so a submission in flight still ends and is sent; a
      session in development is a session in a browser in which the SDK
      has been initialised once more.
    - Time ([Clock]): a timed session is a session, so that all of the
      above holds of timed sessions; the timers stay on time; after the
      click on the submit button the survey is submitted once 1500 ms have
      passed and not before; the success view of the signup is up from
      1000 ms to 4000 ms after the submission; 4000 ms after the last event
      of the user the page is at rest; and time is additive: waiting in
      two steps fires the same timers at the same times ([Clock.wait_add]).
    - [Analytics]: the payload that each sink receives, that a failure of
      [gtag] is not contained, and that the five wrappers pass parameters
      of the type [EventParams] whatever their arguments are.
    - Markup ([Home]): the markup is well formed in every state; the view
      of [View] is the reading of the markup, so the transition system
      enables exactly the controls that the markup offers, and what it
      runs for an event is the handler bound to the control; every option
      button shows the label that its click sends.
    - Animation ([Animation], [Home]): [motions] lists exactly the animated
      elements of a tree; in every state every animated element of the
      page comes to rest opaque, of its own size and at its place, the
      paragraphs of the hero through the labels of the block around them;
      the submit buttons give no feedback to the pointer while their
      submission is in flight, the option buttons always do.
    - Termination ([Timers]): every timer that fires lowers the measure and
      no event but a submission raises it; firing timers is well founded,
      a session without further submissions fires at most as many timers
      as the measure counts, and after any session the timers drain within
      three continuations, after which no submission is in flight, the
      success view is hidden and a submission of the survey that was in
      flight is done.
    - Types ([Typing]): in every session each answer is [null] or the key
      of an option of its question, [source] is [null] and the ref holds
      one of five values; hence exactly the button of the answer is
      highlighted.
    - Configuration ([Document]): the layout keeps a page well formed and
      declares its language; the files that write class names are scanned,
      and the three patterns of [content] select what the last one selects;
      of the theme extension only the font stack and one radius are
      referred to by the document.

    ** Bounds

    All handlers are total functions and sessions are finite lists of
    events.  The only fuel is that of [Timers.drain] and [Clock.elapse],
    which fire one timer per unit: the measure of the pending timers is
    enough fuel from any page ([Timers.drain_enough], [Clock.elapse_done]),
    and three units are enough after any session.  Time is an integer
    number of milliseconds; in [Clock] a timer fires at its deadline, and a
    browser that fires it later is covered by the sessions of [Page], in
    which a pending timer fires at any moment.  The markup is
    evaluated for each of the thirty-two combinations of the five flags
    that decide its shape (survey submitted or being submitted, answers
    complete, signup sent or being sent); the answers and the contact stay
    symbolic.  Strings are byte strings holding the
    UTF-8 encoding of the JavaScript string; [trim] removes the encodings
    of every code point that ECMAScript counts as white space or line
    terminator.  Numbers are the kernel's binary64 floats; [Date.now()] is
    an integer.  The random source is the string that
    [Math.random().toString(36)] returns.

    ** Not modelled

    The time course of the animations (durations, delays, easing, the
    observation of the viewport: the props are kept in the markup and only
    the states between which the library animates are given a meaning);
    the stylesheet that the generator emits and how the browser lays the
    page out, fonts and images; the internals of the analytics SDK and of
    the sinks and what they send over the network (only the calls that
    cross the boundary and whether a call throws); a second life of the
    component after its unmount (the page is the whole application);
    renders that React interrupts and starts again; lookups of property
    names inherited from [Object.prototype] in the label tables (the keys
    come from the rendered items, for which the tables are total); the
    import statements of the sources. *)

From Stdlib Require Export ZArith Floats.
From stdpp Require Export base tactics option list gmap strings.

(** The notations of the development live in [js_scope]. *)
Declare Scope js_scope.
Delimit Scope js_scope with js.

(** Hint database for the routine facts of the components. *)
Create HintDb js discriminated.

(** Rewrite database for the equations that normalise handler runs. *)
Create Rewrite HintDb js_rw.

(** ** Tactics *)

(** Split a hypothesis that is a conjunction of boolean tests. *)
Ltac split_andb :=
  repeat match goal with
  | H : _ && _ = true |- _ => apply andb_prop in H; destruct H
  | H : negb _ = true |- _ => apply negb_true_iff in H
  | H : negb _ = false |- _ => apply negb_false_iff in H
  | H : _ || _ = false |- _ => apply orb_false_elim in H; destruct H
  end.

(** Case analysis on every boolean or option scrutinised by the goal. *)
Ltac case_all :=
  repeat match goal with
  | |- context [if ?b then _ else _] => destruct b eqn:?
  | |- context [match ?o with Some _ => _ | None => _ end] => destruct o eqn:?
  end.

(** Decide a closed proposition by evaluation. *)
Ltac by_compute := apply (bool_decide_unpack _); vm_compute; exact I.

(** Reduce [Forall P] on a list written out to [P] on its elements. *)
Ltac forall_list :=
  repeat first [apply Forall_nil_2 | apply Forall_cons_2 | apply Forall_app_2].

(** Case analysis on the membership [H] in a list written out. *)
Ltac elem_cases H :=
  repeat (apply elem_of_cons in H as [H|H]); try (by apply elem_of_nil in H).

Lemma bool_decide_is_true (b : bool) : bool_decide (b = true) = b.
Proof. by destruct b. Qed.

(** ** Counting elements that satisfy a boolean test *)

Section count.
Context {A : Type} (p : A → bool).

Fixpoint count_if (l : list A) : nat :=
  match l with
  | [] => 0
  | x :: l' => (if p x then 1 else 0) + count_if l'
  end.

Lemma count_if_app l1 l2 : count_if (l1 ++ l2) = count_if l1 + count_if l2.
Proof. induction l1 as [|x l1 IH]; simpl; [done|]. rewrite IH. lia. Qed.

Lemma count_if_snoc l x :
  count_if (l ++ [x]) = count_if l + (if p x then 1 else 0).
Proof. rewrite count_if_app. simpl. lia. Qed.

Lemma count_if_zero l : count_if l = 0 ↔ Forall (λ x, p x = false) l.
Proof.
  induction l as [|x l IH]; simpl.
  - split; [constructor | done].
  - rewrite Forall_cons, <- IH. destruct (p x); split; try lia; intuition.
Qed.

Lemma count_if_pos l : 0 < count_if l ↔ ∃ x, x ∈ l ∧ p x = true.
Proof.
  induction l as [|x l IH]; simpl.
  - split; [lia | intros (? & []%elem_of_nil & _)].
  - destruct (p x) eqn:Hx.
    + split; [intros _; exists x; split; [left | done] | lia].
    + rewrite IH. split.
      * intros (y & ? & ?). exists y. split; [by right | done].
      * intros (y & [->|?]%elem_of_cons & ?); [congruence | eauto].
Qed.

Lemma count_if_lookup l i x : l !! i = Some x → p x = true → 0 < count_if l.
Proof. intros Hi Hx. apply count_if_pos. exists x. eauto using list_elem_of_lookup_2. Qed.

Lemma count_if_le_length l : count_if l ≤ length l.
Proof. induction l as [|x l IH]; simpl; [done|]. destruct (p x); lia. Qed.

End count.

#[export] Hint Rewrite @count_if_app @count_if_snoc : js_rw.

(** ** Removing one occurrence *)

(** Remove the first element equal to [x]. *)
Fixpoint list_remove_first {A} `{EqDecision A} (x : A) (l : list A) : list A :=
  match l with
  | [] => []
  | y :: l' => if decide (x = y) then l' else y :: list_remove_first x l'
  end.

Lemma list_remove_first_singleton {A} `{EqDecision A} (x : A) :
  list_remove_first x [x] = [].
Proof. simpl. by rewrite decide_True. Qed.

Lemma list_remove_first_length {A} `{EqDecision A} (x : A) l :
  length (list_remove_first x l) ≤ length l.
Proof.
  induction l as [|y l IH]; simpl; [done|]. case_decide; simpl; lia.
Qed.

(** Deleting past the end changes nothing. *)
Lemma delete_lookup_None {A} (l : list A) i : l !! i = None → delete i l = l.
Proof.
  revert i. induction l as [|x l IH]; intros [|i]; simpl; try done.
  intros H. f_equal. by apply IH.
Qed.

(** Deleting an element lowers the count by what the element counts. *)
Lemma count_if_delete {A} (p : A → bool) (l : list A) i x :
  l !! i = Some x →
  count_if p (delete i l) + (if p x then 1 else 0) = count_if p l.
Proof.
  revert i. induction l as [|y l IH]; intros [|i]; simpl; try done.
  - intros [= ->]. lia.
  - intros H. specialize (IH _ H). lia.
Qed.

(** ** Options as nullable values *)

(** [o ?? d] is the value of a nullable, or a default. *)
Notation "o ?? d" := (default d o) (at level 35, right associativity) : js_scope.

Lemma default_Some {A} (d x : A) : default d (Some x) = x.
Proof. done. Qed.

Lemma default_None {A} (d : A) : default d None = d.
Proof. done. Qed.

#[export] Hint Rewrite @default_Some @default_None : js_rw.
