(* ===== verification/JsString.v ===== *)
(** * JavaScript string operations used by the page

    A JavaScript string is represented by the bytes of its UTF-8 encoding
    (Rocq's [string]).  [trimStart], [trimEnd] and [trim] follow
    [String.prototype.trim]: they remove every code point of the ECMAScript
    classes WhiteSpace and LineTerminator, recognised here by their UTF-8
    encodings.  [includes] is substring search; on valid UTF-8 it agrees with
    the search on UTF-16 code units because UTF-8 is self-synchronising.
    [substring] is [String.prototype.substring] for in-range natural
    arguments, and [number_to_string] renders an integer-valued Number the
    way a template literal does. *)

From Stdlib Require Import Ascii DecimalString.
From S2P Require Import Prelude.

#[local] Open Scope string_scope.
#[local] Open Scope N_scope.

(** ** White space *)

(** One-byte white space: TAB, LF, VT, FF, CR, SPACE. *)
Definition is_ws1 (c : ascii) : bool :=
  let n := N_of_ascii c in ((9 <=? n) && (n <=? 13)) || (n =? 32).

(** Two-byte white space: U+00A0 (C2 A0). *)
Definition is_ws2 (c1 c2 : ascii) : bool :=
  (N_of_ascii c1 =? 194) && (N_of_ascii c2 =? 160).

(** Three-byte white space: U+1680, U+2000..U+200A, U+2028, U+2029, U+202F,
    U+205F, U+3000, U+FEFF. *)
Definition is_ws3 (c1 c2 c3 : ascii) : bool :=
  let a := N_of_ascii c1 in
  let b := N_of_ascii c2 in
  let c := N_of_ascii c3 in
  ((a =? 225) && (b =? 154) && (c =? 128))
  || ((a =? 226) && (b =? 128)
      && (((128 <=? c) && (c <=? 138)) || (c =? 168) || (c =? 169) || (c =? 175)))
  || ((a =? 226) && (b =? 129) && (c =? 159))
  || ((a =? 227) && (b =? 128) && (c =? 128))
  || ((a =? 239) && (b =? 187) && (c =? 191)).

(** Number of bytes of the white-space code point at the front of [s], or 0. *)
Definition ws_len (s : string) : nat :=
  match s with
  | String c1 s1 =>
    if is_ws1 c1 then 1%nat else
    match s1 with
    | String c2 s2 =>
      if is_ws2 c1 c2 then 2%nat else
      match s2 with
      | String c3 _ => if is_ws3 c1 c2 c3 then 3%nat else 0%nat
      | EmptyString => 0%nat
      end
    | EmptyString => 0%nat
    end
  | EmptyString => 0%nat
  end.

(** Remove the first [n] bytes. *)
Fixpoint drop_bytes (n : nat) (s : string) : string :=
  match n, s with
  | S n', String _ s' => drop_bytes n' s'
  | _, _ => s
  end.

(** [String.prototype.trimStart]. *)
Fixpoint trimStart (s : string) : string :=
  match s with
  | String c1 s1 =>
    if is_ws1 c1 then trimStart s1 else
    match s1 with
    | String c2 s2 =>
      if is_ws2 c1 c2 then trimStart s2 else
      match s2 with
      | String c3 s3 => if is_ws3 c1 c2 c3 then trimStart s3 else s
      | EmptyString => s
      end
    | EmptyString => s
    end
  | EmptyString => s
  end.

(** The string consists of white space only. *)
Definition all_ws (s : string) : bool :=
  match trimStart s with EmptyString => true | _ => false end.

(** [String.prototype.trimEnd]: cut at the first position from which only
    white space follows. *)
Fixpoint trimEnd (s : string) : string :=
  match s with
  | EmptyString => EmptyString
  | String c s' => if all_ws s then EmptyString else String c (trimEnd s')
  end.

(** [String.prototype.trim]. *)
Definition trim (s : string) : string := trimEnd (trimStart s).

(** ** Search and slices *)

(** [s.includes(sub)]. *)
Fixpoint includes (sub s : string) : bool :=
  String.prefix sub s ||
  match s with
  | EmptyString => false
  | String _ s' => includes sub s'
  end.

(** [s.substring(i, j)] for natural [i], [j]: the bytes from the smaller to
    the larger index, clamped to the length. *)
Definition substring (i j : nat) (s : string) : string :=
  String.substring (Nat.min i j) (Nat.max i j - Nat.min i j) s.

(** Rendering of an integer-valued Number in a template literal. *)
Definition number_to_string (z : Z) : string :=
  NilZero.string_of_int (Z.to_int z).

(** JavaScript truthiness of a string: non-empty. *)
Definition truthy_string (s : string) : bool :=
  match s with EmptyString => false | _ => true end.

#[local] Close Scope N_scope.
#[local] Open Scope nat_scope.

(** ** Lemmas *)

(** Induction on the length of a string, for functions that consume several
    bytes at a time. *)
Lemma string_length_ind (P : string → Prop) :
  (∀ s, (∀ t, String.length t < String.length s → P t) → P s) → ∀ s, P s.
Proof.
  intros IH s. remember (String.length s) as n eqn:Hn.
  revert s Hn. induction (lt_wf n) as [n _ IHn].
  intros s ->. apply IH. intros t Ht. by apply (IHn _ Ht).
Qed.

Lemma ws_len_le s : ws_len s ≤ String.length s.
Proof.
  destruct s as [|c1 [|c2 [|c3 s]]]; simpl; repeat case_match; simpl; lia.
Qed.

Lemma ws_len_bound s : ws_len s ≤ 3.
Proof.
  destruct s as [|c1 [|c2 [|c3 s]]]; simpl; repeat case_match; lia.
Qed.

Lemma drop_bytes_length n s :
  String.length (drop_bytes n s) = String.length s - n.
Proof.
  revert s. induction n as [|n IH]; intros [|c s]; simpl; try done; lia.
Qed.

(** One unfolding step of [trimStart] in terms of [ws_len]. *)
Lemma trimStart_unfold s :
  trimStart s =
  match ws_len s with 0 => s | n => trimStart (drop_bytes n s) end.
Proof.
  destruct s as [|c1 s1]; [done|]. simpl.
  destruct (is_ws1 c1); [done|]. destruct s1 as [|c2 s2]; [done|].
  destruct (is_ws2 c1 c2); [done|]. destruct s2 as [|c3 s3]; [done|].
  by destruct (is_ws3 c1 c2 c3).
Qed.

Lemma trimStart_no_ws s : ws_len s = 0 → trimStart s = s.
Proof. intros H. by rewrite trimStart_unfold, H. Qed.

(** What [trimStart] returns does not start with white space. *)
Lemma ws_len_trimStart s : ws_len (trimStart s) = 0.
Proof.
  induction s as [s IH] using string_length_ind.
  rewrite trimStart_unfold. destruct (ws_len s) as [|n] eqn:Hn; [done|].
  apply IH. rewrite drop_bytes_length. pose proof (ws_len_le s). lia.
Qed.

Lemma trimStart_idemp s : trimStart (trimStart s) = trimStart s.
Proof. apply trimStart_no_ws, ws_len_trimStart. Qed.

Lemma trimStart_length s : String.length (trimStart s) ≤ String.length s.
Proof.
  induction s as [s IH] using string_length_ind.
  rewrite trimStart_unfold. destruct (ws_len s) as [|n] eqn:Hn; [done|].
  pose proof (ws_len_le s).
  etrans; [apply IH|]; rewrite drop_bytes_length; lia.
Qed.

Lemma all_ws_spec s : all_ws s = true ↔ trimStart s = "".
Proof. unfold all_ws. destruct (trimStart s); split; congruence. Qed.

Lemma all_ws_empty : all_ws "" = true.
Proof. done. Qed.

Lemma trimEnd_empty_iff s : trimEnd s = "" ↔ all_ws s = true.
Proof.
  destruct s as [|c s]; [done|]. simpl trimEnd.
  destruct (all_ws (String c s)); split; congruence.
Qed.

(** The trimmed string is empty exactly for white-space-only input. *)
Lemma trim_empty_iff s : trim s = "" ↔ all_ws s = true.
Proof.
  unfold trim. rewrite trimEnd_empty_iff, !all_ws_spec, trimStart_idemp.
  done.
Qed.

Lemma trim_truthy s : truthy_string (trim s) = negb (all_ws s).
Proof.
  destruct (all_ws s) eqn:H.
  - apply trim_empty_iff in H. by rewrite H.
  - destruct (trim s) eqn:Ht; [|done].
    apply trim_empty_iff in Ht. congruence.
Qed.

(** [trimEnd] only removes bytes at the end. *)
Lemma trimEnd_prefix s : ∃ r, s = trimEnd s ++ r ∧ all_ws r = true.
Proof.
  induction s as [|c s (r & Hr & Hws)]; [by exists ""|].
  simpl trimEnd. destruct (all_ws (String c s)) eqn:H.
  - by exists (String c s).
  - exists r. split; [|done]. change (String c s = String c (trimEnd s ++ r)).
    by f_equal.
Qed.

Lemma trimEnd_no_ws_front s : ws_len s = 0 → ws_len (trimEnd s) = 0.
Proof.
  intros H. destruct s as [|c1 s1]; [done|].
  simpl trimEnd. destruct (all_ws (String c1 s1)) eqn:Hall; [done|].
  destruct s1 as [|c2 s2].
  { revert H. simpl. by destruct (is_ws1 c1). }
  revert H. simpl ws_len at 1. destruct (is_ws1 c1) eqn:H1; [done|].
  destruct (is_ws2 c1 c2) eqn:H2; [done|]. intros H.
  simpl trimEnd. simpl ws_len. rewrite H1.
  destruct (all_ws (String c2 s2)); [done|]. rewrite H2.
  destruct s2 as [|c3 s3]; [done|].
  simpl trimEnd. destruct (all_ws (String c3 s3)); [done|].
  by destruct (is_ws3 c1 c2 c3).
Qed.

(** The result of [trim] starts with no white space. *)
Lemma ws_len_trim s : ws_len (trim s) = 0.
Proof. apply trimEnd_no_ws_front, ws_len_trimStart. Qed.

(** ** [includes] *)

Lemma includes_empty_l s : includes "" s = true.
Proof. by destruct s. Qed.

Lemma prefix_app sub b : String.prefix sub (sub ++ b) = true.
Proof.
  induction sub as [|c sub IH]; simpl; [by destruct b|].
  destruct (ascii_dec c c); [done | congruence].
Qed.

Lemma prefix_inv sub s : String.prefix sub s = true → ∃ b, s = sub ++ b.
Proof.
  revert s. induction sub as [|c sub IH]; intros s.
  - intros _. by exists s.
  - destruct s as [|c' s]; simpl; [done|].
    destruct (ascii_dec c c') as [->|]; [|done].
    intros (b & ->)%IH. by exists b.
Qed.

(** [includes] finds exactly the occurrences of [sub]. *)
Lemma includes_spec sub s :
  includes sub s = true ↔ ∃ a b, s = a ++ sub ++ b.
Proof.
  induction s as [|c s IH]; cbn [includes].
  - rewrite orb_false_r. split.
    + intros (b & ->)%prefix_inv. by exists "", b.
    + intros (a & b & H). destruct a; [|done]. by destruct sub.
  - rewrite orb_true_iff, IH. split.
    + intros [(b & ->)%prefix_inv | (a & b & ->)].
      * by exists "", b.
      * by exists (String c a), b.
    + intros (a & b & H). destruct a as [|c' a]; simpl in H.
      * left. rewrite H. apply (prefix_app sub b).
      * right. injection H as -> ->. by exists a, b.
Qed.

(** The bytes of a multi-byte white-space code point are not ASCII. *)
Lemma is_ws2_high c1 c2 :
  is_ws2 c1 c2 = true → (128 ≤ N_of_ascii c1 ∧ 128 ≤ N_of_ascii c2)%N.
Proof. unfold is_ws2. rewrite andb_true_iff, !N.eqb_eq. lia. Qed.

Lemma is_ws3_high c1 c2 c3 :
  is_ws3 c1 c2 c3 = true →
  (128 ≤ N_of_ascii c1 ∧ 128 ≤ N_of_ascii c2 ∧ 128 ≤ N_of_ascii c3)%N.
Proof.
  unfold is_ws3. cbv zeta.
  rewrite !orb_true_iff, !andb_true_iff, !orb_true_iff, !andb_true_iff.
  rewrite !N.eqb_eq, !N.leb_le. lia.
Qed.

Lemma includes1_cons c c' s :
  includes (String c "") (String c' s)
  = Ascii.eqb c c' || includes (String c "") s.
Proof.
  simpl. destruct (ascii_dec c c') as [->|Hne].
  - rewrite Ascii.eqb_refl. by destruct s.
  - by apply Ascii.eqb_neq in Hne as ->.
Qed.

Lemma ascii_eqb_low_high c c' :
  (N_of_ascii c < 128)%N → (128 ≤ N_of_ascii c')%N → Ascii.eqb c c' = false.
Proof. intros ? ?. apply Ascii.eqb_neq. intros ->. lia. Qed.

Section includes_trim.
(** [c] is an ASCII byte that is not white space, such as the at sign. *)
Context (c : ascii) (Hlow : (N_of_ascii c < 128)%N) (Hc : is_ws1 c = false).

Lemma eqb_not_ws1 c' : is_ws1 c' = true → Ascii.eqb c c' = false.
Proof. intros H. apply Ascii.eqb_neq. intros ->. congruence. Qed.

(** Removing the white-space code point at the front removes no [c]. *)
Lemma includes1_drop_ws s :
  includes (String c "") (drop_bytes (ws_len s) s) = includes (String c "") s.
Proof.
  destruct s as [|c1 s1]; [done|]. simpl ws_len.
  destruct (is_ws1 c1) eqn:H1.
  { simpl drop_bytes. by rewrite includes1_cons, eqb_not_ws1. }
  destruct s1 as [|c2 s2]; [done|]. destruct (is_ws2 c1 c2) eqn:H2.
  { simpl drop_bytes. apply is_ws2_high in H2 as [? ?].
    by rewrite !includes1_cons, !ascii_eqb_low_high. }
  destruct s2 as [|c3 s3]; [done|]. destruct (is_ws3 c1 c2 c3) eqn:H3; [|done].
  simpl drop_bytes. apply is_ws3_high in H3 as (? & ? & ?).
  by rewrite !includes1_cons, !ascii_eqb_low_high.
Qed.

Lemma includes1_trimStart s :
  includes (String c "") (trimStart s) = includes (String c "") s.
Proof.
  induction s as [s IH] using string_length_ind.
  rewrite trimStart_unfold. destruct (ws_len s) as [|n] eqn:Hn; [done|].
  rewrite IH, <- Hn; [apply includes1_drop_ws|].
  rewrite drop_bytes_length. pose proof (ws_len_le s). lia.
Qed.

Lemma includes1_all_ws s :
  all_ws s = true → includes (String c "") s = false.
Proof.
  intros H%all_ws_spec. by rewrite <- includes1_trimStart, H.
Qed.

Lemma includes1_trimEnd s :
  includes (String c "") (trimEnd s) = includes (String c "") s.
Proof.
  induction s as [|c' s IH]; [done|]. simpl trimEnd.
  destruct (all_ws (String c' s)) eqn:H.
  - by rewrite (includes1_all_ws (String c' s)).
  - by rewrite !includes1_cons, IH.
Qed.

(** Trimming neither removes nor introduces an occurrence of [c]. *)
Lemma includes1_trim s :
  includes (String c "") (trim s) = includes (String c "") s.
Proof. unfold trim. by rewrite includes1_trimEnd, includes1_trimStart. Qed.

End includes_trim.

(** ** Template literals *)

Lemma truthy_app_l s t : truthy_string s = true → truthy_string (s ++ t) = true.
Proof. by destruct s. Qed.

Lemma truthy_nonempty s : truthy_string s = true ↔ s ≠ "".
Proof. by destruct s. Qed.
