(* ===== verification/JsValue.v ===== *)
(** * Scalar JavaScript values, truthiness and objects

    [JsVal] holds the values that the page stores in state, compares or sends
    as event properties.  Numbers are binary64 floats, as in JavaScript.
    An object used as a record of properties is a [gmap string JsVal]; a
    property may be present with the value [undefined].  [Math_round] is
    [Math.round] computed exactly from the float's mantissa and exponent. *)

From Stdlib Require Import Uint63.
From S2P Require Import Prelude JsString.

#[local] Open Scope string_scope.

(** ** Values *)

Inductive JsVal : Type :=
| JUndefined
| JNull
| JBool (b : bool)
| JNum (x : float)
| JStr (s : string).

#[export] Instance float_eq_dec : EqDecision float.
Proof.
  intros x y. destruct (PrimFloat.Leibniz.eqb x y) eqn:E; [left|right].
  - by apply FloatAxioms.Leibniz.eqb_spec.
  - intros H%FloatAxioms.Leibniz.eqb_spec. congruence.
Defined.

#[export] Instance JsVal_eq_dec : EqDecision JsVal.
Proof. solve_decision. Defined.

(** Objects that carry event properties. *)
Abbreviation Props := (gmap string JsVal).

(** ** Numbers *)

(** A number is falsy when it is [+0], [-0] or [NaN]. *)
Definition truthy_number (x : float) : bool :=
  negb (PrimFloat.is_zero x || PrimFloat.is_nan x).

(** [a >= b] on numbers: false when either side is [NaN]. *)
Definition num_ge (a b : float) : bool := PrimFloat.leb b a.

(** The float of an integer of magnitude below 2^63. *)
Definition Z_to_float (n : Z) : float :=
  if (n <? 0)%Z then PrimFloat.opp (PrimFloat.of_uint63 (Uint63.of_Z (- n)))
  else PrimFloat.of_uint63 (Uint63.of_Z n).

(** [Math.round]: the integer nearest to [x], ties towards positive
    infinity; infinities, [NaN] and integers are returned unchanged and a
    result of zero keeps the sign of [x]. *)
Definition Math_round (x : float) : float :=
  match Prim2SF x with
  | S754_finite s m e =>
    if (0 <=? e)%Z then x else
    let d := (2 ^ (- e))%Z in
    let v := if s then (- Z.pos m)%Z else Z.pos m in
    let n := ((2 * v + d) / (2 * d))%Z in
    if (n =? 0)%Z
    then (if s then PrimFloat.opp PrimFloat.zero else PrimFloat.zero)
    else Z_to_float n
  | _ => x
  end.

(** ** Truthiness and [||] *)

Definition truthy (v : JsVal) : bool :=
  match v with
  | JUndefined | JNull => false
  | JBool b => b
  | JNum x => truthy_number x
  | JStr s => truthy_string s
  end.

(** [a || b] on values. *)
Definition js_or (a b : JsVal) : JsVal := if truthy a then a else b.

(** [a || b] on numbers. *)
Definition num_or (a b : float) : float := if truthy_number a then a else b.

(** [a || b] on strings. *)
Definition str_or (a b : string) : string := if truthy_string a then a else b.

(** A nullable string as a value: [null] when absent. *)
Definition of_nullable (o : option string) : JsVal :=
  match o with Some s => JStr s | None => JNull end.

(** [!x] for a nullable string: true for [null] and for the empty string. *)
Definition falsy_nullable (o : option string) : bool :=
  match o with Some s => negb (truthy_string s) | None => true end.

(** ** Objects *)

(** [o[k]]: [undefined] when the property is absent. *)
Definition prop_get (k : string) (o : Props) : JsVal :=
  default JUndefined (o !! k).

(** [{...base, ...over}]: the properties of [over] win. *)
Definition spread (base over : Props) : Props := over ∪ base.

(** [{...o}] for an optional object: spreading [undefined] adds nothing. *)
Definition spread_opt (o : option Props) : Props := default ∅ o.

(** ** Lemmas *)

Lemma truthy_js_or a b : truthy (js_or a b) = truthy a || truthy b.
Proof. unfold js_or. by destruct (truthy a) eqn:E; simpl; rewrite ?E. Qed.

Lemma js_or_truthy a b : truthy a = true → js_or a b = a.
Proof. unfold js_or. by intros ->. Qed.

Lemma js_or_falsy a b : truthy a = false → js_or a b = b.
Proof. unfold js_or. by intros ->. Qed.

Lemma str_or_empty b : str_or "" b = b.
Proof. done. Qed.

Lemma str_or_truthy a b : truthy_string a = true → str_or a b = a.
Proof. unfold str_or. by intros ->. Qed.

Lemma falsy_nullable_spec o :
  falsy_nullable o = negb (truthy (of_nullable o)).
Proof. by destruct o. Qed.

Lemma falsy_nullable_false o :
  falsy_nullable o = false ↔ ∃ s, o = Some s ∧ s ≠ "".
Proof.
  destruct o as [[|c s]|]; simpl; split; try done.
  - intros (s & [= <-] & ?). done.
  - intros _. by eexists.
  - intros (s & ? & ?). done.
Qed.

Lemma lookup_spread base over k :
  spread base over !! k
  = match over !! k with Some v => Some v | None => base !! k end.
Proof.
  unfold spread. rewrite lookup_union. by destruct (over !! k), (base !! k).
Qed.

Lemma spread_empty_r base : spread base ∅ = base.
Proof. unfold spread. by rewrite (left_id_L ∅ (∪)). Qed.

Lemma spread_insert base over k v :
  spread base (<[k:=v]> over) = <[k:=v]> (spread base over).
Proof. unfold spread. by rewrite insert_union_l. Qed.

Lemma spread_singleton base k v : spread base {[k := v]} = <[k:=v]> base.
Proof. unfold spread. by rewrite insert_union_singleton_l. Qed.

Lemma prop_get_insert k v o : prop_get k (<[k:=v]> o) = v.
Proof. unfold prop_get. by rewrite lookup_insert_eq. Qed.

Lemma prop_get_insert_ne k k' v o :
  k ≠ k' → prop_get k' (<[k:=v]> o) = prop_get k' o.
Proof. intros. unfold prop_get. by rewrite lookup_insert_ne. Qed.

#[export] Hint Rewrite prop_get_insert spread_empty_r spread_singleton
  spread_insert : js_rw.

(** The progress values that the page computes. *)
Lemma Math_round_fifths :
  Math_round (1 / 5 * 100) = 20%float ∧ Math_round (2 / 5 * 100) = 40%float ∧
  Math_round (3 / 5 * 100) = 60%float ∧ Math_round (4 / 5 * 100) = 80%float.
Proof. by vm_compute. Qed.

(** Ties go up, and a zero result keeps the sign. *)
Lemma Math_round_ties :
  Math_round 2.5 = 3%float ∧ Math_round (-2.5) = (-2)%float ∧
  Math_round 0.5 = 1%float ∧ Math_round (-0.5) = (-0)%float.
Proof. by vm_compute. Qed.
