(* ===== verification/Effects.v ===== *)
(** * The monad of handlers: state and exceptions

    A handler of the page is a JavaScript function that reads and writes
    mutable state and may throw.  [JS St A] is the type of such a computation
    over a state [St]: it returns the new state together with a value or the
    exception thrown.  Writes made before a throw persist, as in JavaScript.
    [try_catch] and [try_finally] are the two halves of
    [try { } catch (e) { } finally { }]. *)

From S2P Require Import Prelude.

(** What JavaScript code of the page can throw. *)
Inductive JsError : Type :=
| StorageError   (* localStorage refuses access *)
| SdkError       (* the analytics SDK throws *)
| Rejection.     (* an awaited promise is rejected *)

#[export] Instance JsError_eq_dec : EqDecision JsError.
Proof. solve_decision. Defined.

(** The completion of a computation. *)
Inductive Outcome (A : Type) : Type :=
| Normal (a : A)
| Thrown (e : JsError).
Arguments Normal {A} a.
Arguments Thrown {A} e.

Definition JS (St A : Type) : Type := St → Outcome A * St.

#[export] Instance JS_ret {St} : MRet (JS St) := λ A a s, (Normal a, s).

#[export] Instance JS_bind {St} : MBind (JS St) := λ A B f m s,
  match m s with
  | (Normal a, s') => f a s'
  | (Thrown e, s') => (Thrown e, s')
  end.

Section ops.
Context {St : Type}.

Definition get_st : JS St St := λ s, (Normal s, s).

Definition put_st (s : St) : JS St unit := λ _, (Normal tt, s).

Definition modify (f : St → St) : JS St unit := λ s, (Normal tt, f s).

Definition gets {A} (f : St → A) : JS St A := λ s, (Normal (f s), s).

Definition throw {A} (e : JsError) : JS St A := λ s, (Thrown e, s).

(** [if (b) { m }]. *)
Definition when (b : bool) (m : JS St unit) : JS St unit :=
  if b then m else mret tt.

(** [try { m } catch (e) { h e }]. *)
Definition try_catch {A} (m : JS St A) (h : JsError → JS St A) : JS St A :=
  λ s, match m s with
       | (Normal a, s') => (Normal a, s')
       | (Thrown e, s') => h e s'
       end.

(** [try { m } finally { f }]: [f] runs on both completions; when [f]
    itself throws, its exception replaces the completion of [m]. *)
Definition try_finally {A} (m : JS St A) (f : JS St unit) : JS St A :=
  λ s, let '(o, s') := m s in
       match f s' with
       | (Normal _, s'') => (o, s'')
       | (Thrown e, s'') => (Thrown e, s'')
       end.

(** The state after running [m]. *)
Definition exec {A} (m : JS St A) (s : St) : St := (m s).2.

(** The completion of running [m]. *)
Definition outcome {A} (m : JS St A) (s : St) : Outcome A := (m s).1.

(** [m] completes normally from every state. *)
Definition no_throw {A} (m : JS St A) : Prop :=
  ∀ s, ∃ a, outcome m s = Normal a.

End ops.

(** Run a computation over a component [St] of a larger state [T]. *)
Definition zoom {St T A} (get : T → St) (set : St → T → T) (m : JS St A) :
  JS T A :=
  λ t, let '(o, s') := m (get t) in (o, set s' t).

(** Unfold the operations of the monad. *)
Ltac js_unfold :=
  unfold mbind, mret, JS_bind, JS_ret, get_st, put_st, modify, gets, throw,
    when, try_catch, try_finally, exec, outcome, zoom in *.

(** Run a handler symbolically: unfold the operations and compute. *)
Ltac js_simpl := repeat (js_unfold; cbn in *).

(** Run a handler symbolically, deciding each test by a hypothesis that
    gives its value. *)
Ltac js_run :=
  js_unfold;
  repeat (cbn;
          match goal with
          | H : ?b = _ |- context [?b] => rewrite H
          end);
  cbn.

(** ** Laws *)

Section laws.
Context {St : Type}.
Implicit Types s : St.

Lemma bind_ret_l {A B} (a : A) (f : A → JS St B) s : (mret a ≫= f) s = f a s.
Proof. done. Qed.

Lemma bind_ret_r {A} (m : JS St A) s : (m ≫= mret) s = m s.
Proof. js_unfold. by destruct (m s) as [[a|e] s']. Qed.

Lemma bind_assoc {A B C} (m : JS St A) (f : A → JS St B) (g : B → JS St C) s :
  ((m ≫= f) ≫= g) s = (m ≫= (λ a, f a ≫= g)) s.
Proof. js_unfold. by destruct (m s) as [[a|e] s']. Qed.

Lemma bind_get_st {B} (f : St → JS St B) s : (get_st ≫= f) s = f s s.
Proof. done. Qed.

Lemma bind_throw {A B} e (f : A → JS St B) s :
  (throw e ≫= f) s = (Thrown e, s).
Proof. done. Qed.

Lemma try_catch_ret {A} (a : A) h s : try_catch (mret a) h s = (Normal a, s).
Proof. done. Qed.

Lemma try_catch_throw {A} e (h : JsError → JS St A) s :
  try_catch (throw e) h s = h e s.
Proof. done. Qed.

(** A handler that cannot throw makes the whole [try/catch] unable to. *)
Lemma try_catch_no_throw {A} (m : JS St A) h :
  (∀ e, no_throw (h e)) → no_throw (try_catch m h).
Proof.
  intros Hh s. unfold outcome, try_catch.
  destruct (m s) as [[a|e] s']; [by exists a|]. apply Hh.
Qed.

Lemma try_catch_of_no_throw {A} (m : JS St A) h s :
  no_throw m → try_catch m h s = m s.
Proof.
  intros Hm. destruct (Hm s) as [a Ha]. unfold outcome in Ha.
  unfold try_catch. destruct (m s) as [[a'|e] s']; [done|discriminate].
Qed.

(** The [finally] block runs whatever the completion of the body. *)
Lemma try_finally_runs {A} (m : JS St A) f s :
  exec (try_finally m f) s = exec f (exec m s).
Proof.
  unfold exec, try_finally. destruct (m s) as [o s']; simpl.
  by destruct (f s') as [[[]|e] s''].
Qed.

(** A [finally] block that cannot throw keeps the completion of the body. *)
Lemma try_finally_outcome {A} (m : JS St A) f s :
  no_throw f → outcome (try_finally m f) s = outcome m s.
Proof.
  intros Hf. unfold outcome, try_finally in *.
  destruct (m s) as [o s']; simpl.
  destruct (Hf s') as [[] Ha]. unfold outcome in Ha.
  by destruct (f s') as [[[]|e] s''].
Qed.

Lemma no_throw_ret {A} (a : A) : no_throw (St:=St) (mret a).
Proof. intros s. by exists a. Qed.

Lemma no_throw_modify f : no_throw (St:=St) (modify f).
Proof. intros s. by exists tt. Qed.

Lemma no_throw_bind {A B} (m : JS St A) (f : A → JS St B) :
  no_throw m → (∀ a, no_throw (f a)) → no_throw (m ≫= f).
Proof.
  intros Hm Hf s. destruct (Hm s) as [a Ha]. unfold outcome in *.
  js_unfold. destruct (m s) as [[a'|e] s']; [|discriminate]. apply Hf.
Qed.

Lemma no_throw_when b (m : JS St unit) : no_throw m → no_throw (when b m).
Proof. destruct b; [done|]. intros _. apply no_throw_ret. Qed.

Lemma no_throw_try_finally {A} (m : JS St A) f :
  no_throw m → no_throw f → no_throw (try_finally m f).
Proof.
  intros Hm Hf s. rewrite try_finally_outcome by done. apply Hm.
Qed.

End laws.

Lemma no_throw_zoom {St T A} (get : T → St) set (m : JS St A) :
  no_throw m → no_throw (zoom get set m).
Proof.
  intros Hm t. destruct (Hm (get t)) as [a Ha]. exists a.
  unfold outcome, zoom in *. by destruct (m (get t)).
Qed.

#[export] Hint Resolve no_throw_ret no_throw_modify no_throw_bind
  no_throw_when no_throw_try_finally no_throw_zoom try_catch_no_throw : js.

(** ** Bounding what a computation appends to a log

    Many properties of the page count the events of some kind that a handler
    sends.  [emits_le tr f k m] says that [m] only appends to the log [tr] of
    the state, and appends at most [k] entries that satisfy [f].  The rules
    below follow the structure of the handler. *)

Section emits.
Context {St Ev : Type} (tr : St → list Ev) (f : Ev → bool).

Definition emits_le {A} (k : nat) (m : JS St A) : Prop :=
  ∀ s, ∃ Δ, tr (exec m s) = tr s ++ Δ ∧ count_if f Δ ≤ k.

Lemma emits_weaken {A} k k' (m : JS St A) :
  emits_le k m → k ≤ k' → emits_le k' m.
Proof. intros H ? s. destruct (H s) as (Δ & ? & ?). exists Δ. split; [done|lia]. Qed.

Lemma emits_ret {A} (a : A) : emits_le 0 (mret a).
Proof. intros s. exists []. by rewrite app_nil_r. Qed.

Lemma emits_throw {A} e : emits_le (A:=A) 0 (throw e).
Proof. intros s. exists []. by rewrite app_nil_r. Qed.

(** A write that leaves the log alone appends nothing. *)
Lemma emits_modify g : (∀ s, tr (g s) = tr s) → emits_le 0 (modify g).
Proof. intros H s. exists []. unfold exec, modify. simpl. by rewrite H, app_nil_r. Qed.

Lemma emits_gets {A} (g : St → A) : emits_le 0 (gets g).
Proof. intros s. exists []. by rewrite app_nil_r. Qed.

Lemma emits_get_st : emits_le 0 get_st.
Proof. intros s. exists []. by rewrite app_nil_r. Qed.

Lemma emits_bind {A B} k1 k2 (m : JS St A) (g : A → JS St B) :
  emits_le k1 m → (∀ a, emits_le k2 (g a)) → emits_le (k1 + k2) (m ≫= g).
Proof.
  intros Hm Hg s. destruct (Hm s) as (Δ1 & H1 & ?).
  unfold exec in *. js_unfold. destruct (m s) as [[a|e] s1]; simpl in *.
  - destruct (Hg a s1) as (Δ2 & H2 & ?). unfold exec in H2.
    exists (Δ1 ++ Δ2). rewrite H2, H1, count_if_app, app_assoc.
    split; [done|lia].
  - exists Δ1. split; [done|lia].
Qed.

Lemma emits_try_catch {A} k1 k2 (m : JS St A) h :
  emits_le k1 m → (∀ e, emits_le k2 (h e)) → emits_le (k1 + k2) (try_catch m h).
Proof.
  intros Hm Hh s. destruct (Hm s) as (Δ1 & H1 & ?).
  unfold exec in *. js_unfold. destruct (m s) as [[a|e] s1]; simpl in *.
  - exists Δ1. split; [done|lia].
  - destruct (Hh e s1) as (Δ2 & H2 & ?). unfold exec in H2.
    exists (Δ1 ++ Δ2). rewrite H2, H1, count_if_app, app_assoc.
    split; [done|lia].
Qed.

Lemma emits_try_finally {A} k1 k2 (m : JS St A) fin :
  emits_le k1 m → emits_le k2 fin → emits_le (k1 + k2) (try_finally m fin).
Proof.
  intros Hm Hf s. destruct (Hm s) as (Δ1 & H1 & ?).
  rewrite try_finally_runs. destruct (Hf (exec m s)) as (Δ2 & H2 & ?).
  exists (Δ1 ++ Δ2). rewrite H2, H1, count_if_app, app_assoc. split; [done|lia].
Qed.

Lemma emits_when k b (m : JS St unit) : emits_le k m → emits_le k (when b m).
Proof.
  intros H. destruct b; [done|]. eapply emits_weaken; [apply emits_ret|lia].
Qed.

Lemma emits_if {A} k1 k2 (b : bool) (m1 m2 : JS St A) :
  emits_le k1 m1 → emits_le k2 m2 →
  emits_le (Nat.max k1 k2) (if b then m1 else m2).
Proof. destruct b; intros; eapply emits_weaken; eauto; lia. Qed.

(** The bound is about the log of the final state. *)
Lemma emits_count {A} k (m : JS St A) s :
  emits_le k m → count_if f (tr (exec m s)) ≤ count_if f (tr s) + k.
Proof.
  intros H. destruct (H s) as (Δ & -> & ?). rewrite count_if_app. lia.
Qed.

Lemma emits_count_ge {A} k (m : JS St A) s :
  emits_le k m → count_if f (tr s) ≤ count_if f (tr (exec m s)).
Proof.
  intros H. destruct (H s) as (Δ & -> & ?). rewrite count_if_app. lia.
Qed.

End emits.

(** The bound carries over to a larger state that holds the log. *)
Lemma emits_zoom {St T Ev A} (tr : St → list Ev) f k (get : T → St) set
    (m : JS St A) :
  (∀ s t, get (set s t) = s) →
  emits_le tr f k m → emits_le (tr ∘ get) f k (zoom get set m).
Proof.
  intros Hgs Hm t. destruct (Hm (get t)) as (Δ & H & ?). exists Δ.
  split; [|done]. unfold exec, zoom in *. simpl.
  destruct (m (get t)) as [o s']. simpl in *. by rewrite Hgs.
Qed.

(** Derive a bound by following the structure of the computation; the
    leaves that are operations of a component are closed by the hints of
    the database [emits]. *)
Create HintDb emits.

Ltac emits_step :=
  first
    [ progress cbn [when negb andb orb]
    | solve [eauto with emits]
    | lazymatch goal with
      | |- emits_le _ _ _ (_ ≫= _) => eapply emits_bind; [|intros ?]
      | |- emits_le _ _ _ (try_finally _ _) => eapply emits_try_finally
      | |- emits_le _ _ _ (try_catch _ _) => eapply emits_try_catch; [|intros ?]
      | |- emits_le _ _ _ (when _ _) => eapply emits_when
      | |- emits_le _ _ _ (if _ then _ else _) => eapply emits_if
      | |- emits_le _ _ _ (mret _) => eapply emits_ret
      | |- emits_le _ _ _ (throw _) => eapply emits_throw
      | |- emits_le _ _ _ (gets _) => eapply emits_gets
      | |- emits_le _ _ _ get_st => eapply emits_get_st
      end ].

(** Prove [emits_le tr f k m] for a concrete bound [k]. *)
Ltac emits_auto :=
  eapply emits_weaken; [repeat emits_step | simpl; try lia].

(** ** Computations that move the state along a preorder

    Framing facts (what a handler leaves alone, what only grows) are
    preorders on states.  [preserves R m] says that [m] takes every state
    to a state related to it, whether it returns or throws; the rules
    follow the structure of the handler as those of [emits_le] do. *)

Section preserves.
Context {St : Type} (R : relation St) `{!PreOrder R}.

Definition preserves {A} (m : JS St A) : Prop := ∀ s, R s (exec m s).

Lemma preserves_ret {A} (a : A) : preserves (mret a).
Proof. intros s. reflexivity. Qed.

Lemma preserves_throw {A} e : preserves (A:=A) (throw e).
Proof. intros s. reflexivity. Qed.

Lemma preserves_gets {A} (g : St → A) : preserves (gets g).
Proof. intros s. reflexivity. Qed.

Lemma preserves_get_st : preserves get_st.
Proof. intros s. reflexivity. Qed.

Lemma preserves_modify g : (∀ s, R s (g s)) → preserves (modify g).
Proof. intros H s. apply H. Qed.

Lemma preserves_bind {A B} (m : JS St A) (g : A → JS St B) :
  preserves m → (∀ a, preserves (g a)) → preserves (m ≫= g).
Proof.
  intros Hm Hg s. specialize (Hm s). unfold exec in *. js_unfold.
  destruct (m s) as [[a|e] s1]; simpl in *; [|done].
  etrans; [exact Hm | apply Hg].
Qed.

Lemma preserves_try_catch {A} (m : JS St A) h :
  preserves m → (∀ e, preserves (h e)) → preserves (try_catch m h).
Proof.
  intros Hm Hh s. specialize (Hm s). unfold exec in *. js_unfold.
  destruct (m s) as [[a|e] s1]; simpl in *; [done|].
  etrans; [exact Hm | apply Hh].
Qed.

Lemma preserves_try_finally {A} (m : JS St A) fin :
  preserves m → preserves fin → preserves (try_finally m fin).
Proof.
  intros Hm Hf s. rewrite try_finally_runs. etrans; [apply Hm | apply Hf].
Qed.

Lemma preserves_when b (m : JS St unit) : preserves m → preserves (when b m).
Proof. destruct b; [done|]. intros _. apply preserves_ret. Qed.

Lemma preserves_if {A} (b : bool) (m1 m2 : JS St A) :
  preserves m1 → preserves m2 → preserves (if b then m1 else m2).
Proof. by destruct b. Qed.

End preserves.

(** A relation on a component of the state is preserved by the lifted
    computation when writing the component relates the larger states. *)
Lemma preserves_zoom {St T A} (R : relation St) (R' : relation T)
    (get : T → St) set (m : JS St A) :
  (∀ s t, R (get t) s → R' t (set s t)) →
  preserves R m → preserves R' (zoom get set m).
Proof.
  intros Hset Hm t. specialize (Hm (get t)). unfold exec, zoom in *.
  destruct (m (get t)) as [o s']. simpl in *. by apply Hset.
Qed.

(** Derive [preserves R m] by following the structure of [m]; the leaves
    are closed by the hints of the database [frame]. *)
Create HintDb frame.

(** Rules of a component that take precedence over the structural ones. *)
Ltac preserves_hook := fail.

Ltac preserves_step :=
  first
    [ progress cbn [when negb andb orb]
    | preserves_hook
    | solve [eauto with frame]
    | lazymatch goal with
      | |- preserves _ (_ ≫= _) =>
        eapply preserves_bind; [solve [apply _] | | intros ?]
      | |- preserves _ (try_finally _ _) =>
        eapply preserves_try_finally; [solve [apply _] | |]
      | |- preserves _ (try_catch _ _) =>
        eapply preserves_try_catch; [solve [apply _] | | intros ?]
      | |- preserves _ (when _ _) => eapply preserves_when; [solve [apply _] |]
      | |- preserves _ (if _ then _ else _) => eapply preserves_if
      | |- preserves _ (mret _) => eapply preserves_ret; solve [apply _]
      | |- preserves _ (throw _) => eapply preserves_throw; solve [apply _]
      | |- preserves _ (gets _) => eapply preserves_gets; solve [apply _]
      | |- preserves _ get_st => eapply preserves_get_st; solve [apply _]
      end ].

Ltac preserves_auto := repeat preserves_step.
