(* ===== verification/Browser.v ===== *)
(** * The world outside the component

    [World] is what the page can observe and change outside React: the
    build-time environment variable, [localStorage], the clock and the random
    source, the state of the analytics SDK, and the trace of effects that
    leave the page (SDK calls, console output, alerts).  The SDK is a
    collaborator whose internals are unknown: [Sdk] is its interface, a
    transition function that may report that the call threw.  Every call is
    recorded in the trace before the SDK reacts, so properties about what the
    page sends hold whatever the SDK does. *)

From S2P Require Import Prelude JsString JsValue Effects.

#[local] Open Scope string_scope.
#[local] Open Scope list_scope.
#[local] Open Scope nat_scope.

(** ** Effects that leave the page *)

(** Calls into [@amplitude/analytics-browser]. *)
Inductive SdkCall : Type :=
| SdkInit (apiKey : string)
| SdkSetUserId (id : string)
| SdkTrack (name : string) (props : Props).

Inductive Level : Type := LLog | LWarn | LError.

(** The second argument of a console call. *)
Inductive ConsoleArg : Type :=
| ArgNone
| ArgProps (p : Props)
| ArgError (e : JsError).

Inductive Effect : Type :=
| ECall (c : SdkCall)
| EConsole (l : Level) (msg : string) (arg : ConsoleArg)
| EAlert (msg : string).

#[export] Instance SdkCall_eq_dec : EqDecision SdkCall.
Proof. solve_decision. Defined.
#[export] Instance Level_eq_dec : EqDecision Level.
Proof. solve_decision. Defined.
#[export] Instance ConsoleArg_eq_dec : EqDecision ConsoleArg.
Proof. solve_decision. Defined.
#[export] Instance Effect_eq_dec : EqDecision Effect.
Proof. solve_decision. Defined.

(** ** The SDK as an interface *)

(** [sdk_step c s] is the state of the SDK after call [c] and whether the
    call threw. *)
Class Sdk (S : Type) : Type := { sdk_step : SdkCall → S → S * bool }.

(** An SDK that accepts every call. *)
Definition quietSdk : Sdk unit := {| sdk_step := λ _ s, (s, false) |}.

#[export] Existing Instance quietSdk.

(** An SDK that throws on every call. *)
Definition brokenSdk : Sdk unit := {| sdk_step := λ _ s, (s, true) |}.

(** An SDK that counts calls and throws on [track] before [init]. *)
Definition strictSdk : Sdk (bool * nat) :=
  {| sdk_step := λ c '(ready, n),
       match c with
       | SdkInit _ => ((true, S n), false)
       | SdkSetUserId _ => ((ready, S n), negb ready)
       | SdkTrack _ _ => ((ready, S n), negb ready)
       end |}.

(** An SDK whose calls never throw. *)
Class Reliable (S : Type) `{!Sdk S} : Prop :=
  sdk_reliable : ∀ c s, (sdk_step c s).2 = false.

#[export] Instance quietSdk_reliable : Reliable unit (Sdk0:=quietSdk).
Proof. by intros c s. Qed.

(** ** The world *)

Record World (S : Type) : Type := mkWorld {
  windowDefined : bool;              (* typeof window !== 'undefined' *)
  envApiKey : option string;         (* process.env.NEXT_PUBLIC_AMPLITUDE_API_KEY *)
  localStorage : gmap string string;
  storageBlocked : bool;             (* access to localStorage throws *)
  dateNow : Z;                       (* what Date.now() returns *)
  random36 : string;                 (* what Math.random().toString(36) returns *)
  sdk : S;
  trace : list Effect;               (* oldest first *)
}.
Arguments mkWorld {S}.
Arguments windowDefined {S}.
Arguments envApiKey {S}.
Arguments localStorage {S}.
Arguments storageBlocked {S}.
Arguments dateNow {S}.
Arguments random36 {S}.
Arguments sdk {S}.
Arguments trace {S}.

Section world.
Context {S : Type} `{!Sdk S}.
Implicit Types w : World S.

Definition set_localStorage (m : gmap string string) w : World S :=
  mkWorld (windowDefined w) (envApiKey w) m (storageBlocked w) (dateNow w)
    (random36 w) (sdk w) (trace w).

Definition set_sdk (s : S) w : World S :=
  mkWorld (windowDefined w) (envApiKey w) (localStorage w) (storageBlocked w)
    (dateNow w) (random36 w) s (trace w).

Definition set_trace (t : list Effect) w : World S :=
  mkWorld (windowDefined w) (envApiKey w) (localStorage w) (storageBlocked w)
    (dateNow w) (random36 w) (sdk w) t.

(** The environment moves the clock and the random source. *)
Definition set_entropy (now : Z) (rnd : string) w : World S :=
  mkWorld (windowDefined w) (envApiKey w) (localStorage w) (storageBlocked w)
    now rnd (sdk w) (trace w).

(** Record an effect. *)
Definition emit (e : Effect) : JS (World S) unit :=
  modify (λ w, set_trace (trace w ++ [e]) w).

Definition console_log (msg : string) (arg : ConsoleArg) : JS (World S) unit :=
  emit (EConsole LLog msg arg).

Definition console_warn (msg : string) (arg : ConsoleArg) : JS (World S) unit :=
  emit (EConsole LWarn msg arg).

Definition console_error (msg : string) (arg : ConsoleArg) : JS (World S) unit :=
  emit (EConsole LError msg arg).

Definition alert (msg : string) : JS (World S) unit := emit (EAlert msg).

(** [localStorage.getItem(k)]: [null] when the key is absent. *)
Definition localStorage_getItem (k : string) : JS (World S) (option string) :=
  w ← get_st;
  if storageBlocked w then throw StorageError else mret (localStorage w !! k).

(** [localStorage.setItem(k, v)]. *)
Definition localStorage_setItem (k v : string) : JS (World S) unit :=
  w ← get_st;
  if storageBlocked w then throw StorageError
  else put_st (set_localStorage (<[k:=v]> (localStorage w)) w).

(** A call into the SDK: recorded, then answered by the SDK. *)
Definition sdk_call (c : SdkCall) : JS (World S) unit :=
  emit (ECall c);;
  w ← get_st;
  let '(s', threw) := sdk_step c (sdk w) in
  put_st (set_sdk s' w);;
  if threw then throw SdkError else mret tt.

Definition amplitude_init (apiKey : string) : JS (World S) unit :=
  sdk_call (SdkInit apiKey).

Definition amplitude_setUserId (id : string) : JS (World S) unit :=
  sdk_call (SdkSetUserId id).

Definition amplitude_track (name : string) (props : Props) : JS (World S) unit :=
  sdk_call (SdkTrack name props).

(** [(process.env.NEXT_PUBLIC_AMPLITUDE_API_KEY || "").trim()]. *)
Definition apiKey_of w : string := trim (str_or (default "" (envApiKey w)) "").

(** [apiKey && apiKey.length > 0]. *)
Definition apiKey_configured w : bool :=
  truthy_string (apiKey_of w) && (0 <? String.length (apiKey_of w))%nat.

End world.

(** A browser with a configured key, empty storage and an SDK that accepts
    every call; used to run the page on concrete inputs. *)
Definition demo_world : World unit :=
  mkWorld true (Some "demo-key") ∅ false 1731000000000 "0.4fzyo82mvyr" tt [].

(** Unfold the operations on the world down to the record. *)
Ltac world_simpl :=
  unfold console_log, console_warn, console_error, alert, emit, set_sdk,
    set_trace, set_localStorage, set_entropy in *;
  js_simpl.

(** ** Reading the trace *)

(** The event is a [track] call named [name]. *)
Definition is_track (name : string) (e : Effect) : bool :=
  match e with
  | ECall (SdkTrack n _) => bool_decide (n = name)
  | _ => false
  end.

Definition is_any_track (e : Effect) : bool :=
  match e with ECall (SdkTrack _ _) => true | _ => false end.

Definition is_call (e : Effect) : bool :=
  match e with ECall _ => true | _ => false end.

Definition is_alert (e : Effect) : bool :=
  match e with EAlert _ => true | _ => false end.

(** The properties of the [track] calls named [name], oldest first. *)
Definition tracked (name : string) (t : list Effect) : list Props :=
  omap (λ e, match e with
             | ECall (SdkTrack n p) => if bool_decide (n = name) then Some p else None
             | _ => None
             end) t.

(** The names of the events sent to the SDK, oldest first. *)
Definition track_names (t : list Effect) : list string :=
  omap (λ e, match e with ECall (SdkTrack n _) => Some n | _ => None end) t.

(** The messages shown in alerts, oldest first. *)
Definition alerts (t : list Effect) : list string :=
  omap (λ e, match e with EAlert m => Some m | _ => None end) t.

(** Every [track] call of the trace carries property [k]. *)
Definition all_tracks_have (k : string) (t : list Effect) : Prop :=
  ∀ n p, ECall (SdkTrack n p) ∈ t → is_Some (p !! k).

(** ** Lemmas *)

Section world_lemmas.
Context {S : Type} `{!Sdk S}.
Implicit Types w : World S.

Lemma emit_run e w : emit e w = (Normal tt, set_trace (trace w ++ [e]) w).
Proof. done. Qed.

Lemma no_throw_emit e : no_throw (emit (S:=S) e).
Proof. intros w. by exists tt. Qed.

Lemma getItem_run k w :
  localStorage_getItem k w
  = (if storageBlocked w then Thrown StorageError
     else Normal (localStorage w !! k), w).
Proof. unfold localStorage_getItem. js_simpl. by destruct (storageBlocked w). Qed.

Lemma setItem_run k v w :
  localStorage_setItem k v w
  = if storageBlocked w then (Thrown StorageError, w)
    else (Normal tt, set_localStorage (<[k:=v]> (localStorage w)) w).
Proof. unfold localStorage_setItem. js_simpl. by destruct (storageBlocked w). Qed.

(** A call is recorded whether or not the SDK throws, and touches nothing
    but the trace and the SDK. *)
Lemma sdk_call_run c w :
  sdk_call c w
  = let '(s', threw) := sdk_step c (sdk w) in
    (if threw then Thrown SdkError else Normal tt,
     set_sdk s' (set_trace (trace w ++ [ECall c]) w)).
Proof.
  unfold sdk_call. js_simpl. destruct (sdk_step c (sdk w)) as [s' []]; done.
Qed.

(** With a reliable SDK the call returns. *)
Lemma sdk_call_reliable `{!Reliable S} c w :
  sdk_call c w
  = (Normal tt,
     set_sdk (sdk_step c (sdk w)).1 (set_trace (trace w ++ [ECall c]) w)).
Proof.
  rewrite sdk_call_run. pose proof (sdk_reliable c (sdk w)) as H.
  destruct (sdk_step c (sdk w)) as [s' threw]. simpl in *. by subst.
Qed.

Lemma sdk_call_trace c w : trace (exec (sdk_call c) w) = trace w ++ [ECall c].
Proof.
  unfold exec. rewrite sdk_call_run. by destruct (sdk_step c (sdk w)) as [s' []].
Qed.

Lemma sdk_call_storage c w :
  localStorage (exec (sdk_call c) w) = localStorage w.
Proof.
  unfold exec. rewrite sdk_call_run. by destruct (sdk_step c (sdk w)) as [s' []].
Qed.

(** A key that is undefined, empty or blank is not configured. *)
Lemma apiKey_configured_spec w :
  apiKey_configured w = negb (all_ws (default "" (envApiKey w))).
Proof.
  unfold apiKey_configured, apiKey_of.
  assert (str_or (default "" (envApiKey w)) "" = default "" (envApiKey w)) as ->.
  { unfold str_or. by destruct (default "" (envApiKey w)). }
  rewrite trim_truthy. destruct (all_ws _) eqn:E; [done|]. simpl.
  destruct (trim _) eqn:Ht; [|done].
  apply trim_empty_iff in Ht. congruence.
Qed.

Lemma apiKey_unset w : envApiKey w = None → apiKey_configured w = false.
Proof. intros H. by rewrite apiKey_configured_spec, H. Qed.

End world_lemmas.

(** ** Bounds on what the operations append to the trace *)

Section world_emits.
Context {S : Type} `{!Sdk S} (f : Effect → bool).

Lemma emits_emit e : emits_le (trace (S:=S)) f (if f e then 1 else 0) (emit e).
Proof. intros w. exists [e]. split; [done|]. simpl. destruct (f e); lia. Qed.

Lemma emits_emit_0 e : f e = false → emits_le (trace (S:=S)) f 0 (emit e).
Proof. intros H. pose proof (emits_emit e) as He. by rewrite H in He. Qed.

Lemma emits_emit_1 e : emits_le (trace (S:=S)) f 1 (emit e).
Proof. eapply emits_weaken; [apply emits_emit|]. destruct (f e); lia. Qed.

Lemma emits_getItem k : emits_le (trace (S:=S)) f 0 (localStorage_getItem k).
Proof.
  intros w. exists []. unfold exec. rewrite getItem_run, app_nil_r. done.
Qed.

Lemma emits_setItem k v : emits_le (trace (S:=S)) f 0 (localStorage_setItem k v).
Proof.
  intros w. exists []. unfold exec. rewrite setItem_run, app_nil_r.
  by destruct (storageBlocked w).
Qed.

Lemma emits_sdk_call c :
  emits_le (trace (S:=S)) f (if f (ECall c) then 1 else 0) (sdk_call c).
Proof.
  intros w. exists [ECall c]. rewrite sdk_call_trace. split; [done|].
  simpl. destruct (f (ECall c)); lia.
Qed.

Lemma emits_sdk_call_0 c :
  f (ECall c) = false → emits_le (trace (S:=S)) f 0 (sdk_call c).
Proof. intros H. pose proof (emits_sdk_call c) as He. by rewrite H in He. Qed.

Lemma emits_sdk_call_1 c : emits_le (trace (S:=S)) f 1 (sdk_call c).
Proof. eapply emits_weaken; [apply emits_sdk_call|]. destruct (f _); lia. Qed.

End world_emits.

#[export] Hint Resolve emits_getItem emits_setItem : emits.
#[export] Hint Extern 1 (emits_le _ _ _ (emit _)) =>
  first [apply emits_emit_0; reflexivity | apply emits_emit_1] : emits.
#[export] Hint Extern 1 (emits_le _ _ _ (console_log _ _)) =>
  unfold console_log : emits.
#[export] Hint Extern 1 (emits_le _ _ _ (console_warn _ _)) =>
  unfold console_warn : emits.
#[export] Hint Extern 1 (emits_le _ _ _ (console_error _ _)) =>
  unfold console_error : emits.
#[export] Hint Extern 1 (emits_le _ _ _ (alert _)) => unfold alert : emits.
#[export] Hint Extern 1 (emits_le _ _ _ (amplitude_init _)) =>
  unfold amplitude_init : emits.
#[export] Hint Extern 1 (emits_le _ _ _ (amplitude_setUserId _)) =>
  unfold amplitude_setUserId : emits.
#[export] Hint Extern 1 (emits_le _ _ _ (amplitude_track _ _)) =>
  unfold amplitude_track : emits.
#[export] Hint Extern 1 (emits_le _ _ _ (sdk_call _)) =>
  first [apply emits_sdk_call_0; reflexivity | apply emits_sdk_call_1] : emits.

Lemma tracked_app name t1 t2 :
  tracked name (t1 ++ t2) = tracked name t1 ++ tracked name t2.
Proof. apply omap_app. Qed.

Lemma alerts_app t1 t2 : alerts (t1 ++ t2) = alerts t1 ++ alerts t2.
Proof. apply omap_app. Qed.

Lemma tracked_length name t : length (tracked name t) = count_if (is_track name) t.
Proof.
  induction t as [|e t IH]; [done|]. simpl.
  destruct e as [[| |n p]| |]; simpl; try done.
  case_bool_decide; simpl; by rewrite IH.
Qed.

Lemma alerts_length t : length (alerts t) = count_if is_alert t.
Proof.
  induction t as [|e t IH]; [done|]. simpl.
  destruct e as [[| |n p]| |]; simpl; by rewrite ?IH.
Qed.

Lemma all_tracks_have_nil k : all_tracks_have k [].
Proof. intros n p []%elem_of_nil. Qed.

Lemma all_tracks_have_app k t1 t2 :
  all_tracks_have k (t1 ++ t2) ↔ all_tracks_have k t1 ∧ all_tracks_have k t2.
Proof.
  unfold all_tracks_have. setoid_rewrite elem_of_app. split.
  - intros H. split; intros n p Hin; apply (H n p); auto.
  - intros [H1 H2] n p [Hin|Hin]; eauto.
Qed.

#[export] Hint Rewrite tracked_app alerts_app : js_rw.
#[export] Hint Resolve all_tracks_have_nil : js.
