(* ===== verification/Identity.v ===== *)
(** * The anonymous identity

    [getOrCreateAnonymousUserId] (page.tsx 38-51) returns the identifier kept
    in [localStorage] under a fixed key and creates one when the stored value
    is absent or empty.  The lemmas show that the identifier is stable once
    stored, whatever the clock and the random source do afterwards. *)

From S2P Require Import Prelude JsString JsValue Effects Browser.

#[local] Open Scope string_scope.

(** The key under which the identifier is stored. *)
Definition storageKey : string := "sogaeting_anonymous_user_id".

(** [`user_${Date.now()}_${Math.random().toString(36).substring(2, 15)}`]. *)
Definition fresh_user_id (now : Z) (rnd : string) : string :=
  "user_" ++ number_to_string now ++ "_" ++ substring 2 15 rnd.

#[local] Open Scope list_scope.

Section identity.
Context {S : Type} `{!Sdk S}.
Implicit Types w : World S.

Definition getOrCreateAnonymousUserId : JS (World S) string :=
  w ← get_st;
  if negb (windowDefined w) then mret "" else
  userId ← localStorage_getItem storageKey;
  if falsy_nullable userId then
    w ← get_st;
    let userId := fresh_user_id (dateNow w) (random36 w) in
    localStorage_setItem storageKey userId;;
    mret userId
  else mret (default "" userId).

(** The identifier that the browser holds, if any. *)
Definition stored_id w : option string := localStorage w !! storageKey.

(** The browser holds a usable identifier. *)
Definition has_identity w : Prop :=
  ∃ id, stored_id w = Some id ∧ id ≠ "".

(** An effect that names the user names [id]. *)
Definition carries (id : string) (e : Effect) : Prop :=
  match e with
  | ECall (SdkSetUserId i) => i = id
  | ECall (SdkTrack _ p) => p !! "anonymous_user_id" = Some (JStr id)
  | _ => True
  end.

(** [frame w w']: from [w] to [w'] the configuration of the browser is
    unchanged and the trace has only grown. *)
Definition frame : relation (World S) := λ w w',
  envApiKey w' = envApiKey w ∧ windowDefined w' = windowDefined w ∧
  storageBlocked w' = storageBlocked w ∧ ∃ t, trace w' = trace w ++ t.

(** [keeps id w w']: if [w] is a browser that holds the non-empty
    identifier [id], then so is [w'], the trace has only grown, and every
    effect added names [id]. *)
Definition keeps (id : string) : relation (World S) := λ w w',
  id ≠ "" → windowDefined w = true → stored_id w = Some id →
  windowDefined w' = true ∧ stored_id w' = Some id ∧
  ∃ t, trace w' = trace w ++ t ∧ Forall (carries id) t.

(** ** Behaviour on each branch *)

Lemma fresh_user_id_nonempty now rnd : fresh_user_id now rnd ≠ "".
Proof. done. Qed.

Lemma fresh_user_id_truthy now rnd :
  truthy_string (fresh_user_id now rnd) = true.
Proof. done. Qed.

(** Without a window (server rendering) the result is the empty string and
    nothing is touched. *)
Lemma getOrCreate_no_window w :
  windowDefined w = false → getOrCreateAnonymousUserId w = (Normal "", w).
Proof. intros H. unfold getOrCreateAnonymousUserId. by js_run. Qed.

(** When storage refuses access the call throws and changes nothing. *)
Lemma getOrCreate_blocked w :
  windowDefined w = true → storageBlocked w = true →
  getOrCreateAnonymousUserId w = (Thrown StorageError, w).
Proof.
  intros Hw Hb. unfold getOrCreateAnonymousUserId, localStorage_getItem.
  by js_run.
Qed.

(** A stored, non-empty identifier is returned and nothing is written. *)
Lemma getOrCreate_existing w id :
  windowDefined w = true → storageBlocked w = false →
  stored_id w = Some id → id ≠ "" →
  getOrCreateAnonymousUserId w = (Normal id, w).
Proof.
  intros Hw Hb Hid Hne. unfold getOrCreateAnonymousUserId, localStorage_getItem.
  unfold stored_id in Hid. js_run. by destruct id.
Qed.

(** An absent or empty value is replaced by a fresh identifier, which is
    stored and returned. *)
Lemma getOrCreate_fresh w :
  windowDefined w = true → storageBlocked w = false →
  falsy_nullable (stored_id w) = true →
  getOrCreateAnonymousUserId w
  = (Normal (fresh_user_id (dateNow w) (random36 w)),
     set_localStorage
       (<[storageKey := fresh_user_id (dateNow w) (random36 w)]> (localStorage w))
       w).
Proof.
  intros Hw Hb Hid. unfold getOrCreateAnonymousUserId, localStorage_getItem,
    localStorage_setItem. unfold stored_id in Hid. by js_run.
Qed.

(** The call can only throw [StorageError], and then changes nothing. *)
Lemma getOrCreate_throws w e w' :
  getOrCreateAnonymousUserId w = (Thrown e, w') →
  e = StorageError ∧ w' = w ∧ storageBlocked w = true.
Proof.
  destruct (windowDefined w) eqn:Hw.
  2:{ rewrite getOrCreate_no_window by done. done. }
  destruct (storageBlocked w) eqn:Hb.
  { rewrite getOrCreate_blocked by done. by intros [= <- <-]. }
  destruct (falsy_nullable (stored_id w)) eqn:Hf.
  { rewrite getOrCreate_fresh by done. done. }
  apply falsy_nullable_false in Hf as (id & Hid & Hne).
  by rewrite (getOrCreate_existing w id).
Qed.

(** After a normal return in a browser the identifier is stored. *)
Lemma getOrCreate_stores w id w' :
  windowDefined w = true →
  getOrCreateAnonymousUserId w = (Normal id, w') →
  stored_id w' = Some id ∧ id ≠ "".
Proof.
  intros Hw. destruct (storageBlocked w) eqn:Hb.
  { by rewrite getOrCreate_blocked. }
  destruct (falsy_nullable (stored_id w)) eqn:Hf.
  - rewrite getOrCreate_fresh by done. intros [= <- <-]. split; [|done].
    unfold stored_id. cbn. by rewrite lookup_insert_eq.
  - apply falsy_nullable_false in Hf as (id' & Hid & Hne).
    rewrite (getOrCreate_existing w id') by done. by intros [= <- <-].
Qed.

(** The call changes nothing but [localStorage]. *)
Lemma getOrCreate_frame w :
  let w' := exec getOrCreateAnonymousUserId w in
  trace w' = trace w ∧ sdk w' = sdk w ∧ envApiKey w' = envApiKey w ∧
  windowDefined w' = windowDefined w ∧ storageBlocked w' = storageBlocked w ∧
  dateNow w' = dateNow w ∧ random36 w' = random36 w.
Proof.
  unfold exec. destruct (windowDefined w) eqn:Hw.
  2:{ by rewrite getOrCreate_no_window. }
  destruct (storageBlocked w) eqn:Hb.
  { by rewrite getOrCreate_blocked. }
  destruct (falsy_nullable (stored_id w)) eqn:Hf.
  { by rewrite getOrCreate_fresh. }
  apply falsy_nullable_false in Hf as (id & Hid & Hne).
  by rewrite (getOrCreate_existing w id).
Qed.

(** C4: the identifier is stable: once a call has returned an
    identifier in a browser, every later call returns the same identifier
    and writes nothing, whatever the clock and the random source have
    become. *)
Theorem identity_read_twice w id w1 now rnd :
  windowDefined w = true →
  getOrCreateAnonymousUserId w = (Normal id, w1) →
  getOrCreateAnonymousUserId (set_entropy now rnd w1)
  = (Normal id, set_entropy now rnd w1).
Proof.
  intros Hw Hg. destruct (getOrCreate_stores w id w1 Hw Hg) as [Hid Hne].
  pose proof (getOrCreate_frame w) as Hf. unfold exec in Hf. rewrite Hg in Hf.
  cbn in Hf. destruct Hf as (_ & _ & _ & Hw1 & Hb1 & _).
  apply getOrCreate_existing; cbn; try done; [congruence|].
  rewrite Hb1. destruct (storageBlocked w) eqn:Hb; [|done].
  by rewrite getOrCreate_blocked in Hg.
Qed.

(** C10: a stored identifier that is the empty string is treated as
    absent: the call replaces it by a fresh, non-empty identifier. *)
Theorem empty_identifier_replaced w :
  windowDefined w = true → storageBlocked w = false → stored_id w = Some "" →
  getOrCreateAnonymousUserId w
  = (Normal (fresh_user_id (dateNow w) (random36 w)),
     set_localStorage
       (<[storageKey := fresh_user_id (dateNow w) (random36 w)]> (localStorage w))
       w)
  ∧ fresh_user_id (dateNow w) (random36 w) ≠ "".
Proof.
  intros Hw Hb Hid. split; [|done]. apply getOrCreate_fresh; try done.
  by rewrite Hid.
Qed.

(** A stored identity survives the call. *)
Lemma getOrCreate_keeps_identity w id :
  stored_id w = Some id → id ≠ "" →
  stored_id (exec getOrCreateAnonymousUserId w) = Some id.
Proof.
  intros Hid Hne. unfold exec. destruct (windowDefined w) eqn:Hw.
  2:{ by rewrite getOrCreate_no_window. }
  destruct (storageBlocked w) eqn:Hb.
  { by rewrite getOrCreate_blocked. }
  by rewrite (getOrCreate_existing w id).
Qed.

(** In a browser that holds an identifier the call returns it. *)
Lemma getOrCreate_returns_stored w id id' w' :
  windowDefined w = true → stored_id w = Some id → id ≠ "" →
  getOrCreateAnonymousUserId w = (Normal id', w') → id' = id.
Proof.
  intros Hw Hid Hne. destruct (storageBlocked w) eqn:Hb.
  { by rewrite getOrCreate_blocked. }
  rewrite (getOrCreate_existing w id) by done. by intros [= <- _].
Qed.

#[export] Instance frame_preorder : PreOrder frame.
Proof.
  split.
  - intros w. unfold frame. split_and!; try done. exists [].
    by rewrite app_nil_r.
  - intros w1 w2 w3 (He & Hw & Hb & t & Ht) (He' & Hw' & Hb' & t' & Ht').
    unfold frame. split_and!; try congruence.
    exists (t ++ t'). by rewrite Ht', Ht, app_assoc.
Qed.

#[export] Instance keeps_preorder id : PreOrder (keeps id).
Proof.
  split.
  - intros w ? ? ?. split_and!; try done. exists []. by rewrite app_nil_r.
  - intros w1 w2 w3 H12 H23 Hne Hw Hid.
    destruct (H12 Hne Hw Hid) as (Hw2 & Hid2 & t & Ht & Hc).
    destruct (H23 Hne Hw2 Hid2) as (Hw3 & Hid3 & t' & Ht' & Hc').
    split_and!; try done. exists (t ++ t'). rewrite Ht', Ht, app_assoc.
    split; [done|]. by apply Forall_app.
Qed.

Lemma frame_emit e : preserves frame (emit e).
Proof. intros w. unfold frame, exec. rewrite emit_run. cbn. eauto. Qed.

Lemma frame_sdk_call c : preserves frame (sdk_call c).
Proof.
  intros w. unfold frame, exec. rewrite sdk_call_run.
  destruct (sdk_step c (sdk w)) as [s' threw]. cbn. eauto.
Qed.

Lemma frame_getOrCreate : preserves frame getOrCreateAnonymousUserId.
Proof.
  intros w. destruct (getOrCreate_frame w) as (Ht & _ & ? & ? & ? & _).
  unfold frame. split_and!; try done. exists []. by rewrite app_nil_r.
Qed.

Section keeps.
Context (id : string).

(** Recording an effect that names [id], or names nobody. *)
Lemma keeps_emit e : carries id e → preserves (keeps id) (emit e).
Proof.
  intros He w Hne Hw Hid. unfold exec. rewrite emit_run. cbn.
  split_and!; try done. exists [e]. split; [done|]. by constructor.
Qed.

Lemma keeps_sdk_call c :
  carries id (ECall c) → preserves (keeps id) (sdk_call c).
Proof.
  intros He w Hne Hw Hid. unfold exec. rewrite sdk_call_run.
  destruct (sdk_step c (sdk w)) as [s' threw]. cbn.
  split_and!; try done. exists [ECall c]. split; [done|]. by constructor.
Qed.

Lemma keeps_getOrCreate : preserves (keeps id) getOrCreateAnonymousUserId.
Proof.
  intros w Hne Hw Hid. destruct (getOrCreate_frame w) as (Ht & _ & _ & ? & _).
  split_and!; [congruence | by apply getOrCreate_keeps_identity |].
  exists []. by rewrite app_nil_r.
Qed.

(** What follows a read of the identifier may assume that it read [id]. *)
Lemma keeps_with_id {B} (g : string → JS (World S) B) :
  preserves (keeps id) (g id) →
  preserves (keeps id) (getOrCreateAnonymousUserId ≫= g).
Proof.
  intros Hg w Hne Hw Hid. pose proof (keeps_getOrCreate w) as K1.
  unfold exec in *. js_unfold.
  destruct (getOrCreateAnonymousUserId w) as [[a|e] w1] eqn:Hget; cbn in *;
    [|by apply K1].
  rewrite (getOrCreate_returns_stored _ _ _ _ Hw Hid Hne Hget).
  by apply (transitivity (R:=keeps id) K1 (Hg w1)).
Qed.

End keeps.

(** The call appends nothing to the trace. *)
Lemma emits_getOrCreate f : emits_le trace f 0 getOrCreateAnonymousUserId.
Proof.
  intros w. exists []. rewrite app_nil_r.
  by destruct (getOrCreate_frame w) as (-> & _).
Qed.

End identity.

#[export] Hint Resolve emits_getOrCreate : emits.
#[export] Hint Resolve frame_emit frame_sdk_call frame_getOrCreate
  keeps_getOrCreate : frame.
#[export] Hint Extern 1 (preserves (keeps _) (emit _)) =>
  apply keeps_emit; done : frame.
#[export] Hint Extern 1 (preserves (keeps _) (sdk_call _)) =>
  apply keeps_sdk_call; done : frame.
#[export] Hint Extern 1 (preserves _ (console_log _ _)) =>
  unfold console_log : frame.
#[export] Hint Extern 1 (preserves _ (console_warn _ _)) =>
  unfold console_warn : frame.
#[export] Hint Extern 1 (preserves _ (console_error _ _)) =>
  unfold console_error : frame.
#[export] Hint Extern 1 (preserves _ (alert _)) => unfold alert : frame.
#[export] Hint Extern 1 (preserves _ (amplitude_init _)) =>
  unfold amplitude_init : frame.
#[export] Hint Extern 1 (preserves _ (amplitude_setUserId _)) =>
  unfold amplitude_setUserId : frame.
#[export] Hint Extern 1 (preserves _ (amplitude_track _ _)) =>
  unfold amplitude_track : frame.

(** After a read of the identifier, reason with the identifier kept. *)
Ltac preserves_hook ::= eapply keeps_with_id.

Lemma identity_read_twice_witness :
  getOrCreateAnonymousUserId (set_entropy 1731000009999 "0.zzzzzzzzzzz"
    (set_localStorage {[ storageKey := "user_1731000000000_4fzyo82mvyr" ]}
       demo_world))
  = (Normal "user_1731000000000_4fzyo82mvyr",
     set_entropy 1731000009999 "0.zzzzzzzzzzz"
       (set_localStorage {[ storageKey := "user_1731000000000_4fzyo82mvyr" ]}
          demo_world)).
Proof.
  apply (identity_read_twice demo_world "user_1731000000000_4fzyo82mvyr"
           (set_localStorage {[ storageKey := "user_1731000000000_4fzyo82mvyr" ]}
              demo_world) 1731000009999 "0.zzzzzzzzzzz"); by vm_compute.
Defined.

Lemma empty_identifier_replaced_witness :
  getOrCreateAnonymousUserId
    (set_localStorage {[ storageKey := "" ]} demo_world)
  = (Normal (fresh_user_id 1731000000000 "0.4fzyo82mvyr"),
     set_localStorage
       (<[storageKey := fresh_user_id 1731000000000 "0.4fzyo82mvyr"]>
          {[ storageKey := "" ]})
       (set_localStorage {[ storageKey := "" ]} demo_world))
  ∧ fresh_user_id 1731000000000 "0.4fzyo82mvyr" ≠ "".
Proof.
  refine (empty_identifier_replaced
            (set_localStorage {[ storageKey := "" ]} demo_world) _ _ _);
    reflexivity.
Defined.
