(* ===== verification/Tracking.v ===== *)
(** * Event emission

    [trackEvent] (page.tsx 54-67) forwards a named event to the analytics SDK
    with the anonymous identifier merged into its properties.  Without a
    configured key the call does nothing.  Failures of storage or of the SDK
    are caught and logged: the call never throws. *)

From S2P Require Import Prelude JsString JsValue Effects Browser Identity.

#[local] Open Scope string_scope.
#[local] Open Scope list_scope.
#[local] Open Scope nat_scope.

(** The message logged when an event could not be sent. *)
Definition track_failed_msg (eventName : string) : string :=
  ("Amplitude 이벤트 트래킹 실패 [" ++ eventName ++ "]:")%string.

(** [{ ...eventProperties, anonymous_user_id: anonymousUserId }]. *)
Definition with_identity (eventProperties : option Props) (id : string) : Props :=
  <["anonymous_user_id" := JStr id]> (spread_opt eventProperties).

Section tracking.
Context {S : Type} `{!Sdk S}.
Implicit Types w : World S.

Definition trackEvent (eventName : string) (eventProperties : option Props) :
  JS (World S) unit :=
  w ← get_st;
  when (apiKey_configured w)
    (try_catch
       (anonymousUserId ← getOrCreateAnonymousUserId;
        amplitude_track eventName (with_identity eventProperties anonymousUserId))
       (λ error, console_warn (track_failed_msg eventName) (ArgError error))).

(** C3: [trackEvent] is contained: whatever the configuration, the
    storage and the SDK do, the call returns normally (a failure of
    [localStorage] or of [amplitude.track] is caught), and without a
    configured key it changes nothing at all. *)
Theorem trackEvent_never_throws n p w :
  ∃ w', trackEvent n p w = (Normal tt, w')
        ∧ (apiKey_configured w = false → w' = w).
Proof.
  unfold trackEvent. js_unfold.
  destruct (apiKey_configured w); [|by eexists].
  destruct (getOrCreateAnonymousUserId w) as [[id|e] w1]; [|by eexists].
  unfold amplitude_track. rewrite sdk_call_run.
  destruct (sdk_step _ (sdk w1)) as [s' []]; by eexists.
Qed.

(** ** Behaviour on each branch *)

(** Without a configured key the call is a no-op. *)
Lemma trackEvent_unconfigured n p w :
  apiKey_configured w = false → trackEvent n p w = (Normal tt, w).
Proof. intros H. unfold trackEvent. by js_run. Qed.

(** When storage refuses access nothing is sent and a warning is logged. *)
Lemma trackEvent_blocked n p w :
  apiKey_configured w = true → windowDefined w = true →
  storageBlocked w = true →
  trackEvent n p w
  = (Normal tt,
     set_trace (trace w ++ [EConsole LWarn (track_failed_msg n) (ArgError StorageError)]) w).
Proof.
  intros Hk Hw Hb. unfold trackEvent. js_unfold. rewrite Hk.
  by rewrite getOrCreate_blocked.
Qed.

(** With a key and working storage exactly one call reaches the SDK; it
    carries the stored identifier; a warning follows when the SDK throws. *)
Lemma trackEvent_sends n p w :
  apiKey_configured w = true → windowDefined w = true →
  storageBlocked w = false →
  ∃ id w1,
    getOrCreateAnonymousUserId w = (Normal id, w1) ∧
    stored_id w1 = Some id ∧
    let '(s', threw) := sdk_step (SdkTrack n (with_identity p id)) (sdk w1) in
    trackEvent n p w
    = (Normal tt,
       set_trace
         (trace w ++ [ECall (SdkTrack n (with_identity p id))]
          ++ (if threw
              then [EConsole LWarn (track_failed_msg n) (ArgError SdkError)]
              else []))
         (set_sdk s' w1)).
Proof.
  intros Hk Hw Hb.
  destruct (getOrCreateAnonymousUserId w) as [[id|e] w1] eqn:Hg.
  2:{ apply getOrCreate_throws in Hg as (_ & _ & ?). congruence. }
  exists id, w1. split; [done|].
  pose proof (getOrCreate_stores _ _ _ Hw Hg) as [Hid _]. split; [done|].
  pose proof (getOrCreate_frame w) as Hf. unfold exec in Hf. rewrite Hg in Hf.
  cbn in Hf. destruct Hf as (Ht & _).
  unfold trackEvent, amplitude_track. js_unfold. rewrite Hk, Hg.
  rewrite sdk_call_run.
  destruct (sdk_step _ (sdk w1)) as [s' []]; world_simpl; rewrite Ht;
    by rewrite <- ?app_assoc, ?app_nil_r.
Qed.

(** The same as a fact about the computation, for the hint database. *)
Lemma trackEvent_no_throw n p : no_throw (trackEvent n p).
Proof.
  intros w. unfold outcome, trackEvent. js_unfold.
  destruct (apiKey_configured w); [|by exists tt].
  destruct (getOrCreateAnonymousUserId w) as [[id|e] w1]; [|by exists tt].
  unfold amplitude_track. rewrite sdk_call_run.
  destruct (sdk_step _ (sdk w1)) as [s' []]; by exists tt.
Qed.

(** ** What a call adds to the trace *)

(** The effects that one call of [trackEvent] appends. *)
Definition track_effects n p w : list Effect :=
  drop (length (trace w)) (trace (exec (trackEvent n p) w)).

Lemma trackEvent_trace n p w :
  trace (exec (trackEvent n p) w) = trace w ++ track_effects n p w.
Proof.
  unfold track_effects, exec, trackEvent. js_unfold.
  destruct (apiKey_configured w); cbn; [|by rewrite drop_all, app_nil_r].
  pose proof (getOrCreate_frame w) as Hf. unfold exec in Hf.
  destruct (getOrCreateAnonymousUserId w) as [[id|e] w1]; cbn in *;
    destruct Hf as (Ht & _).
  - unfold amplitude_track. rewrite sdk_call_run.
    destruct (sdk_step _ (sdk w1)) as [s' []]; world_simpl; rewrite Ht;
      rewrite <- ?app_assoc; by rewrite drop_app_length.
  - world_simpl. rewrite Ht. by rewrite drop_app_length.
Qed.

(** One call appends nothing, a warning, a [track] call, or a [track] call
    followed by a warning. *)
Lemma track_effects_cases n p w :
  track_effects n p w = []
  ∨ (∃ e, track_effects n p w
          = [EConsole LWarn (track_failed_msg n) (ArgError e)])
  ∨ (∃ id, track_effects n p w = [ECall (SdkTrack n (with_identity p id))])
  ∨ (∃ id, track_effects n p w
           = [ECall (SdkTrack n (with_identity p id));
              EConsole LWarn (track_failed_msg n) (ArgError SdkError)]).
Proof.
  unfold track_effects, exec, trackEvent. js_unfold.
  destruct (apiKey_configured w); cbn; [|left; by rewrite drop_all].
  pose proof (getOrCreate_frame w) as Hf. unfold exec in Hf.
  destruct (getOrCreateAnonymousUserId w) as [[id|e] w1]; cbn in *;
    destruct Hf as (Ht & _).
  - unfold amplitude_track. rewrite sdk_call_run.
    destruct (sdk_step _ (sdk w1)) as [s' []]; world_simpl; rewrite Ht;
      rewrite <- ?app_assoc, drop_app_length; eauto 6.
  - world_simpl. rewrite Ht, drop_app_length. eauto.
Qed.

(** At most one SDK call per [trackEvent], it is a [track] named [n], and
    no alert is shown. *)
Lemma track_effects_calls n p w :
  count_if is_call (track_effects n p w) ≤ 1 ∧
  count_if is_call (track_effects n p w)
  = count_if (is_track n) (track_effects n p w) ∧
  count_if is_alert (track_effects n p w) = 0.
Proof.
  destruct (track_effects_cases n p w) as [->|[[? ->]|[[? ->]|[? ->]]]]; cbn;
    rewrite ?bool_decide_true by done; lia.
Qed.

(** Events named differently are not affected. *)
Lemma track_effects_other n n' p w :
  n ≠ n' → count_if (is_track n') (track_effects n p w) = 0.
Proof.
  intros Hne.
  destruct (track_effects_cases n p w) as [->|[[? ->]|[[? ->]|[? ->]]]]; cbn;
    by rewrite ?bool_decide_false.
Qed.

(** Every event sent carries the identifier, even when the caller passed
    a property of the same name. *)
Lemma track_effects_identity n p w :
  all_tracks_have "anonymous_user_id" (track_effects n p w).
Proof.
  destruct (track_effects_cases n p w) as [->|[[? ->]|[[? ->]|[? ->]]]];
    intros n' p' Hin; set_unfold; destruct_or?; simplify_eq;
    unfold with_identity; by rewrite lookup_insert_eq.
Qed.

(** ** The world after a call *)

(** The world that [trackEvent] leaves. *)
Definition after_track n p w : World S := exec (trackEvent n p) w.

Lemma trackEvent_run n p w : trackEvent n p w = (Normal tt, after_track n p w).
Proof.
  unfold after_track, exec. destruct (trackEvent_no_throw n p w) as [[] H].
  unfold outcome in H. destruct (trackEvent n p w) as [o w']. simpl in *.
  by subst.
Qed.

Lemma after_track_trace n p w :
  trace (after_track n p w) = trace w ++ track_effects n p w.
Proof. apply trackEvent_trace. Qed.

Lemma after_track_unconfigured n p w :
  apiKey_configured w = false → after_track n p w = w.
Proof. intros H. unfold after_track, exec. by rewrite trackEvent_unconfigured. Qed.

(** The call leaves the configuration, the clock and the random source
    untouched. *)
Lemma after_track_frame n p w :
  envApiKey (after_track n p w) = envApiKey w ∧
  windowDefined (after_track n p w) = windowDefined w ∧
  storageBlocked (after_track n p w) = storageBlocked w ∧
  dateNow (after_track n p w) = dateNow w ∧
  random36 (after_track n p w) = random36 w.
Proof.
  unfold after_track, exec, trackEvent. js_unfold.
  destruct (apiKey_configured w); cbn; [|done].
  pose proof (getOrCreate_frame w) as Hf. unfold exec in Hf.
  destruct (getOrCreateAnonymousUserId w) as [[id|e] w1] eqn:Hg; cbn in Hf;
    destruct Hf as (_ & _ & <- & <- & <- & <- & <-); [|done].
  unfold amplitude_track. rewrite sdk_call_run.
  by destruct (sdk_step _ (sdk w1)) as [s' []].
Qed.

Lemma after_track_apiKey n p w :
  apiKey_configured (after_track n p w) = apiKey_configured w.
Proof.
  unfold apiKey_configured, apiKey_of.
  by destruct (after_track_frame n p w) as (-> & _).
Qed.

Lemma after_track_keeps_identity n p w id :
  stored_id w = Some id → id ≠ "" → stored_id (after_track n p w) = Some id.
Proof.
  intros Hid Hne. unfold after_track, exec, trackEvent. js_unfold.
  destruct (apiKey_configured w); cbn; [|done].
  pose proof (getOrCreate_keeps_identity w id Hid Hne) as Hk.
  unfold exec in Hk.
  destruct (getOrCreateAnonymousUserId w) as [[id'|e] w1]; cbn in *; [|done].
  unfold amplitude_track. rewrite sdk_call_run.
  by destruct (sdk_step _ (sdk w1)) as [s' []].
Qed.

(** ** Calls in a working browser *)

(** A key is configured, there is a window and storage works. *)
Definition healthy w : Prop :=
  apiKey_configured w = true ∧ windowDefined w = true ∧ storageBlocked w = false.

Lemma healthy_set_trace t w : healthy w → healthy (set_trace t w).
Proof. done. Qed.

Lemma healthy_after_track n p w : healthy w → healthy (after_track n p w).
Proof.
  intros (? & ? & ?). unfold healthy. rewrite after_track_apiKey.
  by destruct (after_track_frame n p w) as (_ & -> & -> & _).
Qed.

(** In a working browser the call sends exactly one event named [n]; its
    properties are those given with the stored identifier added, and the
    identifier is the one already stored when there is one. *)
Lemma tracked_after_track n p w :
  healthy w →
  ∃ id, stored_id (after_track n p w) = Some id ∧ id ≠ "" ∧
    (∀ id0, stored_id w = Some id0 → id0 ≠ "" → id = id0) ∧
    tracked n (trace (after_track n p w))
    = tracked n (trace w) ++ [with_identity p id].
Proof.
  intros (Hk & Hw & Hb).
  destruct (trackEvent_sends n p w Hk Hw Hb) as (id & w1 & Hg & Hid & Hrun).
  pose proof (getOrCreate_stores _ _ _ Hw Hg) as [_ Hne].
  exists id. unfold after_track, exec.
  destruct (sdk_step _ (sdk w1)) as [s' threw]. rewrite Hrun. cbn.
  repeat split; [done..| |].
  - intros id0 Hid0 Hne0.
    rewrite (getOrCreate_existing w id0) in Hg by done. by injection Hg as <- _.
  - unfold tracked. rewrite omap_app. cbn. rewrite bool_decide_true by done.
    by destruct threw.
Qed.

(** With a reliable SDK the event is all that the call appends. *)
Lemma after_track_reliable `{!Reliable S} n p w :
  healthy w →
  ∃ id, stored_id (after_track n p w) = Some id ∧ id ≠ "" ∧
    (∀ id0, stored_id w = Some id0 → id0 ≠ "" → id = id0) ∧
    trace (after_track n p w)
    = trace w ++ [ECall (SdkTrack n (with_identity p id))].
Proof.
  intros (Hk & Hw & Hb).
  destruct (trackEvent_sends n p w Hk Hw Hb) as (id & w1 & Hg & Hid & Hrun).
  pose proof (getOrCreate_stores _ _ _ Hw Hg) as [_ Hne].
  pose proof (sdk_reliable (SdkTrack n (with_identity p id)) (sdk w1)) as Hr.
  exists id. unfold after_track, exec.
  destruct (sdk_step _ (sdk w1)) as [s' threw]. simpl in Hr. subst threw.
  rewrite Hrun. cbn. split_and!; [done..| |done].
  intros id0 Hid0 Hne0.
  rewrite (getOrCreate_existing w id0) in Hg by done. by injection Hg as <- _.
Qed.

Lemma tracked_after_track_other n n' p w :
  n ≠ n' → tracked n' (trace (after_track n p w)) = tracked n' (trace w).
Proof.
  intros Hne. rewrite after_track_trace, tracked_app.
  destruct (track_effects_cases n p w) as [->|[[? ->]|[[? ->]|[? ->]]]]; cbn;
    rewrite ?bool_decide_false by done; by rewrite app_nil_r.
Qed.

(** ** The identifier named by a call *)

Lemma frame_trackEvent n p : preserves frame (trackEvent n p).
Proof. unfold trackEvent. preserves_auto. Qed.

(** In a browser that holds a usable identifier, the call keeps it and the
    event it sends carries it. *)
Lemma keeps_trackEvent id n p : preserves (keeps id) (trackEvent n p).
Proof.
  unfold trackEvent. preserves_auto.
  apply keeps_sdk_call. unfold with_identity. cbn. by rewrite lookup_insert_eq.
Qed.

(** ** Relations that the operations on the world respect

    A relation on worlds is respected when it is a preorder that relates
    the world before and after every event emission, console line and
    alert.  Handlers are shown to preserve every respected relation at
    once; [frame] and [keeps] are the instances used. *)
Class Respected (R : relation (World S)) : Prop := {
  #[global] respected_preorder :: PreOrder R;
  respected_track n p : preserves R (trackEvent n p);
  respected_console l msg arg : preserves R (emit (EConsole l msg arg));
  respected_alert msg : preserves R (emit (EAlert msg));
  respected_tick now rnd : preserves R (modify (set_entropy now rnd));
}.

#[export] Instance frame_respected : Respected frame.
Proof.
  split; [apply _ | apply frame_trackEvent | intros; apply frame_emit.. |].
  intros now rnd w. unfold frame. split_and!; try done. exists [].
  by rewrite app_nil_r.
Qed.

#[export] Instance keeps_respected id : Respected (keeps id).
Proof.
  split; [apply _ | apply keeps_trackEvent | intros; by apply keeps_emit.. |].
  intros now rnd w ? ? ?. split_and!; try done. exists []. by rewrite app_nil_r.
Qed.

(** ** Bounds on what a call appends *)

Lemma emits_trackEvent_same n p :
  emits_le trace (is_track n) 1 (trackEvent n p).
Proof.
  intros w. exists (track_effects n p w). split; [apply trackEvent_trace|].
  destruct (track_effects_calls n p w) as (? & <- & _). done.
Qed.

Lemma emits_trackEvent_other n n' p :
  n ≠ n' → emits_le trace (is_track n') 0 (trackEvent n p).
Proof.
  intros Hne w. exists (track_effects n p w). split; [apply trackEvent_trace|].
  by rewrite track_effects_other.
Qed.

Lemma emits_trackEvent_alert n p : emits_le trace is_alert 0 (trackEvent n p).
Proof.
  intros w. exists (track_effects n p w). split; [apply trackEvent_trace|].
  destruct (track_effects_calls n p w) as (_ & _ & ->). done.
Qed.

Lemma emits_trackEvent_call n p : emits_le trace is_call 1 (trackEvent n p).
Proof.
  intros w. exists (track_effects n p w). split; [apply trackEvent_trace|].
  by destruct (track_effects_calls n p w) as (? & _ & _).
Qed.

End tracking.

#[export] Hint Resolve emits_trackEvent_same emits_trackEvent_alert
  emits_trackEvent_call : emits.
#[export] Hint Extern 1 (emits_le _ (is_track _) _ (trackEvent _ _)) =>
  apply emits_trackEvent_other; first [discriminate | congruence] : emits.
#[export] Hint Resolve frame_trackEvent keeps_trackEvent : frame.
#[export] Hint Extern 1 (preserves _ (trackEvent _ _)) =>
  apply respected_track : frame.
#[export] Hint Extern 2 (preserves _ (emit (EConsole _ _ _))) =>
  apply respected_console : frame.
#[export] Hint Extern 2 (preserves _ (emit (EAlert _))) =>
  apply respected_alert : frame.

Arguments trackEvent : simpl never.
Arguments after_track : simpl never.

