(* ===== verification/PageState.v ===== *)
(** * The state of the component [Home]

    [State] holds the twelve [useState] cells of page.tsx 9-21, with the
    setters that React hands out.  [Page] is a configuration of the mounted
    component: the current cells, the snapshot that the last render closed
    over, the listeners registered on the window (each identified by the
    snapshot it closed over), the cleanup function that React keeps for the
    effect, the ref cell [surveyProgressRef], the timers that have not fired
    yet, and the world.  Handlers are computations over [Page]. *)

From S2P Require Import Prelude JsString JsValue Effects Browser Identity.
From S2P Require Import Tracking.

#[local] Open Scope string_scope.
#[local] Open Scope list_scope.

(** ** The cells *)

Record State : Type := mkState {
  emailOrId : string;
  reaction : option string;
  gender : option string;
  ageGroup : option string;
  interest : option string;
  source : option string;
  isSubmitting : bool;
  isSubmitted : bool;
  hasStartedSurvey : bool;
  scrollDepthTracked : bool;
  isInterestSubmitting : bool;
  isInterestSubmitted : bool;
}.

#[export] Instance State_eq_dec : EqDecision State.
Proof. solve_decision. Defined.

(** The initial values passed to [useState]. *)
Definition initial_state : State :=
  mkState "" None None None None None false false false false false false.

(** ** Updating one cell *)

Definition with_emailOrId (v : string) (s : State) : State :=
  mkState v (reaction s) (gender s) (ageGroup s) (interest s) (source s)
    (isSubmitting s) (isSubmitted s) (hasStartedSurvey s)
    (scrollDepthTracked s) (isInterestSubmitting s) (isInterestSubmitted s).

Definition with_reaction (v : option string) (s : State) : State :=
  mkState (emailOrId s) v (gender s) (ageGroup s) (interest s) (source s)
    (isSubmitting s) (isSubmitted s) (hasStartedSurvey s)
    (scrollDepthTracked s) (isInterestSubmitting s) (isInterestSubmitted s).

Definition with_gender (v : option string) (s : State) : State :=
  mkState (emailOrId s) (reaction s) v (ageGroup s) (interest s) (source s)
    (isSubmitting s) (isSubmitted s) (hasStartedSurvey s)
    (scrollDepthTracked s) (isInterestSubmitting s) (isInterestSubmitted s).

Definition with_ageGroup (v : option string) (s : State) : State :=
  mkState (emailOrId s) (reaction s) (gender s) v (interest s) (source s)
    (isSubmitting s) (isSubmitted s) (hasStartedSurvey s)
    (scrollDepthTracked s) (isInterestSubmitting s) (isInterestSubmitted s).

Definition with_interest (v : option string) (s : State) : State :=
  mkState (emailOrId s) (reaction s) (gender s) (ageGroup s) v (source s)
    (isSubmitting s) (isSubmitted s) (hasStartedSurvey s)
    (scrollDepthTracked s) (isInterestSubmitting s) (isInterestSubmitted s).

Definition with_source (v : option string) (s : State) : State :=
  mkState (emailOrId s) (reaction s) (gender s) (ageGroup s) (interest s) v
    (isSubmitting s) (isSubmitted s) (hasStartedSurvey s)
    (scrollDepthTracked s) (isInterestSubmitting s) (isInterestSubmitted s).

Definition with_isSubmitting (v : bool) (s : State) : State :=
  mkState (emailOrId s) (reaction s) (gender s) (ageGroup s) (interest s)
    (source s) v (isSubmitted s) (hasStartedSurvey s) (scrollDepthTracked s)
    (isInterestSubmitting s) (isInterestSubmitted s).

Definition with_isSubmitted (v : bool) (s : State) : State :=
  mkState (emailOrId s) (reaction s) (gender s) (ageGroup s) (interest s)
    (source s) (isSubmitting s) v (hasStartedSurvey s) (scrollDepthTracked s)
    (isInterestSubmitting s) (isInterestSubmitted s).

Definition with_hasStartedSurvey (v : bool) (s : State) : State :=
  mkState (emailOrId s) (reaction s) (gender s) (ageGroup s) (interest s)
    (source s) (isSubmitting s) (isSubmitted s) v (scrollDepthTracked s)
    (isInterestSubmitting s) (isInterestSubmitted s).

Definition with_scrollDepthTracked (v : bool) (s : State) : State :=
  mkState (emailOrId s) (reaction s) (gender s) (ageGroup s) (interest s)
    (source s) (isSubmitting s) (isSubmitted s) (hasStartedSurvey s) v
    (isInterestSubmitting s) (isInterestSubmitted s).

Definition with_isInterestSubmitting (v : bool) (s : State) : State :=
  mkState (emailOrId s) (reaction s) (gender s) (ageGroup s) (interest s)
    (source s) (isSubmitting s) (isSubmitted s) (hasStartedSurvey s)
    (scrollDepthTracked s) v (isInterestSubmitted s).

Definition with_isInterestSubmitted (v : bool) (s : State) : State :=
  mkState (emailOrId s) (reaction s) (gender s) (ageGroup s) (interest s)
    (source s) (isSubmitting s) (isSubmitted s) (hasStartedSurvey s)
    (scrollDepthTracked s) (isInterestSubmitting s) v.

(** What an [await] on a promise delivers. *)
Inductive AwaitResult : Type := Fulfilled | Rejected.

(** A timer that has not fired yet. *)
Inductive Pending : Type :=
| SurveyAwait (snap : State)  (* onSubmitSurvey suspended at its await *)
| SignupAwait                 (* onSubmit suspended at its await *)
| HideSuccess.                (* the timer that hides the success view *)

#[export] Instance Pending_eq_dec : EqDecision Pending.
Proof. solve_decision. Defined.

(** The delay, in milliseconds, with which the timer was set. *)
Definition delay_of (t : Pending) : Z :=
  match t with
  | SurveyAwait _ => 1500
  | SignupAwait => 1000
  | HideSuccess => 3000
  end.

(** ** Configurations *)

Record Page (S : Type) : Type := mkPage {
  cells : State;               (* current values of the cells *)
  rendered : State;            (* values seen by the last render *)
  installed : list State;      (* registered listener pairs, by snapshot *)
  cleanup : option State;      (* the cleanup of the last run of the effect *)
  surveyProgressRef : float;   (* surveyProgressRef.current *)
  timers : list Pending;       (* oldest first *)
  world : World S;
}.
Arguments mkPage {S}.
Arguments cells {S}.
Arguments rendered {S}.
Arguments installed {S}.
Arguments cleanup {S}.
Arguments surveyProgressRef {S}.
Arguments timers {S}.
Arguments world {S}.

Section page.
Context {S : Type} `{!Sdk S}.
Implicit Types (p : Page S) (st : State).

Definition set_cells st p : Page S :=
  mkPage st (rendered p) (installed p) (cleanup p) (surveyProgressRef p)
    (timers p) (world p).

Definition set_rendered st p : Page S :=
  mkPage (cells p) st (installed p) (cleanup p) (surveyProgressRef p)
    (timers p) (world p).

Definition set_installed (l : list State) p : Page S :=
  mkPage (cells p) (rendered p) l (cleanup p) (surveyProgressRef p)
    (timers p) (world p).

Definition set_cleanup (o : option State) p : Page S :=
  mkPage (cells p) (rendered p) (installed p) o (surveyProgressRef p)
    (timers p) (world p).

Definition set_ref (x : float) p : Page S :=
  mkPage (cells p) (rendered p) (installed p) (cleanup p) x (timers p) (world p).

Definition set_timers (ts : list Pending) p : Page S :=
  mkPage (cells p) (rendered p) (installed p) (cleanup p) (surveyProgressRef p)
    ts (world p).

Definition set_world (w : World S) p : Page S :=
  mkPage (cells p) (rendered p) (installed p) (cleanup p) (surveyProgressRef p)
    (timers p) w.

(** The page before it is mounted. *)
Definition initial_page (w : World S) : Page S :=
  mkPage initial_state initial_state [] None 0%float [] w.

(** Run a computation on the world. *)
Definition inWorld {A} (m : JS (World S) A) : JS (Page S) A :=
  zoom world set_world m.

(** A setter of a cell. *)
Definition setState (f : State → State) : JS (Page S) unit :=
  modify (λ p, set_cells (f (cells p)) p).

Definition setEmailOrId (v : string) : JS (Page S) unit :=
  setState (with_emailOrId v).

Definition setReaction (v : option string) : JS (Page S) unit :=
  setState (with_reaction v).

Definition setGender (v : option string) : JS (Page S) unit :=
  setState (with_gender v).

Definition setAgeGroup (v : option string) : JS (Page S) unit :=
  setState (with_ageGroup v).

Definition setInterest (v : option string) : JS (Page S) unit :=
  setState (with_interest v).

Definition setSource (v : option string) : JS (Page S) unit :=
  setState (with_source v).

Definition setIsSubmitting (v : bool) : JS (Page S) unit :=
  setState (with_isSubmitting v).

Definition setIsSubmitted (v : bool) : JS (Page S) unit :=
  setState (with_isSubmitted v).

Definition setHasStartedSurvey (v : bool) : JS (Page S) unit :=
  setState (with_hasStartedSurvey v).

Definition setScrollDepthTracked (v : bool) : JS (Page S) unit :=
  setState (with_scrollDepthTracked v).

Definition setIsInterestSubmitting (v : bool) : JS (Page S) unit :=
  setState (with_isInterestSubmitting v).

Definition setIsInterestSubmitted (v : bool) : JS (Page S) unit :=
  setState (with_isInterestSubmitted v).

(** [surveyProgressRef.current = x]. *)
Definition setProgress (x : float) : JS (Page S) unit := modify (set_ref x).

(** [setTimeout]: the timer joins the pending ones. *)
Definition setTimeout (t : Pending) : JS (Page S) unit :=
  modify (λ p, set_timers (timers p ++ [t]) p).

(** [await] resumes normally or throws the rejection. *)
Definition await (r : AwaitResult) : JS (Page S) unit :=
  match r with Fulfilled => mret tt | Rejected => throw Rejection end.

(** The trace of a configuration. *)
Definition ptrace p : list Effect := trace (world p).

(** A relation on worlds, as a relation on configurations. *)
Definition on_world (R : relation (World S)) : relation (Page S) := λ p p',
  R (world p) (world p').

(** ** Lemmas *)

#[export] Instance on_world_preorder R `{!PreOrder R} : PreOrder (on_world R).
Proof.
  split; [intros p; unfold on_world; reflexivity|].
  intros p1 p2 p3 ? ?. unfold on_world in *. by etrans.
Qed.

Section on_world.
Context (R : relation (World S)) `{!PreOrder R}.

Lemma on_world_inWorld {A} (m : JS (World S) A) :
  preserves R m → preserves (on_world R) (inWorld m).
Proof. apply preserves_zoom. by intros w p. Qed.

(** A write that leaves the world alone. *)
Lemma on_world_modify (g : Page S → Page S) :
  (∀ p, world (g p) = world p) → preserves (on_world R) (modify g).
Proof.
  intros H. apply preserves_modify. intros p. unfold on_world.
  rewrite H. reflexivity.
Qed.

Lemma on_world_setState f : preserves (on_world R) (setState f).
Proof. by apply on_world_modify. Qed.

Lemma on_world_setProgress x : preserves (on_world R) (setProgress x).
Proof. by apply on_world_modify. Qed.

Lemma on_world_setTimeout t : preserves (on_world R) (setTimeout t).
Proof. by apply on_world_modify. Qed.

Lemma on_world_await r : preserves (on_world R) (await r).
Proof. destruct r; [apply preserves_ret | apply preserves_throw]; apply _. Qed.

End on_world.

Lemma emits_inWorld {A} f k (m : JS (World S) A) :
  emits_le trace f k m → emits_le ptrace f k (inWorld m).
Proof. intros H. by apply (emits_zoom trace f k world set_world). Qed.

Lemma emits_setState f g : emits_le ptrace f 0 (setState g).
Proof. by apply emits_modify. Qed.

Lemma emits_setProgress f x : emits_le ptrace f 0 (setProgress x).
Proof. by apply emits_modify. Qed.

Lemma emits_setTimeout f t : emits_le ptrace f 0 (setTimeout t).
Proof. by apply emits_modify. Qed.

Lemma emits_await f r : emits_le ptrace f 0 (await r).
Proof. destruct r; [apply emits_ret | apply emits_throw]. Qed.

Lemma inWorld_run {A} (m : JS (World S) A) p :
  inWorld m p = ((m (world p)).1, set_world (m (world p)).2 p).
Proof. unfold inWorld, zoom. by destruct (m (world p)). Qed.

Lemma no_throw_inWorld {A} (m : JS (World S) A) :
  no_throw m → no_throw (inWorld m).
Proof. apply no_throw_zoom. Qed.

Lemma no_throw_setState f : no_throw (setState f).
Proof. apply no_throw_modify. Qed.

Lemma no_throw_setTimeout t : no_throw (setTimeout t).
Proof. apply no_throw_modify. Qed.

Lemma no_throw_setProgress x : no_throw (setProgress x).
Proof. apply no_throw_modify. Qed.

End page.

#[export] Hint Resolve no_throw_inWorld no_throw_setState no_throw_setTimeout
  no_throw_setProgress : js.
#[export] Hint Resolve emits_inWorld emits_setState emits_setProgress
  emits_setTimeout emits_await : emits.
#[export] Hint Resolve on_world_setState on_world_setProgress
  on_world_setTimeout on_world_await : frame.
#[export] Hint Resolve on_world_inWorld : frame.
#[export] Hint Extern 0 (PreOrder _) => apply _ : frame.
#[export] Hint Extern 1 (preserves (on_world _) (modify _)) =>
  apply on_world_modify; [apply _ | done] : frame.

(** Unfold setters and lifted world operations down to the records. *)
Ltac page_simpl :=
  unfold setEmailOrId, setReaction, setGender, setAgeGroup, setInterest,
    setSource, setIsSubmitting, setIsSubmitted, setHasStartedSurvey,
    setScrollDepthTracked, setIsInterestSubmitting, setIsInterestSubmitted,
    setState, setProgress, setTimeout, await, inWorld, set_cells,
    set_rendered, set_installed, set_cleanup, set_ref, set_timers,
    set_world in *;
  world_simpl.

(** Run a handler symbolically down to the final configuration; calls of
    [trackEvent] are replaced by the world they leave. *)
Ltac handler_run := repeat (page_simpl; rewrite ?trackEvent_run).
