(* ===== verification/Survey.v ===== *)
(** * The survey flow

    The four questions of the survey with their options (page.tsx 535-538,
    575-581, 612-616, 648-653), the [onClick] handler of each option
    (542-552, 585-589, 620-624, 657-661), the label tables and
    [onSubmitSurvey] (125-185).  A handler takes the snapshot of the render
    that created it: reads of state variables go to the snapshot, writes go
    through the setters.  [onSubmitSurvey] is split at its [await]: the first
    part validates and sets the timer, [onSubmitSurvey_resume] is the rest of
    the [try] block with its [catch] and [finally]. *)

From S2P Require Import Prelude JsString JsValue Effects Browser Identity.
From S2P Require Import Tracking PageState.

#[local] Open Scope string_scope.
#[local] Open Scope list_scope.
#[local] Open Scope nat_scope.

(** ** Options *)

(** An option of a question: [{ key, emoji?, label }]. *)
Record Item : Type := mkItem {
  key : string;
  emoji : option string;
  label : string;
}.

#[export] Instance Item_eq_dec : EqDecision Item.
Proof. solve_decision. Defined.

Definition genderItems : list Item :=
  [ mkItem "male" None "남성";
    mkItem "female" None "여성" ].

Definition ageGroupItems : list Item :=
  [ mkItem "20-24" None "20~24세";
    mkItem "25-29" None "25~29세";
    mkItem "30-34" None "30~34세";
    mkItem "35-39" None "35~39세";
    mkItem "40+" None "40세 이상" ].

Definition interestItems : list Item :=
  [ mkItem "yes" None "네, 참여하고 싶어요";
    mkItem "maybe" None "생각해볼게요";
    mkItem "no" None "아직 잘 모르겠어요" ].

Definition reactionItems : list Item :=
  [ mkItem "love" (Some "❤️") "완전 흥미로워요";
    mkItem "curious" (Some "👀") "궁금해요, 어떻게 진행돼요?";
    mkItem "nervous" (Some "🤔") "재밌긴 한데 조금 낯설어요";
    mkItem "unknown" (Some "🚇") "아직 잘 모르겠어요" ].

(** The four questions. *)
Inductive Question : Type := QGender | QAgeGroup | QInterest | QReaction.

#[export] Instance Question_eq_dec : EqDecision Question.
Proof. solve_decision. Defined.

(** The options rendered for a question. *)
Definition items_of (q : Question) : list Item :=
  match q with
  | QGender => genderItems
  | QAgeGroup => ageGroupItems
  | QInterest => interestItems
  | QReaction => reactionItems
  end.

(** The answer of a snapshot to a question. *)
Definition answer_of (q : Question) (snap : State) : option string :=
  match q with
  | QGender => gender snap
  | QAgeGroup => ageGroup snap
  | QInterest => interest snap
  | QReaction => reaction snap
  end.

(** ** Label tables of [onSubmitSurvey] *)

Definition genderLabels : gmap string string :=
  {[ "male" := "남성"; "female" := "여성" ]}.

Definition ageGroupLabels : gmap string string :=
  {[ "20-24" := "20~24세"; "25-29" := "25~29세"; "30-34" := "30~34세";
     "35-39" := "35~39세"; "40+" := "40세 이상" ]}.

Definition interestLabels : gmap string string :=
  {[ "yes" := "네, 참여하고 싶어요"; "maybe" := "생각해볼게요";
     "no" := "아직 잘 모르겠어요" ]}.

Definition reactionLabels : gmap string string :=
  {[ "love" := "완전 흥미로워요"; "curious" := "궁금해요, 어떻게 진행돼요?";
     "nervous" := "재밌긴 한데 조금 낯설어요"; "unknown" := "아직 잘 모르겠어요" ]}.

(** [table[k] || k]. *)
Definition label_or_key (table : gmap string string) (k : string) : string :=
  match table !! k with
  | Some l => str_or l k
  | None => k
  end.

(** The object [surveyData] built from the answers of a snapshot. *)
Definition surveyData (snap : State) : Props :=
  {[ "gender" := JStr (label_or_key genderLabels (default "" (gender snap)));
     "age_group" := JStr (label_or_key ageGroupLabels (default "" (ageGroup snap)));
     "interest" := JStr (label_or_key interestLabels (default "" (interest snap)));
     "reaction" := JStr (label_or_key reactionLabels (default "" (reaction snap))) ]}.

(** [!gender || !ageGroup || !interest || !reaction]. *)
Definition survey_incomplete (snap : State) : bool :=
  falsy_nullable (gender snap) || falsy_nullable (ageGroup snap)
  || falsy_nullable (interest snap) || falsy_nullable (reaction snap).

(** Messages shown by the survey. *)
Definition msg_answer_all : string := "모든 질문에 답변해주세요.".
Definition msg_survey_error : string :=
  "설문 제출 중 오류가 발생했습니다. 다시 시도해주세요.".

Section survey.
Context {S : Type} `{!Sdk S}.
Implicit Types (p : Page S) (snap : State) (item : Item).

(** ** Selecting an option *)

Definition onClick_gender snap item : JS (Page S) unit :=
  setGender (Some (key item));;
  when (negb (hasStartedSurvey snap))
    (inWorld (trackEvent "start survey" None);;
     setHasStartedSurvey true);;
  inWorld (trackEvent "select gender" (Some {[ "gender" := JStr (label item) ]}));;
  setProgress (Math_round (1 / 5 * 100)).

Definition onClick_ageGroup snap item : JS (Page S) unit :=
  setAgeGroup (Some (key item));;
  inWorld (trackEvent "select age group"
             (Some {[ "age_group" := JStr (label item) ]}));;
  setProgress (Math_round (2 / 5 * 100)).

Definition onClick_interest snap item : JS (Page S) unit :=
  setInterest (Some (key item));;
  inWorld (trackEvent "select interest"
             (Some {[ "interest" := JStr (label item) ]}));;
  setProgress (Math_round (3 / 5 * 100)).

Definition onClick_reaction snap item : JS (Page S) unit :=
  setReaction (Some (key item));;
  inWorld (trackEvent "select reaction"
             (Some {[ "reaction" := JStr (label item) ]}));;
  setProgress (Math_round (4 / 5 * 100)).

(** The [onClick] of the button of [item] under question [q]. *)
Definition onClick_option (q : Question) snap item : JS (Page S) unit :=
  match q with
  | QGender => onClick_gender snap item
  | QAgeGroup => onClick_ageGroup snap item
  | QInterest => onClick_interest snap item
  | QReaction => onClick_reaction snap item
  end.

(** ** Submitting *)

(** The [catch] block of [onSubmitSurvey]. *)
Definition survey_catch (error : JsError) : JS (Page S) unit :=
  inWorld (console_error "Error submitting survey:" (ArgError error));;
  inWorld (alert msg_survey_error).

(** The [finally] block of [onSubmitSurvey]. *)
Definition survey_finally : JS (Page S) unit := setIsSubmitting false.

(** [onSubmitSurvey] up to its [await]. *)
Definition onSubmitSurvey snap : JS (Page S) unit :=
  if survey_incomplete snap then inWorld (alert msg_answer_all)
  else
    setIsSubmitting true;;
    try_catch (setTimeout (SurveyAwait snap))
      (λ error, survey_catch error;; survey_finally).

(** [onSubmitSurvey] from its [await] on. *)
Definition onSubmitSurvey_resume snap (r : AwaitResult) : JS (Page S) unit :=
  try_finally
    (try_catch
       (await r;;
        inWorld (console_log "Survey submitted:" (ArgProps (surveyData snap)));;
        inWorld (trackEvent "submit survey" (Some (surveyData snap)));;
        setIsSubmitted true)
       survey_catch)
    survey_finally.

End survey.


(** The label table consulted for a question. *)
Definition labels_of (q : Question) : gmap string string :=
  match q with
  | QGender => genderLabels
  | QAgeGroup => ageGroupLabels
  | QInterest => interestLabels
  | QReaction => reactionLabels
  end.

(** The option of a list with a given key, if any. *)
Definition item_by_key (items : list Item) (k : string) : option Item :=
  head (filter (λ it, key it = k) items).

(** [snap] answers every question with the key of the chosen option. *)
Definition answered_with (snap : State) (choice : Question → Item) : Prop :=
  ∀ q, choice q ∈ items_of q ∧ answer_of q snap = Some (key (choice q)).

(** The properties that a complete submission must carry. *)
Definition labelsData (choice : Question → Item) : Props :=
  {[ "gender" := JStr (label (choice QGender));
     "age_group" := JStr (label (choice QAgeGroup));
     "interest" := JStr (label (choice QInterest));
     "reaction" := JStr (label (choice QReaction)) ]}.

(** The answers of a snapshot are keys of rendered options. *)
Definition answers_from_items (snap : State) : Prop :=
  ∀ q k, answer_of q snap = Some k → ∃ it, it ∈ items_of q ∧ key it = k.

(** ** The tables and the options agree *)

(** The label table of each question is the key-to-label map of its
    options. *)
Lemma labels_of_items q k :
  labels_of q !! k = label <$> item_by_key (items_of q) k.
Proof.
  destruct q;
    unfold labels_of, items_of, item_by_key, genderLabels, ageGroupLabels,
      interestLabels, reactionLabels, genderItems, ageGroupItems,
      interestItems, reactionItems;
    repeat (rewrite lookup_insert; case_decide; [by subst|]);
    (rewrite lookup_singleton; case_decide; [by subst|]);
    by rewrite !filter_cons_False, filter_nil by (simpl; congruence).
Qed.

Lemma item_by_key_elem items it :
  NoDup (key <$> items) → it ∈ items → item_by_key items (key it) = Some it.
Proof.
  unfold item_by_key. induction items as [|x l IH]; [by intros _ ?%elem_of_nil|].
  rewrite fmap_cons. intros [Hx Hnd]%NoDup_cons [->|Hin]%elem_of_cons.
  - by rewrite filter_cons_True.
  - rewrite filter_cons_False; [by apply IH|].
    intros Heq. apply Hx. rewrite Heq. by apply list_elem_of_fmap_2.
Qed.

Lemma items_NoDup q : NoDup (key <$> items_of q).
Proof. destruct q; by apply (bool_decide_unpack _); vm_compute. Qed.

(** A key that comes from a rendered option is translated to the label of
    that option: the fallback to the raw key is not taken. *)
Lemma label_or_key_item q it :
  it ∈ items_of q → label_or_key (labels_of q) (key it) = label it.
Proof.
  intros Hin. unfold label_or_key.
  rewrite labels_of_items, item_by_key_elem by auto using items_NoDup.
  simpl. apply str_or_truthy.
  destruct q; set_unfold; destruct_or?; simplify_eq; done.
Qed.

(** No label equals a key: a translated answer is never a raw key. *)
Lemma label_not_key q q' it it' :
  it ∈ items_of q → it' ∈ items_of q' → label it ≠ key it'.
Proof.
  intros Hin Hin'.
  destruct q, q'; set_unfold; destruct_or?; simplify_eq; done.
Qed.

(** The keys of the options are non-empty strings. *)
Lemma item_key_truthy q it : it ∈ items_of q → truthy_string (key it) = true.
Proof. intros Hin. destruct q; set_unfold; destruct_or?; simplify_eq; done. Qed.

Lemma surveyData_answered snap choice :
  answered_with snap choice → surveyData snap = labelsData choice.
Proof.
  intros H. unfold surveyData, labelsData.
  destruct (H QGender) as [Hg1 Hg2], (H QAgeGroup) as [Ha1 Ha2],
    (H QInterest) as [Hi1 Hi2], (H QReaction) as [Hr1 Hr2].
  simpl in Hg2, Ha2, Hi2, Hr2. rewrite Hg2, Ha2, Hi2, Hr2. simpl.
  by rewrite (label_or_key_item QGender), (label_or_key_item QAgeGroup),
    (label_or_key_item QInterest), (label_or_key_item QReaction).
Qed.

Lemma answered_complete snap choice :
  answered_with snap choice → survey_incomplete snap = false.
Proof.
  intros H. unfold survey_incomplete.
  destruct (H QGender) as [Hg1 Hg2], (H QAgeGroup) as [Ha1 Ha2],
    (H QInterest) as [Hi1 Hi2], (H QReaction) as [Hr1 Hr2].
  simpl in Hg2, Ha2, Hi2, Hr2. rewrite Hg2, Ha2, Hi2, Hr2. simpl.
  by rewrite (item_key_truthy QGender), (item_key_truthy QAgeGroup),
    (item_key_truthy QInterest), (item_key_truthy QReaction).
Qed.

(** A complete snapshot whose answers come from the options is answered
    with some choice of options. *)
Lemma complete_answered snap :
  answers_from_items snap → survey_incomplete snap = false →
  ∃ choice, answered_with snap choice.
Proof.
  intros Hfrom Hc. unfold survey_incomplete in Hc. split_andb.
  repeat match goal with
  | H : falsy_nullable _ = false |- _ =>
    apply falsy_nullable_false in H as (? & ? & _)
  end.
  destruct (Hfrom QGender _ ltac:(eassumption)) as (g & ? & ?).
  destruct (Hfrom QAgeGroup _ ltac:(eassumption)) as (a & ? & ?).
  destruct (Hfrom QInterest _ ltac:(eassumption)) as (i & ? & ?).
  destruct (Hfrom QReaction _ ltac:(eassumption)) as (r & ? & ?).
  exists (λ q, match q with
               | QGender => g | QAgeGroup => a | QInterest => i | QReaction => r
               end).
  intros []; simpl; (split; [done | congruence]).
Qed.

(** ** What the handlers do *)

Section survey_lemmas.
Context {S : Type} `{!Sdk S}.
Implicit Types (p : Page S) (snap : State) (item : Item).

(** The world after the console line and the event of a submission. *)
Definition submitted_world snap (w : World S) : World S :=
  after_track "submit survey" (Some (surveyData snap))
    (set_trace (trace w ++ [EConsole LLog "Survey submitted:"
                              (ArgProps (surveyData snap))]) w).

(** The world after [trackEvent("start survey")], when the latch is open. *)
Definition started_world snap (w : World S) : World S :=
  if hasStartedSurvey snap then w else after_track "start survey" None w.

Lemma onClick_gender_run snap item p :
  onClick_gender snap item p
  = (Normal tt,
     set_ref (Math_round (1 / 5 * 100))
       (set_world
          (after_track "select gender"
             (Some {[ "gender" := JStr (label item) ]})
             (started_world snap (world p)))
          (set_cells
             (if hasStartedSurvey snap
              then with_gender (Some (key item)) (cells p)
              else with_hasStartedSurvey true
                     (with_gender (Some (key item)) (cells p)))
             p))).
Proof.
  unfold onClick_gender, started_world. by destruct (hasStartedSurvey snap); handler_run.
Qed.

Lemma onClick_ageGroup_run snap item p :
  onClick_ageGroup snap item p
  = (Normal tt,
     set_ref (Math_round (2 / 5 * 100))
       (set_world
          (after_track "select age group"
             (Some {[ "age_group" := JStr (label item) ]}) (world p))
          (set_cells (with_ageGroup (Some (key item)) (cells p)) p))).
Proof. unfold onClick_ageGroup. by handler_run. Qed.

Lemma onClick_interest_run snap item p :
  onClick_interest snap item p
  = (Normal tt,
     set_ref (Math_round (3 / 5 * 100))
       (set_world
          (after_track "select interest"
             (Some {[ "interest" := JStr (label item) ]}) (world p))
          (set_cells (with_interest (Some (key item)) (cells p)) p))).
Proof. unfold onClick_interest. by handler_run. Qed.

Lemma onClick_reaction_run snap item p :
  onClick_reaction snap item p
  = (Normal tt,
     set_ref (Math_round (4 / 5 * 100))
       (set_world
          (after_track "select reaction"
             (Some {[ "reaction" := JStr (label item) ]}) (world p))
          (set_cells (with_reaction (Some (key item)) (cells p)) p))).
Proof. unfold onClick_reaction. by handler_run. Qed.

(** An incomplete survey is rejected: one alert, nothing else. *)
Lemma onSubmitSurvey_incomplete snap p :
  survey_incomplete snap = true →
  onSubmitSurvey snap p
  = (Normal tt,
     set_world (set_trace (ptrace p ++ [EAlert msg_answer_all]) (world p)) p).
Proof. intros H. unfold onSubmitSurvey. rewrite H. by handler_run. Qed.

(** A complete survey starts the submission: the flag is raised and the
    timer is set with the snapshot. *)
Lemma onSubmitSurvey_complete snap p :
  survey_incomplete snap = false →
  onSubmitSurvey snap p
  = (Normal tt,
     set_timers (timers p ++ [SurveyAwait snap])
       (set_cells (with_isSubmitting true (cells p)) p)).
Proof. intros H. unfold onSubmitSurvey. rewrite H. by handler_run. Qed.

(** When the wait ends normally the answers are logged and sent, and the
    survey is marked submitted. *)
Lemma onSubmitSurvey_resume_fulfilled snap p :
  onSubmitSurvey_resume snap Fulfilled p
  = (Normal tt,
     set_cells (with_isSubmitting false (with_isSubmitted true (cells p)))
       (set_world (submitted_world snap (world p)) p)).
Proof.
  unfold onSubmitSurvey_resume, survey_catch, survey_finally, submitted_world.
  by handler_run.
Qed.

(** When the wait fails the error is logged, an alert is shown, and the
    survey stays unsubmitted with its answers. *)
Lemma onSubmitSurvey_resume_rejected snap p :
  onSubmitSurvey_resume snap Rejected p
  = (Normal tt,
     set_cells (with_isSubmitting false (cells p))
       (set_world
          (set_trace
             (ptrace p ++ [EConsole LError "Error submitting survey:"
                             (ArgError Rejection);
                           EAlert msg_survey_error])
             (world p))
          p)).
Proof.
  unfold onSubmitSurvey_resume, survey_catch, survey_finally.
  handler_run. by rewrite <- app_assoc.
Qed.

End survey_lemmas.

(** ** Properties of the survey handlers *)

(** A snapshot with all four questions answered, and the options chosen. *)
Definition demo_snap : State :=
  with_reaction (Some "love")
    (with_interest (Some "yes")
       (with_ageGroup (Some "25-29") (with_gender (Some "male") initial_state))).

Definition demo_choice (q : Question) : Item :=
  match q with
  | QGender => mkItem "male" None "남성"
  | QAgeGroup => mkItem "25-29" None "25~29세"
  | QInterest => mkItem "yes" None "네, 참여하고 싶어요"
  | QReaction => mkItem "love" (Some "❤️") "완전 흥미로워요"
  end.

Lemma demo_answered : answered_with demo_snap demo_choice.
Proof. intros []; (split; [by apply (bool_decide_unpack _) | done]). Defined.

Section survey_properties.
Context {S : Type} {sdkS : Sdk S}.
Implicit Types (p : Page S) (snap : State) (item : Item).

(** C1: when the simulated call of a complete survey ends, exactly one
    "submit survey" event is sent; its properties are the labels shown on
    the chosen buttons (never the raw keys) together with the stored
    anonymous identifier, and the survey ends up submitted and no longer
    submitting. *)
Theorem submit_sends_labels snap choice p :
  answered_with snap choice → healthy (world p) →
  let p' := exec (onSubmitSurvey_resume snap Fulfilled) p in
  ∃ id, stored_id (world p') = Some id ∧
    tracked "submit survey" (ptrace p')
    = tracked "submit survey" (ptrace p)
        ++ [<["anonymous_user_id" := JStr id]> (labelsData choice)] ∧
    isSubmitted (cells p') = true ∧ isSubmitting (cells p') = false.
Proof.
  intros Hans Hh. unfold exec. rewrite onSubmitSurvey_resume_fulfilled.
  cbn [snd]. unfold ptrace, submitted_world. cbn [world set_cells set_world cells].
  edestruct (tracked_after_track "submit survey" (Some (surveyData snap)))
    as (id & Hid & _ & _ & Htr); [by apply healthy_set_trace|].
  exists id. split; [exact Hid|]. rewrite Htr. split; [|done].
  cbn [trace set_trace]. rewrite tracked_app, app_nil_r.
  unfold with_identity. by rewrite (surveyData_answered snap choice).
Qed.

(** C6: submitting while a question is unanswered is rejected before
    anything else happens: one alert, no SDK call, no timer, no change of
    the cells. *)
Theorem incomplete_survey_rejected snap p :
  survey_incomplete snap = true →
  let p' := exec (onSubmitSurvey snap) p in
  ptrace p' = ptrace p ++ [EAlert msg_answer_all] ∧
  cells p' = cells p ∧ timers p' = timers p ∧
  surveyProgressRef p' = surveyProgressRef p.
Proof. intros H. unfold exec. by rewrite onSubmitSurvey_incomplete. Qed.

(** A failed submission returns the survey to a state from which it
    can be retried: the error is logged and shown, the submitting flag is
    cleared, the answers and the submitted flag are as before and nothing is
    sent. *)
Theorem failed_submission_retryable snap p :
  let p' := exec (onSubmitSurvey_resume snap Rejected) p in
  isSubmitting (cells p') = false ∧
  isSubmitted (cells p') = isSubmitted (cells p) ∧
  (∀ q, answer_of q (cells p') = answer_of q (cells p)) ∧
  alerts (ptrace p') = alerts (ptrace p) ++ [msg_survey_error] ∧
  count_if is_call (ptrace p') = count_if is_call (ptrace p).
Proof.
  unfold exec. rewrite onSubmitSurvey_resume_rejected. cbn [snd].
  split_and!; [done | done | by intros [] | |].
  - unfold ptrace. cbn. by rewrite alerts_app.
  - unfold ptrace. cbn. rewrite count_if_app. simpl. lia.
Qed.

End survey_properties.

Lemma submit_sends_labels_witness :
  ∃ id, stored_id (world (exec (onSubmitSurvey_resume demo_snap Fulfilled)
                            (initial_page demo_world))) = Some id ∧
    tracked "submit survey"
      (ptrace (exec (onSubmitSurvey_resume demo_snap Fulfilled)
                 (initial_page demo_world)))
    = tracked "submit survey" (ptrace (initial_page demo_world))
        ++ [<["anonymous_user_id" := JStr id]> (labelsData demo_choice)] ∧
    isSubmitted (cells (exec (onSubmitSurvey_resume demo_snap Fulfilled)
                          (initial_page demo_world))) = true ∧
    isSubmitting (cells (exec (onSubmitSurvey_resume demo_snap Fulfilled)
                           (initial_page demo_world))) = false.
Proof.
  apply (submit_sends_labels (sdkS:=quietSdk) demo_snap demo_choice
           (initial_page demo_world) demo_answered).
  by vm_compute.
Defined.

Lemma incomplete_survey_rejected_witness :
  ptrace (exec (onSubmitSurvey (with_gender (Some "male") initial_state))
            (initial_page demo_world))
  = ptrace (initial_page demo_world) ++ [EAlert msg_answer_all] ∧
  cells (exec (onSubmitSurvey (with_gender (Some "male") initial_state))
           (initial_page demo_world)) = cells (initial_page demo_world) ∧
  timers (exec (onSubmitSurvey (with_gender (Some "male") initial_state))
            (initial_page demo_world)) = timers (initial_page demo_world) ∧
  surveyProgressRef (exec (onSubmitSurvey (with_gender (Some "male") initial_state))
            (initial_page demo_world))
  = surveyProgressRef (initial_page demo_world).
Proof.
  apply (incomplete_survey_rejected
           (with_gender (Some "male") initial_state) (initial_page demo_world)).
  reflexivity.
Defined.

(** ** The handlers do not throw *)

Section survey_no_throw.
Context {S : Type} `{!Sdk S}.
Implicit Types (p : Page S) (snap : State) (item : Item).

Lemma no_throw_onClick_option q snap item :
  no_throw (onClick_option (S:=S) q snap item).
Proof.
  intros p. unfold outcome. exists tt.
  destruct q; simpl;
    by rewrite ?onClick_gender_run, ?onClick_ageGroup_run,
      ?onClick_interest_run, ?onClick_reaction_run.
Qed.

Lemma no_throw_onSubmitSurvey snap : no_throw (onSubmitSurvey (S:=S) snap).
Proof.
  intros p. unfold outcome. exists tt. destruct (survey_incomplete snap) eqn:H.
  - by rewrite onSubmitSurvey_incomplete.
  - by rewrite onSubmitSurvey_complete.
Qed.

Lemma no_throw_onSubmitSurvey_resume snap r :
  no_throw (onSubmitSurvey_resume (S:=S) snap r).
Proof.
  intros p. unfold outcome. exists tt.
  destruct r; by rewrite ?onSubmitSurvey_resume_fulfilled,
    ?onSubmitSurvey_resume_rejected.
Qed.

End survey_no_throw.

#[export] Hint Resolve no_throw_onClick_option no_throw_onSubmitSurvey
  no_throw_onSubmitSurvey_resume : js.
