(* ===== verification/Signup.v ===== *)
(** * The signup flow

    [onSubmit] (page.tsx 187-226) reads the contact string, rejects blank
    input, classifies the contact, emits one event, waits for the simulated
    call and then shows a success view that a timer hides again.  The
    handler is split at its [await] like [onSubmitSurvey]. *)

From S2P Require Import Prelude JsString JsValue Effects Browser Identity.
From S2P Require Import Tracking PageState.

#[local] Open Scope string_scope.
#[local] Open Scope list_scope.
#[local] Open Scope nat_scope.

(** Messages shown by the signup form. *)
Definition msg_enter_contact : string := "이메일 또는 ID를 입력해주세요.".
Definition msg_signup_error : string :=
  "알림받기 설정 중 오류가 발생했습니다. 다시 시도해주세요.".

(** [emailOrId.trim()]. *)
Definition contactValue_of (snap : State) : string := trim (emailOrId snap).

(** [hasEmail ? "email" : (contactValue.length > 0 ? "instagram_id" : "kakao_id")]. *)
Definition contactType_of (contactValue : string) : string :=
  if includes "@" contactValue then "email"
  else if 0 <? String.length contactValue then "instagram_id"
  else "kakao_id".

(** The properties of the "submit interest" event. *)
Definition interestProps (contactValue : string) : Props :=
  {[ "contact_type" := JStr (contactType_of contactValue);
     "contact_value" := JStr contactValue;
     "has_value" := JBool (0 <? String.length contactValue) ]}.

Section signup.
Context {S : Type} `{!Sdk S}.
Implicit Types (p : Page S) (snap : State).

(** The [catch] block of [onSubmit]. *)
Definition signup_catch (error : JsError) : JS (Page S) unit :=
  inWorld (console_error "Error submitting interest:" (ArgError error));;
  inWorld (alert msg_signup_error).

(** The [finally] block of [onSubmit]. *)
Definition signup_finally : JS (Page S) unit := setIsInterestSubmitting false.

(** [onSubmit] up to its [await]. *)
Definition onSubmit snap : JS (Page S) unit :=
  let contactValue := contactValue_of snap in
  if negb (truthy_string contactValue) then inWorld (alert msg_enter_contact)
  else
    setIsInterestSubmitting true;;
    try_catch
      (inWorld (trackEvent "submit interest" (Some (interestProps contactValue)));;
       setTimeout SignupAwait)
      (λ error, signup_catch error;; signup_finally).

(** [onSubmit] from its [await] on. *)
Definition onSubmit_resume (r : AwaitResult) : JS (Page S) unit :=
  try_finally
    (try_catch
       (await r;;
        setIsInterestSubmitted true;;
        setEmailOrId "";;
        setTimeout HideSuccess)
       signup_catch)
    signup_finally.

(** The callback of the timer that hides the success view. *)
Definition hideSuccess : JS (Page S) unit := setIsInterestSubmitted false.

(** [onChange] of the input. *)
Definition onChange_input (text : string) : JS (Page S) unit :=
  setEmailOrId text.

End signup.

(** ** Classifying the contact *)

Lemma truthy_length s : (0 <? String.length s) = truthy_string s.
Proof. by destruct s. Qed.

(** Past the validation the contact is an email address or an Instagram
    id: the third label is never produced. *)
Lemma contactType_of_valid v :
  truthy_string v = true →
  contactType_of v = if includes "@" v then "email" else "instagram_id".
Proof. intros H. unfold contactType_of. by rewrite truthy_length, H. Qed.

(** The at sign survives trimming: the class of the contact can be read
    off the input as it was typed. *)
Lemma includes_at_trim s : includes "@" (trim s) = includes "@" s.
Proof. by apply includes1_trim. Qed.

(** The properties of the event sent for a non-blank input. *)
Lemma interestProps_valid v :
  truthy_string v = true →
  interestProps v
  = {[ "contact_type" := JStr (if includes "@" v then "email" else "instagram_id");
       "contact_value" := JStr v;
       "has_value" := JBool true ]}.
Proof.
  intros H. unfold interestProps. by rewrite contactType_of_valid, truthy_length, H.
Qed.

(** A contact is classified as an e-mail address exactly when an at
    sign occurs in it, wherever it is. *)
Theorem contactType_email_iff v :
  contactType_of v = "email" ↔ ∃ a b, v = (a ++ "@" ++ b)%string.
Proof.
  rewrite <- includes_spec. unfold contactType_of.
  destruct (includes "@" v); [done|]. by destruct (0 <? String.length v).
Qed.

(** The input is blank exactly when it consists of white space. *)
Lemma contactValue_blank snap :
  truthy_string (contactValue_of snap) = negb (all_ws (emailOrId snap)).
Proof. apply trim_truthy. Qed.

(** ** What the handlers do *)

Section signup_lemmas.
Context {S : Type} `{!Sdk S}.
Implicit Types (p : Page S) (snap : State).

(** The world after the event of a signup. *)
Definition interest_world snap (w : World S) : World S :=
  after_track "submit interest" (Some (interestProps (contactValue_of snap))) w.

(** Blank input is rejected: one alert, nothing else. *)
Lemma onSubmit_blank snap p :
  truthy_string (contactValue_of snap) = false →
  onSubmit snap p
  = (Normal tt,
     set_world (set_trace (ptrace p ++ [EAlert msg_enter_contact]) (world p)) p).
Proof. intros H. unfold onSubmit. rewrite H. by handler_run. Qed.

(** Other input starts the signup: the flag is raised, the event is sent
    and the timer is set. *)
Lemma onSubmit_valid snap p :
  truthy_string (contactValue_of snap) = true →
  onSubmit snap p
  = (Normal tt,
     set_timers (timers p ++ [SignupAwait])
       (set_world (interest_world snap (world p))
          (set_cells (with_isInterestSubmitting true (cells p)) p))).
Proof.
  intros H. unfold onSubmit, interest_world. rewrite H. by handler_run.
Qed.

(** When the wait ends normally the success view is shown, the input is
    cleared and the hiding timer is set. *)
Lemma onSubmit_resume_fulfilled p :
  onSubmit_resume Fulfilled p
  = (Normal tt,
     set_cells
       (with_isInterestSubmitting false
          (with_emailOrId "" (with_isInterestSubmitted true (cells p))))
       (set_timers (timers p ++ [HideSuccess]) p)).
Proof. unfold onSubmit_resume, signup_catch, signup_finally. by handler_run. Qed.

(** When the wait fails the error is logged and shown; the input stays. *)
Lemma onSubmit_resume_rejected p :
  onSubmit_resume Rejected p
  = (Normal tt,
     set_cells (with_isInterestSubmitting false (cells p))
       (set_world
          (set_trace
             (ptrace p ++ [EConsole LError "Error submitting interest:"
                             (ArgError Rejection);
                           EAlert msg_signup_error])
             (world p))
          p)).
Proof.
  unfold onSubmit_resume, signup_catch, signup_finally.
  handler_run. by rewrite <- app_assoc.
Qed.

End signup_lemmas.

(** ** Properties of the signup handlers *)

(** Snapshots in which an email address and an Instagram id were typed,
    with surrounding white space. *)
Definition demo_email_snap : State :=
  with_emailOrId "  me@example.com " initial_state.

Definition demo_id_snap : State := with_emailOrId "blind.date" initial_state.

Section signup_properties.
Context {S : Type} {sdkS : Sdk S}.
Implicit Types (p : Page S) (snap : State).

(** C2: submitting a non-blank contact sends exactly one "submit interest"
    event; it carries the trimmed input, the class "email" when the input
    holds an at sign and "instagram_id" otherwise (never "kakao_id"),
    [has_value] true and the stored identifier; the submitting flag is
    raised and the one-second timer is pending. *)
Theorem signup_sends_contact snap p :
  all_ws (emailOrId snap) = false → healthy (world p) →
  let p' := exec (onSubmit snap) p in
  ∃ id, stored_id (world p') = Some id ∧
    tracked "submit interest" (ptrace p')
    = tracked "submit interest" (ptrace p)
        ++ [<["anonymous_user_id" := JStr id]>
              {[ "contact_type" :=
                   JStr (if includes "@" (emailOrId snap)
                         then "email" else "instagram_id");
                 "contact_value" := JStr (trim (emailOrId snap));
                 "has_value" := JBool true ]}] ∧
    timers p' = timers p ++ [SignupAwait] ∧
    isInterestSubmitting (cells p') = true.
Proof.
  intros Hws Hh.
  assert (truthy_string (contactValue_of snap) = true) as Hv
    by (by rewrite contactValue_blank, Hws).
  unfold exec. rewrite onSubmit_valid by done. cbn [snd].
  unfold ptrace, interest_world. cbn [world set_timers set_world set_cells cells timers].
  edestruct (tracked_after_track "submit interest"
               (Some (interestProps (contactValue_of snap))))
    as (id & Hid & _ & _ & Htr); [exact Hh|].
  exists id. split; [exact Hid|]. rewrite Htr. split; [|done].
  unfold with_identity. cbn [spread_opt default].
  rewrite interestProps_valid by done. unfold contactValue_of.
  by rewrite includes_at_trim.
Qed.

(** C7: submitting a blank contact (empty or white space only) is rejected
    before anything else happens: one alert, no SDK call, no timer, no
    change of the cells. *)
Theorem blank_contact_rejected snap p :
  all_ws (emailOrId snap) = true →
  let p' := exec (onSubmit snap) p in
  ptrace p' = ptrace p ++ [EAlert msg_enter_contact] ∧
  cells p' = cells p ∧ timers p' = timers p.
Proof.
  intros Hws. unfold exec. rewrite onSubmit_blank; [done|].
  by rewrite contactValue_blank, Hws.
Qed.

(** When the simulated call of a signup ends, the success view is
    shown, the input is cleared, the submitting flag is lowered and the
    three-second timer that hides the view is pending; when it fails, the
    error is shown, the flag is lowered and the input is kept. *)
Theorem signup_completion p :
  let ok := exec (onSubmit_resume Fulfilled) p in
  let ko := exec (onSubmit_resume Rejected) p in
  (isInterestSubmitted (cells ok) = true ∧ emailOrId (cells ok) = "" ∧
   isInterestSubmitting (cells ok) = false ∧
   timers ok = timers p ++ [HideSuccess] ∧ ptrace ok = ptrace p) ∧
  (isInterestSubmitted (cells ko) = isInterestSubmitted (cells p) ∧
   emailOrId (cells ko) = emailOrId (cells p) ∧
   isInterestSubmitting (cells ko) = false ∧ timers ko = timers p ∧
   alerts (ptrace ko) = alerts (ptrace p) ++ [msg_signup_error]).
Proof.
  unfold exec. rewrite onSubmit_resume_fulfilled, onSubmit_resume_rejected.
  cbn [snd]. split; [done|]. split_and!; try done.
  unfold ptrace. cbn. by rewrite alerts_app.
Qed.

End signup_properties.

Lemma signup_sends_contact_witness :
  ∃ id, stored_id (world (exec (onSubmit demo_email_snap)
                            (initial_page demo_world))) = Some id ∧
    tracked "submit interest"
      (ptrace (exec (onSubmit demo_email_snap) (initial_page demo_world)))
    = tracked "submit interest" (ptrace (initial_page demo_world))
        ++ [<["anonymous_user_id" := JStr id]>
              {[ "contact_type" := JStr "email";
                 "contact_value" := JStr "me@example.com";
                 "has_value" := JBool true ]}] ∧
    timers (exec (onSubmit demo_email_snap) (initial_page demo_world))
    = timers (initial_page demo_world) ++ [SignupAwait] ∧
    isInterestSubmitting
      (cells (exec (onSubmit demo_email_snap) (initial_page demo_world))) = true.
Proof.
  apply (signup_sends_contact (sdkS:=quietSdk) demo_email_snap
           (initial_page demo_world)); by vm_compute.
Defined.

Lemma blank_contact_rejected_witness :
  ptrace (exec (onSubmit (with_emailOrId "   " initial_state))
            (initial_page demo_world))
  = ptrace (initial_page demo_world) ++ [EAlert msg_enter_contact] ∧
  cells (exec (onSubmit (with_emailOrId "   " initial_state))
           (initial_page demo_world)) = cells (initial_page demo_world) ∧
  timers (exec (onSubmit (with_emailOrId "   " initial_state))
            (initial_page demo_world)) = timers (initial_page demo_world).
Proof.
  apply (blank_contact_rejected (with_emailOrId "   " initial_state)
           (initial_page demo_world)).
  reflexivity.
Defined.

(** ** The handlers do not throw *)

Section signup_no_throw.
Context {S : Type} `{!Sdk S}.
Implicit Types (p : Page S) (snap : State).

Lemma no_throw_onSubmit snap : no_throw (onSubmit (S:=S) snap).
Proof.
  intros p. unfold outcome. exists tt.
  destruct (truthy_string (contactValue_of snap)) eqn:H.
  - by rewrite onSubmit_valid.
  - by rewrite onSubmit_blank.
Qed.

Lemma no_throw_onSubmit_resume r : no_throw (onSubmit_resume (S:=S) r).
Proof.
  intros p. unfold outcome. exists tt.
  destruct r; by rewrite ?onSubmit_resume_fulfilled, ?onSubmit_resume_rejected.
Qed.

End signup_no_throw.

#[export] Hint Resolve no_throw_onSubmit no_throw_onSubmit_resume : js.
