(* ===== verification/Observer.v ===== *)
(** * The effect: SDK initialisation and the two window listeners

    The [useEffect] of page.tsx 70-123 initialises the SDK, emits the page
    view, and installs [handleScroll] and [handleBeforeUnload] on the window.
    Its dependencies are three cells; when one of them changes React runs the
    cleanup (removing both listeners) and the whole body again, so the
    listeners always close over the snapshot of the render that installed
    them. *)

From S2P Require Import Prelude JsString JsValue Effects Browser Identity.
From S2P Require Import Tracking PageState.

#[local] Open Scope string_scope.
#[local] Open Scope list_scope.
#[local] Open Scope nat_scope.

(** What [handleScroll] reads from the window and the document. *)
Record ScrollMetrics : Type := mkScroll {
  innerHeight : float;         (* window.innerHeight *)
  scrollHeight : float;        (* document.documentElement.scrollHeight *)
  scrollY : float;             (* window.scrollY *)
  docScrollTop : float;        (* document.documentElement.scrollTop *)
}.

#[export] Instance ScrollMetrics_eq_dec : EqDecision ScrollMetrics.
Proof. solve_decision. Defined.

(** [window.scrollY || document.documentElement.scrollTop]. *)
Definition scrollTop_of (m : ScrollMetrics) : float :=
  num_or (scrollY m) (docScrollTop m).

(** [(scrollTop / (documentHeight - windowHeight)) * 100]. *)
Definition scrollPercent (m : ScrollMetrics) : float :=
  (scrollTop_of m / (scrollHeight m - innerHeight m) * 100)%float.

(** The dependencies of the effect that can change. *)
Definition effect_deps (st : State) : bool * bool * bool :=
  (scrollDepthTracked st, hasStartedSurvey st, isSubmitted st).

Definition msg_init_failed : string := "Amplitude 초기화 실패:".

Section observer.
Context {S : Type} `{!Sdk S}.
Implicit Types (p : Page S) (snap : State).

Definition handleScroll snap (m : ScrollMetrics) : JS (Page S) unit :=
  if scrollDepthTracked snap then mret tt
  else
    when (num_ge (scrollPercent m) 50)
      (inWorld (trackEvent "scroll depth" (Some {[ "depth_percent" := JNum 50 ]}));;
       setScrollDepthTracked true).

Definition handleBeforeUnload snap : JS (Page S) unit :=
  when (hasStartedSurvey snap && negb (isSubmitted snap))
    (progress ← gets surveyProgressRef;
     inWorld (trackEvent "abandon survey"
                (Some {[ "progress_percent" := JNum progress ]}))).

(** The part of the effect that talks to the SDK. *)
Definition initAmplitude : JS (World S) unit :=
  w ← get_st;
  when (apiKey_configured w)
    (try_catch
       (amplitude_init (apiKey_of w);;
        anonymousUserId ← getOrCreateAnonymousUserId;
        amplitude_setUserId anonymousUserId;;
        trackEvent "view landing" None;;
        console_log ("익명 사용자 ID: " ++ anonymousUserId)%string ArgNone)
       (λ error, console_warn msg_init_failed (ArgError error))).

(** [window.addEventListener] for the pair of listeners created by the
    render with snapshot [snap]. *)
Definition addEventListeners snap : JS (Page S) unit :=
  modify (λ p, set_installed (installed p ++ [snap]) p).

(** [window.removeEventListener] for that pair: the first registration of
    these listeners goes away, if there is one. *)
Definition removeEventListeners snap : JS (Page S) unit :=
  modify (λ p, set_installed (list_remove_first snap (installed p)) p).

(** The body of the effect, run by the render with snapshot [snap]: the
    listeners it installs close over [snap], and so does the cleanup that
    React keeps. *)
Definition effect_body snap : JS (Page S) unit :=
  inWorld initAmplitude;;
  addEventListeners snap;;
  modify (set_cleanup (Some snap)).

(** The cleanup returned by the run of the effect with snapshot [snap]. *)
Definition effect_cleanup snap : JS (Page S) unit := removeEventListeners snap.

End observer.

(** ** Scroll arithmetic *)

(** A page 2400 tall in a window 800 tall, scrolled by 800: exactly half. *)
Lemma scrollPercent_half :
  scrollPercent (mkScroll 800 2400 800 0) = 50%float.
Proof. reflexivity. Qed.

(** [scrollY] of zero falls through to [scrollTop] of the document. *)
Lemma scrollTop_fallback y :
  scrollTop_of (mkScroll 800 2400 0 y) = y.
Proof. reflexivity. Qed.


(** A page 2400 tall in a window 800 tall, scrolled to the middle and back
    to the top. *)
Definition at_half : ScrollMetrics := mkScroll 800 2400 800 0.
Definition at_top : ScrollMetrics := mkScroll 800 2400 0 0.

(** ** What the listeners and the effect do *)

(** The scroll listener created by [snap] sends the event for [m]. *)
Definition scroll_fires (snap : State) (m : ScrollMetrics) : bool :=
  negb (scrollDepthTracked snap) && num_ge (scrollPercent m) 50.

(** The unload listener created by [snap] sends the event. *)
Definition abandon_fires (snap : State) : bool :=
  hasStartedSurvey snap && negb (isSubmitted snap).

Section observer_lemmas.
Context {S : Type} `{!Sdk S}.
Implicit Types (p : Page S) (snap : State) (w : World S).

Lemma handleScroll_run snap m p :
  handleScroll snap m p
  = (Normal tt,
     if scroll_fires snap m
     then set_cells (with_scrollDepthTracked true (cells p))
            (set_world
               (after_track "scroll depth"
                  (Some {[ "depth_percent" := JNum 50 ]}) (world p))
               p)
     else p).
Proof.
  unfold handleScroll, scroll_fires.
  destruct (scrollDepthTracked snap), (num_ge (scrollPercent m) 50);
    by handler_run.
Qed.

Lemma handleBeforeUnload_run snap p :
  handleBeforeUnload snap p
  = (Normal tt,
     if abandon_fires snap
     then set_world
            (after_track "abandon survey"
               (Some {[ "progress_percent" := JNum (surveyProgressRef p) ]})
               (world p))
            p
     else p).
Proof.
  unfold handleBeforeUnload, abandon_fires.
  destruct (hasStartedSurvey snap && negb (isSubmitted snap)); by handler_run.
Qed.

(** A failure of the SDK or of storage during initialisation is caught. *)
Lemma initAmplitude_no_throw : no_throw (initAmplitude (S:=S)).
Proof.
  unfold initAmplitude. apply no_throw_bind; [by eexists|]. intros w.
  apply no_throw_when, try_catch_no_throw. intros e. apply no_throw_emit.
Qed.

(** The world that the initialisation leaves. *)
Definition init_world w : World S := exec initAmplitude w.

Lemma initAmplitude_run w : initAmplitude w = (Normal tt, init_world w).
Proof.
  unfold init_world, exec. destruct (initAmplitude_no_throw w) as [[] H].
  unfold outcome in H. destruct (initAmplitude w) as [o w']. simpl in *.
  by subst.
Qed.

Lemma init_world_unconfigured w :
  apiKey_configured w = false → init_world w = w.
Proof. intros H. unfold init_world, exec, initAmplitude. by js_run. Qed.

(** In a working browser with a reliable SDK the initialisation configures
    the SDK, names the user, sends the page view and logs the identifier,
    in this order. *)
Lemma init_world_healthy `{!Reliable S} w :
  healthy w →
  ∃ id, stored_id (init_world w) = Some id ∧ id ≠ "" ∧
    (∀ id0, stored_id w = Some id0 → id0 ≠ "" → id = id0) ∧
    trace (init_world w)
    = trace w ++ [ECall (SdkInit (apiKey_of w)); ECall (SdkSetUserId id);
                  ECall (SdkTrack "view landing" (with_identity None id));
                  EConsole LLog ("익명 사용자 ID: " ++ id)%string ArgNone].
Proof.
  intros (Hk & Hw & Hb). unfold init_world, exec, initAmplitude.
  unfold amplitude_init, amplitude_setUserId. js_unfold. rewrite Hk.
  rewrite sdk_call_reliable. cbn [fst snd].
  set (w0 := set_sdk _ _).
  destruct (getOrCreateAnonymousUserId w0) as [[id|e] w1] eqn:Hg.
  2:{ apply getOrCreate_throws in Hg as (_ & _ & Hb'). cbn in Hb'. congruence. }
  destruct (getOrCreate_stores w0 id w1 Hw Hg) as [Hid Hne].
  pose proof (getOrCreate_frame w0) as Hf. unfold exec in Hf. rewrite Hg in Hf.
  cbn in Hf. destruct Hf as (Ht & _ & He & Hwd & Hbl & _).
  rewrite sdk_call_reliable. cbn [fst snd]. set (w2 := set_sdk _ _).
  assert (healthy w2) as Hh2.
  { unfold healthy, apiKey_configured, apiKey_of in *. cbn. by rewrite He, Hwd, Hbl. }
  destruct (after_track_reliable "view landing" None w2 Hh2)
    as (id2 & Hid2 & _ & Hsame & Htr).
  assert (id2 = id) as -> by (by apply Hsame).
  rewrite trackEvent_run. cbn. exists id. split_and!; [done | done | |].
  - intros id0 Hid0 Hne0.
    rewrite (getOrCreate_existing w0 id0) in Hg; [by injection Hg as <- _|done..].
  - rewrite Htr. cbn. rewrite Ht. cbn. by rewrite <- !app_assoc.
Qed.

(** C9: a failure of the initialisation is contained: when
    [amplitude.init] throws, the effect logs one warning and goes on; the
    identifier is not read or created, and no event is sent. *)
Theorem init_failure_contained w :
  apiKey_configured w = true →
  (sdk_step (SdkInit (apiKey_of w)) (sdk w)).2 = true →
  initAmplitude w
  = (Normal tt,
     set_sdk (sdk_step (SdkInit (apiKey_of w)) (sdk w)).1
       (set_trace
          (trace w ++ [ECall (SdkInit (apiKey_of w));
                       EConsole LWarn msg_init_failed (ArgError SdkError)])
          w)).
Proof.
  intros Hk Ht. unfold initAmplitude, amplitude_init. js_unfold. rewrite Hk.
  rewrite sdk_call_run. destruct (sdk_step _ (sdk w)) as [s' threw].
  simpl in Ht. subst threw. world_simpl. by rewrite <- app_assoc.
Qed.

(** C8: a scroll listener sends nothing and changes nothing when the
    render that created it saw the latch up, or when the position is below
    the middle of the page (or is not a number). *)
Theorem handleScroll_silent snap m p :
  scrollDepthTracked snap = true ∨ num_ge (scrollPercent m) 50 = false →
  handleScroll snap m p = (Normal tt, p).
Proof.
  intros H. rewrite handleScroll_run. unfold scroll_fires.
  by destruct H as [-> | ->]; rewrite ?andb_false_r.
Qed.

(** C5: the unload listener of a render that saw the survey started and
    not submitted sends one "abandon survey" event; the progress that it
    carries is the value of the ref when the page is left, not when the
    listener was created. *)
Theorem unload_reports_current_progress snap p :
  healthy (world p) → hasStartedSurvey snap = true → isSubmitted snap = false →
  ∃ id, tracked "abandon survey" (ptrace (exec (handleBeforeUnload snap) p))
        = tracked "abandon survey" (ptrace p)
            ++ [<["anonymous_user_id" := JStr id]>
                  {[ "progress_percent" := JNum (surveyProgressRef p) ]}].
Proof.
  intros Hh Hs Hd. unfold exec. rewrite handleBeforeUnload_run.
  unfold abandon_fires. rewrite Hs, Hd. cbn [andb negb snd].
  edestruct (tracked_after_track "abandon survey"
               (Some {[ "progress_percent" := JNum (surveyProgressRef p) ]}))
    as (id & _ & _ & _ & Htr); [exact Hh|].
  exists id. unfold ptrace. cbn [world set_world]. by rewrite Htr.
Qed.

(** ** Framing *)

Lemma frame_initAmplitude : preserves frame (initAmplitude (S:=S)).
Proof. unfold initAmplitude. preserves_auto. Qed.

(** The initialisation keeps a stored identifier and names it to the SDK. *)
Lemma keeps_initAmplitude id : preserves (keeps id) (initAmplitude (S:=S)).
Proof. unfold initAmplitude. preserves_auto. Qed.

(** A respected relation that the initialisation preserves as well. *)
Class RespectedInit (R : relation (World S)) : Prop := {
  #[global] respected_init_respected :: Respected R;
  respected_init : preserves R (initAmplitude (S:=S));
}.

#[export] Instance frame_respected_init : RespectedInit frame.
Proof. split; [apply _ | apply frame_initAmplitude]. Qed.

#[export] Instance keeps_respected_init id : RespectedInit (keeps id).
Proof. split; [apply _ | apply keeps_initAmplitude]. Qed.

(** ** What the initialisation appends to the trace *)

(** At most one page view is sent. *)
Lemma emits_initAmplitude_view :
  emits_le trace (is_track "view landing") 1 (initAmplitude (S:=S)).
Proof. unfold initAmplitude. emits_auto. Qed.

(** No other event is sent. *)
Lemma emits_initAmplitude_other n :
  n ≠ "view landing" → emits_le trace (is_track n) 0 (initAmplitude (S:=S)).
Proof. intros Hn. unfold initAmplitude. emits_auto. Qed.

(** No alert is shown. *)
Lemma emits_initAmplitude_alert :
  emits_le trace is_alert 0 (initAmplitude (S:=S)).
Proof. unfold initAmplitude. emits_auto. Qed.

(** At most three calls reach the SDK. *)
Lemma emits_initAmplitude_call :
  emits_le trace is_call 3 (initAmplitude (S:=S)).
Proof. unfold initAmplitude. emits_auto. Qed.

End observer_lemmas.

Lemma init_failure_contained_witness :
  @initAmplitude unit brokenSdk demo_world
  = (Normal tt,
     @set_sdk unit
       (@sdk_step unit brokenSdk (SdkInit (@apiKey_of unit demo_world))
          (sdk demo_world)).1
       (set_trace
          (trace demo_world
           ++ [ECall (SdkInit (@apiKey_of unit demo_world));
               EConsole LWarn msg_init_failed (ArgError SdkError)])
          demo_world)).
Proof. apply (@init_failure_contained unit brokenSdk demo_world); reflexivity. Defined.

Lemma handleScroll_silent_witness :
  handleScroll initial_state at_top (initial_page demo_world)
  = (Normal tt, initial_page demo_world).
Proof. apply handleScroll_silent. right. reflexivity. Defined.

Lemma unload_reports_current_progress_witness :
  ∃ id, tracked "abandon survey"
          (ptrace (exec (handleBeforeUnload (with_hasStartedSurvey true initial_state))
                     (set_ref 40 (initial_page demo_world))))
        = tracked "abandon survey" (ptrace (set_ref 40 (initial_page demo_world)))
            ++ [<["anonymous_user_id" := JStr id]>
                  {[ "progress_percent" := JNum 40 ]}].
Proof.
  apply (unload_reports_current_progress
           (with_hasStartedSurvey true initial_state)
           (set_ref 40 (initial_page demo_world))); by vm_compute.
Defined.
