(* ===== verification/View.v ===== *)
(** * What the component renders

    [render] computes, from the snapshot of a render, the parts of the markup
    of [Home] that depend on state (page.tsx 494-721 for the survey, 723-787
    for the signup form): which section is shown, which option is
    highlighted, which controls are disabled and what the buttons say.  The
    transition system of [Page] lets the user operate only the controls that
    the last render shows enabled.  The markup itself is in [Home], which
    proves that [render] is what one reads off it. *)

From S2P Require Import Prelude JsString JsValue PageState Survey.

#[local] Open Scope string_scope.
#[local] Open Scope list_scope.
#[local] Open Scope nat_scope.

(** A button of a question. *)
Record OptionButton : Type := mkButton {
  btn_item : Item;
  btn_selected : bool;    (* highlighted: [answer === item.key] *)
  btn_disabled : bool;
}.

Inductive SurveySection : Type :=
| ThankYou
| SurveyForm (genderBtns ageGroupBtns interestBtns reactionBtns : list OptionButton)
    (submitDisabled : bool) (submitText : string).

Inductive SignupSection : Type :=
| SignupSuccess
| SignupForm (value : string) (inputDisabled buttonDisabled : bool)
    (buttonText : string).

Record View : Type := mkView {
  surveySection : SurveySection;
  signupSection : SignupSection;
}.

#[export] Instance OptionButton_eq_dec : EqDecision OptionButton.
Proof. solve_decision. Defined.
#[export] Instance SurveySection_eq_dec : EqDecision SurveySection.
Proof. solve_decision. Defined.
#[export] Instance SignupSection_eq_dec : EqDecision SignupSection.
Proof. solve_decision. Defined.
#[export] Instance View_eq_dec : EqDecision View.
Proof. solve_decision. Defined.

(** The buttons of one question. *)
Definition option_buttons (items : list Item) (answer : option string)
    (disabled : bool) : list OptionButton :=
  (λ item, mkButton item (bool_decide (answer = Some (key item))) disabled)
    <$> items.

(** [disabled={isSubmitting || !gender || !ageGroup || !interest || !reaction}]. *)
Definition submit_disabled (snap : State) : bool :=
  isSubmitting snap || survey_incomplete snap.

Definition render_survey (snap : State) : SurveySection :=
  if isSubmitted snap then ThankYou
  else
    SurveyForm
      (option_buttons genderItems (gender snap) (isSubmitting snap))
      (option_buttons ageGroupItems (ageGroup snap) (isSubmitting snap))
      (option_buttons interestItems (interest snap) (isSubmitting snap))
      (option_buttons reactionItems (reaction snap) (isSubmitting snap))
      (submit_disabled snap)
      (if isSubmitting snap then "제출 중..." else "설문 제출하기").

Definition render_signup (snap : State) : SignupSection :=
  if isInterestSubmitted snap then SignupSuccess
  else
    SignupForm (emailOrId snap) (isInterestSubmitting snap)
      (isInterestSubmitting snap)
      (if isInterestSubmitting snap then "처리 중..." else "알림받기").

Definition render (snap : State) : View :=
  mkView (render_survey snap) (render_signup snap).

(** ** Which controls can be operated *)

(** The buttons of a question in a view. *)
Definition buttons_of (q : Question) (v : View) : list OptionButton :=
  match surveySection v with
  | ThankYou => []
  | SurveyForm g a i r _ _ =>
    match q with
    | QGender => g | QAgeGroup => a | QInterest => i | QReaction => r
    end
  end.

(** The view shows an enabled button for [item] under question [q]. *)
Definition can_select (q : Question) (item : Item) (v : View) : bool :=
  bool_decide (Exists (λ b, btn_item b = item ∧ btn_disabled b = false)
                 (buttons_of q v)).

(** The view shows the submit button of the survey enabled. *)
Definition can_submit_survey (v : View) : bool :=
  match surveySection v with
  | ThankYou => false
  | SurveyForm _ _ _ _ disabled _ => negb disabled
  end.

(** The view shows the input of the signup form enabled. *)
Definition can_type (v : View) : bool :=
  match signupSection v with
  | SignupSuccess => false
  | SignupForm _ inputDisabled _ _ => negb inputDisabled
  end.

(** The signup form can be submitted: the button is enabled (and so is the
    input, from which the Enter key submits). *)
Definition can_submit_signup (v : View) : bool :=
  match signupSection v with
  | SignupSuccess => false
  | SignupForm _ _ buttonDisabled _ => negb buttonDisabled
  end.

(** ** Lemmas *)

Lemma buttons_of_render q snap :
  buttons_of q (render snap)
  = if isSubmitted snap then []
    else option_buttons (items_of q) (answer_of q snap) (isSubmitting snap).
Proof. unfold buttons_of, render, render_survey. simpl. by destruct (isSubmitted snap), q. Qed.

(** An option can be selected exactly when it belongs to the question and
    the survey is neither submitted nor being submitted. *)
Lemma can_select_render q item snap :
  can_select q item (render snap) = true
  ↔ item ∈ items_of q ∧ isSubmitted snap = false ∧ isSubmitting snap = false.
Proof.
  unfold can_select. rewrite bool_decide_eq_true, buttons_of_render, Exists_exists.
  destruct (isSubmitted snap).
  { split; [intros (b & []%elem_of_nil & _) | intuition congruence]. }
  unfold option_buttons. setoid_rewrite list_elem_of_fmap. split.
  - intros (b & (it & -> & Hin) & <- & Hd). simpl in *. done.
  - intros (Hin & _ & Hs). eexists. split; [by eexists|]. simpl. done.
Qed.

(** The submit button is enabled exactly when the form is shown, all four
    questions are answered and no submission is in flight. *)
Lemma can_submit_survey_render snap :
  can_submit_survey (render snap) = true
  ↔ isSubmitted snap = false ∧ isSubmitting snap = false
    ∧ survey_incomplete snap = false.
Proof.
  unfold can_submit_survey, render, render_survey, submit_disabled. simpl.
  destruct (isSubmitted snap), (isSubmitting snap), (survey_incomplete snap);
    simpl; intuition congruence.
Qed.

Lemma can_type_render snap :
  can_type (render snap) = true
  ↔ isInterestSubmitted snap = false ∧ isInterestSubmitting snap = false.
Proof.
  unfold can_type, render, render_signup. simpl.
  destruct (isInterestSubmitted snap), (isInterestSubmitting snap);
    simpl; intuition congruence.
Qed.

Lemma can_submit_signup_render snap :
  can_submit_signup (render snap) = true
  ↔ isInterestSubmitted snap = false ∧ isInterestSubmitting snap = false.
Proof.
  unfold can_submit_signup, render, render_signup. simpl.
  destruct (isInterestSubmitted snap), (isInterestSubmitting snap);
    simpl; intuition congruence.
Qed.

(** The thank-you view is shown exactly when the survey is submitted. *)
Lemma render_thank_you snap :
  surveySection (render snap) = ThankYou ↔ isSubmitted snap = true.
Proof.
  unfold render, render_survey. simpl. by destruct (isSubmitted snap).
Qed.

(** No button is highlighted for an answer that is no key of the list. *)
Lemma selected_none items answer d :
  (∀ k, answer = Some k → k ∉ key <$> items) →
  count_if btn_selected (option_buttons items answer d) = 0.
Proof.
  intros H. apply count_if_zero, Forall_fmap, Forall_forall. intros it Hin.
  apply bool_decide_eq_false. intros Heq. apply (H _ Heq).
  by apply list_elem_of_fmap_2.
Qed.

Lemma selected_le_1 items answer d :
  NoDup (key <$> items) →
  count_if btn_selected (option_buttons items answer d) ≤ 1.
Proof.
  induction items as [|it l IH]; [simpl; lia|].
  rewrite fmap_cons. intros [Hnotin Hnd]%NoDup_cons.
  change (option_buttons (it :: l) answer d)
    with (mkButton it (bool_decide (answer = Some (key it))) d
          :: option_buttons l answer d).
  cbn [count_if btn_selected]. case_bool_decide as Hk; [|by apply IH].
  rewrite selected_none; [lia|]. intros k ->. by injection Hk as ->.
Qed.

(** At most one button of a question is highlighted. *)
Lemma selected_at_most_one q snap :
  count_if btn_selected (buttons_of q (render snap)) ≤ 1.
Proof.
  rewrite buttons_of_render. destruct (isSubmitted snap); [simpl; lia|].
  apply selected_le_1, items_NoDup.
Qed.
