(* ===== verification/Page.v ===== *)
(** * The mounted component as a transition system

    An [Event] is something that happens to the page: React mounts it, the
    user clicks, types or submits, the window scrolls or is about to unload,
    a timer fires, React re-renders after an update made outside a click.
    [handle] runs the code that the event triggers; [enabled] says whether
    the event can happen, from what the last render shows; [step] and [run]
    are the interpreter, [reachable] the configurations of a session.

    Clicks, input changes and form submissions are discrete events: React
    re-renders and flushes effects before the event ends, so their handler
    is followed by [commit].  Listeners of the window and timer
    continuations only run their code; the re-render that their updates
    cause is the separate event [Flush].  The eager schedule ([eager_step])
    re-renders after every event. *)

From S2P Require Import Prelude JsString JsValue Effects Browser Identity.
From S2P Require Import Tracking PageState Survey Signup Observer View.

#[local] Open Scope string_scope.
#[local] Open Scope list_scope.
#[local] Open Scope nat_scope.

Inductive Event : Type :=
| Mount                                (* first render and first effect *)
| ClickInstagram                       (* either link to Instagram *)
| Select (q : Question) (item : Item)  (* a button of a question *)
| ClickSubmitSurvey
| ChangeInput (text : string)          (* typing in the signup input *)
| SubmitForm
| Scroll (m : ScrollMetrics)
| BeforeUnload
| Fire (i : nat)                       (* the i-th pending timer elapses *)
| Flush                                (* re-render after an update *)
| Tick (now : Z) (rnd : string).       (* the clock and the random source move *)

#[export] Instance Event_eq_dec : EqDecision Event.
Proof. solve_decision. Defined.

(** The events of a session under the eager schedule: a render follows
    every event. *)
Definition eager_events (es : list Event) : list Event :=
  es ≫= λ e, [e; Flush].

Section page.
Context {S : Type} `{!Sdk S}.
Implicit Types (p : Page S) (snap : State).

(** Run a listener for each registration, in order of registration. *)
Fixpoint for_each {A} (l : list A) (f : A → JS (Page S) unit) :
  JS (Page S) unit :=
  match l with
  | [] => mret tt
  | x :: l' => f x;; for_each l' f
  end.

(** [onClick] of the links to Instagram (page.tsx 265 and 814). *)
Definition onClick_instagram : JS (Page S) unit :=
  inWorld (trackEvent "click instagram" None).

(** The dependencies of the effect differ between two renders. *)
Definition deps_changed (prev next : State) : bool :=
  negb (bool_decide (effect_deps prev = effect_deps next)).

(** A render followed by the flush of the effect: the component function
    runs on the current cells; on the first render the effect runs; on a
    later render it runs again, after the cleanup of its previous run, when
    a dependency has changed since that run. *)
Definition commit : JS (Page S) unit :=
  p ← get_st;
  let next := cells p in
  modify (set_rendered next);;
  match cleanup p with
  | None => effect_body next
  | Some prev =>
    when (deps_changed prev next) (effect_cleanup prev;; effect_body next)
  end.

(** The continuation of an elapsed timer; the promises awaited by the two
    submit handlers are resolved by their timers and cannot be rejected. *)
Definition fire (t : Pending) : JS (Page S) unit :=
  match t with
  | SurveyAwait snap => onSubmitSurvey_resume snap Fulfilled
  | SignupAwait => onSubmit_resume Fulfilled
  | HideSuccess => hideSuccess
  end.

(** Remove the i-th pending timer and return it. *)
Definition take_timer (i : nat) : JS (Page S) (option Pending) :=
  p ← get_st;
  modify (set_timers (delete i (timers p)));;
  mret (timers p !! i).

(** The code that an event runs.  Handlers read the snapshot of the last
    render; listeners read the snapshot of the render that installed them. *)
Definition handle (e : Event) : JS (Page S) unit :=
  match e with
  | Mount | Flush => commit
  | ClickInstagram => onClick_instagram;; commit
  | Select q item => p ← get_st; onClick_option q (rendered p) item;; commit
  | ClickSubmitSurvey => p ← get_st; onSubmitSurvey (rendered p);; commit
  | ChangeInput text => onChange_input text;; commit
  | SubmitForm => p ← get_st; onSubmit (rendered p);; commit
  | Scroll m => p ← get_st; for_each (installed p) (λ snap, handleScroll snap m)
  | BeforeUnload => p ← get_st; for_each (installed p) handleBeforeUnload
  | Fire i =>
    t ← take_timer i;
    match t with Some t => fire t | None => mret tt end
  | Tick now rnd => inWorld (modify (set_entropy now rnd))
  end.

(** The component has been mounted. *)
Definition mounted p : bool :=
  match cleanup p with Some _ => true | None => false end.

(** Whether an event can happen.  The user can only operate the controls
    that the last render shows enabled. *)
Definition enabled (e : Event) p : bool :=
  match e with
  | Mount => negb (mounted p)
  | ClickInstagram | Flush => mounted p
  | Select q item => mounted p && can_select q item (render (rendered p))
  | ClickSubmitSurvey => mounted p && can_submit_survey (render (rendered p))
  | ChangeInput _ => mounted p && can_type (render (rendered p))
  | SubmitForm => mounted p && can_submit_signup (render (rendered p))
  | Scroll _ | BeforeUnload | Tick _ _ => true
  | Fire i => bool_decide (i < length (timers p))
  end.

(** One event: nothing happens when the event is not enabled. *)
Definition step (e : Event) p : Page S :=
  if enabled e p then exec (handle e) p else p.

(** A sequence of events, oldest first. *)
Definition run (es : list Event) p : Page S := foldl (λ p e, step e p) p es.

(** One event under the eager schedule: React re-renders right after it. *)
Definition eager_step (e : Event) p : Page S := step Flush (step e p).

Definition eager_run (es : list Event) p : Page S :=
  foldl (λ p e, eager_step e p) p es.

(** The configurations of a session that starts in world [w0]. *)
Inductive reachable (w0 : World S) : Page S → Prop :=
| reachable_init : reachable w0 (initial_page w0)
| reachable_step e p :
    reachable w0 p → enabled e p = true → reachable w0 (step e p).

(** The configurations of a session under the eager schedule. *)
Inductive eager_reachable (w0 : World S) : Page S → Prop :=
| eager_reachable_init : eager_reachable w0 (initial_page w0)
| eager_reachable_step e p :
    eager_reachable w0 p → enabled e p = true →
    eager_reachable w0 (eager_step e p).

End page.

(** ** The interpreter and the relation agree *)

Section page_lemmas.
Context {S : Type} `{!Sdk S}.
Implicit Types (p : Page S) (snap : State).

Lemma run_app es1 es2 p : run (es1 ++ es2) p = run es2 (run es1 p).
Proof. apply foldl_app. Qed.

Lemma run_snoc es e p : run (es ++ [e]) p = step e (run es p).
Proof. by rewrite run_app. Qed.

Lemma step_disabled e p : enabled e p = false → step e p = p.
Proof. intros H. unfold step. by rewrite H. Qed.

Lemma reachable_run w0 es : reachable w0 (run es (initial_page w0)).
Proof.
  induction es as [|e es IH] using rev_ind; [constructor|].
  rewrite run_snoc. destruct (enabled e (run es (initial_page w0))) eqn:He.
  - by constructor.
  - by rewrite step_disabled.
Qed.

Lemma reachable_inv w0 p :
  reachable w0 p → ∃ es, p = run es (initial_page w0).
Proof.
  induction 1 as [|e p _ [es ->] _]; [by exists []|].
  exists (es ++ [e]). by rewrite run_snoc.
Qed.

Lemma eager_reachable_reachable w0 p : eager_reachable w0 p → reachable w0 p.
Proof.
  induction 1 as [|e p _ IH He]; [constructor|]. unfold eager_step.
  destruct (enabled Flush (step e p)) eqn:Hf.
  - by repeat constructor.
  - rewrite (step_disabled Flush) by done. by constructor.
Qed.

End page_lemmas.

(** ** Sessions on concrete inputs

    The sessions below run in [demo_world]: a browser with a configured
    key, empty storage and an SDK that accepts every call. *)

Definition male : Item := mkItem "male" None "남성".
Definition age25 : Item := mkItem "25-29" None "25~29세".
Definition yes : Item := mkItem "yes" None "네, 참여하고 싶어요".
Definition love : Item := mkItem "love" (Some "❤️") "완전 흥미로워요".

(** Answering the four questions in the order of the page and submitting. *)
Definition answer_all : list Event :=
  [Select QGender male; Select QAgeGroup age25; Select QInterest yes;
   Select QReaction love; ClickSubmitSurvey].

(** A complete visit under the eager schedule: the page is mounted,
    scrolled to the middle and back twice, the survey is answered and
    submitted, a contact is typed and submitted, the success view goes
    away, the page is left.  The SDK receives the page view, one scroll
    event, the start, the four selections, one submission with the labels
    and one signup; the page view is repeated after each change of a
    dependency of the effect; nothing is reported at unload. *)
Theorem complete_visit :
  let p := eager_run
             ([Mount; Scroll at_half; Scroll at_top; Scroll at_half]
              ++ answer_all
              ++ [Fire 0; ChangeInput " me@example.com"; SubmitForm; Fire 0;
                  Fire 0; BeforeUnload])
             (initial_page demo_world) in
  track_names (ptrace p)
  = ["view landing"; "scroll depth"; "view landing"; "start survey";
     "select gender"; "view landing"; "select age group"; "select interest";
     "select reaction"; "submit survey"; "view landing"; "submit interest"]
  ∧ tracked "submit survey" (ptrace p)
    = [{[ "anonymous_user_id" := JStr "user_1731000000000_4fzyo82mvyr";
          "gender" := JStr "남성"; "age_group" := JStr "25~29세";
          "interest" := JStr "네, 참여하고 싶어요";
          "reaction" := JStr "완전 흥미로워요" ]}]
  ∧ tracked "submit interest" (ptrace p)
    = [{[ "anonymous_user_id" := JStr "user_1731000000000_4fzyo82mvyr";
          "contact_type" := JStr "email";
          "contact_value" := JStr "me@example.com";
          "has_value" := JBool true ]}]
  ∧ render (rendered p)
    = mkView ThankYou (SignupForm "" false false "알림받기")
  ∧ timers p = [] ∧ alerts (ptrace p) = [].
Proof. cbn zeta. split_and!; by_compute. Qed.


(** Answering any question other than the first does not start the
    survey: no "start survey" event is sent, and leaving the page then
    reports nothing although three questions are answered. *)
Theorem start_skipped_without_first_question :
  track_names
    (ptrace (eager_run [Mount; Select QAgeGroup age25; Select QInterest yes;
                        Select QReaction love; BeforeUnload]
               (initial_page demo_world)))
  = ["view landing"; "select age group"; "select interest"; "select reaction"].
Proof. by_compute. Qed.

(** The progress reported at unload is that of the last question
    clicked, not of the number of questions answered: with the first and
    the last question answered it is 80, and after the first is clicked
    again it is 20. *)
Theorem progress_follows_last_click :
  tracked "abandon survey"
    (ptrace (eager_run [Mount; Select QGender male; Select QReaction love;
                        BeforeUnload; Select QGender male; BeforeUnload]
               (initial_page demo_world)))
  = [{[ "anonymous_user_id" := JStr "user_1731000000000_4fzyo82mvyr";
        "progress_percent" := JNum 80 ]};
     {[ "anonymous_user_id" := JStr "user_1731000000000_4fzyo82mvyr";
        "progress_percent" := JNum 20 ]}].
Proof. by_compute. Qed.
