(* ===== verification/Machine.v ===== *)
(** * The page as a pure machine with outputs

    What the page shows and what it will do next depends only on the cells,
    the snapshots held by closures, the ref and the pending timers: the
    interface state [Ui].  The browser and the analytics SDK only receive
    outputs.  [mstep] is this machine, written without reference to the
    world: from an event and an interface state it gives the next interface
    state and the list of outputs ([Out]) in the order in which they are
    produced.  [out_world] interprets an output in a world.

    [step_join] is the refinement theorem: a step of the page
    ([Page.step], built from the handlers of page.tsx) is a step of the
    machine on the interface state together with the interpretation of its
    outputs in the world.  The invariants of the page are then proved on the
    machine, and what reaches the SDK is read off the outputs. *)

From S2P Require Import Prelude JsString JsValue Effects Browser Identity.
From S2P Require Import Tracking PageState Survey Signup Observer View Page.

#[local] Open Scope string_scope.
#[local] Open Scope list_scope.
#[local] Open Scope nat_scope.

(** ** Interface state *)

Record Ui : Type := mkUi {
  u_cells : State;
  u_rendered : State;
  u_installed : list State;
  u_cleanup : option State;
  u_ref : float;
  u_timers : list Pending;
}.

(** The interface state before the page is mounted. *)
Definition initial_ui : Ui := mkUi initial_state initial_state [] None 0%float [].

(** ** Outputs *)

Inductive Out : Type :=
| OTrack (name : string) (props : option Props)  (* an event for the SDK *)
| OInit                                          (* initialisation of the SDK *)
| OConsole (l : Level) (msg : string) (arg : ConsoleArg)
| OAlert (msg : string)
| OTick (now : Z) (rnd : string).                (* the clock moves *)

(** The name of the event that an output sends, if it sends one for
    certain.  The initialisation sends the page view. *)
Definition out_name (o : Out) : option string :=
  match o with
  | OTrack n _ => Some n
  | OInit => Some "view landing"
  | _ => None
  end.

(** The number of outputs that send an event named [n]. *)
Definition sends (n : string) (os : list Out) : nat :=
  count_if (λ o, bool_decide (out_name o = Some n)) os.

(** The messages of the alerts among the outputs, oldest first. *)
Definition out_alerts (os : list Out) : list string :=
  omap (λ o, match o with OAlert msg => Some msg | _ => None end) os.

(** ** The machine *)

(** What selecting an option of a question records and reports. *)
Definition with_answer (q : Question) (k : string) (st : State) : State :=
  match q with
  | QGender => with_gender (Some k) st
  | QAgeGroup => with_ageGroup (Some k) st
  | QInterest => with_interest (Some k) st
  | QReaction => with_reaction (Some k) st
  end.

Definition select_name (q : Question) : string :=
  match q with
  | QGender => "select gender"
  | QAgeGroup => "select age group"
  | QInterest => "select interest"
  | QReaction => "select reaction"
  end.

Definition select_prop (q : Question) : string :=
  match q with
  | QGender => "gender"
  | QAgeGroup => "age_group"
  | QInterest => "interest"
  | QReaction => "reaction"
  end.

(** The progress recorded when an option of [q] is selected. *)
Definition progress_of (q : Question) : float :=
  match q with
  | QGender => 20
  | QAgeGroup => 40
  | QInterest => 60
  | QReaction => 80
  end.

(** Selecting an option of the first question opens the survey when the
    render did not see it open. *)
Definition opens_survey (q : Question) (snap : State) : bool :=
  match q with QGender => negb (hasStartedSurvey snap) | _ => false end.

Definition m_set_cells (st : State) (u : Ui) : Ui :=
  mkUi st (u_rendered u) (u_installed u) (u_cleanup u) (u_ref u) (u_timers u).

(** Render and flush of the effect. *)
Definition m_commit (u : Ui) : Ui * list Out :=
  let next := u_cells u in
  match u_cleanup u with
  | None =>
    (mkUi next next (u_installed u ++ [next]) (Some next) (u_ref u) (u_timers u),
     [OInit])
  | Some prev =>
    if deps_changed prev next
    then (mkUi next next (list_remove_first prev (u_installed u) ++ [next])
            (Some next) (u_ref u) (u_timers u),
          [OInit])
    else (mkUi next next (u_installed u) (u_cleanup u) (u_ref u) (u_timers u), [])
  end.

(** A handler of a discrete event, followed by the render. *)
Definition then_commit (r : Ui * list Out) : Ui * list Out :=
  (( m_commit r.1).1, r.2 ++ (m_commit r.1).2).

(** One listener of each kind. *)
Definition m_scroll (m : ScrollMetrics) (snap : State) (u : Ui) : Ui * list Out :=
  if scroll_fires snap m
  then (m_set_cells (with_scrollDepthTracked true (u_cells u)) u,
        [OTrack "scroll depth" (Some {[ "depth_percent" := JNum 50 ]})])
  else (u, []).

Definition m_unload (snap : State) (u : Ui) : Ui * list Out :=
  if abandon_fires snap
  then (u, [OTrack "abandon survey"
              (Some {[ "progress_percent" := JNum (u_ref u) ]})])
  else (u, []).

(** The listeners registered on the window, in order. *)
Fixpoint m_for_each (l : list State) (f : State → Ui → Ui * list Out) (u : Ui) :
  Ui * list Out :=
  match l with
  | [] => (u, [])
  | snap :: l' =>
    let r := f snap u in
    let r' := m_for_each l' f r.1 in
    (r'.1, r.2 ++ r'.2)
  end.

(** The continuation of a timer. *)
Definition m_fire (t : Pending) (u : Ui) : Ui * list Out :=
  match t with
  | SurveyAwait snap =>
    (m_set_cells (with_isSubmitting false (with_isSubmitted true (u_cells u))) u,
     [OConsole LLog "Survey submitted:" (ArgProps (surveyData snap));
      OTrack "submit survey" (Some (surveyData snap))])
  | SignupAwait =>
    (mkUi (with_isInterestSubmitting false
             (with_emailOrId "" (with_isInterestSubmitted true (u_cells u))))
       (u_rendered u) (u_installed u) (u_cleanup u) (u_ref u)
       (u_timers u ++ [HideSuccess]),
     [])
  | HideSuccess =>
    (m_set_cells (with_isInterestSubmitted false (u_cells u)) u, [])
  end.

Definition m_mounted (u : Ui) : bool :=
  match u_cleanup u with Some _ => true | None => false end.

Definition m_enabled (e : Event) (u : Ui) : bool :=
  match e with
  | Mount => negb (m_mounted u)
  | ClickInstagram | Flush => m_mounted u
  | Select q item => m_mounted u && can_select q item (render (u_rendered u))
  | ClickSubmitSurvey => m_mounted u && can_submit_survey (render (u_rendered u))
  | ChangeInput _ => m_mounted u && can_type (render (u_rendered u))
  | SubmitForm => m_mounted u && can_submit_signup (render (u_rendered u))
  | Scroll _ | BeforeUnload | Tick _ _ => true
  | Fire i => bool_decide (i < length (u_timers u))
  end.

(** The events after which React renders before anything else happens. *)
Definition commits (e : Event) : bool :=
  match e with
  | Mount | Flush | ClickInstagram | Select _ _ | ClickSubmitSurvey
  | ChangeInput _ | SubmitForm => true
  | Scroll _ | BeforeUnload | Fire _ | Tick _ _ => false
  end.

(** What the code run by an event does, before any render. *)
Definition m_body (e : Event) (u : Ui) : Ui * list Out :=
  match e with
  | Mount | Flush => (u, [])
  | ClickInstagram => (u, [OTrack "click instagram" None])
  | Select q item =>
    let snap := u_rendered u in
    let st := with_answer q (key item) (u_cells u) in
    (mkUi (if opens_survey q snap then with_hasStartedSurvey true st else st)
       (u_rendered u) (u_installed u) (u_cleanup u) (progress_of q)
       (u_timers u),
     (if opens_survey q snap then [OTrack "start survey" None] else [])
     ++ [OTrack (select_name q)
           (Some {[ select_prop q := JStr (label item) ]})])
  | ClickSubmitSurvey =>
    let snap := u_rendered u in
    if survey_incomplete snap then (u, [OAlert msg_answer_all])
    else (mkUi (with_isSubmitting true (u_cells u)) (u_rendered u)
            (u_installed u) (u_cleanup u) (u_ref u)
            (u_timers u ++ [SurveyAwait snap]),
          [])
  | ChangeInput text => (m_set_cells (with_emailOrId text (u_cells u)) u, [])
  | SubmitForm =>
    let contactValue := contactValue_of (u_rendered u) in
    if truthy_string contactValue
    then (mkUi (with_isInterestSubmitting true (u_cells u)) (u_rendered u)
            (u_installed u) (u_cleanup u) (u_ref u)
            (u_timers u ++ [SignupAwait]),
          [OTrack "submit interest" (Some (interestProps contactValue))])
    else (u, [OAlert msg_enter_contact])
  | Scroll m => m_for_each (u_installed u) (m_scroll m) u
  | BeforeUnload => m_for_each (u_installed u) m_unload u
  | Fire i =>
    match u_timers u !! i with
    | Some t =>
      m_fire t (mkUi (u_cells u) (u_rendered u) (u_installed u) (u_cleanup u)
                  (u_ref u) (delete i (u_timers u)))
    | None => (u, [])
    end
  | Tick now rnd => (u, [OTick now rnd])
  end.

(** What an enabled event does. *)
Definition m_handle (e : Event) (u : Ui) : Ui * list Out :=
  if commits e then then_commit (m_body e u) else m_body e u.

Definition mstep (e : Event) (u : Ui) : Ui * list Out :=
  if m_enabled e u then m_handle e u else (u, []).

(** A sequence of events: the final state and all outputs, oldest first. *)
Definition mrun (es : list Event) (u : Ui) : Ui * list Out :=
  foldl (λ r e, ((mstep e r.1).1, r.2 ++ (mstep e r.1).2)) (u, []) es.

(** The states of the machine. *)
Inductive m_reachable : Ui → Prop :=
| m_reachable_init : m_reachable initial_ui
| m_reachable_step e u :
    m_reachable u → m_enabled e u = true → m_reachable (mstep e u).1.

(** The states of the machine under the eager schedule. *)
Inductive m_eager_reachable : Ui → Prop :=
| m_eager_reachable_init : m_eager_reachable initial_ui
| m_eager_reachable_step e u :
    m_eager_reachable u → m_enabled e u = true →
    m_eager_reachable (mstep Flush (mstep e u).1).1.

Lemma mrun_snoc es e u :
  mrun (es ++ [e]) u
  = ((mstep e (mrun es u).1).1, (mrun es u).2 ++ (mstep e (mrun es u).1).2).
Proof. unfold mrun. by rewrite foldl_app. Qed.

Lemma m_reachable_run es : m_reachable (mrun es initial_ui).1.
Proof.
  induction es as [|e es IH] using rev_ind; [constructor|].
  rewrite mrun_snoc. cbn [fst].
  destruct (m_enabled e (mrun es initial_ui).1) eqn:He; [by constructor|].
  unfold mstep. by rewrite He.
Qed.

(** ** Interpretation in a world *)

Section interpret.
Context {S : Type} `{!Sdk S}.
Implicit Types (p : Page S) (w : World S) (u : Ui).

(** The interface state of a configuration. *)
Definition ui p : Ui :=
  mkUi (cells p) (rendered p) (installed p) (cleanup p) (surveyProgressRef p)
    (timers p).

(** The configuration with interface state [u] in world [w]. *)
Definition join u w : Page S :=
  mkPage (u_cells u) (u_rendered u) (u_installed u) (u_cleanup u) (u_ref u)
    (u_timers u) w.

(** The world after an output. *)
Definition out_world (o : Out) w : World S :=
  match o with
  | OTrack n props => after_track n props w
  | OInit => init_world w
  | OConsole l msg arg => set_trace (trace w ++ [EConsole l msg arg]) w
  | OAlert msg => set_trace (trace w ++ [EAlert msg]) w
  | OTick now rnd => set_entropy now rnd w
  end.

(** The world after a list of outputs, oldest first. *)
Definition outs_world (os : list Out) w : World S :=
  foldl (λ w o, out_world o w) w os.

End interpret.

(** ** The refinement *)

Section refinement.
Context {S : Type} `{!Sdk S}.
Implicit Types (p : Page S) (w : World S) (u : Ui).

Lemma ui_join u w : ui (join u w) = u.
Proof. by destruct u. Qed.

Lemma world_join u w : world (join u w) = w.
Proof. done. Qed.

Lemma join_ui p : join (ui p) (world p) = p.
Proof. by destruct p. Qed.

Lemma outs_world_cons o os w :
  outs_world (o :: os) w = outs_world os (out_world o w).
Proof. done. Qed.

Lemma outs_world_app os1 os2 w :
  outs_world (os1 ++ os2) w = outs_world os2 (outs_world os1 w).
Proof. apply foldl_app. Qed.

(** [decomposes m f]: the computation [m] returns, changes the interface
    state as [f] does, and changes the world by the outputs of [f]. *)
Definition decomposes (m : JS (Page S) unit) (f : Ui → Ui * list Out) : Prop :=
  ∀ p, m p = (Normal tt, join (f (ui p)).1 (outs_world (f (ui p)).2 (world p))).

Lemma decomposes_bind m1 m2 f1 f2 :
  decomposes m1 f1 → decomposes m2 f2 →
  decomposes (m1;; m2)
    (λ u, ((f2 (f1 u).1).1, (f1 u).2 ++ (f2 (f1 u).1).2)).
Proof.
  intros H1 H2 p. js_unfold. rewrite H1, H2, ui_join, world_join.
  cbn [fst snd]. by rewrite outs_world_app.
Qed.

Lemma decomposes_get (k : Page S → JS (Page S) unit) (f : Ui → Ui → Ui * list Out) :
  (∀ p0, decomposes (k p0) (f (ui p0))) →
  decomposes (p ← get_st; k p) (λ u, f u u).
Proof. intros H p. js_unfold. apply H. Qed.

Lemma decomposes_ext m f g :
  (∀ u, f u = g u) → decomposes m f → decomposes m g.
Proof. intros Hfg H p. by rewrite H, Hfg. Qed.

Lemma decomposes_for_each l (h : State → JS (Page S) unit) g :
  (∀ snap, decomposes (h snap) (g snap)) →
  decomposes (for_each l h) (m_for_each l g).
Proof.
  intros H. induction l as [|snap l IH]; [intros p; by destruct p|].
  apply (decomposes_bind _ _ _ _ (H snap) IH).
Qed.

(** *** The render *)

Lemma effect_body_decomposes next :
  decomposes (effect_body next)
    (λ u, (mkUi (u_cells u) (u_rendered u) (u_installed u ++ [next])
             (Some next) (u_ref u) (u_timers u),
           [OInit])).
Proof.
  intros p. unfold effect_body, addEventListeners. js_unfold.
  by rewrite inWorld_run, initAmplitude_run.
Qed.

Lemma commit_decomposes : decomposes commit m_commit.
Proof.
  intros p. unfold commit, m_commit. js_unfold. cbn [ui u_cleanup u_cells].
  destruct (cleanup p) as [prev|] eqn:Hc.
  - destruct (deps_changed prev (cells p)); cbn [when].
    + unfold effect_cleanup, removeEventListeners. js_unfold.
      rewrite effect_body_decomposes. by destruct p.
    + by destruct p; simplify_eq/=.
  - rewrite effect_body_decomposes. by destruct p.
Qed.

Lemma then_commit_decomposes m f :
  decomposes m f → decomposes (m;; commit) (λ u, then_commit (f u)).
Proof. intros H. apply (decomposes_bind _ _ _ _ H commit_decomposes). Qed.

(** *** The handlers *)

Lemma onClick_instagram_decomposes :
  decomposes onClick_instagram (λ u, (u, [OTrack "click instagram" None])).
Proof.
  intros p. unfold onClick_instagram. rewrite inWorld_run, trackEvent_run.
  by destruct p.
Qed.

Lemma onClick_option_decomposes q snap item :
  decomposes (onClick_option q snap item)
    (λ u,
       (mkUi (if opens_survey q snap
              then with_hasStartedSurvey true (with_answer q (key item) (u_cells u))
              else with_answer q (key item) (u_cells u))
          (u_rendered u) (u_installed u) (u_cleanup u) (progress_of q)
          (u_timers u),
        (if opens_survey q snap then [OTrack "start survey" None] else [])
        ++ [OTrack (select_name q)
              (Some {[ select_prop q := JStr (label item) ]})])).
Proof.
  intros p. destruct Math_round_fifths as (H1 & H2 & H3 & H4).
  destruct q; cbn [onClick_option];
    rewrite ?onClick_gender_run, ?onClick_ageGroup_run, ?onClick_interest_run,
      ?onClick_reaction_run, ?H1, ?H2, ?H3, ?H4;
    unfold started_world; cbn [opens_survey];
    try destruct (hasStartedSurvey snap); by destruct p.
Qed.

Lemma onSubmitSurvey_decomposes snap :
  decomposes (onSubmitSurvey snap)
    (λ u,
       if survey_incomplete snap then (u, [OAlert msg_answer_all])
       else (mkUi (with_isSubmitting true (u_cells u)) (u_rendered u)
               (u_installed u) (u_cleanup u) (u_ref u)
               (u_timers u ++ [SurveyAwait snap]),
             [])).
Proof.
  intros p. destruct (survey_incomplete snap) eqn:Hi.
  - rewrite onSubmitSurvey_incomplete by done. by destruct p.
  - rewrite onSubmitSurvey_complete by done. by destruct p.
Qed.

Lemma onChange_input_decomposes text :
  decomposes (onChange_input text)
    (λ u, (m_set_cells (with_emailOrId text (u_cells u)) u, [])).
Proof. intros p. by destruct p. Qed.

Lemma onSubmit_decomposes snap :
  decomposes (onSubmit snap)
    (λ u,
       if truthy_string (contactValue_of snap)
       then (mkUi (with_isInterestSubmitting true (u_cells u)) (u_rendered u)
               (u_installed u) (u_cleanup u) (u_ref u)
               (u_timers u ++ [SignupAwait]),
             [OTrack "submit interest"
                (Some (interestProps (contactValue_of snap)))])
       else (u, [OAlert msg_enter_contact])).
Proof.
  intros p. destruct (truthy_string (contactValue_of snap)) eqn:Hv.
  - rewrite onSubmit_valid by done. by destruct p.
  - rewrite onSubmit_blank by done. by destruct p.
Qed.

Lemma handleScroll_decomposes m snap :
  decomposes (handleScroll snap m) (m_scroll m snap).
Proof.
  intros p. rewrite handleScroll_run. unfold m_scroll.
  destruct (scroll_fires snap m); by destruct p.
Qed.

Lemma handleBeforeUnload_decomposes snap :
  decomposes (handleBeforeUnload snap) (m_unload snap).
Proof.
  intros p. rewrite handleBeforeUnload_run. unfold m_unload.
  destruct (abandon_fires snap); by destruct p.
Qed.

Lemma fire_decomposes t : decomposes (fire t) (m_fire t).
Proof.
  intros p. destruct t as [snap| |]; cbn [fire].
  - rewrite onSubmitSurvey_resume_fulfilled. by destruct p.
  - rewrite onSubmit_resume_fulfilled. by destruct p.
  - by destruct p.
Qed.

(** Every event is handled as the machine says. *)
Lemma handle_decomposes e : decomposes (handle e) (m_handle e).
Proof.
  intros p. unfold m_handle.
  destruct e; cbn [handle m_body commits]; rewrite ?bind_get_st.
  - apply commit_decomposes.
  - apply (then_commit_decomposes _ _ onClick_instagram_decomposes).
  - apply (then_commit_decomposes _ _ (onClick_option_decomposes _ _ _)).
  - apply (then_commit_decomposes _ _ (onSubmitSurvey_decomposes _)).
  - apply (then_commit_decomposes _ _ (onChange_input_decomposes _)).
  - apply (then_commit_decomposes _ _ (onSubmit_decomposes _)).
  - apply (decomposes_for_each _ _ _ (handleScroll_decomposes m)).
  - apply (decomposes_for_each _ _ _ handleBeforeUnload_decomposes).
  - unfold take_timer. js_unfold. cbn [ui u_timers].
    destruct (timers p !! i) as [t|] eqn:Ht.
    + rewrite fire_decomposes. by destruct p.
    + unfold set_timers. rewrite delete_lookup_None by done. by destruct p.
  - apply commit_decomposes.
  - by destruct p.
Qed.

Lemma enabled_ui e p : enabled e p = m_enabled e (ui p).
Proof. by destruct e. Qed.

Lemma step_join e p :
  step e p = join (mstep e (ui p)).1 (outs_world (mstep e (ui p)).2 (world p)).
Proof.
  unfold step, mstep, exec. rewrite enabled_ui.
  destruct (m_enabled e (ui p)); [by rewrite handle_decomposes | by destruct p].
Qed.

Lemma ui_step e p : ui (step e p) = (mstep e (ui p)).1.
Proof. by rewrite step_join, ui_join. Qed.

(** A session of the page is a run of the machine with its outputs
    interpreted in the world. *)
Lemma run_join es p :
  run es p = join (mrun es (ui p)).1 (outs_world (mrun es (ui p)).2 (world p)).
Proof.
  induction es as [|e es IH] using rev_ind; [by destruct p|].
  rewrite run_snoc, mrun_snoc, step_join, IH, ui_join, world_join. cbn [fst snd].
  by rewrite outs_world_app.
Qed.

Lemma reachable_machine w0 p : reachable w0 p → m_reachable (ui p).
Proof.
  induction 1 as [|e p _ IH He]; [constructor|].
  rewrite step_join, ui_join. apply m_reachable_step; [done|].
  by rewrite <- enabled_ui.
Qed.

Lemma eager_reachable_machine w0 p :
  eager_reachable w0 p → m_eager_reachable (ui p).
Proof.
  induction 1 as [|e p _ IH He]; [constructor|]. unfold eager_step.
  rewrite !step_join, !ui_join. apply m_eager_reachable_step; [done|].
  by rewrite <- enabled_ui.
Qed.

End refinement.
