(* ===== verification/Invariants.v ===== *)
(** * Invariants of the machine

    The properties of a session that do not depend on the world are
    invariants of the pure machine of [Machine]: which listeners are
    registered, how the latches and the submission flags evolve, which
    timers are pending, and what outputs have been produced so far.  Each
    invariant is stated on a state of the machine together with the outputs
    since the start, and is proved by induction on the run. *)

From S2P Require Import Prelude JsString JsValue Effects Browser Identity.
From S2P Require Import Tracking PageState Survey Signup Observer View Page.
From S2P Require Import Machine.

#[local] Open Scope string_scope.
#[local] Open Scope list_scope.
#[local] Open Scope nat_scope.

(** ** Induction on runs *)

(** An invariant [I] of states and outputs holds after every run when it
    holds initially, the code of an event that is not followed by a render
    preserves it, the code of an event that is followed by a render
    establishes [J], and a render takes [J] back to [I]. *)
Lemma mrun_invariant (I J : Ui → list Out → Prop) :
  I initial_ui [] →
  (∀ e u os, I u os → m_enabled e u = true →
     let r := m_body e u in
     if commits e then J r.1 (os ++ r.2) else I r.1 (os ++ r.2)) →
  (∀ u os, J u os → I (m_commit u).1 (os ++ (m_commit u).2)) →
  ∀ es, I (mrun es initial_ui).1 (mrun es initial_ui).2.
Proof.
  intros H0 Hbody Hcommit es.
  induction es as [|e es IH] using rev_ind; [done|].
  rewrite mrun_snoc. cbn [fst snd]. unfold mstep, m_handle.
  destruct (m_enabled e (mrun es initial_ui).1) eqn:He;
    [|by rewrite app_nil_r].
  specialize (Hbody e _ _ IH He). cbn zeta in Hbody.
  destruct (commits e); [|done]. unfold then_commit. cbn [fst snd].
  rewrite app_assoc. by apply Hcommit.
Qed.

(** Unfold one step of the machine. *)
Ltac m_unfold :=
  cbn [m_body commits] in *;
  unfold m_commit, m_fire, m_set_cells, opens_survey, with_answer in *;
  cbn [fst snd u_cells u_rendered u_installed u_cleanup u_ref u_timers] in *.

(** ** The listeners and the timers, one at a time *)

(** The outputs are events named [n]. *)
Definition all_named (n : string) (os : list Out) : Prop :=
  Forall (λ o, ∃ p, o = OTrack n p) os.

Lemma sends_all_named n n' os : all_named n os → n ≠ n' → sends n' os = 0.
Proof.
  intros H Hne. apply count_if_zero. eapply Forall_impl; [exact H|].
  intros o [p ->]. cbn. apply bool_decide_eq_false. congruence.
Qed.

Lemma out_alerts_all_named n os : all_named n os → out_alerts os = [].
Proof.
  induction 1 as [|o os [p ->] _ IH]; [done|]. by cbn.
Qed.

Lemma m_for_each_cons (f : State → Ui → Ui * list Out) snap l u :
  m_for_each (snap :: l) f u
  = ((m_for_each l f (f snap u).1).1,
     (f snap u).2 ++ (m_for_each l f (f snap u).1).2).
Proof. done. Qed.

Lemma m_scroll_cases m snap u :
  m_scroll m snap u = (u, [])
  ∨ m_scroll m snap u
    = (m_set_cells (with_scrollDepthTracked true (u_cells u)) u,
       [OTrack "scroll depth" (Some {[ "depth_percent" := JNum 50 ]})]).
Proof. unfold m_scroll. destruct (scroll_fires snap m); auto. Qed.

(** The scroll listeners can only raise the scroll latch, and only send
    scroll events. *)
Lemma m_for_each_scroll l m u :
  ((m_for_each l (m_scroll m) u).1 = u
   ∨ (m_for_each l (m_scroll m) u).1
     = m_set_cells (with_scrollDepthTracked true (u_cells u)) u)
  ∧ all_named "scroll depth" (m_for_each l (m_scroll m) u).2.
Proof.
  revert u. induction l as [|snap l IH]; intros u; [by split; [left|constructor]|].
  rewrite m_for_each_cons.
  destruct (m_scroll_cases m snap u) as [-> | ->]; cbn [fst snd]; [apply IH|].
  destruct (IH (m_set_cells (with_scrollDepthTracked true (u_cells u)) u))
    as [[->| ->] Hn]; (split; [by right|]); constructor; eauto.
Qed.

(** The unload listeners change nothing and only send abandon events. *)
Lemma m_for_each_unload l u :
  (m_for_each l m_unload u).1 = u
  ∧ all_named "abandon survey" (m_for_each l m_unload u).2.
Proof.
  induction l as [|snap l [IH1 IH2]]; [by split; [|constructor]|].
  rewrite m_for_each_cons.
  assert (m_unload snap u = (u, []) ∨ ∃ p, m_unload snap u = (u, [OTrack "abandon survey" p]))
    as [-> | [p ->]]
    by (unfold m_unload; destruct (abandon_fires snap); eauto).
  - done.
  - cbn [fst snd]. split; [done|]. constructor; eauto.
Qed.

(** With one listener registered, the scroll tick runs it once. *)
Lemma m_for_each_one {f : State → Ui → Ui * list Out} l u :
  m_for_each [l] f u = ((f l u).1, (f l u).2 ++ []).
Proof. done. Qed.

Lemma mstep_Flush u :
  mstep Flush u
  = if m_mounted u then ((m_commit u).1, (m_commit u).2) else (u, []).
Proof. unfold mstep. cbn. by destruct (m_mounted u). Qed.

(** The outputs of the code of an event, by name. *)
Lemma sends_cons n o os :
  sends n (o :: os) = (if bool_decide (out_name o = Some n) then 1 else 0) + sends n os.
Proof. done. Qed.

Lemma sends_app n os1 os2 : sends n (os1 ++ os2) = sends n os1 + sends n os2.
Proof. apply count_if_app. Qed.

Lemma sends_nil n : sends n [] = 0.
Proof. done. Qed.

(** ** The listeners *)

(** After the mount exactly one pair of listeners is registered: the pair
    whose removal React holds, created by a render that saw the same
    dependencies as the last render. *)
Definition listeners_ok (u : Ui) : Prop :=
  match u_cleanup u with
  | None => u_installed u = []
  | Some l => u_installed u = [l] ∧ effect_deps l = effect_deps (u_rendered u)
  end.

(** The code of an event leaves the closures alone. *)
Lemma m_body_closures e u :
  u_rendered (m_body e u).1 = u_rendered u
  ∧ u_installed (m_body e u).1 = u_installed u
  ∧ u_cleanup (m_body e u).1 = u_cleanup u.
Proof.
  destruct e; m_unfold; try done.
  - by destruct (survey_incomplete _).
  - by destruct (truthy_string _).
  - by destruct (m_for_each_scroll (u_installed u) m u) as [[->| ->] _].
  - by destruct (m_for_each_unload (u_installed u) u) as [-> _].
  - destruct (u_timers u !! i) as [[]|]; by m_unfold.
Qed.

Lemma m_commit_listeners u : listeners_ok u → listeners_ok (m_commit u).1.
Proof.
  unfold listeners_ok, m_commit. destruct (u_cleanup u) as [prev|] eqn:Hc.
  - intros [Hi Hd]. unfold deps_changed. case_bool_decide as Hdeps; cbn.
    + done.
    + rewrite Hi. cbn. by rewrite decide_True.
  - intros ->. by cbn.
Qed.

Lemma listeners_ok_run es : listeners_ok (mrun es initial_ui).1.
Proof.
  apply (mrun_invariant (λ u _, listeners_ok u) (λ u _, listeners_ok u));
    [done| |intros u _; apply m_commit_listeners].
  intros e u _ H _. cbn zeta. unfold listeners_ok in *.
  destruct (m_body_closures e u) as (-> & -> & ->). by destruct (commits e).
Qed.

(** ** The start latch *)

(** The survey is reported started at most once, and only when the latch
    is up. *)
Definition start_bound (u : Ui) (os : list Out) : Prop :=
  sends "start survey" os ≤ (if hasStartedSurvey (u_cells u) then 1 else 0).

(** Between events the render has seen the latch as it is. *)
Definition start_inv (u : Ui) (os : list Out) : Prop :=
  hasStartedSurvey (u_rendered u) = hasStartedSurvey (u_cells u)
  ∧ start_bound u os.

(** The code of an event raises the latch and reports the start together,
    when the render saw the latch down, and never lowers it. *)
Lemma m_body_start e u :
  let r := m_body e u in
  (sends "start survey" r.2 = 0
   ∧ hasStartedSurvey (u_cells r.1) = hasStartedSurvey (u_cells u))
  ∨ (sends "start survey" r.2 = 1 ∧ hasStartedSurvey (u_rendered u) = false
     ∧ hasStartedSurvey (u_cells r.1) = true ∧ commits e = true).
Proof.
  destruct e; m_unfold; try (by left).
  - destruct q; try (by left).
    destruct (hasStartedSurvey (u_rendered u)); [by left | by right].
  - left. by destruct (survey_incomplete _).
  - left. by destruct (truthy_string _).
  - left. destruct (m_for_each_scroll (u_installed u) m u) as [[->| ->] Hn];
      by rewrite (sends_all_named _ _ _ Hn).
  - left. destruct (m_for_each_unload (u_installed u) u) as [-> Hn].
    by rewrite (sends_all_named _ _ _ Hn).
  - left. destruct (u_timers u !! i) as [[]|]; by m_unfold.
Qed.

Lemma m_commit_sends n u : n ≠ "view landing" → sends n (m_commit u).2 = 0.
Proof.
  intros Hn. unfold m_commit.
  destruct (u_cleanup u) as [prev|]; [destruct (deps_changed _ _)|]; cbn;
    by rewrite ?bool_decide_false by congruence.
Qed.

Lemma m_commit_cells u :
  u_cells (m_commit u).1 = u_cells u ∧ u_rendered (m_commit u).1 = u_cells u
  ∧ u_timers (m_commit u).1 = u_timers u ∧ u_ref (m_commit u).1 = u_ref u.
Proof.
  unfold m_commit.
  by destruct (u_cleanup u) as [prev|]; [destruct (deps_changed _ _)|].
Qed.

Lemma m_commit_ref u : u_ref (m_commit u).1 = u_ref u.
Proof. by destruct (m_commit_cells u) as (_ & _ & _ & ->). Qed.

Lemma start_inv_run es :
  start_inv (mrun es initial_ui).1 (mrun es initial_ui).2.
Proof.
  apply (mrun_invariant start_inv start_bound);
    [split; [done|unfold start_bound; simpl; lia]| |].
  - intros e u os [Hr Hb] _. cbn zeta. unfold start_inv, start_bound in *.
    rewrite sends_app. destruct (m_body_closures e u) as (-> & _).
    destruct (m_body_start e u) as [[-> ->]|(-> & Hf & -> & ->)];
      [destruct (commits e)|]; rewrite ?Hr in *; try split; try done;
      destruct (hasStartedSurvey (u_cells u)); try done; lia.
  - intros u os Hb. unfold start_inv, start_bound in *.
    destruct (m_commit_cells u) as (-> & -> & _).
    rewrite sends_app, m_commit_sends by done. split; [done|lia].
Qed.

(** ** Submitting the survey *)

Definition is_survey_await (t : Pending) : bool :=
  match t with SurveyAwait _ => true | _ => false end.

(** A submission is in flight exactly while the submitting flag is up; it
    ends in the submitted state, in which the answers have been sent once. *)
Definition submit_bound (u : Ui) (os : list Out) : Prop :=
  count_if is_survey_await (u_timers u)
  = (if isSubmitting (u_cells u) then 1 else 0)
  ∧ (isSubmitting (u_cells u) = true → isSubmitted (u_cells u) = false)
  ∧ sends "submit survey" os ≤ (if isSubmitted (u_cells u) then 1 else 0).

(** Between events the render shows the form enabled only if no
    submission is in flight or done. *)
Definition submit_inv (u : Ui) (os : list Out) : Prop :=
  submit_bound u os
  ∧ (isSubmitting (u_cells u) = true → isSubmitting (u_rendered u) = true)
  ∧ (isSubmitted (u_cells u) = true →
     isSubmitted (u_rendered u) = true ∨ isSubmitting (u_rendered u) = true).

(** The flags of the survey and the outputs that matter to them, for the
    events that do not submit and do not complete a submission. *)
Definition survey_neutral (e : Event) (u : Ui) : Prop :=
  let r := m_body e u in
  isSubmitting (u_cells r.1) = isSubmitting (u_cells u)
  ∧ isSubmitted (u_cells r.1) = isSubmitted (u_cells u)
  ∧ count_if is_survey_await (u_timers r.1)
    = count_if is_survey_await (u_timers u)
  ∧ sends "submit survey" r.2 = 0.

Lemma survey_neutral_events e u :
  e ≠ ClickSubmitSurvey →
  (∀ i snap, e = Fire i → u_timers u !! i ≠ Some (SurveyAwait snap)) →
  survey_neutral e u.
Proof.
  intros Hc Hf. unfold survey_neutral.
  destruct e; m_unfold; try done.
  - by destruct q, (hasStartedSurvey (u_rendered u)).
  - destruct (truthy_string _); [|done]. m_unfold.
    rewrite count_if_app. simpl. split_and!; try done; lia.
  - destruct (m_for_each_scroll (u_installed u) m u) as [[->| ->] Hn];
      by rewrite (sends_all_named _ _ _ Hn).
  - destruct (m_for_each_unload (u_installed u) u) as [-> Hn].
    by rewrite (sends_all_named _ _ _ Hn).
  - destruct (u_timers u !! i) as [t|] eqn:Ht; [|done].
    pose proof (count_if_delete is_survey_await _ _ _ Ht) as Hd.
    destruct t as [snap| |]; [by destruct (Hf i snap)|..]; m_unfold;
      rewrite ?count_if_app; simpl in *; split_and!; try done; lia.
Qed.

Lemma submit_inv_neutral e u os :
  survey_neutral e u → submit_inv u os →
  submit_inv (m_body e u).1 (os ++ (m_body e u).2).
Proof.
  intros (Hs & Hd & Hc & Ho) ((Hcount & Hx & Hb) & Hr1 & Hr2).
  unfold submit_inv, submit_bound.
  destruct (m_body_closures e u) as (-> & _).
  rewrite sends_app, Hs, Hd, Hc, Ho, Nat.add_0_r. done.
Qed.

(** Clicking the enabled submit button starts the only submission. *)
Lemma submit_inv_click u os :
  m_enabled ClickSubmitSurvey u = true → submit_inv u os →
  submit_bound (m_body ClickSubmitSurvey u).1
    (os ++ (m_body ClickSubmitSurvey u).2).
Proof.
  intros [_ (Hd & Hs & Hi)%can_submit_survey_render]%andb_prop
    ((Hcount & Hx & Hb) & Hr1 & Hr2).
  unfold submit_bound. m_unfold. rewrite Hi. m_unfold.
  rewrite app_nil_r, count_if_app. simpl.
  destruct (isSubmitting (u_cells u)); [by specialize (Hr1 eq_refl); congruence|].
  destruct (isSubmitted (u_cells u)); [|split_and!; [lia|done|done]].
  destruct (Hr2 eq_refl); congruence.
Qed.

(** The end of the submission sends the answers and lowers the flag. *)
Lemma submit_inv_fire i snap u os :
  u_timers u !! i = Some (SurveyAwait snap) → submit_inv u os →
  submit_inv (m_body (Fire i) u).1 (os ++ (m_body (Fire i) u).2).
Proof.
  intros Ht ((Hcount & Hx & Hb) & Hr1 & Hr2).
  pose proof (count_if_delete is_survey_await _ _ _ Ht) as Hd. simpl in Hd.
  unfold submit_inv, submit_bound. m_unfold. rewrite Ht. m_unfold.
  rewrite sends_app. cbn. rewrite bool_decide_false, bool_decide_true by done.
  destruct (isSubmitting (u_cells u)); [|lia].
  rewrite (Hx eq_refl) in Hb.
  split_and!; [lia | done | lia | done | intros _; right; by apply Hr1].
Qed.

Lemma submit_inv_run es :
  submit_inv (mrun es initial_ui).1 (mrun es initial_ui).2.
Proof.
  apply (mrun_invariant submit_inv submit_bound).
  - unfold submit_inv, submit_bound. cbn. split_and!; try done; lia.
  - intros e u os Hinv He. cbn zeta.
    destruct (decide (e = ClickSubmitSurvey)) as [->|Hne];
      [by apply submit_inv_click|].
    assert (submit_inv (m_body e u).1 (os ++ (m_body e u).2)) as H;
      [|by destruct (commits e), H].
    destruct e as [| | | | | | | |i| |];
      try (apply submit_inv_neutral; [by apply survey_neutral_events|done]).
    destruct (u_timers u !! i) as [[snap| |]|] eqn:Ht;
      [by eapply submit_inv_fire|..];
      (apply submit_inv_neutral; [|done]);
      apply survey_neutral_events; try done; intros ? ? [= <-]; congruence.
  - intros u os (Hcount & Hx & Hb). unfold submit_inv, submit_bound.
    destruct (m_commit_cells u) as (-> & -> & -> & _).
    rewrite sends_app, m_commit_sends by done. rewrite Nat.add_0_r.
    split_and!; auto.
Qed.

(** ** The answers and what is sent about them *)

(** A pending submission holds a complete set of answers that come from
    the rendered options. *)
Definition timer_ok (t : Pending) : Prop :=
  match t with
  | SurveyAwait snap => answers_from_items snap ∧ survey_incomplete snap = false
  | _ => True
  end.

(** An output about the survey carries labels of rendered options: the
    label of the option clicked for a selection, the labels of the four
    chosen options for a submission. *)
Definition labelled (o : Out) : Prop :=
  match o with
  | OTrack n p =>
    (n = "submit survey" →
     ∃ choice, (∀ q, choice q ∈ items_of q) ∧ p = Some (labelsData choice))
    ∧ (∀ q, n = select_name q →
       ∃ item, item ∈ items_of q
               ∧ p = Some {[ select_prop q := JStr (label item) ]})
  | _ => True
  end.

Definition answers_inv (u : Ui) (os : list Out) : Prop :=
  answers_from_items (u_cells u) ∧ answers_from_items (u_rendered u)
  ∧ Forall timer_ok (u_timers u) ∧ Forall labelled os.

Lemma answers_from_items_same st st' :
  (∀ q, answer_of q st' = answer_of q st) →
  answers_from_items st → answers_from_items st'.
Proof. intros Heq H q k. rewrite Heq. apply H. Qed.

Lemma answers_from_items_select q item st :
  item ∈ items_of q → answers_from_items st →
  answers_from_items (with_answer q (key item) st).
Proof.
  intros Hin H q' k. destruct (decide (q' = q)) as [->|Hne].
  - destruct q; cbn; intros [= <-]; eauto.
  - intros Hk. apply H. by destruct q, q'.
Qed.

(** An event that is not a selection, a submission or its completion. *)
Lemma labelled_other n p :
  n ≠ "submit survey" → (∀ q, n ≠ select_name q) → labelled (OTrack n p).
Proof. intros H1 H2. split; [done|]. intros q Hq. by destruct (H2 q). Qed.

Lemma labelled_all_named n os :
  n ≠ "submit survey" → (∀ q, n ≠ select_name q) → all_named n os →
  Forall labelled os.
Proof.
  intros H1 H2 H. eapply Forall_impl; [exact H|].
  intros o [p ->]. by apply labelled_other.
Qed.

Lemma labelled_select q item :
  item ∈ items_of q →
  labelled (OTrack (select_name q) (Some {[ select_prop q := JStr (label item) ]})).
Proof.
  intros Hin. split; [by destruct q|]. intros q' Hq.
  assert (q' = q) as -> by (by destruct q, q'). eauto.
Qed.

Lemma labelled_submit snap :
  answers_from_items snap → survey_incomplete snap = false →
  labelled (OTrack "submit survey" (Some (surveyData snap))).
Proof.
  intros Hfrom Hc. split; [intros _|by intros []].
  destruct (complete_answered snap Hfrom Hc) as [choice Hans].
  exists choice. split; [apply Hans|]. by rewrite (surveyData_answered snap choice).
Qed.

Lemma m_body_answers e u :
  m_enabled e u = true → answers_from_items (u_cells u) →
  answers_from_items (u_cells (m_body e u).1).
Proof.
  intros He H. destruct e; m_unfold; try done.
  - apply andb_prop in He as [_ (Hin & _)%can_select_render].
    apply (answers_from_items_select q item) in H; [|done].
    by destruct q, (hasStartedSurvey (u_rendered u)).
  - by destruct (survey_incomplete _).
  - by destruct (truthy_string _).
  - by destruct (m_for_each_scroll (u_installed u) m u) as [[->| ->] _].
  - by destruct (m_for_each_unload (u_installed u) u) as [-> _].
  - by destruct (u_timers u !! i) as [[]|].
Qed.

Lemma m_body_timers e u :
  m_enabled e u = true → answers_from_items (u_rendered u) →
  Forall timer_ok (u_timers u) → Forall timer_ok (u_timers (m_body e u).1).
Proof.
  intros He Hr H. destruct e; m_unfold; try done.
  - destruct (survey_incomplete _) eqn:Hi; [done|]. m_unfold.
    apply Forall_app. split; [done|]. by repeat constructor.
  - destruct (truthy_string _); [|done]. m_unfold.
    apply Forall_app. split; [done|]. by repeat constructor.
  - by destruct (m_for_each_scroll (u_installed u) m u) as [[->| ->] _].
  - by destruct (m_for_each_unload (u_installed u) u) as [-> _].
  - destruct (u_timers u !! i) as [[]|]; m_unfold; try done;
      rewrite ?Forall_app; repeat split; try by apply Forall_delete.
    by repeat constructor.
Qed.

Lemma m_body_labelled e u :
  m_enabled e u = true → Forall timer_ok (u_timers u) →
  Forall labelled (m_body e u).2.
Proof.
  intros He H. destruct e; m_unfold; try (by forall_list).
  - forall_list. by apply labelled_other; [|intros []].
  - apply andb_prop in He as [_ (Hin & _)%can_select_render].
    destruct (match q with QGender => _ | _ => _ end); forall_list;
      try (by apply labelled_select); by apply labelled_other; [|intros []].
  - destruct (survey_incomplete _); by forall_list.
  - destruct (truthy_string _); forall_list; [|done].
    by apply labelled_other; [|intros []].
  - destruct (m_for_each_scroll (u_installed u) m u) as [_ Hn].
    by apply (labelled_all_named "scroll depth"); [|intros []|].
  - destruct (m_for_each_unload (u_installed u) u) as [_ Hn].
    by apply (labelled_all_named "abandon survey"); [|intros []|].
  - destruct (u_timers u !! i) as [[snap| |]|] eqn:Ht; m_unfold;
      forall_list; try done.
    apply (Forall_lookup_1 _ _ _ _ H) in Ht as [? ?]. by apply labelled_submit.
Qed.

Lemma answers_inv_run es :
  answers_inv (mrun es initial_ui).1 (mrun es initial_ui).2.
Proof.
  apply (mrun_invariant answers_inv answers_inv).
  - unfold answers_inv. split_and!; try (by forall_list); by intros [].
  - intros e u os (Hc & Hr & Ht & Ho) He.
    assert (answers_inv (m_body e u).1 (os ++ (m_body e u).2)) as H;
      [|by destruct (commits e)].
    unfold answers_inv. destruct (m_body_closures e u) as (-> & _).
    rewrite Forall_app.
    split_and!; auto using m_body_answers, m_body_timers, m_body_labelled.
  - intros u os (Hc & Hr & Ht & Ho). unfold answers_inv.
    destruct (m_commit_cells u) as (-> & -> & -> & _). rewrite Forall_app.
    split_and!; try done. unfold m_commit.
    destruct (u_cleanup u); [destruct (deps_changed _ _)|]; by forall_list.
Qed.

(** ** How often the effect runs *)

(** The number of dependencies of the effect that are up. *)
Definition deps_count (st : State) : nat :=
  Nat.b2n (scrollDepthTracked st) + Nat.b2n (hasStartedSurvey st)
  + Nat.b2n (isSubmitted st).

(** The dependencies that are up in [a] are up in [b]. *)
Definition deps_le (a b : State) : Prop :=
  (scrollDepthTracked a = true → scrollDepthTracked b = true)
  ∧ (hasStartedSurvey a = true → hasStartedSurvey b = true)
  ∧ (isSubmitted a = true → isSubmitted b = true).

(** The page view has been sent once for the mount and at most once for
    each dependency that the effect has seen go up. *)
Definition view_inv (u : Ui) (os : list Out) : Prop :=
  match u_cleanup u with
  | None => sends "view landing" os = 0
  | Some l => deps_le l (u_cells u) ∧ sends "view landing" os ≤ 1 + deps_count l
  end.

(** The three dependencies never go down. *)
Lemma m_body_monotone e u : deps_le (u_cells u) (u_cells (m_body e u).1).
Proof.
  unfold deps_le. destruct e; m_unfold; try done.
  - by destruct q, (hasStartedSurvey (u_rendered u)).
  - by destruct (survey_incomplete _).
  - by destruct (truthy_string _).
  - by destruct (m_for_each_scroll (u_installed u) m u) as [[->| ->] _].
  - by destruct (m_for_each_unload (u_installed u) u) as [-> _].
  - by destruct (u_timers u !! i) as [[]|].
Qed.

(** Only a render sends the page view. *)
Lemma m_body_no_view e u : sends "view landing" (m_body e u).2 = 0.
Proof.
  destruct e; m_unfold; try done.
  - by destruct q, (hasStartedSurvey (u_rendered u)).
  - by destruct (survey_incomplete _).
  - by destruct (truthy_string _).
  - destruct (m_for_each_scroll (u_installed u) m u) as [_ Hn].
    by rewrite (sends_all_named _ _ _ Hn).
  - destruct (m_for_each_unload (u_installed u) u) as [_ Hn].
    by rewrite (sends_all_named _ _ _ Hn).
  - by destruct (u_timers u !! i) as [[]|].
Qed.

(** When a dependency has changed and none has gone down, one more is up. *)
Lemma deps_count_changed prev next :
  deps_le prev next → deps_changed prev next = true →
  deps_count prev < deps_count next.
Proof.
  unfold deps_le, deps_changed, deps_count, effect_deps.
  intros (H1 & H2 & H3) Hc%negb_true_iff%bool_decide_eq_false.
  destruct (scrollDepthTracked prev), (hasStartedSurvey prev), (isSubmitted prev),
    (scrollDepthTracked next), (hasStartedSurvey next), (isSubmitted next);
    simpl; try lia; try done; by (specialize (H1 eq_refl) || specialize (H2 eq_refl)
                                  || specialize (H3 eq_refl)).
Qed.

Lemma deps_le_trans a b c : deps_le a b → deps_le b c → deps_le a c.
Proof. unfold deps_le. intuition. Qed.

Lemma deps_le_refl a : deps_le a a.
Proof. by unfold deps_le. Qed.

(** What a render sends. *)
Lemma m_commit_view u :
  sends "view landing" (m_commit u).2
  = match u_cleanup u with
    | None => 1
    | Some prev => if deps_changed prev (u_cells u) then 1 else 0
    end.
Proof.
  unfold m_commit.
  by destruct (u_cleanup u) as [prev|]; [destruct (deps_changed _ _)|].
Qed.

Lemma view_inv_run es : view_inv (mrun es initial_ui).1 (mrun es initial_ui).2.
Proof.
  apply (mrun_invariant view_inv view_inv); [done| |].
  - intros e u os H He.
    assert (view_inv (m_body e u).1 (os ++ (m_body e u).2)) as H';
      [|by destruct (commits e)].
    unfold view_inv in *. destruct (m_body_closures e u) as (_ & _ & ->).
    rewrite sends_app, m_body_no_view, Nat.add_0_r.
    destruct (u_cleanup u); [|done]. destruct H as [Hle Hb].
    split; [|done]. eapply deps_le_trans; [done|apply m_body_monotone].
  - intros u os H. unfold view_inv in *. rewrite sends_app, m_commit_view.
    destruct (m_commit_cells u) as (-> & _). unfold m_commit.
    destruct (u_cleanup u) as [prev|] eqn:Hcl; cbn [fst u_cleanup];
      [|split; [apply deps_le_refl|lia]].
    destruct H as [Hle Hb]. destruct (deps_changed _ _) eqn:Hc; cbn [fst u_cleanup].
    + pose proof (deps_count_changed _ _ Hle Hc).
      split; [apply deps_le_refl|lia].
    + split; [done|lia].
Qed.

Lemma deps_count_le st : deps_count st ≤ 3.
Proof.
  unfold deps_count.
  destruct (scrollDepthTracked st), (hasStartedSurvey st), (isSubmitted st);
    simpl; lia.
Qed.

(** The page view is sent at most four times. *)
Lemma view_landing_le_4 es : sends "view landing" (mrun es initial_ui).2 ≤ 4.
Proof.
  pose proof (view_inv_run es) as H. unfold view_inv in H.
  destruct (u_cleanup _) as [l|]; [|lia].
  destruct H as [_ H]. pose proof (deps_count_le l). lia.
Qed.

(** ** Signing up *)

Definition is_signup_await (t : Pending) : bool :=
  match t with SignupAwait => true | _ => false end.

Definition is_hide_success (t : Pending) : bool :=
  match t with HideSuccess => true | _ => false end.

(** A signup is in flight exactly while its flag is up; the success view is
    up exactly while the timer that hides it is pending, and the input is
    empty under it. *)
Definition signup_bound (u : Ui) : Prop :=
  count_if is_signup_await (u_timers u)
  = (if isInterestSubmitting (u_cells u) then 1 else 0)
  ∧ count_if is_hide_success (u_timers u)
    = (if isInterestSubmitted (u_cells u) then 1 else 0)
  ∧ (isInterestSubmitting (u_cells u) = true →
     isInterestSubmitted (u_cells u) = false)
  ∧ (isInterestSubmitted (u_cells u) = true → emailOrId (u_cells u) = "").

(** Between events the render shows the form enabled only if no signup is
    in flight and the success view is down. *)
Definition signup_inv (u : Ui) : Prop :=
  signup_bound u
  ∧ (isInterestSubmitting (u_cells u) = true →
     isInterestSubmitting (u_rendered u) = true)
  ∧ (isInterestSubmitted (u_cells u) = true →
     isInterestSubmitted (u_rendered u) = true
     ∨ isInterestSubmitting (u_rendered u) = true).

(** The events that leave the signup alone. *)
Definition signup_neutral (e : Event) (u : Ui) : Prop :=
  let r := m_body e u in
  isInterestSubmitting (u_cells r.1) = isInterestSubmitting (u_cells u)
  ∧ isInterestSubmitted (u_cells r.1) = isInterestSubmitted (u_cells u)
  ∧ emailOrId (u_cells r.1) = emailOrId (u_cells u)
  ∧ count_if is_signup_await (u_timers r.1)
    = count_if is_signup_await (u_timers u)
  ∧ count_if is_hide_success (u_timers r.1)
    = count_if is_hide_success (u_timers u).

Lemma signup_neutral_events e u :
  e ≠ SubmitForm → (∀ text, e ≠ ChangeInput text) →
  (∀ i, e = Fire i →
     u_timers u !! i ≠ Some SignupAwait ∧ u_timers u !! i ≠ Some HideSuccess) →
  signup_neutral e u.
Proof.
  intros Hs Hc Hf. unfold signup_neutral. destruct e; m_unfold; try done.
  - by destruct q, (hasStartedSurvey (u_rendered u)).
  - destruct (survey_incomplete _); [done|]. m_unfold.
    rewrite !count_if_app. simpl. split_and!; try done; lia.
  - by destruct (Hc text).
  - by destruct (m_for_each_scroll (u_installed u) m u) as [[->| ->] _].
  - by destruct (m_for_each_unload (u_installed u) u) as [-> _].
  - destruct (u_timers u !! i) as [t|] eqn:Ht; [|done].
    pose proof (count_if_delete is_signup_await _ _ _ Ht) as Hd1.
    pose proof (count_if_delete is_hide_success _ _ _ Ht) as Hd2.
    destruct (Hf i eq_refl) as [H1 H2].
    destruct t as [snap| |]; [|done..]. m_unfold. simpl in *.
    split_and!; try done; lia.
Qed.

Lemma signup_inv_neutral e u :
  signup_neutral e u → signup_inv u → signup_inv (m_body e u).1.
Proof.
  intros (Hs & Hd & He & Hc1 & Hc2) ((? & ? & ? & ?) & ? & ?).
  unfold signup_inv, signup_bound.
  destruct (m_body_closures e u) as (-> & _).
  by rewrite Hs, Hd, He, Hc1, Hc2.
Qed.

(** With the form enabled, no signup is in flight and the success view is
    down. *)
Lemma signup_inv_idle u :
  signup_inv u → can_type (render (u_rendered u)) = true →
  isInterestSubmitting (u_cells u) = false
  ∧ isInterestSubmitted (u_cells u) = false.
Proof.
  intros (_ & Hr1 & Hr2) (Hd & Hs)%can_type_render.
  destruct (isInterestSubmitting (u_cells u));
    [by specialize (Hr1 eq_refl); congruence|].
  destruct (isInterestSubmitted (u_cells u)); [|done].
  destruct (Hr2 eq_refl); congruence.
Qed.

Lemma signup_inv_change text u :
  m_enabled (ChangeInput text) u = true → signup_inv u →
  signup_bound (m_body (ChangeInput text) u).1.
Proof.
  intros [_ Ht]%andb_prop Hinv.
  destruct (signup_inv_idle u Hinv Ht) as [Hs Hd].
  destruct Hinv as ((H1 & H2 & _) & _). unfold signup_bound. m_unfold.
  simpl. by rewrite Hs, Hd in *.
Qed.

Lemma signup_inv_submit u :
  m_enabled SubmitForm u = true → signup_inv u →
  signup_bound (m_body SubmitForm u).1.
Proof.
  intros [_ Ht]%andb_prop Hinv.
  assert (can_type (render (u_rendered u)) = true) as Ht'
    by (by apply can_type_render, can_submit_signup_render).
  destruct (signup_inv_idle u Hinv Ht') as [Hs Hd].
  destruct Hinv as ((H1 & H2 & H3 & H4) & _). unfold signup_bound. m_unfold.
  destruct (truthy_string _); m_unfold; simpl;
    rewrite ?count_if_app, ?Hs, ?Hd in *; simpl; split_and!; try done; lia.
Qed.

(** The end of a signup raises the success view, empties the input and
    sets the timer that hides the view. *)
Lemma signup_inv_fire_await i u :
  u_timers u !! i = Some SignupAwait → signup_inv u →
  signup_inv (m_body (Fire i) u).1.
Proof.
  intros Ht ((H1 & H2 & H3 & H4) & Hr1 & Hr2).
  pose proof (count_if_delete is_signup_await _ _ _ Ht) as Hd1.
  pose proof (count_if_delete is_hide_success _ _ _ Ht) as Hd2.
  unfold signup_inv, signup_bound. m_unfold. rewrite Ht. m_unfold.
  rewrite !count_if_app. simpl in *.
  destruct (isInterestSubmitting (u_cells u)); [|lia].
  rewrite (H3 eq_refl) in *.
  split_and!; try done; try lia. intros _. right. by apply Hr1.
Qed.

(** The timer lowers the success view. *)
Lemma signup_inv_fire_hide i u :
  u_timers u !! i = Some HideSuccess → signup_inv u →
  signup_inv (m_body (Fire i) u).1.
Proof.
  intros Ht ((H1 & H2 & H3 & H4) & Hr1 & Hr2).
  pose proof (count_if_delete is_signup_await _ _ _ Ht) as Hd1.
  pose proof (count_if_delete is_hide_success _ _ _ Ht) as Hd2.
  unfold signup_inv, signup_bound. m_unfold. rewrite Ht. m_unfold.
  simpl in *. destruct (isInterestSubmitted (u_cells u)); [|lia].
  split_and!; try done; lia.
Qed.

Lemma signup_inv_run es : signup_inv (mrun es initial_ui).1.
Proof.
  apply (mrun_invariant (λ u _, signup_inv u) (λ u _, signup_bound u)).
  - unfold signup_inv, signup_bound. cbn. by split_and!.
  - intros e u _ Hinv He. cbn zeta.
    destruct (decide (e = SubmitForm)) as [->|Hs]; [by apply signup_inv_submit|].
    destruct e as [| | | |text| | | |i| |];
      try (apply (signup_inv_neutral _ _ (signup_neutral_events _ _ Hs
             ltac:(done) ltac:(done))) in Hinv as Hn;
           cbn [commits]; by try destruct Hn).
    + by apply signup_inv_change.
    + cbn [commits].
      destruct (u_timers u !! i) as [[snap| |]|] eqn:Ht;
        [|by apply signup_inv_fire_await|by apply signup_inv_fire_hide|];
        (apply signup_inv_neutral; [|done]); apply signup_neutral_events;
        try done; intros ? [= <-]; split; congruence.
  - intros u _ (H1 & H2 & H3 & H4). unfold signup_inv, signup_bound.
    destruct (m_commit_cells u) as (-> & -> & -> & _). split_and!; auto.
Qed.

(** ** Alerts *)

(** The only alert that a session shows asks for a contact: the survey
    cannot be submitted incomplete through the rendered controls. *)
Lemma m_body_alerts e u :
  m_enabled e u = true →
  Forall (λ msg, msg = msg_enter_contact) (out_alerts (m_body e u).2).
Proof.
  intros He. destruct e; m_unfold; try (by forall_list).
  - by destruct q, (hasStartedSurvey (u_rendered u)); forall_list.
  - apply andb_prop in He as [_ (_ & _ & ->)%can_submit_survey_render].
    by forall_list.
  - by destruct (truthy_string _); cbn; forall_list.
  - destruct (m_for_each_scroll (u_installed u) m u) as [_ Hn].
    by rewrite (out_alerts_all_named _ _ Hn).
  - destruct (m_for_each_unload (u_installed u) u) as [_ Hn].
    by rewrite (out_alerts_all_named _ _ Hn).
  - by destruct (u_timers u !! i) as [[]|]; forall_list.
Qed.

Lemma out_alerts_app os1 os2 :
  out_alerts (os1 ++ os2) = out_alerts os1 ++ out_alerts os2.
Proof. apply omap_app. Qed.

Lemma alerts_run es :
  Forall (λ msg, msg = msg_enter_contact) (out_alerts (mrun es initial_ui).2).
Proof.
  set (I := λ (_ : Ui) os, Forall (λ msg, msg = msg_enter_contact) (out_alerts os)).
  apply (mrun_invariant I I); [by constructor| |].
  - intros e u os H He.
    assert (I (m_body e u).1 (os ++ (m_body e u).2)) as H';
      [|by destruct (commits e)].
    unfold I. rewrite out_alerts_app. apply Forall_app. split; [done|].
    by apply m_body_alerts.
  - intros u os H. unfold I, m_commit. rewrite out_alerts_app.
    destruct (u_cleanup u); [destruct (deps_changed _ _)|]; cbn;
      by rewrite app_nil_r.
Qed.

(** ** Before the mount *)

(** Before the mount no event changes the cells or sets a timer. *)
Lemma m_body_unmounted e u :
  m_enabled e u = true → m_mounted u = false → u_installed u = [] →
  u_timers u = [] → m_body e u = (u, (m_body e u).2).
Proof.
  intros He Hm Hi Ht.
  destruct e; cbn [m_enabled] in He; rewrite ?Hm in He; try done;
    cbn [m_body]; rewrite ?Hi; try done.
  rewrite Ht in He. by apply bool_decide_eq_true in He; simpl in He; lia.
Qed.

(** Before the mount the cells hold their initial values, no listener is
    registered and no timer is pending. *)
Definition unmounted_inv (u : Ui) : Prop :=
  m_mounted u = false →
  u_cells u = initial_state ∧ u_installed u = [] ∧ u_timers u = [].

Lemma unmounted_inv_body e u :
  unmounted_inv u → m_enabled e u = true → unmounted_inv (m_body e u).1.
Proof.
  intros H He Hm. assert (m_mounted u = false) as Hu.
  { unfold m_mounted in *. by destruct (m_body_closures e u) as (_ & _ & <-). }
  destruct (H Hu) as (Hc & Hi & Ht). by rewrite (m_body_unmounted e u).
Qed.

Lemma unmounted_inv_commit u : unmounted_inv (m_commit u).1.
Proof.
  intros Hm. unfold m_commit, m_mounted in Hm.
  by destruct (u_cleanup u); [destruct (deps_changed _ _)|].
Qed.

Lemma unmounted_inv_run es : unmounted_inv (mrun es initial_ui).1.
Proof.
  apply (mrun_invariant (λ u _, unmounted_inv u) (λ u _, unmounted_inv u));
    [done| |].
  - intros e u _ H He.
    assert (unmounted_inv (m_body e u).1) as H'; [|by destruct (commits e)].
    by apply unmounted_inv_body.
  - intros u os _. apply unmounted_inv_commit.
Qed.

(** ** What opens the survey *)

(** Only the first question opens the survey. *)
Lemma m_body_start_gender e u :
  (∀ item, e ≠ Select QGender item) →
  sends "start survey" (m_body e u).2 = 0
  ∧ hasStartedSurvey (u_cells (m_body e u).1) = hasStartedSurvey (u_cells u).
Proof.
  intros Hne. destruct (m_body_start e u) as [?|(Hs & _ & Hc & _)]; [done|].
  destruct e; m_unfold; try done.
  - destruct q; [by destruct (Hne item)|done..].
  - by destruct (survey_incomplete _).
  - by destruct (truthy_string _).
  - destruct (m_for_each_scroll (u_installed u) m u) as [_ Hn].
    by rewrite (sends_all_named _ _ _ Hn) in Hs.
  - destruct (m_for_each_unload (u_installed u) u) as [_ Hn].
    by rewrite (sends_all_named _ _ _ Hn) in Hs.
  - by destruct (u_timers u !! i) as [[]|].
Qed.

Lemma start_needs_gender es :
  (∀ item, Select QGender item ∉ es) →
  sends "start survey" (mrun es initial_ui).2 = 0
  ∧ hasStartedSurvey (u_cells (mrun es initial_ui).1) = false.
Proof.
  induction es as [|e es IH] using rev_ind; [done|]. intros Hno.
  destruct IH as [IH1 IH2].
  { intros item Hin. apply (Hno item), elem_of_app. by left. }
  assert (∀ item, e ≠ Select QGender item) as Hne.
  { intros item ->. apply (Hno item), elem_of_app. right. by left. }
  rewrite mrun_snoc. cbn [fst snd]. rewrite sends_app, IH1. unfold mstep, m_handle.
  destruct (m_enabled e _); [|done].
  destruct (m_body_start_gender e (mrun es initial_ui).1 Hne) as [Hs Hc].
  destruct (commits e); unfold then_commit; cbn [fst snd];
    rewrite ?sends_app, ?m_commit_sends by done;
    rewrite ?Hs; [destruct (m_commit_cells (m_body e (mrun es initial_ui).1).1) as (-> & _)|];
    by rewrite Hc.
Qed.

(** ** The success view of the signup *)

(** When the hiding timer fires and React renders, the render sees the
    success view down and everything else as it was. *)
Lemma m_hide_then_flush i u :
  u_timers u !! i = Some HideSuccess → m_mounted u = true →
  u_rendered (mstep Flush (mstep (Fire i) u).1).1
  = with_isInterestSubmitted false (u_cells u).
Proof.
  intros Hi Hm.
  assert ((mstep (Fire i) u).1
          = m_set_cells (with_isInterestSubmitted false (u_cells u))
              (mkUi (u_cells u) (u_rendered u) (u_installed u) (u_cleanup u)
                 (u_ref u) (delete i (u_timers u)))) as ->.
  { unfold mstep. cbn [m_enabled].
    rewrite bool_decide_true by (by eapply lookup_lt_Some).
    unfold m_handle. cbn [commits m_body]. by rewrite Hi. }
  rewrite mstep_Flush. unfold m_mounted in *. cbn [m_set_cells u_cleanup].
  destruct (u_cleanup u); [|done]. cbn [fst].
  by destruct (m_commit_cells (m_set_cells
    (with_isInterestSubmitted false (u_cells u))
    (mkUi (u_cells u) (u_rendered u) (u_installed u) (Some s) (u_ref u)
       (delete i (u_timers u))))) as (_ & -> & _).
Qed.

(** While the success view is up, the page is mounted, the timer that
    hides the view is pending, no signup is in flight and the input is
    empty. *)
Lemma signup_success_state es :
  let u := (mrun es initial_ui).1 in
  isInterestSubmitted (u_cells u) = true →
  m_mounted u = true ∧ (∃ i, u_timers u !! i = Some HideSuccess)
  ∧ isInterestSubmitting (u_cells u) = false ∧ emailOrId (u_cells u) = "".
Proof.
  cbn zeta. intros Hd.
  pose proof (signup_inv_run es) as ((_ & Hh & Hx & He) & _).
  pose proof (unmounted_inv_run es) as Hu. rewrite Hd in Hh.
  split_and!; [| | |by apply He].
  - destruct (m_mounted _) eqn:Hm; [done|]. destruct (Hu Hm) as (Hc & _).
    by rewrite Hc in Hd.
  - assert (0 < count_if is_hide_success (u_timers (mrun es initial_ui).1))
      as ([] & Hin%list_elem_of_lookup & ?)%count_if_pos by lia; done.
  - destruct (isInterestSubmitting _); [|done]. rewrite Hx in Hd; done.
Qed.
