(* ===== verification/Outputs.v ===== *)
(** * What the outputs of the machine do to the world

    The lemmas of this file read the trace of a session off the outputs of
    the machine: every relation respected by the operations on the world is
    preserved by a list of outputs; the events named [n] that reach the SDK
    are at most the outputs that send [n], whatever the SDK, the storage and
    the configuration do; the alerts shown are exactly the alert outputs; in
    a working browser with a reliable SDK the events sent are exactly the
    outputs. *)

From S2P Require Import Prelude JsString JsValue Effects Browser Identity.
From S2P Require Import Tracking PageState Survey Signup Observer View Page.
From S2P Require Import Machine Invariants.

#[local] Open Scope string_scope.
#[local] Open Scope list_scope.
#[local] Open Scope nat_scope.

(** The events of a trace, without the identifier that [trackEvent] adds. *)
Definition events (t : list Effect) : list (string * Props) :=
  omap (λ e, match e with
             | ECall (SdkTrack n p) => Some (n, delete "anonymous_user_id" p)
             | _ => None
             end) t.

(** The events that a list of outputs asks for. *)
Definition out_events (os : list Out) : list (string * Props) :=
  omap (λ o, match o with
             | OTrack n p => Some (n, delete "anonymous_user_id" (spread_opt p))
             | OInit => Some ("view landing", ∅)
             | _ => None
             end) os.

Lemma events_app t1 t2 : events (t1 ++ t2) = events t1 ++ events t2.
Proof. apply omap_app. Qed.

Lemma out_events_app os1 os2 :
  out_events (os1 ++ os2) = out_events os1 ++ out_events os2.
Proof. apply omap_app. Qed.

(** The events named [n] among the events of a trace. *)
Lemma events_with_identity n p id :
  events [ECall (SdkTrack n (with_identity p id))]
  = [(n, delete "anonymous_user_id" (spread_opt p))].
Proof. unfold events, with_identity. cbn. by rewrite delete_insert_eq. Qed.

Section outputs.
Context {S : Type} `{!Sdk S}.
Implicit Types (w : World S) (os : list Out).

(** ** Respected relations *)

Lemma out_world_respects R `{!RespectedInit R} o w : R w (out_world o w).
Proof.
  destruct o; cbn [out_world].
  - apply (respected_track (R:=R)).
  - apply (respected_init (R:=R)).
  - apply (respected_console (R:=R)).
  - apply (respected_alert (R:=R)).
  - apply (respected_tick (R:=R)).
Qed.

Lemma outs_world_respects R `{!RespectedInit R} os w : R w (outs_world os w).
Proof.
  revert w. induction os as [|o os IH]; intros w; [reflexivity|].
  rewrite outs_world_cons. etrans; [apply (out_world_respects R o)|apply IH].
Qed.

(** ** Upper bound on the events sent, in any world *)

Lemma out_world_tracks n o w :
  count_if (is_track n) (trace (out_world o w))
  ≤ count_if (is_track n) (trace w) + sends n [o].
Proof.
  unfold sends. destruct o as [n' p| | | |]; cbn [out_world out_name count_if].
  - case_bool_decide as Hn; simplify_eq.
    + etrans; [apply (emits_count trace _ 1), emits_trackEvent_same|lia].
    + etrans; [apply (emits_count trace _ 0), emits_trackEvent_other|lia].
      congruence.
  - case_bool_decide as Hn; simplify_eq.
    + etrans; [apply (emits_count trace _ 1), emits_initAmplitude_view|lia].
    + etrans; [apply (emits_count trace _ 0), emits_initAmplitude_other|lia].
      congruence.
  - cbn. rewrite count_if_app. simpl. lia.
  - cbn. rewrite count_if_app. simpl. lia.
  - cbn. lia.
Qed.

Lemma outs_world_tracks n os w :
  count_if (is_track n) (trace (outs_world os w))
  ≤ count_if (is_track n) (trace w) + sends n os.
Proof.
  revert w. induction os as [|o os IH]; intros w; [simpl; lia|].
  rewrite outs_world_cons. etrans; [apply IH|].
  pose proof (out_world_tracks n o w).
  change (o :: os) with ([o] ++ os). rewrite sends_app. lia.
Qed.

(** ** The alerts shown, in any world *)

Lemma alerts_nil_count t : count_if is_alert t = 0 → alerts t = [].
Proof. rewrite <- alerts_length. by destruct (alerts t). Qed.

(** A computation that shows no alert leaves them as they were. *)
Lemma alerts_exec {A} (m : JS (World S) A) w :
  emits_le trace is_alert 0 m → alerts (trace (exec m w)) = alerts (trace w).
Proof.
  intros H. destruct (H w) as (Δ & -> & Hc).
  rewrite alerts_app, (alerts_nil_count Δ) by lia. apply app_nil_r.
Qed.

Lemma out_world_alerts o w :
  alerts (trace (out_world o w)) = alerts (trace w) ++ out_alerts [o].
Proof.
  destruct o; cbn [out_world out_alerts omap]; rewrite ?app_nil_r.
  - apply alerts_exec, emits_trackEvent_alert.
  - apply alerts_exec, emits_initAmplitude_alert.
  - cbn. by rewrite alerts_app, app_nil_r.
  - cbn. by rewrite alerts_app.
  - done.
Qed.

Lemma outs_world_alerts os w :
  alerts (trace (outs_world os w)) = alerts (trace w) ++ out_alerts os.
Proof.
  revert w. induction os as [|o os IH]; intros w; [by rewrite app_nil_r|].
  rewrite outs_world_cons. rewrite IH, out_world_alerts, <- app_assoc.
  by change (o :: os) with ([o] ++ os); rewrite out_alerts_app.
Qed.

(** ** Without a configured key *)

(** [silent w w']: nothing of the analytics has happened between [w] and
    [w']: the key, the SDK and the storage are as they were and no call
    into the SDK was added to the trace. *)
Definition silent : relation (World S) := λ w w',
  envApiKey w' = envApiKey w ∧ sdk w' = sdk w
  ∧ localStorage w' = localStorage w
  ∧ filter (λ e, is_call e = true) (trace w')
    = filter (λ e, is_call e = true) (trace w).

Lemma out_world_silent o w :
  apiKey_configured w = false → silent w (out_world o w).
Proof.
  intros Hk. destruct o; cbn [out_world].
  - by rewrite after_track_unconfigured.
  - by rewrite init_world_unconfigured.
  - unfold silent, set_trace. cbn. by rewrite filter_app, app_nil_r.
  - unfold silent, set_trace. cbn. by rewrite filter_app, app_nil_r.
  - done.
Qed.

Lemma outs_world_silent os w :
  apiKey_configured w = false → silent w (outs_world os w).
Proof.
  revert w. induction os as [|o os IH]; intros w Hk; [done|].
  rewrite outs_world_cons.
  destruct (out_world_silent o w Hk) as (He & Hs & Hl & Ht).
  destruct (IH (out_world o w)) as (He' & Hs' & Hl' & Ht').
  { unfold apiKey_configured, apiKey_of in *. by rewrite He. }
  unfold silent. by rewrite He', Hs', Hl', Ht'.
Qed.

(** ** The events sent in a working browser with a reliable SDK *)

Lemma healthy_frame w w' : frame w w' → healthy w → healthy w'.
Proof.
  intros (He & Hw & Hb & _) (? & ? & ?).
  unfold healthy, apiKey_configured, apiKey_of in *. by rewrite He, Hw, Hb.
Qed.

Lemma out_world_events `{!Reliable S} o w :
  healthy w →
  events (trace (out_world o w)) = events (trace w) ++ out_events [o].
Proof.
  intros Hh. destruct o as [n p| | | |]; cbn [out_world out_events omap].
  - destruct (after_track_reliable n p w Hh) as (id & _ & _ & _ & ->).
    by rewrite events_app, events_with_identity.
  - destruct (init_world_healthy w Hh) as (id & _ & _ & _ & ->).
    rewrite events_app. f_equal.
  - unfold set_trace. cbn [trace]. by rewrite events_app.
  - unfold set_trace. cbn [trace]. by rewrite events_app.
  - unfold set_entropy. cbn [trace]. by rewrite app_nil_r.
Qed.

Lemma outs_world_events `{!Reliable S} os w :
  healthy w →
  events (trace (outs_world os w)) = events (trace w) ++ out_events os.
Proof.
  revert w. induction os as [|o os IH]; intros w Hh; [by rewrite app_nil_r|].
  rewrite outs_world_cons.
  rewrite IH by (eapply healthy_frame; [apply (out_world_respects frame)|done]).
  rewrite out_world_events, <- app_assoc by done.
  by change (o :: os) with ([o] ++ os); rewrite out_events_app.
Qed.

End outputs.

(** ** What kind of effects a session appends *)

Section appends.
Context {S : Type} `{!Sdk S}.
Implicit Types (w : World S) (os : list Out).

(** [appends P w w']: from [w] to [w'] the trace has grown by effects
    that satisfy [P]. *)
Definition appends (P : Effect → Prop) : relation (World S) := λ w w',
  ∃ Δ, trace w' = trace w ++ Δ ∧ Forall P Δ.

#[export] Instance appends_preorder P : PreOrder (appends P).
Proof.
  split.
  - intros w. exists []. by rewrite app_nil_r.
  - intros w1 w2 w3 (Δ & H1 & HP) (Δ' & H2 & HP'). exists (Δ ++ Δ').
    rewrite H2, H1, app_assoc. split; [done|]. by apply Forall_app.
Qed.

(** The effects that [P] must allow for an output to be allowed. *)
Definition out_allowed (P : Effect → Prop) (o : Out) : Prop :=
  match o with
  | OTrack n p => ∀ id, P (ECall (SdkTrack n (with_identity p id)))
  | OInit =>
    ∀ k id, P (ECall (SdkInit k)) ∧ P (ECall (SdkSetUserId id))
            ∧ P (ECall (SdkTrack "view landing" (with_identity None id)))
  | OConsole l msg arg => P (EConsole l msg arg)
  | OAlert msg => P (EAlert msg)
  | OTick _ _ => True
  end.

Context (P : Effect → Prop).
(** Warnings and the log line of the initialisation are allowed. *)
Context (Hwarn : ∀ msg e, P (EConsole LWarn msg (ArgError e))).
Context (Hlog : ∀ msg, P (EConsole LLog msg ArgNone)).

Lemma appends_emit e : P e → preserves (appends P) (emit (S:=S) e).
Proof.
  intros He w. exists [e]. unfold exec. rewrite emit_run. cbn.
  split; [done|]. by constructor.
Qed.

Lemma appends_sdk_call c : P (ECall c) → preserves (appends P) (sdk_call c).
Proof.
  intros He w. exists [ECall c]. rewrite sdk_call_trace.
  split; [done|]. by constructor.
Qed.

Lemma appends_getOrCreate : preserves (appends P) getOrCreateAnonymousUserId.
Proof.
  intros w. exists []. destruct (getOrCreate_frame w) as (-> & _).
  by rewrite app_nil_r.
Qed.

Lemma appends_trackEvent n p :
  (∀ id, P (ECall (SdkTrack n (with_identity p id)))) →
  preserves (appends P) (trackEvent n p).
Proof.
  intros Hp. unfold trackEvent.
  apply preserves_bind; [apply _ | apply preserves_get_st; apply _ |]. intros w0.
  apply preserves_when; [apply _|].
  apply preserves_try_catch; [apply _ | | intros e; by apply appends_emit].
  apply preserves_bind; [apply _ | apply appends_getOrCreate |]. intros id.
  by apply appends_sdk_call.
Qed.

Lemma appends_initAmplitude :
  out_allowed P OInit → preserves (appends P) (initAmplitude (S:=S)).
Proof.
  intros Hp. unfold initAmplitude.
  apply preserves_bind; [apply _ | apply preserves_get_st; apply _ |]. intros w0.
  apply preserves_when; [apply _|].
  apply preserves_try_catch; [apply _ | | intros e; by apply appends_emit].
  apply preserves_bind; [apply _ | apply appends_sdk_call, (Hp _ "") |].
  intros _.
  apply preserves_bind; [apply _ | apply appends_getOrCreate |]. intros id.
  apply preserves_bind; [apply _ | apply appends_sdk_call, (Hp "") |].
  intros _.
  apply preserves_bind;
    [apply _ | apply appends_trackEvent; intros id'; apply (Hp "" id') |].
  intros _. by apply appends_emit.
Qed.

Lemma out_world_appends o w : out_allowed P o → appends P w (out_world o w).
Proof.
  destruct o; cbn [out_world out_allowed]; intros Hp.
  - by apply appends_trackEvent.
  - by apply appends_initAmplitude.
  - by apply (appends_emit (EConsole l msg arg)).
  - by apply (appends_emit (EAlert msg)).
  - exists []. cbn. by rewrite app_nil_r.
Qed.

(** A list of allowed outputs appends allowed effects. *)
Lemma outs_world_appends os w :
  Forall (out_allowed P) os → appends P w (outs_world os w).
Proof.
  revert w. induction os as [|o os IH]; intros w Hos; [reflexivity|].
  apply Forall_cons in Hos as [Ho Hos]. rewrite outs_world_cons.
  etrans; [by apply out_world_appends | by apply IH].
Qed.

End appends.
