(* ===== verification/Schedule.v ===== *)
(** * The eager schedule

    The two window listeners close over the state of the render that
    installed them.  A listener that raises a latch relies on React to
    re-render and re-install the listeners before the next event.  Under
    the eager schedule, where a render follows every event, the listeners
    always see the current cells; this file proves the invariants of the
    machine that hold under that schedule: the scroll event is sent at most
    once, and the unload listener decides by the current state of the
    survey. *)

From S2P Require Import Prelude JsString JsValue Effects Browser Identity.
From S2P Require Import Tracking PageState Survey Signup Observer View Page.
From S2P Require Import Machine Invariants.

#[local] Open Scope string_scope.
#[local] Open Scope list_scope.
#[local] Open Scope nat_scope.

(** ** Runs under the eager schedule *)

Lemma eager_events_snoc es e :
  eager_events (es ++ [e]) = eager_events es ++ [e; Flush].
Proof. unfold eager_events. by rewrite bind_app. Qed.

Lemma eager_run_events {S} `{!Sdk S} es (p : Page S) :
  eager_run es p = run (eager_events es) p.
Proof.
  induction es as [|e es IH] using rev_ind; [done|].
  rewrite eager_events_snoc, run_app. unfold eager_run in *.
  by rewrite foldl_app, IH.
Qed.

(** An invariant [I] holds between the events of every eager run when it
    holds initially, the code of an event takes [I] to [J], a render takes
    [J] to [I], and [J] is [I] as long as the page is not mounted. *)
Lemma eager_invariant (I J : Ui → list Out → Prop) :
  I initial_ui [] →
  (∀ e u os, I u os → m_enabled e u = true →
     J (m_body e u).1 (os ++ (m_body e u).2)) →
  (∀ u os, J u os → I (m_commit u).1 (os ++ (m_commit u).2)) →
  (∀ u os, J u os → m_mounted u = false → I u os) →
  (∀ u os, I u os → J u os) →
  ∀ es, I (mrun (eager_events es) initial_ui).1 (mrun (eager_events es) initial_ui).2.
Proof.
  intros H0 Hbody Hcommit Hun HIJ es.
  induction es as [|e es IH] using rev_ind; [done|].
  rewrite eager_events_snoc.
  change [e; Flush] with ([e] ++ [Flush]). rewrite app_assoc, !mrun_snoc.
  cbn [fst snd]. set (r := mrun (eager_events es) initial_ui) in *.
  assert (J (mstep e r.1).1 (r.2 ++ (mstep e r.1).2)) as HJ.
  { unfold mstep, m_handle. destruct (m_enabled e r.1) eqn:He;
      [|rewrite app_nil_r; by apply HIJ].
    specialize (Hbody e _ _ IH He). destruct (commits e); [|done].
    unfold then_commit. cbn [fst snd]. rewrite app_assoc.
    by apply HIJ, Hcommit. }
  rewrite mstep_Flush. destruct (m_mounted (mstep e r.1).1) eqn:Hm; cbn [fst snd].
  - by apply Hcommit.
  - rewrite app_nil_r. by apply Hun.
Qed.

(** ** The listeners see the current cells *)

(** Between the events of an eager run the render is up to date, and
    before the mount nothing is pending. *)
Definition fresh_inv (u : Ui) : Prop :=
  u_rendered u = u_cells u ∧ listeners_ok u
  ∧ (m_mounted u = false → u_timers u = []).

Definition fresh_mid (u : Ui) : Prop :=
  listeners_ok u
  ∧ (m_mounted u = false → u_rendered u = u_cells u ∧ u_timers u = []).

Lemma fresh_body e u :
  fresh_inv u → m_enabled e u = true → fresh_mid (m_body e u).1.
Proof.
  intros (Hr & Hl & Ht) He. unfold fresh_mid, listeners_ok, m_mounted in *.
  destruct (m_body_closures e u) as (Hr' & Hi' & Hc'). rewrite Hr', Hi', Hc'.
  split; [done|]. intros Hm.
  destruct (u_cleanup u) eqn:Hcl; [done|].
  rewrite (m_body_unmounted e u); unfold m_mounted; rewrite ?Hcl; auto.
Qed.

Lemma fresh_commit u : fresh_mid u → fresh_inv (m_commit u).1.
Proof.
  intros (Hl & _). unfold fresh_inv.
  split_and!; [by destruct (m_commit_cells u) as (-> & -> & _)
              |by apply m_commit_listeners|].
  unfold m_commit, m_mounted.
  by destruct (u_cleanup u); [destruct (deps_changed _ _)|].
Qed.

Lemma fresh_unmounted u : fresh_mid u → m_mounted u = false → fresh_inv u.
Proof. intros (Hl & Hm) Hu. unfold fresh_inv. by destruct (Hm Hu). Qed.

Lemma fresh_weaken u : fresh_inv u → fresh_mid u.
Proof. intros (Hr & Hl & Ht). split; [done|]. auto. Qed.

Lemma fresh_inv_run es : fresh_inv (mrun (eager_events es) initial_ui).1.
Proof.
  apply (eager_invariant (λ u _, fresh_inv u) (λ u _, fresh_mid u));
    [by split_and! | intros e u _; apply fresh_body
    | intros u _; apply fresh_commit | intros u _; apply fresh_unmounted
    | intros u _; apply fresh_weaken].
Qed.

(** The pair of listeners registered, when the render is up to date. *)
Lemma fresh_listener u :
  fresh_inv u →
  u_installed u = [] ∧ m_mounted u = false
  ∨ ∃ l, u_installed u = [l] ∧ m_mounted u = true
         ∧ effect_deps l = effect_deps (u_cells u).
Proof.
  intros (Hr & Hl & _). unfold listeners_ok, m_mounted in *.
  destruct (u_cleanup u) as [l|]; [right|by left].
  destruct Hl as [Hi Hd]. exists l. by rewrite <- Hr.
Qed.

(** ** The scroll latch *)

(** The scroll event has been sent at most once, and only with the latch
    up. *)
Definition scroll_bound (u : Ui) (os : list Out) : Prop :=
  sends "scroll depth" os ≤ (if scrollDepthTracked (u_cells u) then 1 else 0).

(** The code of an event other than a scroll tick sends no scroll event. *)
Lemma m_body_no_scroll e u :
  (∀ m, e ≠ Scroll m) → sends "scroll depth" (m_body e u).2 = 0.
Proof.
  intros Hne. destruct e; m_unfold; try done.
  - by destruct q, (hasStartedSurvey (u_rendered u)).
  - by destruct (survey_incomplete _).
  - by destruct (truthy_string _).
  - by destruct (Hne m).
  - destruct (m_for_each_unload (u_installed u) u) as [_ Hn].
    by rewrite (sends_all_named _ _ _ Hn).
  - by destruct (u_timers u !! i) as [[]|].
Qed.

(** With the render up to date, a scroll tick sends the event only when
    the latch is down, and raises it. *)
Lemma m_body_scroll_fresh m u :
  fresh_inv u →
  let r := m_body (Scroll m) u in
  r = (u, [])
  ∨ (scrollDepthTracked (u_cells u) = false
     ∧ scrollDepthTracked (u_cells r.1) = true
     ∧ sends "scroll depth" r.2 = 1).
Proof.
  intros Hf. cbn [m_body].
  destruct (fresh_listener u Hf) as [[-> _]|(l & -> & _ & Hd)]; [by left|].
  rewrite m_for_each_one. unfold m_scroll, scroll_fires.
  injection Hd as -> _ _.
  destruct (scrollDepthTracked (u_cells u)); [by left|].
  destruct (num_ge _ _); [right|left]; done.
Qed.

Lemma scroll_bound_other e u os :
  (∀ m, e ≠ Scroll m) → scroll_bound u os →
  scroll_bound (m_body e u).1 (os ++ (m_body e u).2).
Proof.
  intros Hne Hb. unfold scroll_bound in *.
  rewrite sends_app, m_body_no_scroll by done.
  destruct (m_body_monotone e u) as (Hm & _).
  destruct (scrollDepthTracked (u_cells u)); [rewrite Hm by done; lia|].
  destruct (scrollDepthTracked _); lia.
Qed.

Lemma scroll_bound_body e u os :
  fresh_inv u → scroll_bound u os →
  scroll_bound (m_body e u).1 (os ++ (m_body e u).2).
Proof.
  intros Hf Hb. destruct e as [| | | | | |m| | | |];
    try (by apply scroll_bound_other).
  unfold scroll_bound in *. rewrite sends_app.
  destruct (m_body_scroll_fresh m u Hf) as [->|(Hd & -> & ->)];
    [by rewrite Nat.add_0_r|]. rewrite Hd in Hb. lia.
Qed.

Lemma scroll_bound_run es :
  scroll_bound (mrun (eager_events es) initial_ui).1
    (mrun (eager_events es) initial_ui).2.
Proof.
  apply (eager_invariant (λ u os, fresh_inv u ∧ scroll_bound u os)
           (λ u os, fresh_mid u ∧ scroll_bound u os)).
  - split; [by split_and!|unfold scroll_bound; simpl; lia].
  - intros e u os [Hf Hb] He.
    split; [by apply fresh_body | by apply scroll_bound_body].
  - intros u os [Hf Hb]. split; [by apply fresh_commit|].
    unfold scroll_bound in *. destruct (m_commit_cells u) as (-> & _).
    rewrite sends_app, m_commit_sends by done. lia.
  - intros u os [Hf Hb] Hm. split; [by apply fresh_unmounted|done].
  - intros u os [Hf Hb]. split; [by apply fresh_weaken|done].
Qed.

(** ** The unload listener *)

(** With the render up to date, the unload listener decides by the
    current cells. *)
Lemma m_body_unload_fresh u :
  fresh_inv u →
  m_body BeforeUnload u
  = (u, if m_mounted u && abandon_fires (u_cells u)
        then [OTrack "abandon survey"
                (Some {[ "progress_percent" := JNum (u_ref u) ]})]
        else []).
Proof.
  intros Hf. cbn [m_body].
  destruct (fresh_listener u Hf) as [[-> ->]|(l & -> & -> & Hd)]; [done|].
  rewrite m_for_each_one. unfold m_unload, abandon_fires.
  injection Hd as _ -> ->. by destruct (_ && _).
Qed.
