(* ===== verification/Session.v ===== *)
(** * Sessions of the page

    The theorems of this file are about whole sessions: any sequence of
    events from the initial page, in any browser, with any SDK behind the
    interface [Sdk], under any schedule of renders unless the theorem says
    "eager".  They combine the refinement of [Machine] (the page is the
    machine with its outputs interpreted in the world), the invariants of
    [Invariants] and [Schedule], and the reading of outputs of [Outputs]. *)

From S2P Require Import Prelude JsString JsValue Effects Browser Identity.
From S2P Require Import Tracking PageState Survey Signup Observer View Page.
From S2P Require Import Machine Invariants Outputs Schedule.

#[local] Open Scope string_scope.
#[local] Open Scope list_scope.
#[local] Open Scope nat_scope.

(** An event of the survey that reached the SDK carries labels of rendered
    options and the identifier: the label of the option clicked for a
    selection, the labels of the four chosen options for a submission. *)
Definition survey_event_ok (e : Effect) : Prop :=
  match e with
  | ECall (SdkTrack n props) =>
    (n = "submit survey" →
     ∃ choice id, (∀ q, choice q ∈ items_of q)
       ∧ props = <["anonymous_user_id" := JStr id]> (labelsData choice))
    ∧ (∀ q, n = select_name q →
       ∃ item id, item ∈ items_of q
         ∧ props = <["anonymous_user_id" := JStr id]>
                     {[ select_prop q := JStr (label item) ]})
  | _ => True
  end.

Lemma labelled_allowed o : labelled o → out_allowed survey_event_ok o.
Proof.
  destruct o as [n p| | | |]; cbn; try done.
  - intros [Hs Hq] id. split.
    + intros Hn. destruct (Hs Hn) as (choice & Hc & ->). by exists choice, id.
    + intros q Hn. destruct (Hq q Hn) as (item & Hin & ->). by exists item, id.
  - intros _ k id. split_and!; try done. by intros [].
Qed.

Section session.
Context {S : Type} `{!Sdk S}.
Implicit Types (w : World S) (es : list Event).

(** The page after the events [es], oldest first, of a visit that starts in
    the browser [w]; and the same under the eager schedule, in which React
    renders after every event. *)
Definition session w es : Page S := run es (initial_page w).
Definition eager_session w es : Page S := eager_run es (initial_page w).

(** ** The session and the machine *)

Lemma session_trace w es :
  ptrace (session w es) = trace (outs_world (mrun es initial_ui).2 w).
Proof. unfold session. by rewrite (run_join es (initial_page w)). Qed.

Lemma session_ui w es : ui (session w es) = (mrun es initial_ui).1.
Proof. unfold session. by rewrite (run_join es (initial_page w)), ui_join. Qed.

(** A session under the eager schedule is the session in which a render
    follows every event. *)
Lemma eager_session_events w es : eager_session w es = session w (eager_events es).
Proof. apply eager_run_events. Qed.

(** The events named [n] that a session sends are at most those that the
    machine outputs. *)
Lemma session_tracks n w es :
  count_if (is_track n) (ptrace (session w es))
  ≤ count_if (is_track n) (trace w) + sends n (mrun es initial_ui).2.
Proof. rewrite session_trace. apply outs_world_tracks. Qed.

(** C11: refinement.  Every session of the page, in
    any world and under any schedule, is the run of the pure machine on the
    interface state together with the interpretation of the machine's
    outputs, in order, in the world. *)
Theorem session_refines_machine w es :
  session w es
  = join (mrun es initial_ui).1 (outs_world (mrun es initial_ui).2 w).
Proof. apply (run_join es (initial_page w)). Qed.

(** ** One-time events *)

(** In any session, whatever the SDK, the
    storage and the schedule do, at most one "start survey" event is added
    to the trace. *)
Theorem start_survey_at_most_once w es :
  count_if (is_track "start survey") (ptrace (session w es))
  ≤ count_if (is_track "start survey") (trace w) + 1.
Proof.
  etrans; [apply session_tracks|]. destruct (start_inv_run es) as [_ Hb].
  unfold start_bound in Hb. destruct (hasStartedSurvey _); lia.
Qed.

(** C21: in any session at most one
    "submit survey" event is added to the trace: the survey cannot be
    submitted twice, whatever the order of clicks, timers and renders. *)
Theorem submit_survey_at_most_once w es :
  count_if (is_track "submit survey") (ptrace (session w es))
  ≤ count_if (is_track "submit survey") (trace w) + 1.
Proof.
  etrans; [apply session_tracks|]. destruct (submit_inv_run es) as [(_ & _ & Hb) _].
  destruct (isSubmitted _); lia.
Qed.

(** The effect sends the page view once for the mount and once more each
    time one of its three dependencies goes up, so a session adds at most
    four "view landing" events. *)
Lemma view_landing_bound w es :
  count_if (is_track "view landing") (ptrace (session w es))
  ≤ count_if (is_track "view landing") (trace w) + 4.
Proof.
  etrans; [apply session_tracks|]. pose proof (view_landing_le_4 es). lia.
Qed.

(** Under the eager schedule, in which a render
    follows every event, at most one "scroll depth" event is added however
    the scroll position moves. *)
Theorem scroll_depth_once_eager w es :
  count_if (is_track "scroll depth") (ptrace (eager_session w es))
  ≤ count_if (is_track "scroll depth") (trace w) + 1.
Proof.
  rewrite eager_session_events. etrans; [apply session_tracks|].
  pose proof (scroll_bound_run es) as Hb. unfold scroll_bound in Hb.
  destruct (scrollDepthTracked _); lia.
Qed.

(** C33: a session in which no option of the
    first question is clicked sends no "start survey" event and leaves the
    latch down, whatever else is answered. *)
Theorem start_needs_first_question w es :
  (∀ item, Select QGender item ∉ es) →
  count_if (is_track "start survey") (ptrace (session w es))
  = count_if (is_track "start survey") (trace w)
  ∧ hasStartedSurvey (cells (session w es)) = false.
Proof.
  intros Hno. destruct (start_needs_gender es Hno) as [Hs Hc]. split.
  - apply Nat.le_antisymm.
    + etrans; [apply session_tracks|]. lia.
    + rewrite session_trace.
      destruct (outs_world_respects frame (mrun es initial_ui).2 w)
        as (_ & _ & _ & t & ->).
      rewrite count_if_app. lia.
  - pose proof (session_ui w es) as Hu. by rewrite <- Hu in Hc.
Qed.

(** ** What the events carry *)

(** C23: every effect that a session adds to the
    trace is well formed for the survey: a "submit survey" event carries the
    labels of four rendered options, one per question, and a "select"
    event carries the label of a rendered option of its question; both
    carry an identifier; none carries a raw key. *)
Theorem survey_events_carry_labels w es :
  ∃ t, ptrace (session w es) = trace w ++ t
       ∧ Forall survey_event_ok t.
Proof.
  rewrite session_trace. apply outs_world_appends; try done.
  destruct (answers_inv_run es) as (_ & _ & _ & Ho).
  eapply Forall_impl; [exact Ho|]. apply labelled_allowed.
Qed.

(** C28: in a browser that holds a non-empty
    identifier, a session never changes the identifier, and every event and
    every [setUserId] call that it adds to the trace names it. *)
Theorem session_keeps_identity w es id :
  id ≠ "" → windowDefined w = true → stored_id w = Some id →
  stored_id (world (session w es)) = Some id
  ∧ ∃ t, ptrace (session w es) = trace w ++ t
         ∧ Forall (carries id) t.
Proof.
  intros Hne Hw Hid. unfold ptrace, session.
  rewrite (run_join es (initial_page w)), world_join.
  by destruct (outs_world_respects (keeps id) (mrun es initial_ui).2 w Hne Hw Hid)
    as (_ & ? & ?).
Qed.

(** C36: the only alert that a session can show is the
    request for a contact: the alert of an incomplete survey is unreachable
    through the rendered controls, and the error alerts are unreachable
    because the simulated calls cannot fail. *)
Theorem only_contact_alert w es :
  ∃ k, alerts (ptrace (session w es))
       = alerts (trace w) ++ replicate k msg_enter_contact.
Proof.
  rewrite session_trace, outs_world_alerts.
  pose proof (alerts_run es) as H.
  exists (length (out_alerts (mrun es initial_ui).2)). f_equal.
  induction H as [|x l -> _ IH]; [done|]. cbn. by rewrite <- IH.
Qed.

(** In a working browser with a reliable SDK the
    events that a session sends are exactly the outputs of the machine, in
    order, each with the identifier added. *)
Theorem events_are_outputs `{!Reliable S} w es :
  healthy w →
  events (ptrace (session w es))
  = events (trace w) ++ out_events (mrun es initial_ui).2.
Proof. intros Hh. rewrite session_trace. by apply outs_world_events. Qed.

(** C29: without a configured API key the analytics is off for the whole
    session: no call into the SDK is made, the SDK is not touched and no
    identifier is written to the storage, whatever the visitor does. *)
Theorem no_key_no_analytics w es :
  apiKey_configured w = false →
  let w' := world (session w es) in
  sdk w' = sdk w ∧ localStorage w' = localStorage w
  ∧ filter (λ e, is_call e = true) (trace w')
    = filter (λ e, is_call e = true) (trace w).
Proof.
  intros Hk. cbn zeta. unfold session.
  rewrite (run_join es (initial_page w)), world_join.
  by destruct (outs_world_silent (mrun es initial_ui).2 w Hk) as (_ & ? & ? & ?).
Qed.

(** ** The interface *)

(** C35: once the page is mounted exactly one pair
    of window listeners is registered at any time, and it was created by a
    render that saw the dependencies of the last render. *)
Theorem listeners_registered_once w es :
  let p := session w es in
  if mounted p
  then ∃ l, installed p = [l] ∧ cleanup p = Some l
            ∧ effect_deps l = effect_deps (rendered p)
  else installed p = [].
Proof.
  cbn zeta. pose proof (listeners_ok_run es) as H.
  rewrite <- (session_ui w es) in H. unfold listeners_ok, mounted in *.
  cbn in H. destruct (cleanup _) as [l|]; [|done]. exists l. by destruct H.
Qed.

(** In any session a submission of the survey
    is pending exactly while the submitting flag is up, and then the survey
    is not submitted yet. *)
Theorem one_submission_in_flight w es :
  let p := session w es in
  count_if is_survey_await (timers p) = (if isSubmitting (cells p) then 1 else 0)
  ∧ (isSubmitting (cells p) = true → isSubmitted (cells p) = false).
Proof.
  cbn zeta. destruct (submit_inv_run es) as [(Hc & Hx & _) _].
  rewrite <- (session_ui w es) in Hc, Hx. by cbn in *.
Qed.

(** Under the eager schedule the unload
    listener decides by the current state: at any point of a session,
    unloading sends the "abandon survey" event, with the progress last
    recorded, exactly when the page is mounted, the survey is started and it
    is not submitted; otherwise it leaves the world untouched. *)
Theorem abandon_decided_by_cells_eager w es :
  let p := eager_session w es in
  world (step BeforeUnload p)
  = if mounted p && abandon_fires (cells p)
    then after_track "abandon survey"
           (Some {[ "progress_percent" := JNum (surveyProgressRef p) ]})
           (world p)
    else world p.
Proof.
  cbn zeta. rewrite step_join, world_join. unfold mstep, m_handle.
  cbn [m_enabled commits]. rewrite m_body_unload_fresh.
  - cbn [snd]. change (m_mounted (ui ?p)) with (mounted p).
    change (u_cells (ui ?p)) with (cells p).
    by destruct (mounted _ && abandon_fires _).
  - rewrite eager_session_events, session_ui. apply fresh_inv_run.
Qed.

(** Whenever the success view of the signup is up,
    the timer that hides it is pending; when it fires and React renders,
    the form is shown again, empty and enabled. *)
Theorem signup_view_reverts w es :
  let p := session w es in
  isInterestSubmitted (cells p) = true →
  ∃ i, timers p !! i = Some HideSuccess
       ∧ render_signup (rendered (step Flush (step (Fire i) p)))
         = SignupForm "" false false "알림받기".
Proof.
  cbn zeta. intros Hd. pose proof (signup_success_state es) as H.
  rewrite <- (session_ui w es) in H.
  destruct (H Hd) as (Hm & [i Hi] & Hs & He). exists i. split; [done|].
  rewrite !step_join, ui_join. change (rendered (join ?u ?w)) with (u_rendered u).
  rewrite (m_hide_then_flush i) by done. unfold render_signup. cbn in *.
  by rewrite Hs, He.
Qed.

(** Selecting an option sets the ref to the value of its question. *)
Lemma select_progress (p : Page S) q item :
  enabled (Select q item) p = true →
  surveyProgressRef (step (Select q item) p) = progress_of q.
Proof.
  intros He. rewrite step_join.
  change (surveyProgressRef (join ?u ?w)) with (u_ref u).
  unfold mstep. rewrite <- enabled_ui, He. unfold m_handle, then_commit.
  cbn [commits fst]. by rewrite m_commit_ref.
Qed.

(** Selecting an option records a progress
    that depends only on the question of the option (20, 40, 60 or 80), not
    on how many questions have been answered. *)
Theorem progress_is_last_question w es q item :
  enabled (Select q item) (session w es) = true →
  surveyProgressRef (session w (es ++ [Select q item])) = progress_of q.
Proof. intros He. unfold session in *. rewrite run_snoc. by apply select_progress. Qed.

End session.

(** What the page shows and which
    controls it enables does not depend on the analytics: two sessions with
    the same events have the same interface state, whatever their browsers
    and SDKs are (configured or not, failing or not, even of different
    implementations). *)
Theorem interface_independent_of_world {S1 S2} `{!Sdk S1} `{!Sdk S2}
    (w1 : World S1) (w2 : World S2) es :
  ui (session w1 es) = ui (session w2 es).
Proof. by rewrite !session_ui. Qed.

(** ** The theorems at concrete sessions *)

(** A browser without a configured key. *)
Definition no_key_world : World unit :=
  mkWorld true None ∅ false 1731000000000 "0.4fzyo82mvyr" tt [].

(** A browser that holds an identifier from an earlier visit. *)
Definition returning_world : World unit :=
  set_localStorage {[ storageKey := "user_1700000000000_abc" ]} demo_world.

(** C32: the effect runs again, initialises the SDK again and sends the
    page view again whenever one of its three dependencies goes up: a
    session adds at most four "view landing" events, in any browser and
    under any schedule of renders, and a visit that scrolls past the
    middle, starts the survey and submits it reaches the four, with four
    initialisations of the SDK. *)
Theorem view_landing_at_most_four :
  (∀ (S : Type) (Sdk0 : Sdk S) (w : World S) es,
     count_if (is_track "view landing") (ptrace (session w es))
     ≤ count_if (is_track "view landing") (trace w) + 4)
  ∧ (let t := ptrace (eager_session demo_world
                        ([Mount; Scroll at_half] ++ answer_all ++ [Fire 0])) in
     count_if (is_track "view landing") t = 4
     ∧ count_if (λ e, match e with ECall (SdkInit _) => true | _ => false end) t
       = 4).
Proof.
  split; [intros; apply view_landing_bound|]. cbn zeta. split; by_compute.
Qed.

Lemma start_needs_first_question_witness :
  let es := [Mount; Select QAgeGroup age25; Flush; BeforeUnload] in
  count_if (is_track "start survey") (ptrace (session demo_world es))
  = count_if (is_track "start survey") (trace demo_world)
  ∧ hasStartedSurvey (cells (session demo_world es)) = false.
Proof.
  apply (start_needs_first_question demo_world). intros item H.
  repeat (apply elem_of_cons in H as [H|H]; [discriminate H|]).
  by apply elem_of_nil in H.
Defined.

Lemma session_keeps_identity_witness :
  let p := session returning_world (Mount :: answer_all) in
  stored_id (world p) = Some "user_1700000000000_abc"
  ∧ ∃ t, ptrace p = trace returning_world ++ t
         ∧ Forall (carries "user_1700000000000_abc") t.
Proof.
  apply (session_keeps_identity returning_world (Mount :: answer_all));
    [discriminate | reflexivity | reflexivity].
Defined.

Lemma events_are_outputs_witness :
  events (ptrace (session demo_world (Mount :: answer_all)))
  = events (trace demo_world)
    ++ out_events (mrun (Mount :: answer_all) initial_ui).2.
Proof. apply (events_are_outputs demo_world). by vm_compute. Defined.

Lemma no_key_no_analytics_witness :
  let w' := world (session no_key_world (Mount :: answer_all)) in
  sdk w' = sdk no_key_world ∧ localStorage w' = localStorage no_key_world
  ∧ filter (λ e, is_call e = true) (trace w')
    = filter (λ e, is_call e = true) (trace no_key_world).
Proof. apply (no_key_no_analytics no_key_world). reflexivity. Defined.

Lemma signup_view_reverts_witness :
  let p := session demo_world
             [Mount; ChangeInput "me@example.com"; Flush; SubmitForm; Fire 0] in
  ∃ i, timers p !! i = Some HideSuccess
       ∧ render_signup (rendered (step Flush (step (Fire i) p)))
         = SignupForm "" false false "알림받기".
Proof.
  apply (signup_view_reverts demo_world
           [Mount; ChangeInput "me@example.com"; Flush; SubmitForm; Fire 0]).
  vm_compute. reflexivity.
Defined.

Lemma progress_is_last_question_witness :
  surveyProgressRef (session demo_world [Mount; Select QReaction love])
  = progress_of QReaction.
Proof.
  apply (progress_is_last_question demo_world [Mount]). vm_compute. reflexivity.
Defined.
