(* ===== verification/FlowSpec.v ===== *)
(** * The flows of the specification and their simulation by the page

    The description of the page gives two state machines.  The survey goes
    from unanswered through partially answered to ready, then submitting,
    then submitted; a failed submission returns it to ready.  The signup
    form goes from empty to filled, submitting, submitted, and back to empty
    when the success view is hidden.  [survey_step] and [signup_step] are
    these machines, [survey_flow] and [signup_flow] read the state of a flow
    off the cells of the page, and the simulation theorems show that every
    event of every session, under every schedule of renders, either leaves
    the state of a flow alone or takes a transition of its machine.

    The cells and the last render can differ between renders.  What makes
    the simulation hold under every schedule is [synced]: the answers that
    the render saw are the current ones, and so is the contact whenever the
    render shows the form enabled.

    The last part shows progress: from the state after any session there
    is a sequence of events that submits the survey. *)

From S2P Require Import Prelude JsString JsValue Effects Browser Identity.
From S2P Require Import Tracking PageState Survey Signup Observer View Page.
From S2P Require Import Machine Invariants Session.

#[local] Open Scope string_scope.
#[local] Open Scope list_scope.
#[local] Open Scope nat_scope.

(** ** The survey flow *)

Inductive SurveyFlow : Type :=
| Unanswered
| Partial (n : nat)    (* n of the four questions answered, 1 ≤ n ≤ 3 *)
| Ready
| Submitting
| Submitted.

Inductive SurveyAct : Type := ASelect | ASubmit | AComplete | AFail.

Inductive survey_step : SurveyFlow → SurveyAct → SurveyFlow → Prop :=
| survey_first : survey_step Unanswered ASelect (Partial 1)
| survey_again n : survey_step (Partial n) ASelect (Partial n)
| survey_next n : n < 3 → survey_step (Partial n) ASelect (Partial (S n))
| survey_last : survey_step (Partial 3) ASelect Ready
| survey_change : survey_step Ready ASelect Ready
| survey_submit : survey_step Ready ASubmit Submitting
| survey_complete : survey_step Submitting AComplete Submitted
| survey_fail : survey_step Submitting AFail Ready.

(** The number of questions answered, as the submit handler counts them. *)
Definition answered (st : State) : nat :=
  count_if (λ q, negb (falsy_nullable (answer_of q st)))
    [QGender; QAgeGroup; QInterest; QReaction].

Definition survey_flow (st : State) : SurveyFlow :=
  if isSubmitted st then Submitted
  else if isSubmitting st then Submitting
  else match answered st with
       | 0 => Unanswered
       | 4 => Ready
       | n => Partial n
       end.

(** The transition that an event takes, given the pending timers. *)
Definition survey_act (e : Event) (ts : list Pending) : option SurveyAct :=
  match e with
  | Select _ _ => Some ASelect
  | ClickSubmitSurvey => Some ASubmit
  | Fire i =>
    match ts !! i with Some (SurveyAwait _) => Some AComplete | _ => None end
  | _ => None
  end.

(** ** The signup flow *)

Inductive SignupFlow : Type := Empty | Filled | Sending | Sent.

Inductive SignupAct : Type := AType | ASend | AReject | ADone | AHide.

(** The states in which the form takes input. *)
Definition editable (s : SignupFlow) : Prop :=
  match s with Empty | Filled => True | Sending | Sent => False end.

Inductive signup_step : SignupFlow → SignupAct → SignupFlow → Prop :=
| signup_type s s' : editable s → editable s' → signup_step s AType s'
| signup_send : signup_step Filled ASend Sending
| signup_reject s : editable s → signup_step s AReject s
| signup_done : signup_step Sending ADone Sent
| signup_hide : signup_step Sent AHide Empty.

Definition signup_flow (st : State) : SignupFlow :=
  if isInterestSubmitted st then Sent
  else if isInterestSubmitting st then Sending
  else if bool_decide (emailOrId st = "") then Empty else Filled.

(** The transition that an event takes, given the contact that the render
    saw and the pending timers. *)
Definition signup_act (e : Event) (snap : State) (ts : list Pending) :
    option SignupAct :=
  match e with
  | ChangeInput _ => Some AType
  | SubmitForm =>
    Some (if truthy_string (contactValue_of snap) then ASend else AReject)
  | Fire i =>
    match ts !! i with
    | Some SignupAwait => Some ADone
    | Some HideSuccess => Some AHide
    | _ => None
    end
  | _ => None
  end.

(** ** What the render saw of the flows *)

(** The answers seen by the last render are the current ones, and so is
    the contact when the render shows the form enabled. *)
Definition synced (u : Ui) : Prop :=
  (∀ q, answer_of q (u_rendered u) = answer_of q (u_cells u))
  ∧ (isInterestSubmitting (u_rendered u) = false →
     isInterestSubmitted (u_rendered u) = false →
     emailOrId (u_rendered u) = emailOrId (u_cells u)).

(** ** Counting the answers *)

Lemma answered_le_4 st : answered st ≤ 4.
Proof. apply (count_if_le_length _ [QGender; QAgeGroup; QInterest; QReaction]). Qed.

(** A partially answered survey has one, two or three answers. *)
Lemma partial_range st n : survey_flow st = Partial n → 1 ≤ n ≤ 3.
Proof.
  unfold survey_flow. pose proof (answered_le_4 st).
  destruct (isSubmitted st), (isSubmitting st); try done.
  destruct (answered st) as [|[|[|[|[|]]]]]; intros [= <-]; lia.
Qed.

Lemma incomplete_answered st : survey_incomplete st = false ↔ answered st = 4.
Proof.
  unfold survey_incomplete, answered. cbn.
  destruct (falsy_nullable (gender st)), (falsy_nullable (ageGroup st)),
    (falsy_nullable (interest st)), (falsy_nullable (reaction st)); cbn;
    split; (done || lia).
Qed.

Lemma answered_ext st st' :
  (∀ q, answer_of q st' = answer_of q st) → answered st' = answered st.
Proof. intros H. unfold answered. cbn [count_if]. by rewrite !H. Qed.

Lemma survey_flow_ext st st' :
  isSubmitted st' = isSubmitted st → isSubmitting st' = isSubmitting st →
  (∀ q, answer_of q st' = answer_of q st) →
  survey_flow st' = survey_flow st.
Proof.
  intros Hd Hs Hq. unfold survey_flow. by rewrite Hd, Hs, (answered_ext st st').
Qed.

Lemma signup_flow_ext st st' :
  isInterestSubmitted st' = isInterestSubmitted st →
  isInterestSubmitting st' = isInterestSubmitting st →
  emailOrId st' = emailOrId st →
  signup_flow st' = signup_flow st.
Proof. intros Hd Hs He. unfold signup_flow. by rewrite Hd, Hs, He. Qed.

Lemma flow_ready st :
  isSubmitted st = false → isSubmitting st = false → answered st = 4 →
  survey_flow st = Ready.
Proof. intros Hd Hs Hn. unfold survey_flow. by rewrite Hd, Hs, Hn. Qed.

Lemma flow_submitting st :
  isSubmitted st = false → isSubmitting st = true → survey_flow st = Submitting.
Proof. intros Hd Hs. unfold survey_flow. by rewrite Hd, Hs. Qed.

Lemma flow_submitted st : isSubmitted st = true → survey_flow st = Submitted.
Proof. intros Hd. unfold survey_flow. by rewrite Hd. Qed.

(** The flags of the survey are not answers. *)
Lemma with_answer_flags q k st :
  isSubmitted (with_answer q k st) = isSubmitted st
  ∧ isSubmitting (with_answer q k st) = isSubmitting st.
Proof. by destruct q. Qed.

(** Selecting an option of an idle survey is a step of the survey flow. *)
Lemma select_step q k st :
  isSubmitted st = false → isSubmitting st = false → truthy_string k = true →
  survey_step (survey_flow st) ASelect (survey_flow (with_answer q k st)).
Proof.
  intros Hd Hs Hk. unfold survey_flow.
  destruct (with_answer_flags q k st) as [-> ->]. rewrite Hd, Hs.
  unfold answered.
  destruct q; cbn; rewrite Hk; cbn;
    destruct (falsy_nullable (gender st)), (falsy_nullable (ageGroup st)),
      (falsy_nullable (interest st)), (falsy_nullable (reaction st)); cbn;
    constructor; lia.
Qed.

(** ** The code of an event and the flows *)

(** Only a selection changes an answer. *)
Lemma m_body_answers_other e u q :
  (∀ q' item, e ≠ Select q' item) →
  answer_of q (u_cells (m_body e u).1) = answer_of q (u_cells u).
Proof.
  intros Hne. destruct e; m_unfold; try done.
  - by destruct (Hne q0 item).
  - by destruct (survey_incomplete _).
  - by destruct (truthy_string _), q.
  - by destruct (m_for_each_scroll (u_installed u) m u) as [[->| ->] _], q.
  - by destruct (m_for_each_unload (u_installed u) u) as [-> _].
  - by destruct (u_timers u !! i) as [[]|], q.
Qed.

(** A render does not change the cells. *)
Lemma mstep_cells e u :
  m_enabled e u = true → u_cells (mstep e u).1 = u_cells (m_body e u).1.
Proof.
  intros He. unfold mstep, m_handle, then_commit. rewrite He.
  destruct (commits e); [|done]. cbn [fst].
  by destruct (m_commit_cells (m_body e u).1) as (-> & _).
Qed.

(** *** The survey *)

(** With the option buttons enabled, the survey is idle. *)
Lemma survey_idle u os :
  submit_inv u os →
  isSubmitted (u_rendered u) = false → isSubmitting (u_rendered u) = false →
  isSubmitted (u_cells u) = false ∧ isSubmitting (u_cells u) = false.
Proof.
  intros (_ & Hr1 & Hr2) Hd Hs.
  destruct (isSubmitting (u_cells u)); [by specialize (Hr1 eq_refl); congruence|].
  destruct (isSubmitted (u_cells u)); [|done].
  destruct (Hr2 eq_refl); congruence.
Qed.

(** While a submission is pending the flow is submitting. *)
Lemma survey_pending i snap u os :
  submit_inv u os → u_timers u !! i = Some (SurveyAwait snap) →
  isSubmitted (u_cells u) = false ∧ isSubmitting (u_cells u) = true.
Proof.
  intros ((Hc & Hx & _) & _) Ht.
  pose proof (count_if_lookup is_survey_await _ _ _ Ht eq_refl).
  destruct (isSubmitting (u_cells u)); [auto|lia].
Qed.

(** The events that are not about the survey leave its flow alone. *)
Lemma survey_sim_other e u :
  e ≠ ClickSubmitSurvey → (∀ q item, e ≠ Select q item) →
  (∀ i snap, e = Fire i → u_timers u !! i ≠ Some (SurveyAwait snap)) →
  survey_flow (u_cells (m_body e u).1) = survey_flow (u_cells u).
Proof.
  intros Hc Hs Hf. destruct (survey_neutral_events e u Hc Hf) as (? & ? & _).
  apply survey_flow_ext; auto using m_body_answers_other.
Qed.

Lemma survey_sim_select q item u os :
  submit_inv u os → m_enabled (Select q item) u = true →
  survey_step (survey_flow (u_cells u)) ASelect
    (survey_flow (u_cells (m_body (Select q item) u).1)).
Proof.
  intros Hinv [_ (Hin & Hd & Hs)%can_select_render]%andb_prop.
  destruct (survey_idle u os Hinv Hd Hs) as [Hd' Hs'].
  apply (select_step q (key item)) in Hs'; [|done|by eapply item_key_truthy].
  cbn [m_body fst u_cells]. destruct (opens_survey q (u_rendered u)); [|done].
  by rewrite (survey_flow_ext (with_answer q (key item) (u_cells u))
                (with_hasStartedSurvey true _)) by (done || by intros []).
Qed.

Lemma survey_sim_submit u os :
  submit_inv u os → synced u → m_enabled ClickSubmitSurvey u = true →
  survey_step (survey_flow (u_cells u)) ASubmit
    (survey_flow (u_cells (m_body ClickSubmitSurvey u).1)).
Proof.
  intros Hinv [Hq _] [_ (Hd & Hs & Hi)%can_submit_survey_render]%andb_prop.
  destruct (survey_idle u os Hinv Hd Hs) as [Hd' Hs'].
  apply incomplete_answered in Hi as Hn.
  rewrite (answered_ext (u_cells u)) in Hn by done.
  m_unfold. rewrite Hi. m_unfold.
  rewrite (flow_ready (u_cells u)), (flow_submitting (with_isSubmitting _ _))
    by done. constructor.
Qed.

Lemma survey_sim_complete i snap u os :
  submit_inv u os → u_timers u !! i = Some (SurveyAwait snap) →
  survey_step (survey_flow (u_cells u)) AComplete
    (survey_flow (u_cells (m_body (Fire i) u).1)).
Proof.
  intros Hinv Ht. destruct (survey_pending i snap u os Hinv Ht) as [Hd Hs].
  m_unfold. rewrite Ht. m_unfold.
  rewrite (flow_submitting (u_cells u)), (flow_submitted (with_isSubmitting _ _))
    by done. constructor.
Qed.

(** The simulation of the survey flow by the code of one event. *)
Lemma survey_sim_body e u os :
  submit_inv u os → synced u → m_enabled e u = true →
  match survey_act e (u_timers u) with
  | Some a =>
    survey_step (survey_flow (u_cells u)) a (survey_flow (u_cells (m_body e u).1))
  | None => survey_flow (u_cells (m_body e u).1) = survey_flow (u_cells u)
  end.
Proof.
  intros Hinv Hsync He.
  destruct e as [| |q item| | | | | |i| |]; cbn [survey_act];
    try (by apply survey_sim_other);
    [by eapply survey_sim_select | by eapply survey_sim_submit |].
  destruct (u_timers u !! i) as [[snap| |]|] eqn:Ht;
    [by eapply survey_sim_complete|..];
    (apply survey_sim_other; [done..|intros ? ? [= <-]; congruence]).
Qed.

(** *** The signup *)

(** With the form enabled, the contact that the render saw is the current
    one and the flow takes input. *)
Lemma signup_idle u :
  signup_inv u → synced u → can_type (render (u_rendered u)) = true →
  isInterestSubmitted (u_cells u) = false
  ∧ isInterestSubmitting (u_cells u) = false
  ∧ emailOrId (u_rendered u) = emailOrId (u_cells u).
Proof.
  intros Hinv [_ He] Ht. destruct (signup_inv_idle u Hinv Ht) as [Hs Hd].
  apply can_type_render in Ht as [Hd' Hs']. auto.
Qed.

Lemma editable_flow st :
  isInterestSubmitted st = false → isInterestSubmitting st = false →
  editable (signup_flow st).
Proof. intros Hd Hs. unfold signup_flow. rewrite Hd, Hs. by case_bool_decide. Qed.

(** The events that are not about the signup leave its flow alone. *)
Lemma signup_sim_other e u :
  e ≠ SubmitForm → (∀ text, e ≠ ChangeInput text) →
  (∀ i, e = Fire i → u_timers u !! i ≠ Some SignupAwait
                      ∧ u_timers u !! i ≠ Some HideSuccess) →
  signup_flow (u_cells (m_body e u).1) = signup_flow (u_cells u).
Proof.
  intros Hs Hc Hf.
  destruct (signup_neutral_events e u Hs Hc Hf) as (? & ? & ? & _).
  by apply signup_flow_ext.
Qed.

Lemma signup_sim_type text u :
  signup_inv u → synced u → m_enabled (ChangeInput text) u = true →
  signup_step (signup_flow (u_cells u)) AType
    (signup_flow (u_cells (m_body (ChangeInput text) u).1)).
Proof.
  intros Hinv Hsync [_ Ht]%andb_prop.
  destruct (signup_idle u Hinv Hsync Ht) as (Hd & Hs & _). m_unfold.
  constructor; by apply editable_flow.
Qed.

Lemma signup_sim_submit u :
  signup_inv u → synced u → m_enabled SubmitForm u = true →
  signup_step (signup_flow (u_cells u))
    (if truthy_string (contactValue_of (u_rendered u)) then ASend else AReject)
    (signup_flow (u_cells (m_body SubmitForm u).1)).
Proof.
  intros Hinv Hsync [_ Ht%can_submit_signup_render%can_type_render]%andb_prop.
  destruct (signup_idle u Hinv Hsync Ht) as (Hd & Hs & Hem). m_unfold.
  destruct (truthy_string (contactValue_of (u_rendered u))) eqn:Hv;
    [|constructor; by apply editable_flow].
  m_unfold. unfold signup_flow. cbn. rewrite Hd, Hs.
  rewrite bool_decide_false; [constructor|].
  intros Hnil. unfold contactValue_of in Hv. by rewrite Hem, Hnil in Hv.
Qed.

Lemma signup_sim_done i u :
  signup_inv u → u_timers u !! i = Some SignupAwait →
  signup_step (signup_flow (u_cells u)) ADone
    (signup_flow (u_cells (m_body (Fire i) u).1)).
Proof.
  intros ((Hc1 & _ & Hx & _) & _) Ht.
  pose proof (count_if_lookup is_signup_await _ _ _ Ht eq_refl).
  destruct (isInterestSubmitting (u_cells u)) eqn:Hs; [|lia].
  m_unfold. rewrite Ht. m_unfold. unfold signup_flow. cbn.
  rewrite Hs, (Hx eq_refl). constructor.
Qed.

Lemma signup_sim_hide i u :
  signup_inv u → u_timers u !! i = Some HideSuccess →
  signup_step (signup_flow (u_cells u)) AHide
    (signup_flow (u_cells (m_body (Fire i) u).1)).
Proof.
  intros ((_ & Hc2 & Hx & Hnil) & _) Ht.
  pose proof (count_if_lookup is_hide_success _ _ _ Ht eq_refl).
  destruct (isInterestSubmitted (u_cells u)) eqn:Hd; [|lia].
  m_unfold. rewrite Ht. m_unfold. unfold signup_flow. cbn.
  rewrite Hd, (Hnil eq_refl). cbn.
  destruct (isInterestSubmitting (u_cells u)); [by specialize (Hx eq_refl)|].
  constructor.
Qed.

(** The simulation of the signup flow by the code of one event. *)
Lemma signup_sim_body e u :
  signup_inv u → synced u → m_enabled e u = true →
  match signup_act e (u_rendered u) (u_timers u) with
  | Some a =>
    signup_step (signup_flow (u_cells u)) a (signup_flow (u_cells (m_body e u).1))
  | None => signup_flow (u_cells (m_body e u).1) = signup_flow (u_cells u)
  end.
Proof.
  intros Hinv Hsync He.
  destruct e as [| | | |text| | | |i| |]; cbn [signup_act];
    try (by apply signup_sim_other);
    [by apply signup_sim_type | by apply signup_sim_submit |].
  destruct (u_timers u !! i) as [[snap| |]|] eqn:Ht;
    [|by apply signup_sim_done|by apply signup_sim_hide|];
    (apply signup_sim_other; [done..|intros ? [= <-]; split; congruence]).
Qed.

(** ** The render stays in step *)

(** With the form enabled in the render, no timer of the signup is
    pending. *)
Lemma signup_quiet u i :
  signup_inv u →
  isInterestSubmitting (u_rendered u) = false →
  isInterestSubmitted (u_rendered u) = false →
  u_timers u !! i ≠ Some SignupAwait ∧ u_timers u !! i ≠ Some HideSuccess.
Proof.
  intros ((Hc1 & Hc2 & _) & Hr1 & Hr2) Hs Hd.
  destruct (isInterestSubmitting (u_cells u));
    [by specialize (Hr1 eq_refl); congruence|].
  destruct (isInterestSubmitted (u_cells u));
    [by destruct (Hr2 eq_refl); congruence|].
  split; intros Ht.
  - pose proof (count_if_lookup is_signup_await _ _ _ Ht eq_refl). lia.
  - pose proof (count_if_lookup is_hide_success _ _ _ Ht eq_refl). lia.
Qed.

(** The code of an event that is not followed by a render keeps the render
    in step with the cells. *)
Lemma synced_body e u :
  signup_inv u → synced u → m_enabled e u = true → commits e = false →
  synced (m_body e u).1.
Proof.
  intros Hinv [Hq He] Hen Hc. unfold synced.
  destruct (m_body_closures e u) as (-> & _). split.
  - intros q. rewrite m_body_answers_other; [done|]. by intros ? ? ->.
  - intros Hs Hd. rewrite He by done. symmetry.
    apply (signup_neutral_events e u); [by intros -> | by intros ? -> |].
    intros i _. by apply signup_quiet.
Qed.

Lemma synced_run es : synced (mrun es initial_ui).1.
Proof.
  induction es as [|e es IH] using rev_ind; [done|].
  rewrite mrun_snoc. cbn [fst]. set (u := (mrun es initial_ui).1) in *.
  unfold mstep, m_handle. destruct (m_enabled e u) eqn:He; [|done].
  destruct (commits e) eqn:Hc.
  - unfold then_commit, synced. cbn [fst].
    by destruct (m_commit_cells (m_body e u).1) as (-> & -> & _).
  - apply synced_body; try done. apply signup_inv_run.
Qed.

(** ** Progress of the survey *)

(** [ready_for u st ts]: the page is mounted, the render is up to date
    with the cells [st], and the timers [ts] are pending. *)
Definition ready_for (u : Ui) (st : State) (ts : list Pending) : Prop :=
  m_mounted u = true ∧ u_rendered u = st ∧ u_cells u = st ∧ u_timers u = ts.

Lemma commit_ready u : ready_for (m_commit u).1 (u_cells u) (u_timers u).
Proof.
  unfold ready_for, m_commit, m_mounted.
  by destruct (u_cleanup u) as [prev|] eqn:Hc; [destruct (deps_changed _ _)|];
    cbn; rewrite ?Hc.
Qed.

(** An enabled event that is followed by a render leaves the page ready. *)
Lemma committing_ready e u :
  m_enabled e u = true → commits e = true →
  ready_for (mstep e u).1 (u_cells (m_body e u).1) (u_timers (m_body e u).1).
Proof.
  intros He Hc. unfold mstep, m_handle, then_commit. rewrite He, Hc.
  apply commit_ready.
Qed.

(** Mounting, if it has not happened, and rendering make the page ready. *)
Lemma refresh_ready u :
  ready_for (mstep Flush (mstep Mount u).1).1 (u_cells u) (u_timers u).
Proof.
  destruct (m_mounted u) eqn:Hm.
  - assert (mstep Mount u = (u, [])) as -> by (unfold mstep; cbn; by rewrite Hm).
    by apply (committing_ready Flush).
  - pose proof (committing_ready Mount u) as (Hm' & _ & Hc & Ht);
      [by cbn; rewrite Hm|done|].
    cbn [m_body fst] in Hc, Ht. rewrite <- Hc, <- Ht.
    by apply (committing_ready Flush).
Qed.

(** Selecting an option on a ready page with an idle survey records the
    answer and leaves the page ready and the survey idle. *)
Lemma select_ready q item u st ts :
  ready_for u st ts → isSubmitted st = false → isSubmitting st = false →
  item ∈ items_of q →
  ∃ st', ready_for (mstep (Select q item) u).1 st' ts
         ∧ answer_of q st' = Some (key item)
         ∧ (∀ q', q' ≠ q → answer_of q' st' = answer_of q' st)
         ∧ isSubmitted st' = false ∧ isSubmitting st' = false.
Proof.
  intros (Hm & Hr & Hc & Ht) Hd Hs Hin.
  pose proof (committing_ready (Select q item) u) as Hready.
  cbn [m_enabled m_body fst u_cells u_timers] in Hready.
  rewrite Hm, Hr, Hc, Ht in Hready. eexists. split.
  - apply Hready; [|done]. by apply can_select_render.
  - by destruct q, (opens_survey _ st); split_and!; try done; intros [].
Qed.

(** Submitting a complete survey on a ready page raises the flag and sets
    the timer. *)
Lemma submit_ready u st ts :
  ready_for u st ts → isSubmitted st = false → isSubmitting st = false →
  survey_incomplete st = false →
  ready_for (mstep ClickSubmitSurvey u).1 (with_isSubmitting true st)
    (ts ++ [SurveyAwait st]).
Proof.
  intros (Hm & Hr & Hc & Ht) Hd Hs Hi.
  pose proof (committing_ready ClickSubmitSurvey u) as Hready.
  cbn [m_enabled m_body] in Hready. rewrite Hm, Hr, Hi, Hc, Ht in Hready.
  apply Hready; [|done]. by apply can_submit_survey_render.
Qed.

(** When the timer of a submission fires the survey is submitted. *)
Lemma fire_submitted i snap u :
  u_timers u !! i = Some (SurveyAwait snap) →
  isSubmitted (u_cells (mstep (Fire i) u).1) = true.
Proof.
  intros Ht. rewrite mstep_cells.
  - cbn [m_body]. by rewrite Ht.
  - cbn. apply bool_decide_eq_true. by eapply lookup_lt_Some.
Qed.

(** The events that answer the four questions, submit, and let the
    simulated call end, on a page with [n] timers pending. *)
Definition complete_survey (n : nat) : list Event :=
  [Mount; Flush] ++ answer_all ++ [Fire n].

Lemma mrun_app_state es1 es2 u : (mrun (es1 ++ es2) u).1 = (mrun es2 (mrun es1 u).1).1.
Proof.
  induction es2 as [|e es2 IH] using rev_ind; [by rewrite app_nil_r|].
  by rewrite app_assoc, !mrun_snoc, IH.
Qed.

(** From an idle survey, [complete_survey] submits it. *)
Lemma complete_survey_submits u :
  isSubmitted (u_cells u) = false → isSubmitting (u_cells u) = false →
  isSubmitted (u_cells (mrun (complete_survey (length (u_timers u))) u).1) = true.
Proof.
  intros Hd Hs. unfold complete_survey, answer_all, mrun. cbn [app foldl fst].
  pose proof (refresh_ready u) as H0.
  destruct (select_ready QGender male _ _ _ H0) as (s1 & H1 & Hg & E1 & Hd1 & Hs1);
    [done|done|by_compute|].
  destruct (select_ready QAgeGroup age25 _ _ _ H1) as (s2 & H2 & Ha & E2 & Hd2 & Hs2);
    [done|done|by_compute|].
  destruct (select_ready QInterest yes _ _ _ H2) as (s3 & H3 & Hi & E3 & Hd3 & Hs3);
    [done|done|by_compute|].
  destruct (select_ready QReaction love _ _ _ H3) as (s4 & H4 & Hr & E4 & Hd4 & Hs4);
    [done|done|by_compute|].
  assert (survey_incomplete s4 = false) as Hc.
  { unfold survey_incomplete.
    change (gender s4) with (answer_of QGender s4).
    change (ageGroup s4) with (answer_of QAgeGroup s4).
    change (interest s4) with (answer_of QInterest s4).
    change (reaction s4) with (answer_of QReaction s4).
    by rewrite Hr, !E4, Hi, !E3, Ha, E2, Hg by done. }
  destruct (submit_ready _ _ _ H4 Hd4 Hs4 Hc) as (_ & _ & _ & Ht).
  apply (fire_submitted _ s4). rewrite Ht. by apply list_lookup_middle.
Qed.

(** From every state that satisfies the invariant of submissions, some
    sequence of events submits the survey. *)
Lemma m_survey_can_complete u os :
  submit_inv u os → ∃ es, isSubmitted (u_cells (mrun es u).1) = true.
Proof.
  intros Hinv. destruct (isSubmitted (u_cells u)) eqn:Hd; [by exists []|].
  destruct (isSubmitting (u_cells u)) eqn:Hs;
    [|by eexists; apply complete_survey_submits].
  destruct Hinv as ((Hc & _) & _). rewrite Hs in Hc.
  assert (0 < count_if is_survey_await (u_timers u))
    as ([snap| |] & (i & Hi)%list_elem_of_lookup & ?)%count_if_pos by lia;
    try done.
  exists [Fire i]. by eapply fire_submitted.
Qed.

(** ** Sessions *)

Section flows.
Context {S : Type} `{!Sdk S}.
Implicit Types (w : World S) (es : list Event).

Lemma step_cells e (p : Page S) :
  enabled e p = true → cells (step e p) = u_cells (m_body e (ui p)).1.
Proof.
  intros He. rewrite step_join. rewrite enabled_ui in He.
  change (cells (join ?u ?w)) with (u_cells u). by apply mstep_cells.
Qed.

(** C12: the page simulates the survey flow of the specification.  In
    every session, under every schedule of renders, an enabled event either
    leaves the state of the survey flow alone or takes the transition of
    the flow that belongs to it: a click on an option takes a selection
    step, a click on the submit button goes from ready to submitting, the
    end of the simulated call goes from submitting to submitted; no event
    leaves the submitted state. *)
Theorem survey_flow_simulation w es e :
  let p := session w es in
  enabled e p = true →
  match survey_act e (timers p) with
  | Some a => survey_step (survey_flow (cells p)) a (survey_flow (cells (step e p)))
  | None => survey_flow (cells (step e p)) = survey_flow (cells p)
  end.
Proof.
  cbn zeta. intros He. rewrite step_cells by done. rewrite enabled_ui in He.
  change (timers (session w es)) with (u_timers (ui (session w es))).
  change (cells (session w es)) with (u_cells (ui (session w es))).
  rewrite session_ui in *.
  apply (survey_sim_body _ _ (mrun es initial_ui).2);
    [apply submit_inv_run|apply synced_run|done].
Qed.

(** C13: the page simulates the signup flow of the specification.  In
    every session, under every schedule of renders, an enabled event either
    leaves the state of the signup flow alone or takes the transition that
    belongs to it: typing moves between empty and filled, a submission of a
    contact that is not blank goes from filled to sending and one of a blank
    contact is rejected in place, the end of the simulated call goes to
    sent, and the timer takes the flow back to empty. *)
Theorem signup_flow_simulation w es e :
  let p := session w es in
  enabled e p = true →
  match signup_act e (rendered p) (timers p) with
  | Some a => signup_step (signup_flow (cells p)) a (signup_flow (cells (step e p)))
  | None => signup_flow (cells (step e p)) = signup_flow (cells p)
  end.
Proof.
  cbn zeta. intros He. rewrite step_cells by done. rewrite enabled_ui in He.
  change (timers (session w es)) with (u_timers (ui (session w es))).
  change (rendered (session w es)) with (u_rendered (ui (session w es))).
  change (cells (session w es)) with (u_cells (ui (session w es))).
  rewrite session_ui in *.
  apply signup_sim_body; [apply signup_inv_run|apply synced_run|done].
Qed.

(** C16: the survey can always be completed.  After any session there are
    events (answering the four questions, submitting, and the end of the
    simulated call; or just that end when a submission is in flight) after
    which the survey flow is in its submitted state: no schedule of
    renders, timers and clicks leaves the survey stuck. *)
Theorem survey_can_complete w es :
  ∃ es', survey_flow (cells (session w (es ++ es'))) = Submitted.
Proof.
  destruct (m_survey_can_complete _ _ (submit_inv_run es)) as [es' H].
  exists es'. apply flow_submitted.
  change (cells ?p) with (u_cells (ui p)). by rewrite session_ui, mrun_app_state.
Qed.

(** The failure of a submission is the transition of the survey flow from
    submitting back to ready. *)
Lemma survey_fail_step snap (p : Page S) :
  survey_flow (cells p) = Submitting → answered (cells p) = 4 →
  survey_step (survey_flow (cells p)) AFail
    (survey_flow (cells (exec (onSubmitSurvey_resume snap Rejected) p))).
Proof.
  intros Hf Hn. rewrite Hf. unfold exec.
  rewrite onSubmitSurvey_resume_rejected. cbn [snd cells set_cells set_world].
  rewrite (flow_ready (with_isSubmitting false (cells p))); [constructor| |done|].
  - unfold survey_flow in Hf. cbn. by destruct (isSubmitted (cells p)).
  - by rewrite <- Hn; apply answered_ext; intros [].
Qed.

End flows.

Lemma survey_flow_simulation_witness :
  let p := session demo_world (Mount :: answer_all) in
  match survey_act (Fire 0) (timers p) with
  | Some a =>
    survey_step (survey_flow (cells p)) a (survey_flow (cells (step (Fire 0) p)))
  | None => survey_flow (cells (step (Fire 0) p)) = survey_flow (cells p)
  end.
Proof.
  apply (survey_flow_simulation demo_world (Mount :: answer_all) (Fire 0)).
  vm_compute. reflexivity.
Defined.

Lemma signup_flow_simulation_witness :
  let p := session demo_world [Mount; ChangeInput "me@example.com"] in
  match signup_act SubmitForm (rendered p) (timers p) with
  | Some a =>
    signup_step (signup_flow (cells p)) a (signup_flow (cells (step SubmitForm p)))
  | None => signup_flow (cells (step SubmitForm p)) = signup_flow (cells p)
  end.
Proof.
  apply (signup_flow_simulation demo_world
           [Mount; ChangeInput "me@example.com"] SubmitForm).
  vm_compute. reflexivity.
Defined.
