(* ===== verification/Timers.v ===== *)
(** * The timers of the page drain

    The page sets three kinds of timers: the waits of [onSubmitSurvey]
    (page.tsx 136) and [onSubmit] (page.tsx 210), and the timer that hides
    the success view of the signup (page.tsx 217-219).  Only the continuation of the signup wait sets a
    timer again.  [pending_weight] weighs a pending timer by the number of
    continuations that it can still cause; every timer that fires lowers
    the weight, and every event other than the two submissions leaves it
    alone.  Hence the termination results of this file: firing timers is a
    well-founded relation, [drain] empties the timers within the fuel given
    by the weight, and a session in which the user has stopped submitting
    fires at most as many timers as the weight counts, which is never more
    than three.  When the timers have drained nothing is in flight any
    more, and a submission of the survey that was in flight is done. *)

From Stdlib Require Import Wellfounded.
From S2P Require Import Prelude JsString JsValue Effects Browser Identity.
From S2P Require Import Tracking PageState Survey Signup Observer View Page.
From S2P Require Import Machine Invariants Outputs Schedule Session FlowSpec.

#[local] Open Scope string_scope.
#[local] Open Scope list_scope.
#[local] Open Scope nat_scope.

(** ** The measure *)

(** The continuations that a pending timer can still cause: its own, and
    for the wait of the signup that of the timer it sets. *)
Definition weight (t : Pending) : nat :=
  match t with
  | SurveyAwait _ => 1
  | SignupAwait => 2
  | HideSuccess => 1
  end.

Definition pending_weight (ts : list Pending) : nat := sum_list_with weight ts.

(** The events whose handler sets no timer. *)
Definition sets_no_timer (e : Event) : bool :=
  match e with ClickSubmitSurvey | SubmitForm => false | _ => true end.

Definition is_fire (e : Event) : bool :=
  match e with Fire _ => true | _ => false end.

Section timers.
Context {S : Type} `{!Sdk S}.
Implicit Types (p : Page S) (es : list Event).

(** One timer fires. *)
Definition fire_step (p' p : Page S) : Prop :=
  ∃ i, enabled (Fire i) p = true ∧ p' = step (Fire i) p.

(** Let the timers fire, the oldest first, until none is pending or the
    fuel runs out. *)
Fixpoint drain (fuel : nat) p : Page S :=
  match fuel with
  | 0 => p
  | Datatypes.S n =>
    match timers p with
    | [] => p
    | _ :: _ => drain n (step (Fire 0) p)
    end
  end.

(** The number of timers that fire during the events [es] from [p]. *)
Fixpoint fired es p : nat :=
  match es with
  | [] => 0
  | e :: es' =>
    (if is_fire e && enabled e p then 1 else 0) + fired es' (step e p)
  end.

End timers.

(** ** The measure on the machine *)

Lemma weight_pos t : 0 < weight t.
Proof. destruct t; simpl; lia. Qed.

Lemma pending_weight_app ts1 ts2 :
  pending_weight (ts1 ++ ts2) = pending_weight ts1 + pending_weight ts2.
Proof. apply sum_list_with_app. Qed.

Lemma pending_weight_zero ts : pending_weight ts = 0 → ts = [].
Proof.
  destruct ts as [|t ts]; [done|]. unfold pending_weight. simpl.
  pose proof (weight_pos t). lia.
Qed.

Lemma pending_weight_delete ts i t :
  ts !! i = Some t → pending_weight (delete i ts) + weight t = pending_weight ts.
Proof.
  revert i. induction ts as [|t' ts IH]; intros [|i] Ht; simplify_eq/=.
  - unfold pending_weight. simpl. lia.
  - specialize (IH _ Ht). unfold pending_weight in *. simpl. lia.
Qed.

(** The weight counts the timers of each kind. *)
Lemma pending_weight_counts ts :
  pending_weight ts
  = count_if is_survey_await ts + 2 * count_if is_signup_await ts
    + count_if is_hide_success ts.
Proof.
  induction ts as [|t ts IH]; [done|]. unfold pending_weight in *. simpl.
  rewrite IH. destruct t; simpl; lia.
Qed.

Lemma m_commit_timers u : u_timers (m_commit u).1 = u_timers u.
Proof. unfold m_commit. by case_all. Qed.

Lemma m_handle_timers e u :
  u_timers (m_handle e u).1 = u_timers (m_body e u).1.
Proof.
  unfold m_handle, then_commit. destruct (commits e); [|done].
  apply m_commit_timers.
Qed.

(** An event that is neither a submission nor a timer leaves the timers
    alone. *)
Lemma m_body_keeps_timers e u :
  sets_no_timer e = true → is_fire e = false →
  u_timers (m_body e u).1 = u_timers u.
Proof.
  intros Hs Hf. destruct e; simplify_eq/=; try done.
  - by destruct (m_for_each_scroll (u_installed u) m u) as [[->| ->] _].
  - by destruct (m_for_each_unload (u_installed u) u) as [-> _].
Qed.

(** A timer that fires lowers the weight. *)
Lemma m_body_fire i t u :
  u_timers u !! i = Some t →
  pending_weight (u_timers (m_body (Fire i) u).1) < pending_weight (u_timers u).
Proof.
  intros Ht. pose proof (pending_weight_delete _ _ _ Ht) as Hd.
  cbn [m_body]. rewrite Ht.
  destruct t; cbn; rewrite ?pending_weight_app; cbn in *;
    unfold pending_weight in *; lia.
Qed.

Lemma mstep_fire i u :
  m_enabled (Fire i) u = true →
  pending_weight (u_timers (mstep (Fire i) u).1) < pending_weight (u_timers u).
Proof.
  intros He. unfold mstep. rewrite He, m_handle_timers.
  apply bool_decide_eq_true, lookup_lt_is_Some in He as [t Ht].
  by eapply m_body_fire.
Qed.

Lemma mstep_quiet e u :
  sets_no_timer e = true → is_fire e = false →
  u_timers (mstep e u).1 = u_timers u.
Proof.
  intros Hs Hf. unfold mstep. destruct (m_enabled e u); [|done].
  by rewrite m_handle_timers, m_body_keeps_timers.
Qed.

(** A timer that fires leaves a submission of the survey in flight or
    done: the end of the simulated call marks the survey submitted, and the
    timers of the signup do not touch the flags of the survey. *)
Lemma mstep_fire_survey i u :
  isSubmitting (u_cells u) = true ∨ isSubmitted (u_cells u) = true →
  isSubmitting (u_cells (mstep (Fire i) u).1) = true
  ∨ isSubmitted (u_cells (mstep (Fire i) u).1) = true.
Proof.
  intros H. destruct (m_enabled (Fire i) u) eqn:He; [|unfold mstep; by rewrite He].
  destruct (u_timers u !! i) as [[snap| |]|] eqn:Ht;
    [right; by eapply fire_submitted|..];
    rewrite mstep_cells by done;
    destruct (survey_neutral_events (Fire i) u) as (-> & -> & _);
    try done; intros ? ? [= <-]; congruence.
Qed.

(** ** The page *)

Section timers_lemmas.
Context {S : Type} `{!Sdk S}.
Implicit Types (p : Page S) (es : list Event).

Lemma step_timers e p : timers (step e p) = u_timers (mstep e (ui p)).1.
Proof. by rewrite step_join. Qed.

Lemma step_fire_lt i p :
  enabled (Fire i) p = true →
  pending_weight (timers (step (Fire i) p)) < pending_weight (timers p).
Proof. rewrite enabled_ui, step_timers. apply mstep_fire. Qed.

(** No event other than a submission raises the weight, and a timer that
    fires lowers it. *)
Lemma step_weight e p :
  sets_no_timer e = true →
  (if is_fire e && enabled e p then 1 else 0)
  + pending_weight (timers (step e p)) ≤ pending_weight (timers p).
Proof.
  intros Hs. destruct (is_fire e) eqn:Hf; cbn [andb].
  - destruct e; try done. destruct (enabled (Fire i) p) eqn:He.
    + pose proof (step_fire_lt i p He). lia.
    + by rewrite step_disabled.
  - rewrite step_timers, mstep_quiet by done. cbn [ui u_timers]. lia.
Qed.

(** Firing timers terminates: the relation between a page and the page
    after one of its pending timers has fired is well founded, so no
    sequence of timer continuations goes on for ever. *)
Theorem fire_step_wf : well_founded (fire_step (S:=S)).
Proof.
  apply (wf_incl _ _ (λ p' p, pending_weight (timers p') < pending_weight (timers p))).
  - intros p' p (i & He & ->). by apply step_fire_lt.
  - apply (wf_inverse_image _ _ lt (λ p, pending_weight (timers p))), lt_wf.
Qed.

Lemma drain_enough n p :
  pending_weight (timers p) ≤ n → timers (drain n p) = [].
Proof.
  revert p. induction n as [|n IH]; intros p Hn.
  - apply pending_weight_zero. simpl. lia.
  - simpl. destruct (timers p) as [|t ts] eqn:Ht; [done|]. apply IH.
    assert (enabled (Fire 0) p = true) as He.
    { apply bool_decide_eq_true. rewrite Ht. simpl. lia. }
    pose proof (step_fire_lt 0 p He). rewrite Ht in *. lia.
Qed.

(** Left alone, a page becomes quiescent: letting the pending timers fire,
    the oldest first, empties the timers within as many steps as the weight
    of the timers pending at the start. *)
Theorem timers_drain p : timers (drain (pending_weight (timers p)) p) = [].
Proof. by apply drain_enough. Qed.

(** While the user submits nothing, the timers that fire are paid for
    by the weight: in any sequence of events without a submission, from any
    page, the number of timers that fire and the weight left at the end are
    together at most the weight at the start. *)
Theorem fires_bounded es p :
  forallb sets_no_timer es = true →
  fired es p + pending_weight (timers (run es p)) ≤ pending_weight (timers p).
Proof.
  revert p. induction es as [|e es IH]; intros p Hes; [simpl; lia|].
  apply andb_prop in Hes as [He Hes]. specialize (IH (step e p) Hes).
  pose proof (step_weight e p He). cbn [fired]. cbn [run foldl] in *.
  fold (run es (step e p)). lia.
Qed.

(** In any session the weight of the pending timers is at most three: one
    survey submission in flight, and either a signup in flight or the
    success view waiting to be hidden. *)
Theorem session_weight w es : pending_weight (timers (session w es)) ≤ 3.
Proof.
  destruct (submit_inv_run es) as [(Hc & _) _].
  destruct (signup_inv_run es) as [(Ha & Hh & Hx & _) _].
  rewrite <- (session_ui w es) in Hc, Ha, Hh, Hx. cbn [ui u_timers u_cells] in *.
  rewrite pending_weight_counts, Hc, Ha, Hh.
  destruct (isSubmitting _), (isInterestSubmitting _), (isInterestSubmitted _);
    first [lia | by specialize (Hx eq_refl)].
Qed.

(** Draining is a run: the timers fire one after the other. *)
Lemma drain_run n p : ∃ k, k ≤ n ∧ drain n p = run (replicate k (Fire 0)) p.
Proof.
  revert p. induction n as [|n IH]; intros p; [by exists 0|]. simpl.
  destruct (timers p); [exists 0; split; [lia|done]|].
  destruct (IH (step (Fire 0) p)) as (k & Hk & ->).
  exists (Datatypes.S k). split; [lia|done].
Qed.

(** Timers that fire leave a submission of the survey in flight or
    done. *)
Lemma fires_keep_submission k p :
  isSubmitting (cells p) = true ∨ isSubmitted (cells p) = true →
  let p' := run (replicate k (Fire 0)) p in
  isSubmitting (cells p') = true ∨ isSubmitted (cells p') = true.
Proof.
  revert p. induction k as [|k IH]; intros p H; [done|]. apply IH.
  rewrite step_join. change (cells (join ?u ?w)) with (u_cells u).
  by apply mstep_fire_survey.
Qed.

(** With no timer pending nothing is in flight and the success view is
    down. *)
Lemma session_idle w es :
  timers (session w es) = [] →
  isSubmitting (cells (session w es)) = false
  ∧ isInterestSubmitting (cells (session w es)) = false
  ∧ isInterestSubmitted (cells (session w es)) = false.
Proof.
  intros Ht. destruct (submit_inv_run es) as [(Hc & _) _].
  destruct (signup_inv_run es) as [(Ha & Hh & _) _].
  rewrite <- (session_ui w) in Hc, Ha, Hh. cbn [ui u_timers u_cells] in *.
  rewrite Ht in Hc, Ha, Hh. cbn in Hc, Ha, Hh.
  by destruct (isSubmitting _), (isInterestSubmitting _), (isInterestSubmitted _).
Qed.

(** C17: whatever the user did, the page comes to rest: after any session,
    letting the pending timers fire, the oldest first, leaves after at most
    three continuations no timer pending, no submission in flight and the
    success view of the signup hidden; and a submission of the survey that
    was in flight has completed. *)
Theorem session_quiesces w es :
  let p := drain 3 (session w es) in
  timers p = []
  ∧ isSubmitting (cells p) = false
  ∧ isInterestSubmitting (cells p) = false
  ∧ isInterestSubmitted (cells p) = false
  ∧ (isSubmitting (cells (session w es)) = true → isSubmitted (cells p) = true).
Proof.
  cbn zeta. pose proof (drain_enough 3 _ (session_weight w es)) as Ht.
  destruct (drain_run 3 (session w es)) as (k & _ & Hk). rewrite Hk in *.
  pose proof (fires_keep_submission k (session w es)) as Hj. cbn zeta in Hj.
  unfold session in *. rewrite <- run_app in *.
  fold (session w (es ++ replicate k (Fire 0))) in *.
  destruct (session_idle _ _ Ht) as (Hs & Ha & Hh).
  split_and!; [done..|]. intros Hi. destruct (Hj (or_introl Hi)); congruence.
Qed.

End timers_lemmas.

(** ** The theorems on concrete inputs *)

(** A visit that submits the survey and a contact and is then left alone:
    three timers fire, the two waits and the timer of the success view. *)
Definition submitting_visit : list Event :=
  [Mount] ++ answer_all ++ [ChangeInput "me@example.com"; SubmitForm].

Lemma fires_bounded_witness :
  let p := session demo_world submitting_visit in
  let es := [Fire 0; Flush; Fire 0; Fire 0; Fire 0] in
  forallb sets_no_timer es = true
  ∧ fired es p + pending_weight (timers (run es p)) ≤ pending_weight (timers p).
Proof.
  split; [reflexivity|]. apply fires_bounded. reflexivity.
Defined.

(** The bound is reached: the three timers of that visit fire. *)
Lemma three_timers_fire :
  let p := session demo_world submitting_visit in
  pending_weight (timers p) = 3
  ∧ fired [Fire 0; Flush; Fire 0; Fire 0; Fire 0] p = 3
  ∧ timers (drain 2 p) ≠ [] ∧ timers (drain 3 p) = [].
Proof. cbn zeta. split_and!; by_compute. Qed.

