(* ===== verification/Clock.v ===== *)
(** * The clock: timers fire at their deadlines

    The page sets its timers with delays: the simulated call of
    [onSubmitSurvey] takes 1500 ms (page.tsx 136), that of [onSubmit]
    1000 ms (page.tsx 210), and the success view of the signup is hidden
    3000 ms after it came up (page.tsx 217-219).  The transition system of
    [Page] lets any pending timer fire at any moment, which covers every
    browser; this file adds the clock.  A timed configuration pairs the
    page with the deadline of each pending timer; an event of the user
    happens at the present moment and the timers that it sets are due after
    their delays; when time passes the timers that fall due fire in the
    order of their deadlines, the older first among equal ones, each at its
    deadline.  The clock is the one that [Date.now()] reads.

    A timed session is a session of [Page]: what holds of all sessions
    holds of the timed ones.  With the clock come the results that the
    untimed system cannot state: a submitted survey is done after 1500 ms
    and not before, the success view of the signup is up from 1000 ms to
    4000 ms after the submission, four seconds after the last event of the
    user the page is at rest, and the form then takes a new contact.
    Waiting is additive ([wait_add]): the timers that fire, their order and
    the times at which they fire do not depend on how the passage of time
    is cut into waits. *)

From S2P Require Import Prelude JsString JsValue Effects Browser Identity.
From S2P Require Import Tracking PageState Survey Signup Observer View Page.
From S2P Require Import Machine Invariants Outputs Schedule Session FlowSpec.
From S2P Require Import Timers.

#[local] Open Scope string_scope.
#[local] Open Scope list_scope.
#[local] Open Scope Z_scope.

(** ** Timed configurations *)

(** The events of the clock: a timer elapses, the time moves. *)
Definition clocked (e : Event) : bool :=
  match e with Fire _ | Tick _ _ => true | _ => false end.

Definition is_tick_out (o : Out) : bool :=
  match o with OTick _ _ => true | _ => false end.

(** The timer that is due first: the earliest deadline, and the oldest
    timer among those with that deadline. *)
Fixpoint earliest (ds : list Z) : option (nat * Z) :=
  match ds with
  | [] => None
  | d :: ds' =>
    match earliest ds' with
    | Some (i, d') => if d' <? d then Some (S i, d') else Some (0%nat, d)
    | None => Some (0%nat, d)
    end
  end.

(** The deadlines after an event at time [t]: the timers that the event
    has set are due after their delays. *)
Definition schedule (t : Z) (old : list Z) (ts : list Pending) : list Z :=
  old ++ ((λ x, t + delay_of x) <$> drop (length old) ts).

(** The time that a timer set now can still keep the page busy: its delay,
    and for the wait of the signup that of the timer which its continuation
    sets. *)
Definition busy (t : Pending) : Z :=
  match t with
  | SurveyAwait _ => 1500
  | SignupAwait => 4000
  | HideSuccess => 3000
  end.

(** What the continuation of a timer sets. *)
Definition sets (t : Pending) : list Pending :=
  match t with SignupAwait => [HideSuccess] | _ => [] end.

(** A timed session: the user acts, and time passes. *)
Inductive Moment : Type :=
| Wait (dt : Z)
| Do (e : Event).

(** The events of the user in a timed session. *)
Definition acts (xs : list Moment) : list Event :=
  omap (λ x, match x with
             | Do e => if clocked e then None else Some e
             | Wait _ => None
             end) xs.

(** The page and the deadline of each pending timer, in the order of
    [timers]. *)
Record Timed (S : Type) : Type := mkTimed {
  t_page : Page S;
  t_due : list Z;
}.

Arguments mkTimed {S}.
Arguments t_page {S}.
Arguments t_due {S}.

Section clock.
Context {S : Type} `{!Sdk S}.
Implicit Types (p : Page S) (tp : Timed S) (w : World S).

(** What [Date.now()] returns. *)
Definition clock tp : Z := dateNow (world (t_page tp)).

(** The clock moves to [t]. *)
Definition set_clock (t : Z) p : Page S :=
  step (Tick t (random36 (world p))) p.

(** An event of the user or of React happens now. *)
Definition act (e : Event) tp : Timed S :=
  if clocked e then tp
  else
    let p := step e (t_page tp) in
    mkTimed p (schedule (clock tp) (t_due tp) (timers p)).

(** The timer that is due first fires, at its deadline, unless that is
    after [target]. *)
Definition fire_next (target : Z) tp : option (Timed S) :=
  match earliest (t_due tp) with
  | Some (i, d) =>
    if d <=? target
    then
      let t := Z.max (clock tp) d in
      let p := step (Fire i) (set_clock t (t_page tp)) in
      Some (mkTimed p (schedule t (delete i (t_due tp)) (timers p)))
    else None
  | None => None
  end.

(** The timers due until [target] fire, one after the other. *)
Fixpoint elapse (fuel : nat) (target : Z) tp : Timed S :=
  match fuel with
  | O => tp
  | Datatypes.S n =>
    match fire_next target tp with
    | Some tp' => elapse n target tp'
    | None => tp
    end
  end.

(** [dt] milliseconds pass.  The weight of the pending timers is fuel
    enough ([elapse_done]). *)
Definition wait (dt : Z) tp : Timed S :=
  let target := clock tp + Z.max 0 dt in
  let tp' := elapse (pending_weight (timers (t_page tp))) target tp in
  mkTimed (set_clock target (t_page tp')) (t_due tp').

Definition tstep (x : Moment) tp : Timed S :=
  match x with Wait dt => wait dt tp | Do e => act e tp end.

Definition trun (xs : list Moment) tp : Timed S := foldl (λ tp x, tstep x tp) tp xs.

Definition tsession w (xs : list Moment) : Timed S :=
  trun xs (mkTimed (initial_page w) []).

(** Every pending timer is due, not before now and not after its delay. *)
Definition on_time tp : Prop :=
  Forall2 (λ d t, clock tp ≤ d ≤ clock tp + delay_of t)
    (t_due tp) (timers (t_page tp)).

(** Every pending timer and what it sets is over by [target]. *)
Definition over_by (target : Z) tp : Prop :=
  Forall2 (λ d t, d + (busy t - delay_of t) ≤ target)
    (t_due tp) (timers (t_page tp)).

(** The clock and the random source are as they were. *)
Definition same_time : relation (World S) := λ w w',
  dateNow w' = dateNow w ∧ random36 w' = random36 w.

End clock.

(** ** Lists of deadlines *)

Lemma earliest_None ds : earliest ds = None → ds = [].
Proof. destruct ds as [|d ds]; [done|]. cbn. by repeat case_match. Qed.

Lemma earliest_spec ds i d :
  earliest ds = Some (i, d) → ds !! i = Some d ∧ Forall (λ x, d ≤ x) ds.
Proof.
  revert i d. induction ds as [|d0 ds IH]; intros i d; [done|]. cbn.
  destruct (earliest ds) as [[j d']|] eqn:He.
  - destruct (IH j d' eq_refl) as [Hj Hmin]. case_match; intros [= <- <-].
    + split; [done|]. constructor; [lia|done].
    + split; [done|]. constructor; [lia|].
      eapply Forall_impl; [exact Hmin|]. intros x ?. cbn in *. lia.
  - intros [= <- <-]. apply earliest_None in He as ->. split; [done|].
    by constructor.
Qed.

Lemma schedule_app t old ts new :
  length old = length ts →
  schedule t old (ts ++ new) = old ++ ((λ x, t + delay_of x) <$> new).
Proof. intros H. unfold schedule. by rewrite H, drop_app_length. Qed.

Lemma Forall2_Forall_and {A B} (R : A → B → Prop) (P : A → Prop) l k :
  Forall2 R l k → Forall P l → Forall2 (λ x y, R x y ∧ P x) l k.
Proof.
  induction 1 as [|x y l k Hxy _ IH]; intros HP; [constructor|].
  apply Forall_cons in HP as [Hx HP]. constructor; auto.
Qed.

Lemma Forall2_Forall_and_r {A B} (R : A → B → Prop) (Q : B → Prop) l k :
  Forall2 R l k → Forall Q k → Forall2 (λ x y, R x y ∧ Q y) l k.
Proof.
  induction 1 as [|x y l k Hxy _ IH]; intros HQ; [constructor|].
  apply Forall_cons in HQ as [Hy HQ]. constructor; auto.
Qed.

(** ** The timers after a step of the machine *)

Lemma mstep_no_tick e u :
  (∀ t r, e ≠ Tick t r) → Forall (λ o, is_tick_out o = false) (mstep e u).2.
Proof.
  intros He. unfold mstep, m_handle, then_commit, m_commit.
  assert (∀ n os, all_named n os → Forall (λ o, is_tick_out o = false) os) as Hn
    by (intros n os Hos; eapply Forall_impl; [exact Hos|]; by intros o [p ->]).
  destruct e; try (by destruct (He now rnd)); cbn;
    repeat (case_match; cbn); forall_list; try done.
  - eapply Hn, m_for_each_scroll.
  - eapply Hn, m_for_each_unload.
  - destruct p; cbn; by forall_list.
Qed.

Lemma mstep_act_timers e u :
  clocked e = false → ∃ new, u_timers (mstep e u).1 = u_timers u ++ new.
Proof.
  intros He. unfold mstep.
  destruct (m_enabled e u); [|exists []; by rewrite app_nil_r].
  rewrite m_handle_timers. destruct (sets_no_timer e) eqn:Hs.
  - exists []. rewrite app_nil_r. apply m_body_keeps_timers; [done|by destruct e].
  - destruct e; try done; cbn [m_body]; case_all; cbn; eauto;
      exists []; by rewrite app_nil_r.
Qed.

Lemma mstep_fire_timers i t u :
  u_timers u !! i = Some t →
  u_timers (mstep (Fire i) u).1 = delete i (u_timers u) ++ sets t.
Proof.
  intros Ht. unfold mstep.
  assert (m_enabled (Fire i) u = true) as ->
    by (by eapply bool_decide_eq_true_2, lookup_lt_Some).
  rewrite m_handle_timers. cbn [m_body]. rewrite Ht.
  destruct t; cbn; by rewrite ?app_nil_r.
Qed.

(** The click on the enabled submit button sets the timer of the
    submission and raises the flag. *)
Lemma mstep_click u :
  m_enabled ClickSubmitSurvey u = true →
  u_timers (mstep ClickSubmitSurvey u).1
  = u_timers u ++ [SurveyAwait (u_rendered u)]
  ∧ isSubmitting (u_cells (mstep ClickSubmitSurvey u).1) = true
  ∧ isSubmitted (u_cells (mstep ClickSubmitSurvey u).1) = isSubmitted (u_cells u).
Proof.
  intros He. rewrite mstep_cells by done. unfold mstep. rewrite He, m_handle_timers.
  apply andb_prop in He as [_ (_ & _ & Hi)%can_submit_survey_render].
  cbn [m_body]. by rewrite Hi.
Qed.

(** A timer of the signup that fires leaves the survey as it is. *)
Lemma mstep_fire_other i t u :
  u_timers u !! i = Some t → is_survey_await t = false →
  isSubmitted (u_cells (mstep (Fire i) u).1) = isSubmitted (u_cells u).
Proof.
  intros Ht Hs. rewrite mstep_cells
    by (by eapply bool_decide_eq_true_2, lookup_lt_Some).
  apply (survey_neutral_events (Fire i) u); [done|].
  intros ? snap [= <-] Ht'. rewrite Ht in Ht'. by simplify_eq.
Qed.

(** The submission of a contact sets the timer of the signup. *)
Lemma mstep_submit u :
  m_enabled SubmitForm u = true →
  truthy_string (contactValue_of (u_rendered u)) = true →
  u_timers (mstep SubmitForm u).1 = u_timers u ++ [SignupAwait].
Proof.
  intros He Hv. unfold mstep. rewrite He, m_handle_timers. cbn [m_body].
  by rewrite Hv.
Qed.

(** ** The clock of the world *)

Section clock_lemmas.
Context {S : Type} `{!Sdk S}.
Implicit Types (p : Page S) (tp : Timed S) (w : World S).

#[export] Instance same_time_preorder : PreOrder (same_time (S:=S)).
Proof.
  split; [done|]. intros w1 w2 w3 [H1 H2] [H3 H4]. split; congruence.
Qed.

Lemma same_time_emit e : preserves same_time (emit (S:=S) e).
Proof. done. Qed.

Lemma same_time_sdk_call c : preserves same_time (sdk_call (S:=S) c).
Proof.
  intros w. unfold exec. rewrite sdk_call_run.
  by destruct (sdk_step c (sdk w)) as [s' threw].
Qed.

Lemma same_time_getOrCreate :
  preserves same_time (getOrCreateAnonymousUserId (S:=S)).
Proof. intros w. by destruct (getOrCreate_frame w) as (_ & _ & _ & _ & _ & ? & ?). Qed.

Lemma same_time_trackEvent n props :
  preserves same_time (trackEvent (S:=S) n props).
Proof. intros w. by destruct (after_track_frame n props w) as (_ & _ & _ & ? & ?). Qed.

Lemma same_time_initAmplitude : preserves same_time (initAmplitude (S:=S)).
Proof.
  unfold initAmplitude. preserves_auto; first [apply same_time_getOrCreate
    | apply same_time_sdk_call | apply same_time_trackEvent | by apply same_time_emit].
Qed.

(** Only the environment moves the clock: no output of the page does. *)
Lemma outs_world_time os w :
  Forall (λ o, is_tick_out o = false) os → same_time w (outs_world os w).
Proof.
  revert w. induction os as [|o os IH]; intros w Hos; [done|].
  apply Forall_cons in Hos as [Ho Hos]. rewrite outs_world_cons.
  etrans; [|by apply IH]. destruct o; try done; cbn [out_world].
  - apply same_time_trackEvent.
  - apply same_time_initAmplitude.
Qed.

Lemma step_time e p :
  (∀ t r, e ≠ Tick t r) → same_time (world p) (world (step e p)).
Proof.
  intros He. rewrite step_join, world_join. by apply outs_world_time, mstep_no_tick.
Qed.

Lemma set_clock_ui t p : ui (set_clock t p) = ui p.
Proof. unfold set_clock. by rewrite step_join, ui_join. Qed.

Lemma set_clock_time t p : dateNow (world (set_clock t p)) = t.
Proof. unfold set_clock. by rewrite step_join, world_join. Qed.

Lemma set_clock_timers t p : timers (set_clock t p) = timers p.
Proof. exact (f_equal u_timers (set_clock_ui t p)). Qed.

End clock_lemmas.

(** ** Steps of the timed page *)

Section timed.
Context {S : Type} `{!Sdk S}.
Implicit Types (p : Page S) (tp : Timed S) (w : World S).

Lemma on_time_length tp :
  on_time tp → length (t_due tp) = length (timers (t_page tp)).
Proof. apply Forall2_length. Qed.

(** An event of the user: the clock stands still, the timers that were
    pending keep their deadlines, the new ones are due after their
    delays. *)
Lemma act_spec e tp :
  clocked e = false → on_time tp →
  ∃ new, t_page (act e tp) = step e (t_page tp)
    ∧ clock (act e tp) = clock tp
    ∧ timers (t_page (act e tp)) = timers (t_page tp) ++ new
    ∧ t_due (act e tp) = t_due tp ++ ((λ x, clock tp + delay_of x) <$> new).
Proof.
  intros He Hon. unfold act. rewrite He. cbn [t_page t_due].
  destruct (mstep_act_timers e (ui (t_page tp)) He) as [new Hnew].
  rewrite <- step_timers in Hnew. cbn [ui u_timers] in Hnew.
  exists new. split_and!; [done| |done|].
  - unfold clock. cbn. apply step_time. by destruct e.
  - rewrite Hnew. by apply schedule_app, on_time_length.
Qed.

(** The timer that fires: the first that is due; it fires at its deadline,
    and what its continuation sets is due after its delay. *)
Lemma fire_next_spec target tp tp' :
  on_time tp → fire_next target tp = Some tp' →
  ∃ i d t, t_due tp !! i = Some d ∧ timers (t_page tp) !! i = Some t
    ∧ Forall (λ x, d ≤ x) (t_due tp) ∧ clock tp ≤ d ≤ target
    ∧ t_page tp' = step (Fire i) (set_clock d (t_page tp))
    ∧ clock tp' = d
    ∧ timers (t_page tp') = delete i (timers (t_page tp)) ++ sets t
    ∧ t_due tp' = delete i (t_due tp) ++ ((λ x, d + delay_of x) <$> sets t).
Proof.
  intros Hon. unfold fire_next.
  destruct (earliest (t_due tp)) as [[i d]|] eqn:He; [|done].
  destruct (earliest_spec _ _ _ He) as [Hd Hmin].
  destruct (Forall2_lookup_l _ _ _ _ _ Hon Hd) as (t & Ht & Hc).
  destruct (Z.leb_spec d target); [|done]. intros [= <-].
  rewrite Z.max_r by lia. cbn [t_page t_due].
  assert (timers (step (Fire i) (set_clock d (t_page tp)))
          = delete i (timers (t_page tp)) ++ sets t) as Hts.
  { rewrite step_timers, set_clock_ui. by apply mstep_fire_timers. }
  exists i, d, t. split_and!; try done; try lia.
  - unfold clock. cbn. rewrite (proj1 (step_time (Fire i) _ ltac:(done))).
    apply set_clock_time.
  - rewrite Hts. apply schedule_app.
    by rewrite !length_delete, (on_time_length tp) by eauto.
Qed.

Lemma act_on_time e tp : on_time tp → on_time (act e tp).
Proof.
  intros Hon. destruct (clocked e) eqn:He; [unfold act; by rewrite He|].
  destruct (act_spec e tp He Hon) as (new & _ & Hc & Hts & Hds).
  unfold on_time. rewrite Hc, Hts, Hds. apply Forall2_app; [done|].
  apply Forall2_fmap_l, Forall_Forall2_diag, Forall_forall.
  intros t _. destruct t; cbn; lia.
Qed.

Lemma fire_next_on_time target tp tp' :
  on_time tp → fire_next target tp = Some tp' → on_time tp'.
Proof.
  intros Hon Hf.
  destruct (fire_next_spec _ _ _ Hon Hf)
    as (i & d & t & Hd & Ht & Hmin & Hc & _ & Hc' & Hts & Hds).
  unfold on_time. rewrite Hc', Hts, Hds. apply Forall2_app.
  - apply Forall2_delete.
    eapply Forall2_impl; [by apply Forall2_Forall_and|].
    cbn. intros x y. lia.
  - apply Forall2_fmap_l, Forall_Forall2_diag, Forall_forall.
    intros x _. destruct x; cbn; lia.
Qed.

Lemma fire_next_weight target tp tp' :
  on_time tp → fire_next target tp = Some tp' →
  (pending_weight (timers (t_page tp')) < pending_weight (timers (t_page tp)))%nat.
Proof.
  intros Hon Hf.
  destruct (fire_next_spec _ _ _ Hon Hf) as (i & d & t & _ & Ht & _ & _ & -> & _).
  rewrite <- (set_clock_timers d (t_page tp)) in Ht |- *.
  by eapply step_fire_lt, bool_decide_eq_true_2, lookup_lt_Some.
Qed.

(** When no timer fires, none is due by [target]. *)
Lemma fire_next_None target tp :
  fire_next target tp = None → Forall (λ d, target < d) (t_due tp).
Proof.
  unfold fire_next. destruct (earliest (t_due tp)) as [[i d]|] eqn:He.
  - destruct (earliest_spec _ _ _ He) as [_ Hmin].
    destruct (Z.leb_spec d target); [done|]. intros _.
    eapply Forall_impl; [exact Hmin|]. cbn. intros x. lia.
  - intros _. by apply earliest_None in He as ->.
Qed.

(** What every firing preserves holds when the time has elapsed. *)
Lemma elapse_ind (P : Timed S → Prop) target :
  (∀ tp tp', P tp → fire_next target tp = Some tp' → P tp') →
  ∀ n tp, P tp → P (elapse n target tp).
Proof.
  intros Hstep n. induction n as [|n IH]; intros tp HP; [done|]. cbn.
  destruct (fire_next target tp) as [tp'|] eqn:Hf; [|done]. eauto.
Qed.

Lemma elapse_on_time n target tp :
  on_time tp → clock tp ≤ target →
  on_time (elapse n target tp) ∧ clock (elapse n target tp) ≤ target.
Proof.
  intros Hon Hc. apply (elapse_ind (λ tp, on_time tp ∧ clock tp ≤ target));
    [|done]. clear. intros tp tp' [Hon Hc] Hf.
  split; [by eapply fire_next_on_time|].
  destruct (fire_next_spec _ _ _ Hon Hf) as (_ & d & _ & _ & _ & _ & ? & _ & -> & _).
  lia.
Qed.

(** The weight of the pending timers is fuel enough: afterwards no timer
    is due by [target]. *)
Lemma elapse_done n target tp :
  on_time tp → (pending_weight (timers (t_page tp)) ≤ n)%nat →
  fire_next target (elapse n target tp) = None.
Proof.
  revert tp. induction n as [|n IH]; intros tp Hon Hn; cbn.
  - assert (timers (t_page tp) = []) as Ht by (apply pending_weight_zero; lia).
    unfold on_time in Hon. rewrite Ht in Hon. apply Forall2_nil_inv_r in Hon.
    unfold fire_next. by rewrite Hon.
  - destruct (fire_next target tp) as [tp'|] eqn:Hf; [|done].
    pose proof (fire_next_weight _ _ _ Hon Hf).
    apply IH; [by eapply fire_next_on_time|lia].
Qed.

(** What a timer that fires does: it was due, by [target]; the interface
    state is that of the machine after the timer; and of each kind of
    timer there is one less, and what the continuation has set more. *)
Lemma fire_next_fired target tp tp' :
  on_time tp → fire_next target tp = Some tp' →
  ∃ i d t, t_due tp !! i = Some d ∧ timers (t_page tp) !! i = Some t ∧ d ≤ target
    ∧ ui (t_page tp') = (mstep (Fire i) (ui (t_page tp))).1
    ∧ ∀ q, (count_if q (timers (t_page tp')) + (if q t then 1 else 0)
            = count_if q (timers (t_page tp)) + count_if q (sets t))%nat.
Proof.
  intros Hon Hf.
  destruct (fire_next_spec _ _ _ Hon Hf)
    as (i & d & t & Hd & Ht & _ & Hc & Hp & _ & Hts & _).
  exists i, d, t. split_and!; [done..|lia| |].
  - by rewrite Hp, ui_step, set_clock_ui.
  - intros q. rewrite Hts, count_if_app.
    pose proof (count_if_delete q _ _ _ Ht). lia.
Qed.

Lemma wait_on_time dt tp : on_time tp → on_time (wait dt tp).
Proof.
  intros Hon. unfold wait. set (target := clock tp + Z.max 0 dt).
  set (tp1 := elapse _ target tp).
  destruct (elapse_on_time (pending_weight (timers (t_page tp))) target tp)
    as [Hon1 Hc1]; [done|lia|]. fold tp1 in Hon1, Hc1.
  pose proof (fire_next_None target tp1 (elapse_done _ _ _ Hon (le_n _))) as Hdue.
  unfold on_time, clock. cbn [t_page t_due].
  rewrite set_clock_time, set_clock_timers.
  eapply Forall2_impl; [by apply Forall2_Forall_and|]. cbn. intros x y. lia.
Qed.

Lemma trun_on_time xs tp : on_time tp → on_time (trun xs tp).
Proof.
  revert tp. induction xs as [|x xs IH]; intros tp Hon; [done|]. apply IH.
  destruct x; [by apply wait_on_time | by apply act_on_time].
Qed.

Lemma tsession_on_time w xs : on_time (tsession w xs).
Proof. apply trun_on_time. constructor. Qed.

End timed.

(** ** A timed session is a session *)

Section refinement.
Context {S : Type} `{!Sdk S}.
Implicit Types (p : Page S) (tp : Timed S) (w : World S).

(** [tp'] comes from [tp] by events of the clock. *)
Definition ticks tp tp' : Prop :=
  ∃ es, t_page tp' = run es (t_page tp) ∧ forallb clocked es = true.

#[export] Instance ticks_preorder : PreOrder ticks.
Proof.
  split; [by exists []|]. intros tp1 tp2 tp3 (es & H1 & Hc) (es' & H2 & Hc').
  exists (es ++ es'). by rewrite run_app, <- H1, H2, forallb_app, Hc, Hc'.
Qed.

Lemma fire_next_ticks target tp tp' : fire_next target tp = Some tp' → ticks tp tp'.
Proof.
  unfold fire_next. destruct (earliest _) as [[i d]|]; [|done].
  case_match; [|done]. intros [= <-].
  by exists [Tick (Z.max (clock tp) d) (random36 (world (t_page tp))); Fire i].
Qed.

Lemma elapse_ticks n target tp : ticks tp (elapse n target tp).
Proof.
  apply (elapse_ind (ticks tp)); [|done]. intros tp1 tp2 H1 Hf.
  etrans; [exact H1|by eapply fire_next_ticks].
Qed.

Lemma wait_ticks dt tp : ticks tp (wait dt tp).
Proof.
  etrans; [apply (elapse_ticks (pending_weight (timers (t_page tp)))
                    (clock tp + Z.max 0 dt))|].
  by eexists [Tick _ _].
Qed.

Lemma filter_clocked es :
  forallb clocked es = true → filter (λ e, clocked e = false) es = [].
Proof.
  induction es as [|e es IH]; [done|]. intros [He Hes]%andb_prop.
  rewrite filter_cons_False by congruence. auto.
Qed.

(** The page of a timed run is the page after a run of [Page]: the events
    of the user in their order, and events of the clock between them. *)
Lemma trun_refines xs tp :
  ∃ es, t_page (trun xs tp) = run es (t_page tp)
        ∧ filter (λ e, clocked e = false) es = acts xs.
Proof.
  revert tp. induction xs as [|x xs IH]; intros tp; [by exists []|].
  destruct (IH (tstep x tp)) as (es2 & H2 & Ha2).
  assert (∃ es1, t_page (tstep x tp) = run es1 (t_page tp)
                 ∧ filter (λ e, clocked e = false) es1 = acts [x])
    as (es1 & H1 & Ha1).
  { destruct x as [dt|e]; cbn [tstep].
    - destruct (wait_ticks dt tp) as (es1 & H1 & Hc). exists es1.
      split; [done|]. by apply filter_clocked.
    - unfold act, acts. cbn. destruct (clocked e) eqn:He; [by exists []|].
      exists [e]. split; [done|]. by rewrite filter_cons_True. }
  exists (es1 ++ es2). cbn [trun foldl]. fold (trun xs (tstep x tp)).
  rewrite run_app, <- H1, H2, filter_app, Ha1, Ha2. split; [done|].
  unfold acts. cbn. by case_match.
Qed.

End refinement.

(** ** What holds of the deadlines while time passes *)

Section deadlines.
Context {S : Type} `{!Sdk S}.
Context (R : Z → Pending → Prop) (target : Z).
Context (R_sets : ∀ d, d ≤ target → R d SignupAwait → R (d + 3000) HideSuccess).
Implicit Types (p : Page S) (tp : Timed S) (w : World S).

(** [R] holds of every pending timer with its deadline. *)
Definition all_due tp : Prop := Forall2 R (t_due tp) (timers (t_page tp)).

Lemma fire_next_all_due tp tp' :
  on_time tp → fire_next target tp = Some tp' → all_due tp → all_due tp'.
Proof.
  intros Hon Hf HR.
  destruct (fire_next_spec _ _ _ Hon Hf)
    as (i & d & t & Hd & Ht & _ & Hc & _ & _ & Hts & Hds).
  unfold all_due. rewrite Hts, Hds. apply Forall2_app; [by apply Forall2_delete|].
  pose proof (Forall2_lookup_lr _ _ _ _ _ _ HR Hd Ht) as Hdt.
  destruct t; cbn; constructor; [|constructor]. apply R_sets; [lia|done].
Qed.

Lemma elapse_all_due n tp :
  on_time tp → all_due tp → all_due (elapse n target tp).
Proof.
  intros Hon HR. apply (elapse_ind (λ tp, on_time tp ∧ all_due tp)); [|done].
  intros tp1 tp2 [Hon1 HR1] Hf.
  split; [by eapply fire_next_on_time | by eapply fire_next_all_due].
Qed.

(** Induction on the timers that fire while [R] holds of the deadlines:
    what the firing of a timer [t] that is due at [d] preserves, where
    [R d t], holds when the time has elapsed. *)
Lemma elapse_due_ind (P : Timed S → Prop) :
  (∀ tp tp' i d t,
     on_time tp → P tp → fire_next target tp = Some tp' →
     timers (t_page tp) !! i = Some t → R d t → d ≤ target →
     ui (t_page tp') = (mstep (Fire i) (ui (t_page tp))).1 →
     (∀ q, (count_if q (timers (t_page tp')) + (if q t then 1 else 0)
            = count_if q (timers (t_page tp)) + count_if q (sets t))%nat) →
     P tp') →
  ∀ n tp, on_time tp → all_due tp → P tp → P (elapse n target tp).
Proof.
  intros Hstep n tp Hon HR HP.
  apply (elapse_ind (λ tp, on_time tp ∧ all_due tp ∧ P tp) target); [|done].
  intros tp1 tp2 (Hon1 & HR1 & HP1) Hf.
  split_and!; [by eapply fire_next_on_time | by eapply fire_next_all_due|].
  destruct (fire_next_fired _ _ _ Hon1 Hf) as (i & d & t & Hd & Ht & Hle & Hu & Hq).
  eapply Hstep; eauto. exact (Forall2_lookup_lr _ _ _ _ _ _ HR1 Hd Ht).
Qed.

(** After the wait the timers that are pending are those of which [R]
    holds with a deadline after [target]. *)
Lemma wait_all_due dt tp :
  on_time tp → target = clock tp + Z.max 0 dt → all_due tp →
  Forall2 (λ d t, R d t ∧ target < d) (t_due (wait dt tp))
    (timers (t_page (wait dt tp))).
Proof.
  intros Hon Ht HR. unfold wait. cbn [t_page t_due].
  rewrite set_clock_timers, <- Ht.
  apply Forall2_Forall_and; [by apply elapse_all_due|].
  by apply fire_next_None, elapse_done.
Qed.

End deadlines.

(** ** The page comes to rest in time *)

Section rest.
Context {S : Type} `{!Sdk S}.
Implicit Types (p : Page S) (tp : Timed S) (w : World S).

Lemma busy_delay t : delay_of t ≤ busy t ≤ 4000.
Proof. destruct t; cbn; lia. Qed.

Lemma on_time_over_by dt tp :
  on_time tp → 4000 ≤ dt → over_by (clock tp + dt) tp.
Proof.
  intros Hon Hdt. eapply Forall2_impl; [exact Hon|]. cbn.
  intros d t. pose proof (busy_delay t). lia.
Qed.

(** Four seconds on, no timer is pending. *)
Lemma wait_settles dt tp :
  on_time tp → 4000 ≤ dt → timers (t_page (wait dt tp)) = [].
Proof.
  intros Hon Hdt.
  pose proof (wait_all_due (λ d t, d + (busy t - delay_of t) ≤ clock tp + dt)
                (clock tp + dt) ltac:(cbn; lia) dt tp Hon ltac:(lia)
                (on_time_over_by dt tp Hon Hdt)) as H.
  destruct H as [|d t ds ts [Hd Hlt] _]; [done|].
  pose proof (busy_delay t). lia.
Qed.

Lemma tsession_snoc w xs x : tsession w (xs ++ [x]) = tstep x (tsession w xs).
Proof. unfold tsession, trun. by rewrite foldl_app. Qed.

Lemma tsession_session w xs :
  ∃ es, t_page (tsession w xs) = session w es
        ∧ filter (λ e, clocked e = false) es = acts xs.
Proof. apply trun_refines. Qed.

Lemma wait_clock dt tp : clock (wait dt tp) = clock tp + Z.max 0 dt.
Proof. apply set_clock_time. Qed.

End rest.

(** ** Time is additive *)

Section additive.
Context {S : Type} `{!Sdk S}.
Implicit Types (p : Page S) (tp : Timed S) (w : World S).

(** The configuration [tp] with the clock at [t]. *)
Definition at_time (t : Z) tp : Timed S :=
  mkTimed (set_clock t (t_page tp)) (t_due tp).

Lemma set_clock_join t p :
  set_clock t p = join (ui p) (set_entropy t (random36 (world p)) (world p)).
Proof. unfold set_clock. by rewrite step_join. Qed.

Lemma set_clock_twice t t' p : set_clock t' (set_clock t p) = set_clock t' p.
Proof. by rewrite !set_clock_join, ui_join, world_join. Qed.

Lemma at_time_twice t t' tp : at_time t' (at_time t tp) = at_time t' tp.
Proof. unfold at_time. cbn [t_page t_due]. by rewrite set_clock_twice. Qed.

Lemma wait_at_time dt tp :
  wait dt tp
  = at_time (clock tp + Z.max 0 dt)
      (elapse (pending_weight (timers (t_page tp))) (clock tp + Z.max 0 dt) tp).
Proof. done. Qed.

(** A timer that fires by [T1] fires by any later time. *)
Lemma fire_next_mono T1 T2 tp tp' :
  T1 ≤ T2 → fire_next T1 tp = Some tp' → fire_next T2 tp = Some tp'.
Proof.
  intros HT. unfold fire_next. destruct (earliest _) as [[i d]|]; [|done].
  destruct (Z.leb_spec d T1); [|done]. by destruct (Z.leb_spec d T2); [|lia].
Qed.

Lemma elapse_weight n target tp :
  on_time tp →
  (pending_weight (timers (t_page (elapse n target tp)))
   ≤ pending_weight (timers (t_page tp)))%nat.
Proof.
  intros Hon.
  apply (elapse_ind (λ tp', on_time tp'
           ∧ (pending_weight (timers (t_page tp'))
              ≤ pending_weight (timers (t_page tp)))%nat) target); [|done].
  intros tp1 tp2 [Hon1 Hle] Hf. split; [by eapply fire_next_on_time|].
  pose proof (fire_next_weight _ _ _ Hon1 Hf). lia.
Qed.

(** Fuel beyond the weight of the timers changes nothing. *)
Lemma elapse_fuel n m target tp :
  on_time tp → (pending_weight (timers (t_page tp)) ≤ n)%nat →
  (pending_weight (timers (t_page tp)) ≤ m)%nat →
  elapse n target tp = elapse m target tp.
Proof.
  revert m tp. induction n as [|n IH]; intros m tp Hon Hn Hm.
  - pose proof (elapse_done 0 target tp Hon Hn) as H0. cbn in H0.
    destruct m; cbn; by rewrite ?H0.
  - cbn. destruct (fire_next target tp) as [tp'|] eqn:Hf; [|by destruct m; cbn; rewrite ?Hf].
    pose proof (fire_next_weight _ _ _ Hon Hf).
    destruct m as [|m]; [lia|]. cbn. rewrite Hf.
    apply IH; [by eapply fire_next_on_time|lia..].
Qed.

(** Letting the time pass in two steps fires the same timers. *)
Lemma elapse_twice n T1 T2 tp :
  on_time tp → T1 ≤ T2 → (pending_weight (timers (t_page tp)) ≤ n)%nat →
  elapse n T2 (elapse n T1 tp) = elapse n T2 tp.
Proof.
  intros Hon HT. revert tp Hon. induction n as [|n IH]; intros tp Hon Hn; [done|].
  cbn [elapse]. destruct (fire_next T1 tp) as [tp'|] eqn:Hf; [|done].
  rewrite (fire_next_mono T1 T2 _ _ HT Hf).
  pose proof (fire_next_weight _ _ _ Hon Hf) as Hw.
  pose proof (fire_next_on_time _ _ _ Hon Hf) as Hon'.
  rewrite <- (IH tp') by (done || lia).
  destruct (elapse_on_time n T1 tp' Hon') as [Hon1 _];
    [destruct (fire_next_spec _ _ _ Hon Hf) as (_ & d & _ & _ & _ & _ & ? & _ & -> & _); lia|].
  pose proof (elapse_weight n T1 tp' Hon').
  apply (elapse_fuel (Datatypes.S n) n); [done|lia..].
Qed.

(** The clock does not matter to the timer that fires next, as long as it
    is not ahead of a deadline. *)
Lemma fire_next_at_time t target tp :
  on_time tp → Forall (λ d, t ≤ d) (t_due tp) →
  fire_next target (at_time t tp) = fire_next target tp.
Proof.
  intros Hon Ht. unfold fire_next, at_time. cbn [t_due t_page].
  destruct (earliest (t_due tp)) as [[i d]|] eqn:He; [|done].
  destruct (earliest_spec _ _ _ He) as [Hd _].
  destruct (Forall2_lookup_l _ _ _ _ _ Hon Hd) as (x & _ & Hc).
  pose proof (proj1 (Forall_lookup _ _) Ht i d Hd) as Htd. cbn in Htd.
  case_match; [|done]. unfold clock. cbn [t_page].
  rewrite set_clock_time, !Z.max_r, set_clock_twice by (unfold clock in Hc; lia).
  done.
Qed.

Lemma elapse_at_time n t target tp :
  on_time tp → Forall (λ d, t ≤ d) (t_due tp) →
  at_time target (elapse n target (at_time t tp))
  = at_time target (elapse n target tp).
Proof.
  intros Hon Ht. destruct n as [|n]; [apply at_time_twice|]. cbn [elapse].
  rewrite fire_next_at_time by done.
  destruct (fire_next target tp); [done|apply at_time_twice].
Qed.

(** Waiting [a] and then [b] milliseconds is waiting [a + b]: the same
    timers fire, at the same times, in the same order. *)
Theorem wait_add a b tp :
  on_time tp → 0 ≤ a → 0 ≤ b → wait b (wait a tp) = wait (a + b) tp.
Proof.
  intros Hon Ha Hb. rewrite (wait_at_time b), wait_clock, (wait_at_time (a + b)).
  replace (clock tp + Z.max 0 (a + b)) with (clock tp + Z.max 0 a + Z.max 0 b)
    by lia.
  set (T1 := clock tp + Z.max 0 a). set (T2 := T1 + Z.max 0 b).
  set (n := pending_weight (timers (t_page tp))).
  unfold wait. fold n T1. set (tp1 := elapse n T1 tp).
  cbn [t_page]. rewrite set_clock_timers. fold (at_time T1 tp1).
  destruct (elapse_on_time n T1 tp Hon ltac:(lia)) as [Hon1 _]. fold tp1 in Hon1.
  pose proof (elapse_weight n T1 tp Hon) as Hw. fold tp1 in Hw.
  rewrite elapse_at_time; [|done|].
  - rewrite (elapse_fuel _ n) by (done || lia).
    unfold tp1. rewrite elapse_twice by (done || lia). done.
  - eapply Forall_impl; [apply (fire_next_None T1), elapse_done; [done|lia]|].
    cbn. intros d. lia.
Qed.

End additive.

(** ** The submission of the survey takes its time *)

Section submission.
Context {S : Type} `{!Sdk S}.
Implicit Types (p : Page S) (tp : Timed S) (w : World S).

Lemma wait_cells dt tp :
  cells (t_page (wait dt tp))
  = cells (t_page (elapse (pending_weight (timers (t_page tp)))
                     (clock tp + Z.max 0 dt) tp)).
Proof.
  unfold wait. cbn [t_page].
  change (cells ?p) with (u_cells (ui p)). by rewrite set_clock_ui.
Qed.

(** Until its deadline a submission is not done: while every timer of the
    survey is due after the wait, nothing marks the survey submitted. *)
Lemma wait_keeps_unsubmitted dt tp :
  on_time tp → isSubmitted (cells (t_page tp)) = false →
  all_due (λ d t, is_survey_await t = true → clock tp + Z.max 0 dt < d) tp →
  isSubmitted (cells (t_page (wait dt tp))) = false.
Proof.
  intros Hon Hs HR. rewrite wait_cells. revert Hon HR Hs.
  apply (elapse_due_ind
           (λ d t, is_survey_await t = true → clock tp + Z.max 0 dt < d)
           (clock tp + Z.max 0 dt) ltac:(done)
           (λ tp, isSubmitted (cells (t_page tp)) = false)).
  intros tp1 tp2 i d t _ Hs1 _ Ht Hdt Hle Hu _.
  change (cells (t_page tp2)) with (u_cells (ui (t_page tp2))).
  rewrite Hu, (mstep_fire_other i t); [done..|].
  destruct (is_survey_await t); [|done]. specialize (Hdt eq_refl). lia.
Qed.

(** While timers fire, a submission stays in flight or done. *)
Lemma elapse_keeps_submission n target tp :
  on_time tp →
  isSubmitting (cells (t_page tp)) = true ∨ isSubmitted (cells (t_page tp)) = true →
  let tp' := elapse n target tp in
  isSubmitting (cells (t_page tp')) = true ∨ isSubmitted (cells (t_page tp')) = true.
Proof.
  intros Hon Hs. cbn zeta.
  assert (all_due (λ _ _, True) tp) as HR
    by (eapply Forall2_impl; [exact Hon|done]).
  revert n tp Hon HR Hs.
  apply (elapse_due_ind (λ _ _, True) target ltac:(done)
           (λ tp, isSubmitting (cells (t_page tp)) = true
                  ∨ isSubmitted (cells (t_page tp)) = true)).
  intros tp1 tp2 i d t _ Hs1 _ _ _ _ Hu _.
  change (cells (t_page tp2)) with (u_cells (ui (t_page tp2))).
  rewrite Hu. by apply mstep_fire_survey.
Qed.

(** A submission in flight is done 1500 ms later. *)
Lemma wait_completes dt tp w es :
  on_time tp → t_page tp = session w es → 1500 ≤ dt →
  isSubmitting (cells (t_page tp)) = true →
  isSubmitted (cells (t_page (wait dt tp))) = true.
Proof.
  intros Hon Hp Hdt Hs.
  pose proof (wait_all_due (λ d t, is_survey_await t = true → d ≤ clock tp + dt)
                (clock tp + dt) ltac:(done) dt tp Hon ltac:(lia)) as Hdue.
  assert (all_due (λ d t, is_survey_await t = true → d ≤ clock tp + dt) tp) as HR.
  { eapply Forall2_impl; [exact Hon|]. cbn. intros d t ? Hst.
    destruct t; try done. cbn in *. lia. }
  specialize (Hdue HR). clear HR.
  destruct (wait_ticks dt tp) as (es' & Hp' & _).
  rewrite Hp in Hp'. unfold session in Hp'. rewrite <- run_app in Hp'.
  fold (session w (es ++ es')) in Hp'.
  destruct (submit_inv_run (es ++ es')) as [(Hc & _) _].
  rewrite <- (session_ui w), <- Hp' in Hc. cbn [ui u_timers u_cells] in Hc.
  assert (count_if is_survey_await (timers (t_page (wait dt tp))) = 0%nat) as H0.
  { apply count_if_zero, (Forall2_Forall_r _ _ _ _ Hdue).
    apply Forall_forall. intros d _ t [Hr Hlt].
    destruct (is_survey_await t); [|done]. specialize (Hr eq_refl). lia. }
  rewrite H0 in Hc. rewrite wait_cells in Hc |- *.
  destruct (elapse_keeps_submission (pending_weight (timers (t_page tp)))
              (clock tp + Z.max 0 dt) tp Hon (or_introl Hs)) as [Hi|Hd]; [|done].
  rewrite Hi in Hc. done.
Qed.

End submission.

(** ** The success view of the signup is up in time *)

(** The deadlines of the timers of a signup submitted at [c]. *)
Definition signup_due (c d : Z) (t : Pending) : Prop :=
  match t with
  | SurveyAwait _ => True
  | SignupAwait => d = c + 1000
  | HideSuccess => d = c + 4000
  end.

Section success.
Context {S : Type} `{!Sdk S}.
Implicit Types (p : Page S) (tp : Timed S) (w : World S).

(** Before the wait of the signup is over the success view stays down. *)
Lemma elapse_no_success n c target tp :
  on_time tp → target < c + 1000 → all_due (signup_due c) tp →
  count_if is_hide_success (timers (t_page tp)) = 0%nat →
  count_if is_hide_success (timers (t_page (elapse n target tp))) = 0%nat.
Proof.
  intros Hon Hlt. revert n tp Hon.
  apply (elapse_due_ind (signup_due c) target ltac:(cbn; lia)
           (λ tp, count_if is_hide_success (timers (t_page tp)) = 0%nat)).
  intros tp1 tp2 i d t _ H1 _ Ht Hdt Hle _ Hq. specialize (Hq is_hide_success).
  destruct t; cbn in *; [lia|lia|].
  pose proof (count_if_lookup is_hide_success _ _ _ Ht eq_refl). lia.
Qed.

(** A timer of the signup is pending. *)
Definition signup_running tp : Prop :=
  (0 < count_if is_signup_await (timers (t_page tp))
       + count_if is_hide_success (timers (t_page tp)))%nat.

(** Until the view is hidden a timer of the signup stays pending. *)
Lemma elapse_signup_running n c target tp :
  on_time tp → target < c + 4000 → all_due (signup_due c) tp →
  signup_running tp → signup_running (elapse n target tp).
Proof.
  intros Hon Hlt. revert n tp Hon.
  apply (elapse_due_ind (signup_due c) target ltac:(cbn; lia) signup_running).
  intros tp1 tp2 i d t _ H1 _ Ht Hdt Hle _ Hq.
  pose proof (Hq is_hide_success). pose proof (Hq is_signup_await).
  unfold signup_running in *. destruct t; cbn in *; lia.
Qed.

End success.

(** ** Timed sessions *)

Section sessions.
Context {S : Type} `{!Sdk S}.
Implicit Types (p : Page S) (tp : Timed S) (w : World S).

(** The click on the enabled submit button, on the clock: the submission
    is in flight, and its timer, the only one of the survey, is due
    1500 ms from now. *)
Lemma act_click tp w es :
  on_time tp → t_page tp = session w es →
  enabled ClickSubmitSurvey (t_page tp) = true →
  let tpa := act ClickSubmitSurvey tp in
  on_time tpa ∧ t_page tpa = session w (es ++ [ClickSubmitSurvey])
  ∧ clock tpa = clock tp
  ∧ isSubmitting (cells (t_page tpa)) = true
  ∧ isSubmitted (cells (t_page tpa)) = false
  ∧ all_due (λ d t, is_survey_await t = true → d = clock tp + 1500) tpa.
Proof.
  intros Hon Hp He. cbn zeta.
  destruct (act_spec ClickSubmitSurvey tp eq_refl Hon) as (new & Hpa & Hc & Hts & Hds).
  rewrite enabled_ui in He. destruct (mstep_click _ He) as (Hts' & Hi & Hd).
  rewrite <- ui_step, <- Hpa in Hts', Hi, Hd. cbn [ui u_timers u_cells] in Hts', Hi, Hd.
  rewrite Hts in Hts'. apply app_inv_head in Hts' as ->.
  pose proof (submit_inv_run es) as Hinv.
  apply andb_prop in He as [_ (Hrd & Hrs & _)%can_submit_survey_render].
  rewrite <- (session_ui w), <- Hp in Hinv.
  destruct (survey_idle _ _ Hinv Hrd Hrs) as [Hd0 Hs0].
  destruct Hinv as [(Hcount & _) _].
  cbn [ui u_timers u_cells] in *. rewrite Hs0 in Hcount.
  split_and!; [by apply act_on_time| |done..| |].
  - rewrite Hpa, Hp. unfold session. by rewrite run_snoc.
  - congruence.
  - unfold all_due. rewrite Hts, Hds. apply Forall2_app; [|by repeat constructor].
    apply count_if_zero in Hcount.
    eapply Forall2_impl; [exact (Forall2_Forall_and_r _ _ _ _ Hon Hcount)|].
    cbn. by intros d t [_ ->].
Qed.

(** The submission of a contact, on the clock: the wait of the signup, the
    only timer of the signup, is due 1000 ms from now. *)
Lemma act_submit tp w es :
  on_time tp → t_page tp = session w es →
  enabled SubmitForm (t_page tp) = true →
  truthy_string (contactValue_of (rendered (t_page tp))) = true →
  let tpa := act SubmitForm tp in
  on_time tpa ∧ t_page tpa = session w (es ++ [SubmitForm])
  ∧ clock tpa = clock tp
  ∧ all_due (signup_due (clock tp)) tpa
  ∧ count_if is_signup_await (timers (t_page tpa)) = 1%nat
  ∧ count_if is_hide_success (timers (t_page tpa)) = 0%nat.
Proof.
  intros Hon Hp He Hv. cbn zeta.
  destruct (act_spec SubmitForm tp eq_refl Hon) as (new & Hpa & Hc & Hts & Hds).
  rewrite enabled_ui in He. pose proof (mstep_submit _ He Hv) as Hts'.
  rewrite <- ui_step, <- Hpa in Hts'. cbn [ui u_timers] in Hts'.
  rewrite Hts in Hts'. apply app_inv_head in Hts' as ->.
  pose proof (signup_inv_run es) as Hinv.
  rewrite <- (session_ui w), <- Hp in Hinv.
  apply andb_prop in He as [_ Hs%can_submit_signup_render%can_type_render].
  destruct (signup_inv_idle _ Hinv Hs) as [Hi Hd].
  destruct Hinv as [(Ha & Hh & _) _]. cbn [ui u_timers u_cells] in *.
  rewrite Hi in Ha. rewrite Hd in Hh.
  rewrite Hts, !count_if_app, Ha, Hh.
  split_and!; [by apply act_on_time| |done| |done..].
  - rewrite Hpa, Hp. unfold session. by rewrite run_snoc.
  - unfold all_due. rewrite Hts, Hds. apply Forall2_app; [|by repeat constructor].
    apply count_if_zero in Ha, Hh.
    pose proof (Forall2_Forall_and_r _ _ _ _
                  (Forall2_Forall_and_r _ _ _ _ Hon Ha) Hh) as H.
    eapply Forall2_impl; [exact H|]. cbv beta. by intros d [] [[_ ?] ?].
Qed.

(** In a session the success view is up exactly while the timer that
    hides it is pending. *)
Lemma session_success_view w es :
  isInterestSubmitted (cells (session w es))
  = bool_decide (0 < count_if is_hide_success (timers (session w es)))%nat.
Proof.
  destruct (signup_inv_run es) as [(_ & Hh & _) _].
  rewrite <- (session_ui w) in Hh. cbn [ui u_timers u_cells] in Hh. rewrite Hh.
  by destruct (isInterestSubmitted _).
Qed.

(** A timed session is a session, and its timers are on time. *)
Theorem timed_session_refines w xs :
  ∃ es, t_page (tsession w xs) = session w es
        ∧ filter (λ e, clocked e = false) es = acts xs
        ∧ on_time (tsession w xs).
Proof.
  destruct (tsession_session w xs) as (es & Hp & Ha). exists es.
  split_and!; [done..|]. apply tsession_on_time.
Qed.

(** C30: the page is at rest four seconds after the last event of the user:
    whatever the user did and whenever, once 4000 ms have passed without
    an event no timer is pending, nothing is in flight and the success
    view of the signup is down. *)
Theorem timed_session_settles w xs dt :
  4000 ≤ dt →
  let tp := wait dt (tsession w xs) in
  clock tp = clock (tsession w xs) + dt
  ∧ timers (t_page tp) = []
  ∧ isSubmitting (cells (t_page tp)) = false
  ∧ isInterestSubmitting (cells (t_page tp)) = false
  ∧ isInterestSubmitted (cells (t_page tp)) = false.
Proof.
  intros Hdt. cbn zeta. split; [rewrite wait_clock; lia|].
  pose proof (wait_settles dt _ (tsession_on_time w xs) Hdt) as Ht.
  change (wait dt (tsession w xs)) with (tstep (Wait dt) (tsession w xs)) in *.
  rewrite <- tsession_snoc in *.
  destruct (tsession_session w (xs ++ [Wait dt])) as (es & Hp & _).
  rewrite Hp in *. split; [done|]. by apply session_idle.
Qed.

(** C34: the submission of the survey takes 1500 ms, no less and no more:
    whatever happened before and whatever else is pending, after the click
    on the enabled submit button the survey is marked submitted once
    1500 ms have passed, and not before. *)
Theorem survey_submission_takes_1500 w xs dt :
  enabled ClickSubmitSurvey (t_page (tsession w xs)) = true → 0 ≤ dt →
  isSubmitted (cells (t_page (wait dt (act ClickSubmitSurvey (tsession w xs)))))
  = bool_decide (1500 ≤ dt).
Proof.
  intros He Hdt. destruct (tsession_session w xs) as (es & Hp & _).
  destruct (act_click _ w es (tsession_on_time w xs) Hp He)
    as (Hon & Hpa & Hc & Hi & Hd & Hdue).
  case_bool_decide as Hle.
  - by eapply wait_completes.
  - apply wait_keeps_unsubmitted; [done..|].
    eapply Forall2_impl; [exact Hdue|]. cbv beta. intros d t Hdt' Hst.
    rewrite (Hdt' Hst), Hc. lia.
Qed.

(** C37: the success view of the signup is up from 1000 ms to 4000 ms
    after the submission: whatever happened before and whatever else is
    pending, after a contact has been submitted the view is down during
    the simulated call, up once 1000 ms have passed, and down again once
    4000 ms have passed. *)
Theorem signup_success_window w xs dt :
  enabled SubmitForm (t_page (tsession w xs)) = true →
  truthy_string (contactValue_of (rendered (t_page (tsession w xs)))) = true →
  0 ≤ dt →
  isInterestSubmitted (cells (t_page (wait dt (act SubmitForm (tsession w xs)))))
  = bool_decide (1000 ≤ dt < 4000).
Proof.
  intros He Hv Hdt. destruct (tsession_session w xs) as (es & Hp & _).
  destruct (act_submit _ w es (tsession_on_time w xs) Hp He Hv)
    as (Hon & Hpa & Hc & Hdue & Ha & Hh).
  set (tpa := act SubmitForm (tsession w xs)) in *.
  destruct (wait_ticks dt tpa) as (es' & Hp' & _).
  rewrite Hpa in Hp'. unfold session in Hp'. rewrite <- run_app in Hp'.
  fold (session w ((es ++ [SubmitForm]) ++ es')) in Hp'.
  rewrite Hp', session_success_view, <- Hp'. apply bool_decide_ext.
  pose proof (wait_all_due (signup_due (clock tpa)) (clock tpa + dt)
                ltac:(cbn; lia) dt tpa Hon ltac:(lia)) as Hend.
  rewrite Hc in Hend. specialize (Hend Hdue).
  assert (timers (t_page (wait dt tpa))
          = timers (t_page (elapse (pending_weight (timers (t_page tpa)))
                              (clock tpa + Z.max 0 dt) tpa))) as Hts
    by apply set_clock_timers.
  rewrite Z.max_r, Hc in Hts by done.
  destruct (Z.lt_ge_cases dt 1000); [|destruct (Z.lt_ge_cases dt 4000)].
  - rewrite Hts, (elapse_no_success _ (clock (tsession w xs))); [lia|done|lia|done..].
  - assert (count_if is_signup_await (timers (t_page (wait dt tpa))) = 0%nat) as Hnone.
    { apply count_if_zero, (Forall2_Forall_r _ _ _ _ Hend), Forall_forall.
      intros d _ [] [Hr Hlt]; try done. cbn in Hr. lia. }
    assert (signup_running tpa) as Hrun by (unfold signup_running; lia).
    eapply (elapse_signup_running _ (clock (tsession w xs))
              (clock (tsession w xs) + dt)) in Hrun; [|done|lia|done].
    unfold signup_running in Hrun. rewrite <- Hts in Hrun. lia.
  - rewrite wait_settles by (done || lia). cbn. lia.
Qed.

(** The signup has no last state: after any timed session, once 4000 ms
    have passed and the page has rendered, the form takes a new contact,
    and any contact that is not blank can be submitted. *)
Theorem signup_available_again w xs text :
  truthy_string (trim text) = true →
  let tp := tsession w (xs ++ [Wait 4000; Do Mount; Do Flush;
                               Do (ChangeInput text)]) in
  enabled SubmitForm (t_page tp) = true
  ∧ truthy_string (contactValue_of (rendered (t_page tp))) = true.
Proof.
  intros Htext. cbn zeta. unfold tsession, trun. rewrite foldl_app.
  fold (trun xs (mkTimed (initial_page w) [])). fold (tsession w xs).
  cbn [foldl tstep]. unfold act. cbn [clocked t_page].
  pose proof (wait_settles 4000 _ (tsession_on_time w xs) ltac:(lia)) as Ht.
  change (wait 4000 (tsession w xs)) with (tstep (Wait 4000) (tsession w xs)) in *.
  rewrite <- tsession_snoc in *.
  destruct (tsession_session w (xs ++ [Wait 4000])) as (es & Hp & _).
  rewrite Hp in *. destruct (session_idle _ _ Ht) as (_ & Hi & Hd).
  rewrite enabled_ui, !ui_step. change (rendered ?p) with (u_rendered (ui p)).
  rewrite !ui_step. set (u := ui (session w es)).
  change (cells (session w es)) with (u_cells u) in Hi, Hd.
  destruct (refresh_ready u) as (Hm & Hr & Hc & _).
  set (u1 := (mstep Flush (mstep Mount u).1).1) in *.
  assert (m_enabled (ChangeInput text) u1 = true) as He.
  { cbn. rewrite Hm, Hr. by apply can_type_render. }
  destruct (committing_ready _ _ He eq_refl) as (Hm2 & Hr2 & _).
  cbn [m_body m_set_cells fst u_cells] in Hr2. unfold m_set_cells in Hr2.
  cbn [u_cells] in Hr2. rewrite Hc in Hr2.
  split.
  - cbn. rewrite Hm2, Hr2. by apply can_submit_signup_render.
  - by rewrite Hr2.
Qed.

End sessions.

(** ** The theorems on concrete inputs *)

(** A visitor who answers the four questions two seconds after the page
    has loaded and types a contact. *)
Definition answering : list Moment :=
  [Do Mount; Wait 2000; Do (Select QGender male); Do (Select QAgeGroup age25);
   Do (Select QInterest yes); Do (Select QReaction love);
   Do (ChangeInput "me@example.com")].

(** The visitor submits the contact, and the survey 200 ms later. *)
Definition both_submitted : list Moment :=
  answering ++ [Do SubmitForm; Wait 200; Do ClickSubmitSurvey].

Lemma timed_session_settles_witness :
  let tp := wait 4000 (tsession demo_world both_submitted) in
  clock tp = clock (tsession demo_world both_submitted) + 4000
  ∧ timers (t_page tp) = []
  ∧ isSubmitting (cells (t_page tp)) = false
  ∧ isInterestSubmitting (cells (t_page tp)) = false
  ∧ isInterestSubmitted (cells (t_page tp)) = false.
Proof. apply (timed_session_settles demo_world both_submitted 4000). lia. Defined.

Lemma survey_submission_takes_1500_witness :
  isSubmitted (cells (t_page (wait 1499 (act ClickSubmitSurvey
                                          (tsession demo_world answering)))))
  = bool_decide (1500 ≤ 1499).
Proof.
  apply (survey_submission_takes_1500 demo_world answering 1499);
    [by vm_compute|lia].
Defined.

Lemma signup_success_window_witness :
  isInterestSubmitted (cells (t_page (wait 1000 (act SubmitForm
                                                  (tsession demo_world answering)))))
  = bool_decide (1000 ≤ 1000 < 4000).
Proof.
  apply (signup_success_window demo_world answering 1000);
    [by vm_compute..|lia].
Defined.

(** The bound is met: the signup submitted in that visit keeps a timer
    pending until 4000 ms after the submission, that is 3800 ms after the
    last event; the three timers fire in the order of their deadlines, not
    of their age. *)
Lemma settles_not_before :
  let tp := tsession demo_world both_submitted in
  t_due tp = [clock tp + 800; clock tp + 1500]
  ∧ t_due (wait 800 tp) = [clock tp + 1500; clock tp + 3800]
  ∧ t_due (wait 1500 tp) = [clock tp + 3800]
  ∧ t_due (wait 3799 tp) = [clock tp + 3800]
  ∧ t_due (wait 3800 tp) = [].
Proof. cbn zeta. split_and!; by vm_compute. Qed.
