(* ===== verification/Protocol.v ===== *)
(** * The protocol of the analytics SDK

    The SDK is to be initialised before it is used: [amplitude.init] comes
    first, [setUserId] and [track] after it.  The page calls [init] from
    the effect of the first render (page.tsx 76) and [track] from
    [trackEvent] (page.tsx 58), which any handler, listener or timer may
    run.  This file shows that the page keeps the order in every session:
    the calls that a session adds to the trace begin with an [init].

    The world records every call and hands it to the SDK ([sdk_call]).
    [follows] says that nothing else touches the SDK: its state after a
    session is its state before, advanced by the calls of the trace.  The
    class [InitFirst] holds the SDKs that work once they are initialised;
    against it, no call of a session throws.  [strictSdk], which throws on
    every call made before [init], is an instance. *)

From S2P Require Import Prelude JsString JsValue Effects Browser Identity.
From S2P Require Import Tracking PageState Survey Signup Observer View Page.
From S2P Require Import Machine Invariants Outputs Schedule Session.

#[local] Open Scope string_scope.
#[local] Open Scope list_scope.
#[local] Open Scope nat_scope.

(** ** Calls and their order *)

(** The calls into the SDK that a trace records, oldest first. *)
Definition calls (t : list Effect) : list SdkCall :=
  omap (λ e, match e with ECall c => Some c | _ => None end) t.

Definition is_init (c : SdkCall) : bool :=
  match c with SdkInit _ => true | _ => false end.

(** The protocol: the first call, if there is one, initialises the SDK. *)
Definition init_first (cs : list SdkCall) : bool :=
  match cs with [] => true | c :: _ => is_init c end.

(** The outputs of the machine that reach the SDK. *)
Definition is_sdk_out (o : Out) : bool :=
  match o with OTrack _ _ | OInit => true | _ => false end.

(** No output reaches the SDK. *)
Definition quiet (os : list Out) : bool := forallb (λ o, negb (is_sdk_out o)) os.

(** Some output reaches the SDK, and the first that does is the
    initialisation. *)
Fixpoint started (os : list Out) : bool :=
  match os with
  | [] => false
  | OInit :: _ => true
  | OTrack _ _ :: _ => false
  | _ :: os' => started os'
  end.

(** The outputs of a machine that is mounted or not. *)
Definition init_ordered (mounted : bool) (os : list Out) : bool :=
  if mounted then started os else quiet os.

Definition protocol_inv (u : Ui) (os : list Out) : Prop :=
  unmounted_inv u ∧ init_ordered (m_mounted u) os = true.

(** ** The SDK behind the calls *)

Section feed.
Context {S : Type} `{!Sdk S}.
Implicit Types (w : World S) (s : S) (cs : list SdkCall).

(** The SDK after the calls [cs]. *)
Definition feed cs s : S := foldl (λ s c, (sdk_step c s).1) s cs.

(** No call of [cs] throws. *)
Fixpoint accepts cs s : bool :=
  match cs with
  | [] => true
  | c :: cs' => negb (sdk_step c s).2 && accepts cs' (sdk_step c s).1
  end.

(** [follows w w']: from [w] to [w'] the trace has grown and the SDK has
    received the calls that were added, and nothing else. *)
Definition follows : relation (World S) := λ w w',
  ∃ Δ, trace w' = trace w ++ Δ ∧ sdk w' = feed (calls Δ) (sdk w).

End feed.

(** The SDKs that work once they are initialised: [init] does not throw
    and makes the SDK ready, and a ready SDK stays ready and does not
    throw. *)
Class InitFirst (S : Type) `{!Sdk S} : Type := {
  sdk_ready : S → bool;
  sdk_init_ready k s :
    sdk_ready (sdk_step (SdkInit k) s).1 = true
    ∧ (sdk_step (SdkInit k) s).2 = false;
  sdk_ready_step c s :
    sdk_ready s = true →
    sdk_ready (sdk_step c s).1 = true ∧ (sdk_step c s).2 = false;
}.

#[export] Instance strictSdk_init_first : InitFirst (bool * nat) (Sdk0:=strictSdk).
Proof.
  refine {| sdk_ready := fst |}.
  - by intros k [ready n].
  - by intros [] [[] n].
Defined.

(** A reliable SDK is always ready. *)
Definition reliable_init_first {S : Type} `{!Sdk S} `{!Reliable S} : InitFirst S.
Proof.
  refine {| sdk_ready := λ _, true |}; intros; split; try done;
    apply sdk_reliable.
Defined.

(** ** Lists of calls *)

Lemma calls_app t1 t2 : calls (t1 ++ t2) = calls t1 ++ calls t2.
Proof. apply omap_app. Qed.

Lemma calls_no_call t : filter (λ e, is_call e = true) t = [] → calls t = [].
Proof.
  induction t as [|e t IH]; [done|]. rewrite filter_cons.
  by destruct e; cbn.
Qed.

Lemma init_first_app cs1 cs2 :
  init_first cs1 = true → init_first cs2 = true → init_first (cs1 ++ cs2) = true.
Proof. by destruct cs1. Qed.

Lemma init_first_app_l cs1 cs2 :
  init_first cs1 = true → cs1 ≠ [] → init_first (cs1 ++ cs2) = true.
Proof. by destruct cs1. Qed.

Section feed_lemmas.
Context {S : Type} `{!Sdk S}.
Implicit Types (w : World S) (s : S) (cs : list SdkCall).

Lemma feed_app cs1 cs2 s : feed (cs1 ++ cs2) s = feed cs2 (feed cs1 s).
Proof. apply foldl_app. Qed.

#[export] Instance follows_preorder : PreOrder (follows (S:=S)).
Proof.
  split.
  - intros w. exists []. by rewrite app_nil_r.
  - intros w1 w2 w3 (Δ & Ht & Hs) (Δ' & Ht' & Hs'). exists (Δ ++ Δ').
    by rewrite Ht', Ht, Hs', Hs, app_assoc, calls_app, feed_app.
Qed.

Lemma follows_emit e : is_call e = false → preserves follows (emit (S:=S) e).
Proof.
  intros He w. exists [e]. unfold exec. rewrite emit_run. by destruct e.
Qed.

Lemma follows_sdk_call c : preserves follows (sdk_call (S:=S) c).
Proof.
  intros w. exists [ECall c]. unfold exec. rewrite sdk_call_run.
  by destruct (sdk_step c (sdk w)) as [s' threw] eqn:Hs; cbn; rewrite Hs.
Qed.

Lemma follows_getOrCreate : preserves follows (getOrCreateAnonymousUserId (S:=S)).
Proof.
  intros w. destruct (getOrCreate_frame w) as (Ht & Hs & _).
  exists []. by rewrite app_nil_r.
Qed.

Lemma follows_trackEvent n p : preserves follows (trackEvent (S:=S) n p).
Proof.
  unfold trackEvent. preserves_auto; first [apply follows_getOrCreate
    | apply follows_sdk_call | by apply follows_emit].
Qed.

Lemma follows_initAmplitude : preserves follows (initAmplitude (S:=S)).
Proof.
  unfold initAmplitude. preserves_auto; first [apply follows_getOrCreate
    | apply follows_sdk_call | apply follows_trackEvent | by apply follows_emit].
Qed.

(** Nothing but the calls of the trace reaches the SDK. *)
#[export] Instance follows_respected : RespectedInit (follows (S:=S)).
Proof.
  split; [split|]; [apply _ | apply follows_trackEvent
    | intros; by apply follows_emit.. | | apply follows_initAmplitude].
  intros now rnd w. exists []. by rewrite app_nil_r.
Qed.

(** An SDK that works once initialised accepts every list of calls that
    begins with an [init], and every list when it is ready. *)
Lemma accepts_ready `{!InitFirst S} cs s : sdk_ready s = true → accepts cs s = true.
Proof.
  revert s. induction cs as [|c cs IH]; intros s Hs; [done|].
  destruct (sdk_ready_step c s Hs) as [Hr Ht]. cbn. rewrite Ht. by apply IH.
Qed.

Lemma accepts_init_first `{!InitFirst S} cs s :
  init_first cs = true → accepts cs s = true.
Proof.
  destruct cs as [|[k| |] cs]; try done. intros _.
  destruct (sdk_init_ready k s) as [Hr Ht]. cbn. rewrite Ht.
  by apply accepts_ready.
Qed.

(** ** What an output adds to the trace *)

Lemma try_catch_bind {St A B} (m : JS St A) (f : A → JS St B) h (s : St) :
  try_catch (m ≫= f) h s
  = match m s with
    | (Normal a, s') => try_catch (f a) h s'
    | (Thrown e, s') => h e s'
    end.
Proof. js_unfold. by destruct (m s) as [[a|e] s']. Qed.

(** With a key, the initialisation begins with the call of [init]. *)
Lemma init_world_trace w :
  apiKey_configured w = true →
  ∃ Δ, trace (init_world w) = trace w ++ ECall (SdkInit (apiKey_of w)) :: Δ.
Proof.
  intros Hk. unfold init_world, exec, initAmplitude.
  rewrite bind_get_st, Hk. cbn [when].
  rewrite try_catch_bind. unfold amplitude_init. rewrite sdk_call_run.
  destruct (sdk_step _ (sdk w)) as [s' []].
  - eexists. unfold console_warn. rewrite emit_run. cbn.
    by rewrite <- app_assoc.
  - match goal with |- context [try_catch ?m ?h ?w1] =>
      assert (preserves frame (try_catch m h)) as Hf
        by (preserves_auto); destruct (Hf w1) as (_ & _ & _ & t & Ht)
    end.
    exists t. unfold exec in Ht. rewrite Ht. cbn. by rewrite <- app_assoc.
Qed.

(** An output that does not reach the SDK adds no call. *)
Lemma out_world_quiet o w :
  is_sdk_out o = false →
  ∃ Δ, trace (out_world o w) = trace w ++ Δ ∧ calls Δ = [].
Proof.
  destruct o; try done; intros _; cbn [out_world].
  - by exists [EConsole l msg arg].
  - by exists [EAlert msg].
  - exists []. cbn. by rewrite app_nil_r.
Qed.

(** Without a key no output adds a call. *)
Lemma outs_world_no_key os w :
  apiKey_configured w = false →
  ∃ Δ, trace (outs_world os w) = trace w ++ Δ ∧ calls Δ = [].
Proof.
  intros Hk. destruct (outs_world_respects frame os w) as (_ & _ & _ & Δ & Ht).
  destruct (outs_world_silent os w Hk) as (_ & _ & _ & Hc).
  exists Δ. split; [done|]. apply calls_no_call.
  rewrite Ht, filter_app in Hc.
  apply (app_inv_head (filter (λ e, is_call e = true) (trace w))).
  by rewrite app_nil_r.
Qed.

(** Outputs in the order of the protocol add calls in the order of the
    protocol. *)
Lemma outs_world_init_first mounted os w :
  init_ordered mounted os = true →
  ∃ Δ, trace (outs_world os w) = trace w ++ Δ ∧ init_first (calls Δ) = true.
Proof.
  intros Hos. assert (quiet os = true ∨ started os = true) as H
    by (destruct mounted; auto). clear Hos mounted.
  revert w H. induction os as [|o os IH]; intros w H.
  { exists []. by rewrite app_nil_r. }
  rewrite outs_world_cons. destruct (is_sdk_out o) eqn:Ho.
  - destruct o; try done; [by destruct H|]. cbn [out_world].
    destruct (apiKey_configured w) eqn:Hk.
    + destruct (init_world_trace w Hk) as (Δ1 & H1).
      destruct (outs_world_respects frame os (init_world w))
        as (_ & _ & _ & Δ2 & H2).
      eexists. rewrite H2, H1, <- app_assoc. split; [done|]. done.
    + rewrite init_world_unconfigured by done.
      destruct (outs_world_no_key os w Hk) as (Δ & Ht & Hc).
      exists Δ. by rewrite Hc.
  - destruct (out_world_quiet o w Ho) as (Δ1 & H1 & Hc1).
    destruct (IH (out_world o w)) as (Δ2 & H2 & Hc2).
    { cbn in H. rewrite Ho in H. destruct H as [H|H]; [by left|right].
      by destruct o. }
    exists (Δ1 ++ Δ2). rewrite H2, H1, app_assoc, calls_app, Hc1. done.
Qed.

End feed_lemmas.

(** ** The order of the outputs *)

Lemma quiet_app os1 os2 : quiet (os1 ++ os2) = quiet os1 && quiet os2.
Proof. apply forallb_app. Qed.

Lemma started_app_l os1 os2 : started os1 = true → started (os1 ++ os2) = true.
Proof. induction os1 as [|[] os1 IH]; cbn; first [done|auto]. Qed.

Lemma quiet_started os1 os2 :
  quiet os1 = true → started (os1 ++ OInit :: os2) = true.
Proof. induction os1 as [|[] os1 IH]; cbn; first [done|auto]. Qed.

(** Before the mount nothing is sent. *)
Lemma m_body_unmounted_quiet e u :
  m_enabled e u = true → m_mounted u = false → u_installed u = [] →
  u_timers u = [] → quiet (m_body e u).2 = true.
Proof.
  intros He Hm Hi Ht.
  destruct e; cbn [m_enabled] in He; rewrite ?Hm in He; try done;
    cbn [m_body]; rewrite ?Hi; try done.
  rewrite Ht in He. by apply bool_decide_eq_true in He; simpl in He; lia.
Qed.

Lemma protocol_inv_body e u os :
  protocol_inv u os → m_enabled e u = true →
  protocol_inv (m_body e u).1 (os ++ (m_body e u).2).
Proof.
  intros [Hu Hos] He. split; [by apply unmounted_inv_body|].
  assert (m_mounted (m_body e u).1 = m_mounted u) as ->.
  { unfold m_mounted. by destruct (m_body_closures e u) as (_ & _ & ->). }
  unfold init_ordered in *. destruct (m_mounted u) eqn:Hm.
  - by apply started_app_l.
  - destruct (Hu Hm) as (_ & Hi & Ht).
    by rewrite quiet_app, Hos, m_body_unmounted_quiet.
Qed.

Lemma protocol_inv_commit u os :
  protocol_inv u os → protocol_inv (m_commit u).1 (os ++ (m_commit u).2).
Proof.
  intros [Hu Hos]. split; [apply unmounted_inv_commit|].
  unfold init_ordered, m_mounted, m_commit in *.
  destruct (u_cleanup u); [destruct (deps_changed _ _)|]; cbn;
    rewrite ?app_nil_r; try done;
    first [by apply started_app_l | by apply quiet_started].
Qed.

(** The machine sends nothing before it is mounted, and the first thing that
    it sends is the initialisation. *)
Lemma protocol_inv_run es : protocol_inv (mrun es initial_ui).1 (mrun es initial_ui).2.
Proof.
  apply (mrun_invariant protocol_inv protocol_inv); [done| |].
  - intros e u os H He. cbn zeta.
    pose proof (protocol_inv_body e u os H He). by destruct (commits e).
  - apply protocol_inv_commit.
Qed.

(** ** Sessions *)

Section protocol.
Context {S : Type} `{!Sdk S}.
Implicit Types (w : World S) (es : list Event).

(** Nothing but the calls of the trace reaches the SDK: its state after a
    session is its state before, advanced by the calls that the session
    added. *)
Theorem session_follows w es : follows w (world (session w es)).
Proof.
  unfold session. rewrite (run_join es (initial_page w)), world_join.
  apply (outs_world_respects follows).
Qed.

(** The calls of a session: they begin with [init], and the SDK has
    received them and nothing else. *)
Lemma session_calls w es :
  ∃ Δ, ptrace (session w es) = trace w ++ Δ
       ∧ init_first (calls Δ) = true
       ∧ sdk (world (session w es)) = feed (calls Δ) (sdk w).
Proof.
  destruct (protocol_inv_run es) as [_ H].
  destruct (outs_world_init_first _ _ w H) as (Δ & Ht & Hi).
  rewrite <- session_trace in Ht.
  destruct (session_follows w es) as (Δ' & Ht' & Hs).
  unfold ptrace in Ht. rewrite Ht in Ht'. apply app_inv_head in Ht' as <-.
  by exists Δ.
Qed.

(** C18: the page keeps the protocol of the SDK.  In every session, in any
    browser, with any SDK and under any schedule of renders, timers and
    listeners, the calls that the session adds to the trace begin with
    [amplitude.init]: no event is tracked and no user is named before the
    SDK has been initialised, also when the initialisation itself throws.
    The SDK receives exactly those calls; and an SDK that works once it is
    initialised accepts them all, although it would refuse a [track] or a
    [setUserId] that came before [init]. *)
Theorem session_keeps_protocol w es :
  ∃ Δ, ptrace (session w es) = trace w ++ Δ
       ∧ init_first (calls Δ) = true
       ∧ sdk (world (session w es)) = feed (calls Δ) (sdk w)
       ∧ ∀ _ : InitFirst S, accepts (calls Δ) (sdk w) = true.
Proof.
  destruct (session_calls w es) as (Δ & Ht & Hi & Hs).
  exists Δ. split_and!; [done..|]. intros ?. by apply accepts_init_first.
Qed.

End protocol.

(** ** The theorems on concrete inputs *)

(** A browser with the SDK that refuses calls before [init]. *)
Definition strict_world : World (bool * nat) :=
  mkWorld true (Some "test-key") ∅ false 1731000000000 "0.4fzyo82mvyr"
    (false, 0) [].

(** A visit to that browser: the effect runs three times, the SDK has
    received fourteen calls, those of the trace, and refused none. *)
Lemma strict_visit :
  let p := session (Sdk0:=strictSdk) strict_world
             [Mount; Select QGender male; Scroll at_half; ClickInstagram;
              BeforeUnload] in
  sdk (world p) = (true, 14)
  ∧ length (calls (ptrace p)) = 14
  ∧ count_if (λ e, match e with EConsole LWarn _ _ => true | _ => false end)
      (ptrace p) = 0.
Proof. cbn zeta. split_and!; by_compute. Qed.

(** The strict SDK refuses an event tracked before [init]; the class
    [InitFirst] is not the class of the SDKs that accept everything. *)
Lemma strict_refuses_early_track :
  accepts (Sdk0:=strictSdk) [SdkTrack "view landing" ∅; SdkInit "test-key"]
    (false, 0) = false.
Proof. reflexivity. Qed.
