(* ===== verification/Independence.v ===== *)
(** * The two flows do not interfere

    The survey and the signup form live in one component: they share its
    renders, its list of timers and the helper that sends events, and
    nothing else.  The survey reads and writes the four answers, the flags
    [isSubmitting], [isSubmitted] and [hasStartedSurvey] and the progress
    ref (page.tsx 125-185, 542-676); the signup form reads and writes
    [emailOrId] and the flags [isInterestSubmitting] and
    [isInterestSubmitted] (page.tsx 187-226, 761).

    [survey_obs] and [signup_obs] are what each flow can observe of the
    interface state: its cells, now and in the last render, and its pending
    timers.  The theorems say that an event of one flow is, to the other,
    a render or nothing at all ([flows_independent]), and that what a flow
    does depends only on what it observes: [survey_sim] and [signup_sim],
    the equivalences of states that a flow cannot tell apart, are
    respected by the events of the flow and by the render. *)

From Stdlib Require Import Morphisms.
From S2P Require Import Prelude JsString JsValue Effects Browser Identity.
From S2P Require Import Tracking PageState Survey Signup Observer View Page.
From S2P Require Import Machine Invariants Outputs Schedule Session.

#[local] Open Scope string_scope.
#[local] Open Scope list_scope.
#[local] Open Scope nat_scope.

(** ** What a flow observes *)

(** The cells of the survey. *)
Definition survey_part (st : State) :
    option string * option string * option string * option string
    * bool * bool * bool :=
  (gender st, ageGroup st, interest st, reaction st,
   isSubmitting st, isSubmitted st, hasStartedSurvey st).

(** The cells of the signup form. *)
Definition signup_part (st : State) : string * bool * bool :=
  (emailOrId st, isInterestSubmitting st, isInterestSubmitted st).

(** The submissions of the survey in flight, each with the cells that its
    continuation will read. *)
Definition survey_pending (ts : list Pending) :=
  omap (λ t, match t with SurveyAwait snap => Some (survey_part snap) | _ => None end)
    ts.

(** The timers of the signup form. *)
Definition signup_pending (ts : list Pending) : list Pending :=
  omap (λ t, match t with SurveyAwait _ => None | _ => Some t end) ts.

(** What the survey can observe of the interface state. *)
Definition survey_obs (u : Ui) :=
  (survey_part (u_cells u), survey_part (u_rendered u),
   survey_pending (u_timers u), u_ref u, m_mounted u).

(** What the signup form can observe of the interface state. *)
Definition signup_obs (u : Ui) :=
  (signup_part (u_cells u), signup_part (u_rendered u),
   signup_pending (u_timers u), m_mounted u).

(** The states that the survey, or the signup form, cannot tell apart. *)
Definition survey_sim : relation Ui := λ u1 u2, survey_obs u1 = survey_obs u2.
Definition signup_sim : relation Ui := λ u1 u2, signup_obs u1 = signup_obs u2.

(** What an event is to a flow: a step of the flow, a render, or
    nothing. *)
Inductive Touch : Type := Own | Render | Nothing.

Definition survey_touch (e : Event) (u : Ui) : Touch :=
  match e with
  | Select _ _ | ClickSubmitSurvey => Own
  | Fire i =>
    match u_timers u !! i with Some (SurveyAwait _) => Own | _ => Nothing end
  | Mount | Flush | ClickInstagram | ChangeInput _ | SubmitForm => Render
  | Scroll _ | BeforeUnload | Tick _ _ => Nothing
  end.

Definition signup_touch (e : Event) (u : Ui) : Touch :=
  match e with
  | ChangeInput _ | SubmitForm => Own
  | Fire i =>
    match u_timers u !! i with
    | Some SignupAwait | Some HideSuccess => Own
    | _ => Nothing
    end
  | Mount | Flush | ClickInstagram | Select _ _ | ClickSubmitSurvey => Render
  | Scroll _ | BeforeUnload | Tick _ _ => Nothing
  end.

(** What a flow observes in [u'], after an event that leaves [u]: anything
    when the step is its own, what a render of [u] shows, or what it
    observed in [u]. *)
Definition untouched {A} (obs : Ui → A) (t : Touch) (u u' : Ui) : Prop :=
  match t with
  | Own => True
  | Render => obs u' = obs (m_commit u).1
  | Nothing => obs u' = obs u
  end.

(** The two flows. *)
Inductive Flow : Type := SurveyFlow | SignupFlow.

Definition flow_sim (f : Flow) : relation Ui :=
  match f with SurveyFlow => survey_sim | SignupFlow => signup_sim end.

Definition flow_touch (f : Flow) : Event → Ui → Touch :=
  match f with SurveyFlow => survey_touch | SignupFlow => signup_touch end.

(** The events with which the user operates a flow. *)
Definition survey_event (e : Event) : bool :=
  match e with Select _ _ | ClickSubmitSurvey => true | _ => false end.

Definition signup_event (e : Event) : bool :=
  match e with ChangeInput _ | SubmitForm => true | _ => false end.

(** The outputs of the survey: its events, its alert and its log line. *)
Definition survey_out (o : Out) : bool :=
  match o with
  | OTrack n _ =>
    bool_decide (n ∈ ["start survey"; "select gender"; "select age group";
                      "select interest"; "select reaction"; "submit survey"])
  | OAlert msg => bool_decide (msg = msg_answer_all)
  | OConsole _ msg _ => bool_decide (msg = "Survey submitted:")
  | _ => false
  end.

(** The outputs of the signup form: its event and its alert. *)
Definition signup_out (o : Out) : bool :=
  match o with
  | OTrack n _ => bool_decide (n = "submit interest")
  | OAlert msg => bool_decide (msg = msg_enter_contact)
  | _ => false
  end.

(** The effects of the survey in a trace, and those of the signup form. *)
Definition survey_effect (e : Effect) : bool :=
  match e with
  | ECall (SdkTrack n _) => survey_out (OTrack n None)
  | EAlert msg => survey_out (OAlert msg)
  | EConsole LLog msg (ArgProps p) => survey_out (OConsole LLog msg (ArgProps p))
  | _ => false
  end.

Definition signup_effect (e : Effect) : bool :=
  match e with
  | ECall (SdkTrack n _) => signup_out (OTrack n None)
  | EAlert msg => signup_out (OAlert msg)
  | _ => false
  end.

Definition flow_event (f : Flow) : Event → bool :=
  match f with SurveyFlow => survey_event | SignupFlow => signup_event end.

Definition flow_effect (f : Flow) : Effect → bool :=
  match f with SurveyFlow => survey_effect | SignupFlow => signup_effect end.

(** To flow [f] the state [u'], reached from [u] by an event that touches
    the flow as [t] says, is what it should be. *)
Definition flow_untouched (f : Flow) (t : Touch) (u u' : Ui) : Prop :=
  match f with
  | SurveyFlow => untouched survey_obs t u u'
  | SignupFlow => untouched signup_obs t u u'
  end.

(** ** Lemmas *)

#[export] Instance survey_sim_equiv : Equivalence survey_sim.
Proof. unfold survey_sim. split; [by intros ?|by intros ? ?|by intros ? ? ? -> ->]. Qed.

#[export] Instance signup_sim_equiv : Equivalence signup_sim.
Proof. unfold signup_sim. split; [by intros ?|by intros ? ?|by intros ? ? ? -> ->]. Qed.

(** Deleting a timer that a projection ignores. *)
Lemma omap_delete_None {A B} (f : A → option B) (l : list A) i x :
  l !! i = Some x → f x = None → omap f (delete i l) = omap f l.
Proof.
  revert i. induction l as [|y l IH]; intros [|i] Hi Hx; simplify_eq/=.
  - by rewrite Hx.
  - by rewrite (IH i).
Qed.

(** The view of a flow is drawn from its cells. *)
Lemma render_survey_part s1 s2 :
  survey_part s1 = survey_part s2 → render_survey s1 = render_survey s2.
Proof.
  unfold survey_part, render_survey, submit_disabled, survey_incomplete.
  by intros [= -> -> -> -> -> -> _].
Qed.

Lemma render_signup_part s1 s2 :
  signup_part s1 = signup_part s2 → render_signup s1 = render_signup s2.
Proof. unfold signup_part, render_signup. by intros [= -> -> ->]. Qed.

(** A render shows each flow its cells. *)
Lemma survey_obs_commit u :
  survey_obs (m_commit u).1
  = (survey_part (u_cells u), survey_part (u_cells u),
     survey_pending (u_timers u), u_ref u, true).
Proof.
  unfold survey_obs, m_commit, m_mounted.
  by destruct (u_cleanup u); [destruct (deps_changed _ _)|].
Qed.

Lemma signup_obs_commit u :
  signup_obs (m_commit u).1
  = (signup_part (u_cells u), signup_part (u_cells u),
     signup_pending (u_timers u), true).
Proof.
  unfold signup_obs, m_commit, m_mounted.
  by destruct (u_cleanup u); [destruct (deps_changed _ _)|].
Qed.

Lemma mstep_commits e u :
  m_enabled e u = true → commits e = true →
  (mstep e u).1 = (m_commit (m_body e u).1).1.
Proof. intros He Hc. unfold mstep, m_handle. by rewrite He, Hc. Qed.

Lemma mstep_body e u :
  m_enabled e u = true → commits e = false → mstep e u = m_body e u.
Proof. intros He Hc. unfold mstep, m_handle. by rewrite He, Hc. Qed.

(** The scroll listeners touch the latch of the scroll depth only. *)
Lemma m_scroll_obs m u :
  survey_obs (m_for_each (u_installed u) (m_scroll m) u).1 = survey_obs u
  ∧ signup_obs (m_for_each (u_installed u) (m_scroll m) u).1 = signup_obs u.
Proof. by destruct (m_for_each_scroll (u_installed u) m u) as [[->| ->] _]. Qed.

(** ** An event of one flow is a render to the other *)

(** Compare what a flow observes in two states written out. *)
Ltac obs_simpl :=
  unfold survey_obs, signup_obs, survey_pending, signup_pending; cbn;
  rewrite ?omap_app, ?app_nil_r; cbn; rewrite ?app_nil_r.

Lemma survey_untouched e u :
  m_enabled e u = true →
  untouched survey_obs (survey_touch e u) u (mstep e u).1.
Proof.
  intros He. destruct e; cbn [survey_touch untouched]; try done;
    rewrite ?mstep_commits, ?mstep_body, ?survey_obs_commit by done;
    try done; cbn [m_body].
  - destruct (truthy_string _); by obs_simpl.
  - by destruct (m_scroll_obs m u).
  - by destruct (m_for_each_unload (u_installed u) u) as [-> _].
  - destruct (u_timers u !! i) as [[snap| |]|] eqn:Ht; try done;
      obs_simpl; by rewrite (omap_delete_None _ _ _ _ Ht).
Qed.

Lemma signup_untouched e u :
  m_enabled e u = true →
  untouched signup_obs (signup_touch e u) u (mstep e u).1.
Proof.
  intros He. destruct e; cbn [signup_touch untouched]; try done;
    rewrite ?mstep_commits, ?mstep_body, ?signup_obs_commit by done;
    try done; cbn [m_body].
  - by destruct q, (opens_survey _ _).
  - destruct (survey_incomplete _); by obs_simpl.
  - by destruct (m_scroll_obs m u).
  - by destruct (m_for_each_unload (u_installed u) u) as [-> _].
  - destruct (u_timers u !! i) as [[snap| |]|] eqn:Ht; try done.
    obs_simpl. by rewrite (omap_delete_None _ _ _ _ Ht).
Qed.

(** An event that is not a step of a flow sends nothing of the flow. *)
Lemma survey_outputs e u :
  m_enabled e u = true → survey_touch e u ≠ Own →
  Forall (λ o, survey_out o = false) (mstep e u).2.
Proof.
  intros He Ht. unfold mstep, m_handle, then_commit. rewrite He.
  assert (Forall (λ o, survey_out o = false) (m_commit (m_body e u).1).2) as Hc.
  { unfold m_commit. destruct (u_cleanup _); [destruct (deps_changed _ _)|];
      by repeat constructor. }
  assert (Forall (λ o, survey_out o = false) (m_body e u).2) as Hb.
  { destruct e; cbn [survey_touch] in Ht; try done; cbn [m_body];
      try (by repeat constructor).
    - destruct (truthy_string _); by repeat constructor.
    - destruct (m_for_each_scroll (u_installed u) m u) as [_ Hn].
      eapply Forall_impl; [exact Hn|]. by intros o [p ->].
    - destruct (m_for_each_unload (u_installed u) u) as [_ Hn].
      eapply Forall_impl; [exact Hn|]. by intros o [p ->].
    - destruct (u_timers u !! i) as [[snap| |]|]; try done; by repeat constructor. }
  destruct (commits e); [by apply Forall_app|done].
Qed.

Lemma signup_outputs e u :
  m_enabled e u = true → signup_touch e u ≠ Own →
  Forall (λ o, signup_out o = false) (mstep e u).2.
Proof.
  intros He Ht. unfold mstep, m_handle, then_commit. rewrite He.
  assert (Forall (λ o, signup_out o = false) (m_commit (m_body e u).1).2) as Hc.
  { unfold m_commit. destruct (u_cleanup _); [destruct (deps_changed _ _)|];
      by repeat constructor. }
  assert (Forall (λ o, signup_out o = false) (m_body e u).2) as Hb.
  { destruct e; cbn [signup_touch] in Ht; try done; cbn [m_body];
      try (by repeat constructor).
    - destruct q, (opens_survey _ _); by repeat constructor.
    - destruct (survey_incomplete _); by repeat constructor.
    - destruct (m_for_each_scroll (u_installed u) m u) as [_ Hn].
      eapply Forall_impl; [exact Hn|]. by intros o [p ->].
    - destruct (m_for_each_unload (u_installed u) u) as [_ Hn].
      eapply Forall_impl; [exact Hn|]. by intros o [p ->].
    - destruct (u_timers u !! i) as [[snap| |]|]; try done; by repeat constructor. }
  destruct (commits e); [by apply Forall_app|done].
Qed.

(** ** What a flow does depends on what it observes *)

(** Equal parts stay equal under the same update. *)
Ltac part_eq :=
  unfold survey_part, signup_part in *; simplify_eq; cbn; congruence.

Lemma survey_part_with_answer q k s1 s2 :
  survey_part s1 = survey_part s2 →
  survey_part (with_answer q k s1) = survey_part (with_answer q k s2).
Proof. intros H. destruct q; part_eq. Qed.

Lemma opens_survey_part q s1 s2 :
  survey_part s1 = survey_part s2 → opens_survey q s1 = opens_survey q s2.
Proof. intros H. destruct q; part_eq. Qed.

Lemma survey_incomplete_part s1 s2 :
  survey_part s1 = survey_part s2 → survey_incomplete s1 = survey_incomplete s2.
Proof. intros H. unfold survey_incomplete. part_eq. Qed.

Lemma surveyData_part s1 s2 :
  survey_part s1 = survey_part s2 → surveyData s1 = surveyData s2.
Proof. intros H. unfold surveyData. part_eq. Qed.

Lemma contactValue_part s1 s2 :
  signup_part s1 = signup_part s2 → contactValue_of s1 = contactValue_of s2.
Proof. intros H. unfold contactValue_of. part_eq. Qed.

(** Two states that a flow cannot tell apart agree on each thing that the
    flow observes. *)
Lemma survey_sim_inv u1 u2 :
  survey_sim u1 u2 →
  survey_part (u_cells u1) = survey_part (u_cells u2)
  ∧ survey_part (u_rendered u1) = survey_part (u_rendered u2)
  ∧ survey_pending (u_timers u1) = survey_pending (u_timers u2)
  ∧ u_ref u1 = u_ref u2 ∧ m_mounted u1 = m_mounted u2.
Proof.
  intros H. split_and!;
    [exact (f_equal (λ x, x.1.1.1.1) H) | exact (f_equal (λ x, x.1.1.1.2) H)
    | exact (f_equal (λ x, x.1.1.2) H) | exact (f_equal (λ x, x.1.2) H)
    | exact (f_equal snd H)].
Qed.

Lemma signup_sim_inv u1 u2 :
  signup_sim u1 u2 →
  signup_part (u_cells u1) = signup_part (u_cells u2)
  ∧ signup_part (u_rendered u1) = signup_part (u_rendered u2)
  ∧ signup_pending (u_timers u1) = signup_pending (u_timers u2)
  ∧ m_mounted u1 = m_mounted u2.
Proof.
  intros H. split_and!;
    [exact (f_equal (λ x, x.1.1.1) H) | exact (f_equal (λ x, x.1.1.2) H)
    | exact (f_equal (λ x, x.1.2) H) | exact (f_equal snd H)].
Qed.

Lemma survey_sim_intro u1 u2 :
  survey_part (u_cells u1) = survey_part (u_cells u2) →
  survey_part (u_rendered u1) = survey_part (u_rendered u2) →
  survey_pending (u_timers u1) = survey_pending (u_timers u2) →
  u_ref u1 = u_ref u2 → m_mounted u1 = m_mounted u2 → survey_sim u1 u2.
Proof. unfold survey_sim, survey_obs. by intros -> -> -> -> ->. Qed.

Lemma signup_sim_intro u1 u2 :
  signup_part (u_cells u1) = signup_part (u_cells u2) →
  signup_part (u_rendered u1) = signup_part (u_rendered u2) →
  signup_pending (u_timers u1) = signup_pending (u_timers u2) →
  m_mounted u1 = m_mounted u2 → signup_sim u1 u2.
Proof. unfold signup_sim, signup_obs. by intros -> -> -> ->. Qed.

(** The render respects both equivalences. *)
#[export] Instance commit_survey_proper :
  Proper (survey_sim ==> survey_sim) (λ u, (m_commit u).1).
Proof.
  intros u1 u2 H. unfold survey_sim in *. rewrite !survey_obs_commit.
  destruct (survey_sim_inv _ _ H) as (Hc & Hr & Ht & Hf & Hm).
  by rewrite Hc, Ht, Hf.
Qed.

#[export] Instance commit_signup_proper :
  Proper (signup_sim ==> signup_sim) (λ u, (m_commit u).1).
Proof.
  intros u1 u2 H. unfold signup_sim in *. rewrite !signup_obs_commit.
  destruct (signup_sim_inv _ _ H) as (Hc & Hr & Ht & Hm). by rewrite Hc, Ht.
Qed.

(** Whether the user can operate a flow is decided by what the flow
    observes. *)
Lemma survey_enabled_sim e u1 u2 :
  survey_event e = true → survey_sim u1 u2 → m_enabled e u1 = m_enabled e u2.
Proof.
  intros He H. destruct (survey_sim_inv _ _ H) as (Hc & Hr & Ht & Hf & Hm).
  destruct e; try done; cbn [m_enabled];
    unfold can_select, buttons_of, can_submit_survey, render;
    cbn [surveySection]; by rewrite (render_survey_part _ _ Hr), Hm.
Qed.

Lemma signup_enabled_sim e u1 u2 :
  signup_event e = true → signup_sim u1 u2 → m_enabled e u1 = m_enabled e u2.
Proof.
  intros He H. destruct (signup_sim_inv _ _ H) as (Hc & Hr & Ht & Hm).
  destruct e; try done; cbn [m_enabled];
    unfold can_type, can_submit_signup, render;
    cbn [signupSection]; by rewrite (render_signup_part _ _ Hr), Hm.
Qed.

(** The code of an event of the survey, on two states that the survey
    cannot tell apart. *)
Lemma survey_body_sim e u1 u2 :
  survey_event e = true → survey_sim u1 u2 →
  survey_sim (m_body e u1).1 (m_body e u2).1
  ∧ filter (λ o, survey_out o = true) (m_body e u1).2
    = filter (λ o, survey_out o = true) (m_body e u2).2.
Proof.
  intros He H. destruct (survey_sim_inv _ _ H) as (Hc & Hr & Ht & Hf & Hm).
  destruct e; try done; cbn [m_body].
  - rewrite (opens_survey_part q _ _ Hr). split; [|done].
    pose proof (survey_part_with_answer q (key item) _ _ Hc) as Hc'.
    apply survey_sim_intro; try done. cbn.
    destruct (opens_survey q (u_rendered u2)); [part_eq|done].
  - rewrite (survey_incomplete_part _ _ Hr).
    destruct (survey_incomplete (u_rendered u2)); [done|]. split; [|done].
    apply survey_sim_intro; try done; cbn; [part_eq|].
    unfold survey_pending in *. rewrite !omap_app. cbn. by rewrite Ht, Hr.
Qed.

Lemma signup_body_sim e u1 u2 :
  signup_event e = true → signup_sim u1 u2 →
  signup_sim (m_body e u1).1 (m_body e u2).1
  ∧ filter (λ o, signup_out o = true) (m_body e u1).2
    = filter (λ o, signup_out o = true) (m_body e u2).2.
Proof.
  intros He H. destruct (signup_sim_inv _ _ H) as (Hc & Hr & Ht & Hm).
  destruct e; try done; cbn [m_body].
  - split; [|done]. apply signup_sim_intro; try done. cbn. part_eq.
  - rewrite (contactValue_part _ _ Hr).
    destruct (truthy_string _); [|done]. split; [|done].
    apply signup_sim_intro; try done; cbn; [part_eq|].
    unfold signup_pending in *. rewrite !omap_app. by rewrite Ht.
Qed.

(** The render sends nothing of either flow. *)
Lemma commit_outputs u :
  filter (λ o, survey_out o = true) (m_commit u).2 = []
  ∧ filter (λ o, signup_out o = true) (m_commit u).2 = [].
Proof.
  unfold m_commit. by destruct (u_cleanup u); [destruct (deps_changed _ _)|].
Qed.

(** ** Outputs and effects *)

Lemma survey_out_allowed o :
  survey_out o = false → out_allowed (λ e, survey_effect e = false) o.
Proof. destruct o as [n p| |l msg arg| |]; cbn; try done. by destruct l, arg. Qed.

Lemma signup_out_allowed o :
  signup_out o = false → out_allowed (λ e, signup_effect e = false) o.
Proof. destruct o as [n p| |l msg arg| |]; by cbn. Qed.

(** ** The page *)

Section independence.
Context {S : Type} `{!Sdk S}.
Implicit Types (p : Page S) (e : Event).

(** The effects that a step adds are those of its outputs. *)
Lemma step_appends (P : Effect → Prop) e p :
  (∀ msg err, P (EConsole LWarn msg (ArgError err))) →
  (∀ msg, P (EConsole LLog msg ArgNone)) →
  Forall (out_allowed P) (mstep e (ui p)).2 →
  ∃ Δ, ptrace (step e p) = ptrace p ++ Δ ∧ Forall P Δ.
Proof.
  intros Hw Hl Hos. unfold ptrace. rewrite step_join, world_join.
  by apply outs_world_appends.
Qed.

(** C20: the survey and the signup form do not interfere.  Whatever state
    the page is in, an event that can happen is a step of at most one of
    the two flows; to the other flow it is a render or nothing: the cells
    of that flow, what is rendered of them, its pending timers and (for the
    survey) the progress ref are afterwards what they were, or what a
    render alone would have made of them, and the step adds no event, alert
    or log line of that flow to the trace. *)
Theorem flows_independent e p :
  enabled e p = true →
  ¬ (survey_touch e (ui p) = Own ∧ signup_touch e (ui p) = Own)
  ∧ ∀ f, flow_untouched f (flow_touch f e (ui p)) (ui p) (ui (step e p))
         ∧ (flow_touch f e (ui p) ≠ Own →
            ∃ Δ, ptrace (step e p) = ptrace p ++ Δ
                 ∧ Forall (λ x, flow_effect f x = false) Δ).
Proof.
  rewrite enabled_ui, ui_step. intros He. split.
  { destruct e; cbn; try (by intros []).
    destruct (timers p !! i) as [[]|]; by intros []. }
  intros []; (split; [by first [apply survey_untouched|apply signup_untouched]|]);
    intros Ht; (apply step_appends; [done..|]); cbn [flow_effect flow_touch] in *.
  - eapply Forall_impl; [by apply survey_outputs|apply survey_out_allowed].
  - eapply Forall_impl; [by apply signup_outputs|apply signup_out_allowed].
Qed.

End independence.

(** C22: what a flow does depends only on what it observes.  Take two
    pages, in any two browsers, that a flow cannot tell apart: for the
    survey, they agree on the answers and flags of the survey, on what is
    rendered of them, on the submissions in flight and on the progress ref,
    and may differ in everything else.  Then an event with which the user
    operates the flow (a click on an option or on the submit button of the
    survey; typing and submitting for the signup form) is possible in both
    or in neither, and it leaves two pages that the flow cannot tell
    apart. *)
Theorem flows_deterministic {S1 S2 : Type} `{!Sdk S1} `{!Sdk S2}
    (f : Flow) (e : Event) (p1 : Page S1) (p2 : Page S2) :
  flow_event f e = true → flow_sim f (ui p1) (ui p2) →
  enabled e p1 = enabled e p2 ∧ flow_sim f (ui (step e p1)) (ui (step e p2)).
Proof.
  rewrite !enabled_ui, !ui_step. destruct f; cbn; intros He H.
  - pose proof (survey_enabled_sim e _ _ He H) as Hen. split; [done|].
    destruct (m_enabled e (ui p2)) eqn:H2.
    + rewrite !mstep_commits by (done || by destruct e).
      by apply commit_survey_proper, survey_body_sim.
    + unfold mstep. by rewrite Hen, H2.
  - pose proof (signup_enabled_sim e _ _ He H) as Hen. split; [done|].
    destruct (m_enabled e (ui p2)) eqn:H2.
    + rewrite !mstep_commits by (done || by destruct e).
      by apply commit_signup_proper, signup_body_sim.
    + unfold mstep. by rewrite Hen, H2.
Qed.

(** ** The theorems on concrete inputs *)

(** While a submission of the survey is in flight the visitor types a
    contact: to the survey the keystroke is a render. *)
Lemma flows_independent_witness :
  let p := session demo_world ([Mount] ++ answer_all) in
  let e := ChangeInput "me@example.com" in
  enabled e p = true
  ∧ survey_touch e (ui p) = Render ∧ signup_touch e (ui p) = Own
  ∧ survey_obs (ui (step e p)) = survey_obs (m_commit (ui p)).1.
Proof.
  cbn zeta. split_and!; [reflexivity..|].
  pose proof (flows_independent (ChangeInput "me@example.com")
                (session demo_world ([Mount] ++ answer_all))) as H.
  destruct H as [_ H]; [by vm_compute|]. exact (proj1 (H SurveyFlow)).
Defined.

(** Two visits, one of which has typed a contact and runs without a key:
    the survey cannot tell them apart, before and after an answer. *)
Lemma flows_deterministic_witness :
  let p1 := session demo_world [Mount] in
  let p2 := session no_key_world [Mount; ChangeInput "me@example.com"] in
  let e := Select QGender male in
  survey_sim (ui p1) (ui p2)
  ∧ enabled e p1 = enabled e p2
  ∧ survey_sim (ui (step e p1)) (ui (step e p2)).
Proof.
  cbn zeta. split; [reflexivity|].
  apply (flows_deterministic SurveyFlow (Select QGender male)); reflexivity.
Defined.
