(* ===== verification/Lifecycle.v ===== *)
(** * The life cycle of the component

    React runs the cleanup of an effect when the component is unmounted;
    the effect of the page returns a cleanup that removes its two window
    listeners (page.tsx 118-121).  In development, under StrictMode, React
    unmounts and mounts a component again right after its first mount,
    keeping its state.  The page is the whole application, so that it is
    unmounted only when the visitor leaves; this file says what it leaves
    behind.

    [unmount] and [strict_mount] describe what React does, from its
    documentation; the effect and its cleanup are those of [Observer].
    After an unmount no listener is registered, in any session, and the
    window events reach nothing.  The timers are not cleared: a submission
    in flight still ends and is still sent.  Under StrictMode the page
    behaves as in a browser that has been through one initialisation
    already: whatever holds of all sessions holds of the sessions in
    development. *)

From S2P Require Import Prelude JsString JsValue Effects Browser Identity.
From S2P Require Import Tracking PageState Survey Signup Observer View Page.
From S2P Require Import Machine Invariants Outputs Schedule Session FlowSpec.
From S2P Require Import Timers.

#[local] Open Scope string_scope.
#[local] Open Scope list_scope.
#[local] Open Scope nat_scope.

(** ** Unmounting and mounting again *)

(** The interface state after the unmount. *)
Definition m_unmount (u : Ui) : Ui :=
  match u_cleanup u with
  | Some prev =>
    mkUi (u_cells u) (u_rendered u) (list_remove_first prev (u_installed u)) None
      (u_ref u) (u_timers u)
  | None => u
  end.

Section lifecycle.
Context {S : Type} `{!Sdk S}.
Implicit Types (p : Page S) (w : World S) (es : list Event).

(** React unmounts the component: the cleanup of the last run of the
    effect runs, and React forgets it.  Nothing else happens: the page does
    not clear its timers. *)
Definition unmount : JS (Page S) unit :=
  p ← get_st;
  match cleanup p with
  | Some prev => effect_cleanup prev;; modify (set_cleanup None)
  | None => mret tt
  end.

Definition unmounted p : Page S := exec unmount p.

(** React mounts the component again with the state that it had: the
    effect runs for the render that is on the screen. *)
Definition remount : JS (Page S) unit :=
  p ← get_st; effect_body (rendered p).

(** The first mount under StrictMode: mount, unmount, mount again. *)
Definition strict_mount p : Page S :=
  exec remount (unmounted (step Mount p)).

(** A session in development. *)
Definition strict_session w es : Page S :=
  run es (strict_mount (initial_page w)).

End lifecycle.

(** ** Lemmas *)

Lemma m_unmount_fire i u :
  m_unmount (mstep (Fire i) u).1 = (mstep (Fire i) (m_unmount u)).1
  ∧ (mstep (Fire i) (m_unmount u)).2 = (mstep (Fire i) u).2.
Proof.
  destruct u as [c r l [prev|] x ts]; unfold mstep, m_handle, m_unmount; cbn;
    (case_bool_decide; [|done]); cbn; by destruct (ts !! i) as [[]|].
Qed.

Section lifecycle_lemmas.
Context {S : Type} `{!Sdk S}.
Implicit Types (p : Page S) (w : World S) (es : list Event).

Lemma unmounted_join p : unmounted p = join (m_unmount (ui p)) (world p).
Proof.
  unfold unmounted, unmount, m_unmount, effect_cleanup, removeEventListeners.
  js_unfold. cbn. destruct p as [c r l [prev|] x ts w]; by cbn.
Qed.

(** The unmount and a timer that fires commute: the continuation of a
    timer does not see whether the component is mounted. *)
Lemma unmounted_fire i p :
  unmounted (step (Fire i) p) = step (Fire i) (unmounted p).
Proof.
  rewrite !unmounted_join, !step_join, !ui_join, !world_join.
  destruct (m_unmount_fire i (ui p)) as [H1 H2]. by rewrite H1, H2.
Qed.

(** The first mount under StrictMode is the mount in a browser in which
    the SDK has been initialised once. *)
Lemma strict_mount_initial w :
  strict_mount (initial_page w) = step Mount (initial_page (init_world w)).
Proof.
  unfold strict_mount, remount. rewrite unmounted_join, !step_join.
  rewrite ui_join, world_join. js_unfold. cbn.
  by rewrite effect_body_decomposes.
Qed.

(** ** Theorems *)

(** C25: the listeners are torn down on unmount.  After any session the
    unmount leaves no listener registered and nothing for React to clean
    up; the cells, the timers and the world are as they were; and a scroll
    or an unload of the window reaches no code of the page any more. *)
Theorem unmount_tears_down w es :
  let p := unmounted (session w es) in
  installed p = [] ∧ mounted p = false
  ∧ cells p = cells (session w es) ∧ timers p = timers (session w es)
  ∧ world p = world (session w es)
  ∧ ∀ m, step (Scroll m) p = p ∧ step BeforeUnload p = p.
Proof.
  cbn zeta. rewrite unmounted_join. pose proof (listeners_ok_run es) as H.
  rewrite <- (session_ui w es) in H. unfold listeners_ok, m_unmount in *.
  assert (∀ (p : Page S), installed p = [] →
            ∀ m, step (Scroll m) p = p ∧ step BeforeUnload p = p) as Hsilent.
  { intros p Hp m. unfold step, exec, handle. cbn [enabled].
    rewrite !bind_get_st, Hp. by destruct p. }
  destruct (session w es) as [c r l [prev|] x ts w']; cbn in *.
  - destruct H as [-> _]. rewrite list_remove_first_singleton.
    split_and!; first [done | by apply Hsilent].
  - split_and!; first [done | by apply Hsilent].
Qed.

(** The unmount cancels nothing: the timers that are pending fire as they
    would have, with the same continuations, and what these send is
    sent.  A submission in flight when the visitor leaves is completed. *)
Theorem unmount_does_not_cancel es p :
  forallb is_fire es = true → run es (unmounted p) = unmounted (run es p).
Proof.
  revert p. induction es as [|e es IH]; intros p Hes; [done|].
  apply andb_prop in Hes as [He Hes]. destruct e; try done.
  cbn [run foldl]. fold (run es (step (Fire i) (unmounted p))).
  fold (run es (step (Fire i) p)). by rewrite <- unmounted_fire, IH.
Qed.

(** A session in development is a session in a browser in which the SDK
    has been initialised once before the page is mounted: the state of the
    component, the listeners and the timers are those of production, and
    the trace begins with one more initialisation. *)
Theorem strict_session_session w es :
  strict_session w es = session (init_world w) (Mount :: es).
Proof. unfold strict_session, session. by rewrite strict_mount_initial. Qed.

End lifecycle_lemmas.

(** ** The theorems on concrete inputs *)

(** Under StrictMode the page view of the mount is sent twice and the SDK
    is initialised twice, and one pair of listeners is registered. *)
Lemma strict_mount_twice :
  let p := strict_session demo_world [] in
  count_if (is_track "view landing") (ptrace p) = 2
  ∧ count_if (λ e, bool_decide (e = ECall (SdkInit "demo-key"))) (ptrace p) = 2
  ∧ installed p = [initial_state].
Proof. cbn zeta. split_and!; by_compute. Qed.

(** A visitor leaves while the survey is being sent: the listeners are
    gone, and the submission is sent all the same. *)
Lemma leaving_while_submitting :
  let p := unmounted (session demo_world ([Mount] ++ answer_all)) in
  installed p = [] ∧ length (timers p) = 1
  ∧ count_if (is_track "submit survey") (ptrace (step (Fire 0) p)) = 1.
Proof. cbn zeta. split_and!; by_compute. Qed.
