(* ===== verification/Analytics.v ===== *)
(** * The analytics utility module

    [src/lib/utils/analytics.ts] is a helper that forwards typed events to
    two optional sinks installed on the window, [gtag] and [mixpanel], and
    logs them in development.  No file of the application imports it (the
    page calls Amplitude directly); it is modelled on its own.

    The environment [Env] holds what the module reads ([NODE_ENV], whether
    there is a window, which sinks are installed and whether a call into
    them throws, the path of the location) and the list of what it has
    sent.  An [EventParams] object is a [Props]: its optional fields
    [category], [label] and [value] are properties like the others.  The
    function [trackEvent] of the module is [analytics_trackEvent] here, since
    the page has a function of the same name. *)

From S2P Require Import Prelude JsString JsValue Effects.

#[local] Open Scope string_scope.
#[local] Open Scope list_scope.

(** ** Data *)

Inductive EventCategory : Type :=
| CatPageView | CatNavigation | CatForm | CatSurvey | CatSocial.

Definition category_name (c : EventCategory) : string :=
  match c with
  | CatPageView => "page_view"
  | CatNavigation => "navigation"
  | CatForm => "form"
  | CatSurvey => "survey"
  | CatSocial => "social"
  end.

Inductive EventAction : Type :=
| LandingPageView | InstagramClick | NotificationSignup | SurveySubmit
| SurveyOptionSelect.

Definition action_name (a : EventAction) : string :=
  match a with
  | LandingPageView => "landing_page_view"
  | InstagramClick => "instagram_click"
  | NotificationSignup => "notification_signup"
  | SurveySubmit => "survey_submit"
  | SurveyOptionSelect => "survey_option_select"
  end.

(** The first parameter of [trackSurveyOptionSelect]. *)
Inductive QuestionType : Type := TGender | TAge | TInterest | TSource | TReaction.

Definition questionType_name (t : QuestionType) : string :=
  match t with
  | TGender => "gender"
  | TAge => "age"
  | TInterest => "interest"
  | TSource => "source"
  | TReaction => "reaction"
  end.

#[export] Instance EventCategory_eq_dec : EqDecision EventCategory.
Proof. solve_decision. Defined.
#[export] Instance EventAction_eq_dec : EqDecision EventAction.
Proof. solve_decision. Defined.
#[export] Instance QuestionType_eq_dec : EqDecision QuestionType.
Proof. solve_decision. Defined.

(** The parameter of [trackSurveySubmit]. *)
Record Answers : Type := mkAnswers {
  a_gender : string;
  a_ageGroup : string;
  a_interest : string;
  a_source : string;
  a_reaction : string;
}.

(** What the module sends out. *)
Inductive Sent : Type :=
| SLog (action : string) (params : option Props)
    (* console.log('[Analytics]', action, params) *)
| SGtag (command action : string) (props : Props)
    (* window.gtag(command, action, props) *)
| SMixpanel (action : string) (params : option Props).
    (* window.mixpanel.track(action, params) *)

#[export] Instance Sent_eq_dec : EqDecision Sent.
Proof. solve_decision. Defined.

(** [interface EventParams]: a category, a label and a value, each optional
    and of its type, and under any other key a string, a number, a boolean
    or [undefined]. *)
Definition categories : list EventCategory :=
  [CatPageView; CatNavigation; CatForm; CatSurvey; CatSocial].

Definition field_typed (k : string) (v : JsVal) : bool :=
  match v with
  | JUndefined => true
  | JNull => false
  | JStr s =>
    if String.eqb k "category" then bool_decide (s ∈ category_name <$> categories)
    else negb (String.eqb k "value")
  | JNum _ => negb (String.eqb k "category" || String.eqb k "label")
  | JBool _ =>
    negb (String.eqb k "category" || String.eqb k "label" || String.eqb k "value")
  end.

Definition EventParams (o : Props) : Prop :=
  map_Forall (λ k v, field_typed k v = true) o.

(** What is sent carries parameters of the type [EventParams]; the payload
    of [gtag] is a [Record<string, unknown>]. *)
Definition sent_typed (x : Sent) : Prop :=
  match x with
  | SLog _ params | SMixpanel _ params => from_option EventParams True params
  | SGtag _ _ _ => True
  end.

(** A sink is absent, or installed; a call into an installed sink may
    throw. *)
Record Env : Type := mkEnv {
  nodeEnv : string;            (* process.env.NODE_ENV *)
  hasWindow : bool;            (* typeof window !== 'undefined' *)
  gtag : option bool;          (* window.gtag, and whether it throws *)
  mixpanel : option bool;      (* window.mixpanel, and whether track throws *)
  pathname : string;           (* window.location.pathname *)
  sent : list Sent;            (* oldest first *)
}.

Definition set_sent (l : list Sent) (e : Env) : Env :=
  mkEnv (nodeEnv e) (hasWindow e) (gtag e) (mixpanel e) (pathname e) l.

(** Record something sent. *)
Definition send (x : Sent) : JS Env unit :=
  modify (λ e, set_sent (sent e ++ [x]) e).

(** A call into a sink: it is made, and then the sink may throw. *)
Definition call_sink (x : Sent) (throws : bool) : JS Env unit :=
  send x;; if throws then throw SdkError else mret tt.

(** ** The module *)

(** [params?.k]. *)
Definition opt_get (k : string) (params : option Props) : JsVal :=
  match params with
  | None => JUndefined
  | Some o => prop_get k o
  end.

(** The third argument of the call of [gtag]. *)
Definition gtag_props (params : option Props) : Props :=
  spread
    {[ "event_category" := js_or (opt_get "category" params) (JStr "engagement");
       "event_label" := opt_get "label" params;
       "value" := opt_get "value" params ]}
    (spread_opt params).

Definition analytics_trackEvent (action : EventAction) (params : option Props) :
    JS Env unit :=
  e ← get_st;
  when (String.eqb (nodeEnv e) "development")
    (send (SLog (action_name action) params));;
  when (hasWindow e && bool_decide (is_Some (gtag e)))
    (call_sink (SGtag "event" (action_name action) (gtag_props params))
       (default false (gtag e)));;
  when (hasWindow e && bool_decide (is_Some (mixpanel e)))
    (call_sink (SMixpanel (action_name action) params)
       (default false (mixpanel e))).

Definition trackPageView (path : option string) : JS Env unit :=
  e ← get_st;
  let pagePath :=
    str_or (default "" path) (if hasWindow e then pathname e else "/") in
  analytics_trackEvent LandingPageView
    (Some {[ "category" := JStr (category_name CatPageView);
             "label" := JStr pagePath ]}).

Definition trackInstagramClick : JS Env unit :=
  analytics_trackEvent InstagramClick
    (Some {[ "category" := JStr (category_name CatSocial);
             "label" := JStr "instagram_link" ]}).

Definition trackNotificationSignup (hasEmail : bool) : JS Env unit :=
  analytics_trackEvent NotificationSignup
    (Some {[ "category" := JStr (category_name CatForm);
             "label" := JStr (if hasEmail then "email" else "kakao_id");
             "value" := JNum 1 ]}).

(** [`${questionType}_${value}`]. *)
Definition option_label (questionType : QuestionType) (value : string) : string :=
  questionType_name questionType ++ "_" ++ value.

Definition trackSurveyOptionSelect (questionType : QuestionType)
    (value : string) : JS Env unit :=
  analytics_trackEvent SurveyOptionSelect
    (Some {[ "category" := JStr (category_name CatSurvey);
             "label" := JStr (option_label questionType value);
             "question_type" := JStr (questionType_name questionType);
             "selected_value" := JStr value ]}).

(** [{...answers}]. *)
Definition answers_props (answers : Answers) : Props :=
  {[ "gender" := JStr (a_gender answers);
     "ageGroup" := JStr (a_ageGroup answers);
     "interest" := JStr (a_interest answers);
     "source" := JStr (a_source answers);
     "reaction" := JStr (a_reaction answers) ]}.

Definition trackSurveySubmit (answers : Answers) : JS Env unit :=
  analytics_trackEvent SurveySubmit
    (Some (spread
             {[ "category" := JStr (category_name CatSurvey);
                "label" := JStr "survey_completed";
                "value" := JNum 1 ]}
             (answers_props answers))).

(** ** Environments used in examples *)

(** A production page with both sinks installed and working. *)
Definition both_sinks : Env := mkEnv "production" true (Some false) (Some false) "/" [].

(** The same with a [gtag] that throws. *)
Definition failing_gtag : Env := mkEnv "production" true (Some true) (Some false) "/" [].

(** ** The payload of [gtag] *)

(** Every property of the parameters reaches [gtag] unchanged: the spread
    comes last. *)
Lemma gtag_props_params params o k v :
  params = Some o → o !! k = Some v → gtag_props params !! k = Some v.
Proof.
  intros -> Hk. unfold gtag_props, spread, spread_opt. cbn.
  by apply lookup_union_Some_l.
Qed.

(** A key that the parameters do not have is one of the three computed
    ones or is absent. *)
Lemma gtag_props_computed params k :
  (∀ o, params = Some o → o !! k = None) →
  gtag_props params !! k
  = ({[ "event_category" := js_or (opt_get "category" params) (JStr "engagement");
        "event_label" := opt_get "label" params;
        "value" := opt_get "value" params ]} : Props) !! k.
Proof.
  intros Hk. unfold gtag_props, spread, spread_opt.
  destruct params as [o|]; cbn.
  - by rewrite lookup_union_r by auto.
  - by rewrite (left_id_L ∅ (∪)).
Qed.

(** ** Running [analytics_trackEvent] *)

Lemma send_run x e : send x e = (Normal tt, set_sent (sent e ++ [x]) e).
Proof. done. Qed.

(** What [analytics_trackEvent] sends: the log line in development, then the event
    to [gtag] when it is installed, then, unless [gtag] threw, to
    [mixpanel] when it is installed. *)
Definition analytics_sent (action : EventAction) (params : option Props)
    (e : Env) : list Sent :=
  (if String.eqb (nodeEnv e) "development"
   then [SLog (action_name action) params] else [])
  ++ (if hasWindow e && bool_decide (is_Some (gtag e))
      then [SGtag "event" (action_name action) (gtag_props params)] else [])
  ++ (if hasWindow e && bool_decide (is_Some (mixpanel e))
         && negb (hasWindow e && bool_decide (gtag e = Some true))
      then [SMixpanel (action_name action) params] else []).

(** Whether [analytics_trackEvent] throws. *)
Definition analytics_throws (e : Env) : bool :=
  hasWindow e
  && (bool_decide (gtag e = Some true) || bool_decide (mixpanel e = Some true)).

Lemma analytics_trackEvent_run action params e :
  analytics_trackEvent action params e
  = (if analytics_throws e then Thrown SdkError else Normal tt,
     set_sent (sent e ++ analytics_sent action params e) e).
Proof.
  unfold analytics_trackEvent, analytics_sent, analytics_throws, call_sink, send.
  destruct e as [env win g m path l]. js_simpl.
  destruct (String.eqb env "development"), win, g as [[]|], m as [[]|];
    unfold set_sent; cbn; by rewrite <- ?app_assoc, ?app_nil_r.
Qed.

(** ** Properties *)

(** With both sinks installed and working, an event reaches [gtag]
    and then [mixpanel], once each: [gtag] receives the command "event", the
    name of the action and the computed payload, [mixpanel] the name and the
    parameters as they are. *)
Theorem event_reaches_both_sinks action params e :
  nodeEnv e ≠ "development" → hasWindow e = true →
  gtag e = Some false → mixpanel e = Some false →
  analytics_trackEvent action params e
  = (Normal tt,
     set_sent (sent e ++ [SGtag "event" (action_name action) (gtag_props params);
                          SMixpanel (action_name action) params]) e).
Proof.
  intros Hd Hw Hg Hm. rewrite analytics_trackEvent_run.
  unfold analytics_throws, analytics_sent. rewrite Hw, Hg, Hm.
  apply String.eqb_neq in Hd. rewrite Hd. done.
Qed.

(** C38: a failure of [gtag] is not contained: the exception leaves
    [analytics_trackEvent], and [mixpanel] does not receive the event. *)
Theorem gtag_failure_skips_mixpanel action params e :
  hasWindow e = true → gtag e = Some true →
  outcome (analytics_trackEvent action params) e = Thrown SdkError
  ∧ Forall (λ x, ∀ a p, x ≠ SMixpanel a p) (analytics_sent action params e)
  ∧ sent (exec (analytics_trackEvent action params) e)
    = sent e ++ analytics_sent action params e.
Proof.
  intros Hw Hg. unfold outcome, exec. rewrite analytics_trackEvent_run.
  unfold analytics_throws, analytics_sent. rewrite Hw, Hg. cbn.
  split; [done|]. split; [|done].
  rewrite andb_false_r. destruct (String.eqb _ _); forall_list; done.
Qed.

(** The payload of [gtag] extends the parameters: every property of
    the parameters is passed on unchanged, and the category that [gtag]
    sees is the category of the parameters when they have a truthy one and
    no property [event_category] of their own, and "engagement" when they
    have none. *)
Theorem gtag_payload_extends_params o :
  o !! "event_category" = None →
  o ⊆ gtag_props (Some o)
  ∧ gtag_props (Some o) !! "event_category"
    = Some (if truthy (prop_get "category" o) then prop_get "category" o
            else JStr "engagement").
Proof.
  intros Hc. split.
  - apply map_subseteq_spec. intros k v Hk. by eapply gtag_props_params.
  - rewrite gtag_props_computed by (by intros ? [= <-]). done.
Qed.

(** The event of a signup as [gtag] receives it: the category and
    the label appear under both their names, the value once, and a contact
    that is not an e-mail address is labelled "kakao_id". *)
Theorem notification_signup_payload hasEmail e :
  nodeEnv e ≠ "development" → hasWindow e = true →
  gtag e = Some false → mixpanel e = None →
  sent (exec (trackNotificationSignup hasEmail) e)
  = sent e
    ++ [SGtag "event" "notification_signup"
          {[ "event_category" := JStr "form";
             "event_label" := JStr (if hasEmail then "email" else "kakao_id");
             "category" := JStr "form";
             "label" := JStr (if hasEmail then "email" else "kakao_id");
             "value" := JNum 1 ]}].
Proof.
  intros Hd%String.eqb_neq Hw Hg Hm. unfold exec, trackNotificationSignup.
  rewrite analytics_trackEvent_run. unfold analytics_sent.
  rewrite Hd, Hw, Hg, Hm. cbn [snd set_sent sent andb app]. by do 3 f_equal.
Qed.

(** The label of a selection determines the question and the value. *)
Lemma option_label_inj t1 v1 t2 v2 :
  option_label t1 v1 = option_label t2 v2 → t1 = t2 ∧ v1 = v2.
Proof.
  unfold option_label. destruct t1, t2; cbn; intros H;
    by simplify_eq.
Qed.

(** The label of the page view: the path given, else the path of the
    location, else the root. *)
Lemma trackPageView_label path e :
  trackPageView path e
  = analytics_trackEvent LandingPageView
      (Some {[ "category" := JStr "page_view";
               "label" := JStr (match path with
                                | Some (String c s) => String c s
                                | _ => if hasWindow e then pathname e else "/"
                                end) ]}) e.
Proof. unfold trackPageView. js_unfold. by destruct path as [[|c s]|]. Qed.

(** Each event makes at most one call into each sink. *)
Lemma analytics_sent_once action params e :
  (count_if (λ x, match x with SGtag _ _ _ => true | _ => false end)
     (analytics_sent action params e) ≤ 1
   ∧ count_if (λ x, match x with SMixpanel _ _ => true | _ => false end)
       (analytics_sent action params e) ≤ 1)%nat.
Proof.
  unfold analytics_sent.
  destruct (String.eqb _ _), (hasWindow e && _), (_ && _ && _); simpl; lia.
Qed.

(** ** The type of the parameters *)

Lemma EventParams_insert k v o :
  field_typed k v = true → EventParams o → EventParams (<[k:=v]> o).
Proof. intros Hv Ho. by apply map_Forall_insert_2. Qed.

Lemma EventParams_empty : EventParams ∅.
Proof. apply map_Forall_empty. Qed.

Lemma EventParams_spread base over :
  EventParams base → EventParams over → EventParams (spread base over).
Proof.
  intros Hb Ho k v [?|[_ ?]]%lookup_union_Some_raw; [by apply Ho|by apply Hb].
Qed.

(** What an event sends is typed when its parameters are. *)
Lemma analytics_sent_typed action params e :
  from_option EventParams True params →
  Forall sent_typed (analytics_sent action params e).
Proof.
  intros Hp. unfold analytics_sent.
  repeat (apply Forall_app; split); by case_match; forall_list.
Qed.

(** A function of the module sends typed parameters only. *)
Definition sends_typed (m : JS Env unit) : Prop :=
  ∀ e, ∃ Δ, sent (exec m e) = sent e ++ Δ ∧ Forall sent_typed Δ.

Lemma analytics_trackEvent_typed action o :
  EventParams o → sends_typed (analytics_trackEvent action (Some o)).
Proof.
  intros Ho e. eexists. unfold exec. rewrite analytics_trackEvent_run.
  split; [done|]. by apply analytics_sent_typed.
Qed.

Ltac params_typed :=
  unfold answers_props;
  repeat lazymatch goal with
    | |- EventParams (spread _ _) => apply EventParams_spread
    | |- EventParams (<[_:=_]> _) => apply EventParams_insert; [done|]
    | |- EventParams {[_ := _]} => by apply map_Forall_singleton
    end.

(** The five functions that the module exports for the page pass
    parameters of the type [EventParams] whatever their arguments are:
    a category of the five, a label that is a string, a value that is a
    number, and the answers of the survey, none of which is named like one
    of the three. *)
Theorem wrappers_typed path hasEmail t value answers :
  sends_typed (trackPageView path) ∧ sends_typed trackInstagramClick
  ∧ sends_typed (trackNotificationSignup hasEmail)
  ∧ sends_typed (trackSurveyOptionSelect t value)
  ∧ sends_typed (trackSurveySubmit answers).
Proof.
  split_and!; [|apply analytics_trackEvent_typed; params_typed..].
  intros e. unfold exec. rewrite trackPageView_label.
  apply (analytics_trackEvent_typed LandingPageView). params_typed.
Qed.

(** The type is not vacuous: a category that is not one of the five, or a
    value that is a string, is refused. *)
Example EventParams_refuses :
  ¬ EventParams {[ "category" := JStr "engagement" ]}
  ∧ ¬ EventParams {[ "value" := JStr "1" ]}
  ∧ EventParams {[ "category" := JStr "form"; "has_email" := JBool true ]}.
Proof.
  split_and!; [by intros H%map_Forall_singleton..|params_typed].
Qed.

Lemma event_reaches_both_sinks_witness :
  analytics_trackEvent SurveySubmit None both_sinks
  = (Normal tt,
     set_sent (sent both_sinks
               ++ [SGtag "event" (action_name SurveySubmit) (gtag_props None);
                   SMixpanel (action_name SurveySubmit) None]) both_sinks).
Proof. apply event_reaches_both_sinks; done. Defined.

Lemma gtag_failure_skips_mixpanel_witness :
  outcome (analytics_trackEvent InstagramClick None) failing_gtag = Thrown SdkError
  ∧ Forall (λ x, ∀ a p, x ≠ SMixpanel a p)
      (analytics_sent InstagramClick None failing_gtag)
  ∧ sent (exec (analytics_trackEvent InstagramClick None) failing_gtag)
    = sent failing_gtag ++ analytics_sent InstagramClick None failing_gtag.
Proof. apply gtag_failure_skips_mixpanel; reflexivity. Defined.

Lemma gtag_payload_extends_params_witness :
  let o : Props := {[ "category" := JStr "survey"; "label" := JStr "survey_completed" ]} in
  o ⊆ gtag_props (Some o)
  ∧ gtag_props (Some o) !! "event_category"
    = Some (if truthy (prop_get "category" o) then prop_get "category" o
            else JStr "engagement").
Proof. apply gtag_payload_extends_params. reflexivity. Defined.

Lemma notification_signup_payload_witness :
  sent (exec (trackNotificationSignup false)
          (mkEnv "production" true (Some false) None "/" []))
  = [SGtag "event" "notification_signup"
       {[ "event_category" := JStr "form";
          "event_label" := JStr "kakao_id";
          "category" := JStr "form";
          "label" := JStr "kakao_id";
          "value" := JNum 1 ]}].
Proof.
  apply (notification_signup_payload false
           (mkEnv "production" true (Some false) None "/" [])); done.
Defined.
