(* ===== verification/Markup.v ===== *)
(** * Markup: the element trees that components return

    A component returns a tree of elements written in JSX.  [Node] is that
    tree: text, elements with their props and children, and arrays of
    children as [items.map(...)] produces them.  Props keep the values
    that the source writes: strings, numbers, booleans, the objects given to
    the animation library and event handlers, named by [Handler] after the
    function of page.tsx that they run.

    The file then defines what a browser and React make of such a tree:
    the elements it contains, its text, the identifiers and in-page links,
    the conditions under which it is well formed ([well_formed]) and the
    handlers that a user can trigger in it ([controls]). *)

From Stdlib Require Import Ascii.
From S2P Require Import Prelude JsString JsValue PageState Survey.

#[local] Open Scope string_scope.
#[local] Open Scope list_scope.
#[local] Open Scope nat_scope.

Declare Scope markup_scope.
Delimit Scope markup_scope with markup.

(** [k =: v] is the prop [k={v}]. *)
Notation "k =: v" := (k, v) (at level 70, no associativity) : markup_scope.

#[local] Open Scope markup_scope.

(** ** Trees *)

(** The event handlers that the page attaches to elements. *)
Inductive Handler : Type :=
| OnClickInstagram                          (* () => trackEvent("click instagram") *)
| OnClickOption (q : Question) (item : Item) (* the onClick of an option *)
| OnSubmitSurvey
| OnChangeInput                             (* (e) => setEmailOrId(e.target.value) *)
| OnSubmit.

#[export] Instance Handler_eq_dec : EqDecision Handler.
Proof. solve_decision. Defined.

(** The value of a prop. *)
Unset Elimination Schemes.
Inductive PropVal : Type :=
| PStr (s : string)
| PNum (x : float)
| PBool (b : bool)
| PObj (fields : list (string * PropVal))
| PHandler (h : Handler).
Set Elimination Schemes.

Abbreviation PropList := (list (string * PropVal)).

(** What is instantiated: a DOM element, a [motion.] component of the
    animation library (which renders the DOM element of the same name), the
    image component of the framework, or a fragment. *)
Inductive Tag : Type :=
| Html (name : string)
| Motion (name : string)
| NextImage
| Fragment.

#[export] Instance Tag_eq_dec : EqDecision Tag.
Proof. solve_decision. Defined.

Unset Elimination Schemes.
Inductive Node : Type :=
| Text (s : string)
| Elem (tag : Tag) (props : PropList) (children : list Node)
| Arr (items : list Node).
Set Elimination Schemes.

(** Induction on trees, with the hypothesis on every child. *)
Section Node_ind.
Variable P : Node → Prop.
Hypothesis Htext : ∀ s, P (Text s).
Hypothesis Helem : ∀ t ps ks, Forall P ks → P (Elem t ps ks).
Hypothesis Harr : ∀ ks, Forall P ks → P (Arr ks).

Fixpoint Node_forall_ind (n : Node) : P n :=
  let all := fix all (ks : list Node) : Forall P ks :=
    match ks with
    | [] => Forall_nil_2 P
    | k :: ks' => Forall_cons_2 P k ks' (Node_forall_ind k) (all ks')
    end in
  match n with
  | Text s => Htext s
  | Elem t ps ks => Helem t ps ks (all ks)
  | Arr ks => Harr ks (all ks)
  end.
End Node_ind.

(** ** Props *)

(** The value of prop [k]; when a prop is written twice the last one wins. *)
Fixpoint prop (k : string) (ps : PropList) : option PropVal :=
  match ps with
  | [] => None
  | (k', v) :: ps' =>
    match prop k ps' with
    | Some v' => Some v'
    | None => if String.eqb k' k then Some v else None
    end
  end.

Definition dom_tag (t : Tag) : string :=
  match t with
  | Html name | Motion name => name
  | NextImage => "img"
  | Fragment => ""
  end.

Definition tag_of (n : Node) : string :=
  match n with Elem t _ _ => dom_tag t | _ => "" end.

Definition props_of (n : Node) : PropList :=
  match n with Elem _ ps _ => ps | _ => [] end.

Definition children_of (n : Node) : list Node :=
  match n with Elem _ _ ks | Arr ks => ks | Text _ => [] end.

(** A prop of an element that holds a string. *)
Definition attr (k : string) (n : Node) : option string :=
  match prop k (props_of n) with Some (PStr s) => Some s | _ => None end.

(** A prop of an element that holds a handler. *)
Definition handler (k : string) (n : Node) : option Handler :=
  match prop k (props_of n) with Some (PHandler h) => Some h | _ => None end.

(** [disabled]: absent means enabled. *)
Definition is_disabled (n : Node) : bool :=
  match prop "disabled" (props_of n) with Some (PBool b) => b | _ => false end.

(** ** What a tree contains *)

(** The elements of a tree in document order, the root first. *)
Fixpoint elements (n : Node) : list Node :=
  match n with
  | Text _ => []
  | Elem _ _ ks => n :: flat_map elements ks
  | Arr ks => flat_map elements ks
  end.

(** [Node.textContent]: the text of a tree, in document order. *)
Fixpoint textContent (n : Node) : string :=
  match n with
  | Text s => s
  | Elem _ _ ks => String.concat "" (map textContent ks)
  | Arr ks => String.concat "" (map textContent ks)
  end.

(** The number of nodes. *)
Fixpoint size (n : Node) : nat :=
  match n with
  | Text _ => 1
  | Elem _ _ ks => S (list_sum (map size ks))
  | Arr ks => S (list_sum (map size ks))
  end.

(** The tokens of a space-separated attribute such as [className] or
    [rel]. *)
Fixpoint words_from (acc s : string) : list string :=
  match s with
  | "" => if String.eqb acc "" then [] else [acc]
  | String c s' =>
    if Ascii.eqb c " "%char
    then (if String.eqb acc "" then [] else [acc]) ++ words_from "" s'
    else words_from (acc ++ String c "") s'
  end.

Definition words (s : string) : list string := words_from "" s.

(** The classes of an element. *)
Definition classes (n : Node) : list string :=
  words (default "" (attr "className" n)).

(** The identifiers declared in a tree. *)
Definition ids (n : Node) : list string := omap (attr "id") (elements n).

(** The fragment that an in-page link points to: [#x] with [x] not empty
    ([#] alone is the top of the page). *)
Definition fragment_of (href : string) : option string :=
  match href with
  | String "#"%char x => if String.eqb x "" then None else Some x
  | _ => None
  end.

(** The fragments that the links of a tree point to. *)
Definition anchors (n : Node) : list string :=
  omap (λ e, attr "href" e ≫= fragment_of) (elements n).

(** ** Well-formed trees *)

(** A link that opens a new browsing context does not hand the opener to
    the target. *)
Definition link_ok (e : Node) : bool :=
  match attr "target" e with
  | Some "_blank" =>
    bool_decide ("noopener" ∈ words (default "" (attr "rel" e)))
  | _ => true
  end.

(** An image has a source, an alternative text and its two dimensions,
    which the image component requires. *)
Definition image_ok (e : Node) : bool :=
  match e with
  | Elem NextImage ps _ =>
    match prop "src" ps, prop "alt" ps, prop "width" ps, prop "height" ps with
    | Some (PStr src), Some (PStr _), Some (PNum _), Some (PNum _) =>
      negb (String.eqb src "")
    | _, _, _, _ => false
    end
  | _ => true
  end.

(** A button says what it is: [button], [submit] or [reset]. *)
Definition button_ok (e : Node) : bool :=
  if String.eqb (tag_of e) "button"
  then match attr "type" e with
       | Some t => bool_decide (t ∈ ["button"; "submit"; "reset"])
       | None => false
       end
  else true.

Definition element_ok (e : Node) : bool := link_ok e && image_ok e && button_ok e.

(** The elements of every array have keys, distinct within the array. *)
Fixpoint keyed (n : Node) : bool :=
  match n with
  | Text _ => true
  | Elem _ _ ks => forallb keyed ks
  | Arr ks =>
    forallb (λ k, bool_decide (is_Some (attr "key" k))) ks
    && bool_decide (NoDup (omap (attr "key") ks))
    && forallb keyed ks
  end.

Definition ids_unique (n : Node) : bool := bool_decide (NoDup (ids n)).

Definition anchors_resolve (n : Node) : bool :=
  forallb (λ x, bool_decide (x ∈ ids n)) (anchors n).

Definition well_formed (n : Node) : bool :=
  ids_unique n && anchors_resolve n && forallb element_ok (elements n)
  && keyed n.

(** ** What the user can operate *)

(** The handlers of an element that a click or an input reaches: none when
    the element is disabled. *)
Definition own_controls (e : Node) : list Handler :=
  if is_disabled e then []
  else option_list (handler "onClick" e) ++ option_list (handler "onChange" e).

(** An enabled submit button. *)
Definition is_submit_button (e : Node) : bool :=
  String.eqb (tag_of e) "button"
  && bool_decide (attr "type" e = Some "submit")
  && negb (is_disabled e).

(** The [onSubmit] of a form runs when the form holds an enabled submit
    button: a click on it or the Enter key in a field of the form submits
    through that button. *)
Definition submit_controls (e : Node) : list Handler :=
  if String.eqb (tag_of e) "form" && existsb is_submit_button (elements e)
  then option_list (handler "onSubmit" e)
  else [].

(** The handlers that the user can trigger in a tree. *)
Definition controls (n : Node) : list Handler :=
  flat_map (λ e, own_controls e ++ submit_controls e) (elements n).

(** ** Lemmas *)

Lemma elements_children t ps ks :
  elements (Elem t ps ks) = Elem t ps ks :: flat_map elements ks.
Proof. done. Qed.

Lemma elem_of_flat_map {A B} (f : A → list B) (l : list A) y :
  y ∈ flat_map f l ↔ ∃ x, x ∈ l ∧ y ∈ f x.
Proof.
  rewrite list_elem_of_In, in_flat_map.
  by setoid_rewrite list_elem_of_In.
Qed.

Lemma keyed_Elem t ps ks : keyed (Elem t ps ks) = forallb keyed ks.
Proof. done. Qed.

(** An element with one child is keyed when the child is. *)
Lemma keyed_wrap t ps k : keyed (Elem t ps [k]) = keyed k.
Proof. rewrite keyed_Elem. cbn [forallb]. apply andb_true_r. Qed.

(** Every member of [elements] is an element. *)
Lemma elements_are_elems n e :
  e ∈ elements n → ∃ t ps ks, e = Elem t ps ks.
Proof.
  induction n as [s|t ps ks IH|ks IH] using Node_forall_ind; simpl.
  - by intros ?%elem_of_nil.
  - intros [->|(k & Hk & He)%elem_of_flat_map]%elem_of_cons; [by eauto|].
    rewrite Forall_forall in IH. by eapply IH.
  - intros (k & Hk & He)%elem_of_flat_map.
    rewrite Forall_forall in IH. by eapply IH.
Qed.

(** An element is the first of its own elements. *)
Lemma elements_self t ps ks : Elem t ps ks ∈ elements (Elem t ps ks).
Proof. simpl. apply elem_of_cons. by left. Qed.

(** The elements of an element of a tree are elements of the tree. *)
Lemma elements_trans n e e' :
  e ∈ elements n → e' ∈ elements e → e' ∈ elements n.
Proof.
  induction n as [s|t ps ks IH|ks IH] using Node_forall_ind; simpl.
  - by intros ?%elem_of_nil.
  - intros [->|(k & Hk & He)%elem_of_flat_map]%elem_of_cons; [done|].
    intros He'. apply elem_of_cons. right. apply elem_of_flat_map.
    rewrite Forall_forall in IH. by eauto.
  - intros (k & Hk & He)%elem_of_flat_map He'. apply elem_of_flat_map.
    rewrite Forall_forall in IH. by eauto.
Qed.

(** The elements of a child are elements of the parent. *)
Lemma elements_child t ps ks k e :
  k ∈ ks → e ∈ elements k → e ∈ elements (Elem t ps ks).
Proof.
  intros Hk He. simpl. apply elem_of_cons. right. apply elem_of_flat_map.
  by eauto.
Qed.

Lemma flat_map_length_le {A} (f : A → list Node) (g : A → nat) l :
  Forall (λ x, length (f x) ≤ g x) l →
  length (flat_map f l) ≤ list_sum (map g l).
Proof.
  induction 1 as [|x l Hx _ IH]; simpl; [lia|]. rewrite length_app. lia.
Qed.

(** A tree has at most as many elements as nodes. *)
Lemma elements_length n : length (elements n) ≤ size n.
Proof.
  induction n as [s|t ps ks IH|ks IH] using Node_forall_ind; simpl; [lia| |].
  - apply le_n_S. by apply flat_map_length_le.
  - apply Nat.le_le_succ_r. by apply flat_map_length_le.
Qed.

(** A handler among the controls of a tree belongs to an element of the
    tree that is not disabled, or to a form with an enabled submit
    button. *)
Lemma controls_spec n h :
  h ∈ controls n ↔
  ∃ e, e ∈ elements n ∧ (h ∈ own_controls e ∨ h ∈ submit_controls e).
Proof.
  unfold controls. rewrite elem_of_flat_map.
  by setoid_rewrite elem_of_app.
Qed.

(** A disabled element offers nothing. *)
Lemma own_controls_disabled e : is_disabled e = true → own_controls e = [].
Proof. unfold own_controls. by intros ->. Qed.

(** The identifiers of a well-formed tree are distinct and its in-page
    links resolve. *)
Lemma well_formed_ids n : well_formed n = true → NoDup (ids n).
Proof.
  unfold well_formed, ids_unique. intros H. split_andb.
  by apply bool_decide_eq_true_1 in H.
Qed.

Lemma well_formed_anchors n x :
  well_formed n = true → x ∈ anchors n → x ∈ ids n.
Proof.
  unfold well_formed, anchors_resolve. intros H Hx. split_andb.
  match goal with H : forallb _ (anchors n) = true |- _ =>
    rewrite forallb_forall in H; apply list_elem_of_In, H in Hx end.
  by apply bool_decide_eq_true_1 in Hx.
Qed.

Lemma well_formed_element n e :
  well_formed n = true → e ∈ elements n → element_ok e = true.
Proof.
  unfold well_formed. intros H He. split_andb.
  match goal with H : forallb element_ok _ = true |- _ =>
    rewrite forallb_forall in H; by apply H, list_elem_of_In end.
Qed.

Lemma words_example :
  words "noopener noreferrer" = ["noopener"; "noreferrer"]
  ∧ words "  a  b " = ["a"; "b"] ∧ words "" = [].
Proof. by vm_compute. Qed.
