(* ===== verification/Animation.v ===== *)
(** * Animation: where the elements come to rest

    The page gives its [motion.] elements the props of the animation
    library: [initial], [animate] and [whileInView] name the states of an
    element, [whileHover] and [whileTap] its feedback to the pointer, and
    [variants] names targets by labels (page.tsx 24-36, and the props of
    the elements from line 231 on).  A state is written as an object of
    style values or as a label; a label is looked up in the [variants] of
    the element, and an element that names no label of its own takes those
    of the nearest ancestor that does, through whatever elements lie
    between.

    The library itself is not part of the sources.  This file models what
    it makes of the props once the animations have run: [motions] lists
    the animated elements of a tree with the labels in force at each, and
    [rest_value] is the value of a style property of such an element when it
    is mounted, in view and idle.  Durations, delays and easing are kept in
    the markup and play no role here. *)

From Stdlib Require Import Floats.
From S2P Require Import Prelude JsString JsValue PageState Survey Markup.

#[local] Open Scope string_scope.
#[local] Open Scope list_scope.
#[local] Open Scope markup_scope.

(** ** Labels *)

(** The labels in force at an element, one for each state. *)
Record Labels : Type := mkLabels {
  l_initial : option string;
  l_animate : option string;
  l_inView : option string
}.

Definition no_labels : Labels := mkLabels None None None.

(** The label that a prop holds, if it holds one. *)
Definition state_label (k : string) (ps : PropList) : option string :=
  match prop k ps with Some (PStr l) => Some l | _ => None end.

(** The props that name a state. *)
Definition state_props : list string := ["initial"; "animate"; "whileInView"].

(** An element controls its variants when one of its states is a label. *)
Definition controls_variants (ps : PropList) : bool :=
  existsb (λ k, if state_label k ps is Some _ then true else false) state_props.

(** The labels at an element: its own when it controls its variants, those
    handed down to it otherwise. *)
Definition labels_at (inherited : Labels) (ps : PropList) : Labels :=
  if controls_variants ps
  then mkLabels (state_label "initial" ps) (state_label "animate" ps)
         (state_label "whileInView" ps)
  else inherited.

(** The animated elements of a tree in document order, each with the
    labels in force at it.  Elements of the DOM hand the labels down
    unchanged. *)
Fixpoint motions (ls : Labels) (n : Node) : list (Labels * Node) :=
  match n with
  | Text _ => []
  | Elem (Motion _) ps ks =>
    (labels_at ls ps, n) :: flat_map (motions (labels_at ls ps)) ks
  | Elem _ _ ks | Arr ks => flat_map (motions ls) ks
  end.

Definition is_motion (n : Node) : bool :=
  match n with Elem (Motion _) _ _ => true | _ => false end.

(** ** Targets *)

(** The target that the [variants] of an element give to a label. *)
Definition variant (name : string) (ps : PropList) : PropList :=
  match prop "variants" ps with
  | Some (PObj vs) => match prop name vs with Some (PObj o) => o | _ => [] end
  | _ => []
  end.

(** The target of the state [k] of an element: the object that the prop
    holds, or else the variant of the label [l] in force for that state. *)
Definition target (k : string) (l : option string) (ps : PropList) : PropList :=
  match prop k ps, l with
  | Some (PObj o), _ => o
  | _, Some name => variant name ps
  | _, None => []
  end.

(** The number that a target gives to a style property. *)
Definition number (k : string) (o : PropList) : option float :=
  match prop k o with Some (PNum x) => Some x | _ => None end.

(** ** Style values *)

(** The style properties that the page animates. *)
Definition style_names : list string := ["opacity"; "scale"; "x"; "y"].

(** The value of a style property of an element that nothing animates:
    opaque, of its own size, at its place in the layout. *)
Definition identity_value (k : string) : float :=
  if bool_decide (k ∈ ["opacity"; "scale"]) then 1%float else 0%float.

(** The value of [k] when the element is mounted: that of its initial
    state if it has one. *)
Definition mount_value (ls : Labels) (ps : PropList) (k : string) : float :=
  default (identity_value k) (number k (target "initial" (l_initial ls) ps)).

(** The value of [k] when the element has come into view and its
    animations have run: the state of being in view decides before
    [animate], and [animate] before the initial state. *)
Definition rest_value (ls : Labels) (ps : PropList) (k : string) : float :=
  match number k (target "whileInView" (l_inView ls) ps),
        number k (target "animate" (l_animate ls) ps) with
  | Some x, _ => x
  | None, Some x => x
  | None, None => mount_value ls ps k
  end.

(** The value of [k] while the pointer is over the element ([whileHover])
    or presses it ([whileTap]); these props are not handed down. *)
Definition gesture_value (g : string) (ls : Labels) (ps : PropList) (k : string) :
    float :=
  default (rest_value ls ps k) (number k (target g None ps)).

(** At rest the element is opaque, of its own size and at its place. *)
Definition in_place (ls : Labels) (e : Node) : bool :=
  forallb (λ k, (rest_value ls (props_of e) k =? identity_value k)%float)
    style_names.

(** The element is invisible when it is mounted. *)
Definition mounts_hidden (ls : Labels) (e : Node) : bool :=
  ((mount_value ls (props_of e) "opacity" =? 0)
   || (mount_value ls (props_of e) "scale" =? 0))%float.

(** ** Lemmas *)

Lemma fmap_flat_map {A B C} (f : B → C) (g : A → list B) (l : list A) :
  f <$> flat_map g l = flat_map (λ x, f <$> g x) l.
Proof. induction l as [|x l IH]; [done|]. cbn. by rewrite fmap_app, IH. Qed.

Lemma filter_flat_map {A B} (P : B → Prop) `{!∀ x, Decision (P x)}
    (g : A → list B) (l : list A) :
  filter P (flat_map g l) = flat_map (λ x, filter P (g x)) l.
Proof. induction l as [|x l IH]; [done|]. cbn. by rewrite filter_app, IH. Qed.

Lemma flat_map_ext_Forall {A B} (f g : A → list B) (l : list A) :
  Forall (λ x, f x = g x) l → flat_map f l = flat_map g l.
Proof. induction 1 as [|x l Hx _ IH]; [done|]. cbn. by rewrite Hx, IH. Qed.

(** [motions] lists exactly the animated elements of the tree, in document
    order, whatever labels come from outside. *)
Theorem motions_elements ls n :
  (motions ls n).*2 = filter (λ e, is_motion e = true) (elements n).
Proof.
  revert ls. induction n as [s|t ps ks IH|ks IH] using Node_forall_ind;
    intros ls; [done| |].
  - assert (∀ ls', (flat_map (motions ls') ks).*2
              = filter (λ e, is_motion e = true) (flat_map elements ks)) as Hks.
    { intros ls'. rewrite fmap_flat_map, filter_flat_map.
      apply flat_map_ext_Forall. eapply Forall_impl; [exact IH|]. by intros k ->. }
    destruct t; cbn [motions elements];
      rewrite ?fmap_cons, ?filter_cons; cbn [is_motion snd];
      by rewrite ?decide_True, ?decide_False, Hks by done.
  - cbn [motions elements]. rewrite fmap_flat_map, filter_flat_map.
    apply flat_map_ext_Forall. eapply Forall_impl; [exact IH|]. by intros k ->.
Qed.

(** The labels of an element that controls its variants do not depend on
    its ancestors. *)
Lemma labels_at_own ls1 ls2 ps :
  controls_variants ps = true → labels_at ls1 ps = labels_at ls2 ps.
Proof. unfold labels_at. by intros ->. Qed.

(** An object written in the prop decides the target, whatever the labels
    are. *)
Lemma target_object k l ps o : prop k ps = Some (PObj o) → target k l ps = o.
Proof. unfold target. by intros ->. Qed.

(** An element without animation props, under no label, stays where the
    layout puts it. *)
Lemma rest_value_plain ps k :
  prop "initial" ps = None → prop "animate" ps = None →
  prop "whileInView" ps = None →
  rest_value no_labels ps k = identity_value k.
Proof.
  intros Hi Ha Hv. unfold rest_value, mount_value, target. by rewrite Hi, Ha, Hv.
Qed.

(** Without the prop of a gesture the element does not react to it. *)
Lemma gesture_value_absent g ls ps k :
  prop g ps = None → gesture_value g ls ps k = rest_value ls ps k.
Proof. unfold gesture_value, target. by intros ->. Qed.
