(* ===== verification/Home.v ===== *)
(** * The markup of the page

    What [Home] returns (page.tsx 228-823), element by element: the header,
    the hero and concept sections, the survey section with its four
    questions, the signup section and the footer, with the class names,
    animation props and handlers that the source writes.  A definition takes
    the snapshot of the render when its markup depends on state.

    The theorems say that the markup is well formed for every state, that
    the controls a user can operate in it are those that [View.render]
    reports (so that the transition system of [Page] enables exactly what
    the markup offers), that every option button shows the label that its
    click sends, that the option highlighted is the answer held by the
    state, and that every animated element comes to rest in place. *)

From S2P Require Import Prelude JsString JsValue Effects Browser Identity.
From S2P Require Import Tracking PageState Survey Signup Observer View Page.
From S2P Require Import Markup Animation.

#[local] Open Scope string_scope.
#[local] Open Scope list_scope.
#[local] Open Scope markup_scope.

(** Decimal literals denote the nearest binary64 number, as in JavaScript. *)
#[local] Set Warnings "-inexact-float".

(** ** Animation variants (page.tsx 24-36) *)

Definition fadeUp : PropVal :=
  PObj ["hidden" =: PObj ["opacity" =: PNum 0%float; "y" =: PNum 24%float];
        "show" =: PObj ["opacity" =: PNum 1%float; "y" =: PNum 0%float;
                        "transition" =: PObj ["duration" =: PNum 0.8%float]]].

Definition stagger : PropVal :=
  PObj ["show" =: PObj ["transition" =: PObj ["staggerChildren" =: PNum 0.12%float]]].

(** ** The elements *)

(** The fixed header: the logo, the two in-page links and the link to Instagram (page.tsx 231-272). *)
Definition header : Node :=
  Elem (Motion "header")
    ["initial" =: PObj ["y" =: PNum (-100)%float];
     "animate" =: PObj ["y" =: PNum 0%float];
     "transition" =: PObj ["duration" =: PNum 0.6%float];
     "className" =: PStr "fixed top-0 left-0 right-0 z-50 bg-white/95 backdrop-blur-sm shadow-sm border-b border-[#FFE8E8]"]
    [Elem (Html "div")
       ["className" =: PStr "mx-auto max-w-3xl px-5 md:px-8"]
       [Elem (Html "div")
          ["className" =: PStr "flex items-center justify-between h-16 md:h-20"]
          [Elem (Motion "a")
             ["href" =: PStr "#";
              "className" =: PStr "text-base md:text-lg font-semibold text-[#222] hover:text-[#FF6B6B] transition-colors";
              "whileHover" =: PObj ["scale" =: PNum 1.02%float]]
             [Elem (NextImage)
                ["src" =: PStr "/logo.png";
                 "alt" =: PStr "Logo";
                 "width" =: PNum 100%float;
                 "height" =: PNum 100%float;
                 "className" =: PStr "md:w-[100px] md:h-[100px] w-20 h-20"] []];
           Elem (Html "nav")
             ["className" =: PStr "flex items-center gap-4"]
             [Elem (Html "a")
                ["href" =: PStr "#about";
                 "className" =: PStr "text-xs md:text-sm text-[#666] hover:text-[#FF6B6B] transition-colors hidden sm:block"]
                [Text "소개"];
              Elem (Html "a")
                ["href" =: PStr "#signup";
                 "className" =: PStr "text-xs md:text-sm text-[#666] hover:text-[#FF6B6B] transition-colors hidden sm:block"]
                [Text "알림받기"];
              Elem (Html "a")
                ["href" =: PStr "https://www.instagram.com/blind_date_explained/";
                 "target" =: PStr "_blank";
                 "rel" =: PStr "noopener noreferrer";
                 "aria-label" =: PStr "Instagram";
                 "className" =: PStr "opacity-60 hover:opacity-100 transition-opacity";
                 "onClick" =: PHandler OnClickInstagram]
                [Elem (NextImage)
                   ["src" =: PStr "/instagram.svg";
                    "alt" =: PStr "Instagram";
                    "width" =: PNum 18%float;
                    "height" =: PNum 18%float] []]]]]].

(** The picture of the hero section: two platforms with their screen doors, the tracks between them and the caption (page.tsx 278-421). *)
Definition screendoor : Node :=
  Elem (Motion "div")
    ["initial" =: PObj ["opacity" =: PNum 0%float; "y" =: PNum 20%float];
     "animate" =: PObj ["opacity" =: PNum 1%float; "y" =: PNum 0%float];
     "transition" =: PObj ["duration" =: PNum 0.8%float];
     "className" =: PStr "relative rounded-3xl overflow-hidden bg-gradient-to-br from-[#FFF5F5] via-[#FFE8E8] to-[#FFD9D9] p-10 md:p-16 shadow-lg border border-[#FFE8E8]/50"]
    [Elem (Html "div")
       ["className" =: PStr "absolute inset-0 overflow-hidden"]
       [Elem (Html "div")
          ["className" =: PStr "absolute top-0 left-1/4 w-96 h-96 bg-[#FF6B6B]/10 rounded-full blur-3xl"] [];
        Elem (Html "div")
          ["className" =: PStr "absolute bottom-0 right-1/4 w-96 h-96 bg-[#FF9E9E]/10 rounded-full blur-3xl"] []];
     Elem (Html "div")
       ["className" =: PStr "relative max-w-2xl mx-auto z-10"]
       [Elem (Html "div")
          ["className" =: PStr "flex items-center justify-center gap-4 md:gap-6 my-8"]
          [Elem (Html "div")
             ["className" =: PStr "flex-1 relative"]
             [Elem (Motion "div")
                ["initial" =: PObj ["opacity" =: PNum 0%float; "x" =: PNum (-20)%float];
                 "animate" =: PObj ["opacity" =: PNum 1%float; "x" =: PNum 0%float];
                 "transition" =: PObj ["duration" =: PNum 0.8%float; "delay" =: PNum 0.2%float];
                 "className" =: PStr "relative bg-white/70 backdrop-blur-md rounded-3xl p-8 md:p-10 shadow-xl border border-white/50"]
                [Elem (Html "div")
                   ["className" =: PStr "absolute inset-0 rounded-3xl bg-gradient-to-br from-[#FF6B6B]/20 to-transparent opacity-50"] [];
                 Elem (Html "div")
                   ["className" =: PStr "flex items-center justify-center h-28 md:h-36 relative z-10"]
                   [Elem (Html "div")
                      ["className" =: PStr "relative"]
                      [Elem (Html "div")
                         ["className" =: PStr "absolute inset-0 w-20 h-20 md:w-24 md:h-24 rounded-full bg-gradient-to-br from-[#FF6B6B]/30 to-[#FF9E9E]/30 blur-xl"] [];
                       Elem (Html "div")
                         ["className" =: PStr "relative w-20 h-20 md:w-24 md:h-24 rounded-full bg-gradient-to-br from-[#FF6B6B]/40 via-[#FF9E9E]/30 to-[#FFD9D9]/20 flex items-center justify-center shadow-inner"]
                         [Elem (Html "span")
                            ["className" =: PStr "text-3xl md:text-4xl"]
                            [Text "🙋🏻"]]]]];
              Elem (Motion "div")
                ["initial" =: PObj ["scale" =: PNum 0%float];
                 "animate" =: PObj ["scale" =: PNum 1%float];
                 "transition" =: PObj ["duration" =: PNum 0.6%float; "delay" =: PNum 0.4%float];
                 "className" =: PStr "absolute right-0 top-1/2 -translate-y-1/2 translate-x-1/2 flex flex-col items-center gap-1 z-20"]
                [Elem (Html "div")
                   ["className" =: PStr "w-1.5 h-24 md:h-28 bg-gradient-to-b from-[#FF6B6B] via-[#FF9E9E] to-[#FFD9D9] rounded-full shadow-lg shadow-[#FF6B6B]/50"] []]];
           Elem (Html "div")
             ["className" =: PStr "relative flex flex-col items-center gap-2 z-10"]
             [Elem (Html "div")
                ["className" =: PStr "relative bg-gradient-to-b from-[#222]/10 via-[#222]/20 to-[#222]/10 rounded-lg px-4 md:px-6 py-8 md:py-10 border border-[#222]/20 shadow-lg w-full"]
                [Elem (Motion "div")
                   ["initial" =: PObj ["opacity" =: PNum 0%float; "x" =: PNum (-20)%float];
                    "animate" =: PObj ["opacity" =: PNum 1%float; "x" =: PNum 0%float];
                    "transition" =: PObj ["duration" =: PNum 0.8%float; "delay" =: PNum 0.6%float];
                    "className" =: PStr "absolute left-2 top-1/2 -translate-y-1/2 flex items-center gap-1 md:gap-2"] [];
                 Elem (Html "div")
                   ["className" =: PStr "h-px bg-[#222]/20 w-full"] []];
              Elem (Html "div")
                ["className" =: PStr "text-xs md:text-sm font-semibold text-[#666] whitespace-nowrap bg-white/60 rounded-full px-3 py-1 backdrop-blur-sm"]
                [Text "열차"]];
           Elem (Html "div")
             ["className" =: PStr "relative flex flex-col items-center gap-2 z-10"]
             [Elem (Html "div")
                ["className" =: PStr "relative bg-gradient-to-b from-[#222]/10 via-[#222]/20 to-[#222]/10 rounded-lg px-4 md:px-6 py-8 md:py-10 border border-[#222]/20 shadow-lg w-full"]
                [Elem (Motion "div")
                   ["initial" =: PObj ["opacity" =: PNum 0%float; "x" =: PNum (-20)%float];
                    "animate" =: PObj ["opacity" =: PNum 1%float; "x" =: PNum 0%float];
                    "transition" =: PObj ["duration" =: PNum 0.8%float; "delay" =: PNum 0.6%float];
                    "className" =: PStr "absolute left-2 top-1/2 -translate-y-1/2 flex items-center gap-1 md:gap-2"] [];
                 Elem (Html "div")
                   ["className" =: PStr "h-px bg-[#222]/20 w-full"] []];
              Elem (Html "div")
                ["className" =: PStr "text-xs md:text-sm font-semibold text-[#666] whitespace-nowrap bg-white/60 rounded-full px-3 py-1 backdrop-blur-sm"]
                [Text "열차"]];
           Elem (Html "div")
             ["className" =: PStr "flex-1 relative"]
             [Elem (Motion "div")
                ["initial" =: PObj ["scale" =: PNum 0%float];
                 "animate" =: PObj ["scale" =: PNum 1%float];
                 "transition" =: PObj ["duration" =: PNum 0.6%float; "delay" =: PNum 0.4%float];
                 "className" =: PStr "absolute left-0 top-1/2 -translate-y-1/2 -translate-x-1/2 flex flex-col items-center gap-1 z-20"]
                [Elem (Html "div")
                   ["className" =: PStr "w-1.5 h-24 md:h-28 bg-gradient-to-b from-[#FFD9D9] via-[#FF9E9E] to-[#FF6B6B] rounded-full shadow-lg shadow-[#FF6B6B]/50"] []];
              Elem (Motion "div")
                ["initial" =: PObj ["opacity" =: PNum 0%float; "x" =: PNum 20%float];
                 "animate" =: PObj ["opacity" =: PNum 1%float; "x" =: PNum 0%float];
                 "transition" =: PObj ["duration" =: PNum 0.8%float; "delay" =: PNum 0.3%float];
                 "className" =: PStr "relative bg-white/70 backdrop-blur-md rounded-3xl p-8 md:p-10 shadow-xl border border-white/50"]
                [Elem (Html "div")
                   ["className" =: PStr "absolute inset-0 rounded-3xl bg-gradient-to-bl from-[#FF6B6B]/20 to-transparent opacity-50"] [];
                 Elem (Html "div")
                   ["className" =: PStr "flex items-center justify-center h-28 md:h-36 relative z-10"]
                   [Elem (Html "div")
                      ["className" =: PStr "relative"]
                      [Elem (Html "div")
                         ["className" =: PStr "absolute inset-0 w-20 h-20 md:w-24 md:h-24 rounded-full bg-gradient-to-br from-[#FF6B6B]/30 to-[#FF9E9E]/30 blur-xl"] [];
                       Elem (Html "div")
                         ["className" =: PStr "relative w-20 h-20 md:w-24 md:h-24 rounded-full bg-gradient-to-br from-[#FF6B6B]/40 via-[#FF9E9E]/30 to-[#FFD9D9]/20 flex items-center justify-center shadow-inner"]
                         [Elem (Html "span")
                            ["className" =: PStr "text-3xl md:text-4xl"]
                            [Text "🙋🏻‍♀️"]]]]]]];
        Elem (Motion "div")
          ["initial" =: PObj ["opacity" =: PNum 0%float];
           "animate" =: PObj ["opacity" =: PNum 1%float];
           "transition" =: PObj ["duration" =: PNum 0.8%float; "delay" =: PNum 0.6%float];
           "className" =: PStr "text-center mt-8"]
          [Elem (Html "p")
             ["className" =: PStr "text-sm md:text-base text-[#666] font-medium bg-white/40 backdrop-blur-sm rounded-full px-4 py-2 inline-block"]
             [Text "반대편에서 만나는 첫인상"]]]].

(** The three paragraphs of the hero section, which fade up one after the other when they come into view (page.tsx 425-459). *)
Definition hero_copy : Node :=
  Elem (Motion "div")
    ["variants" =: stagger;
     "initial" =: PStr "hidden";
     "whileInView" =: PStr "show";
     "viewport" =: PObj ["once" =: PBool true; "margin" =: PStr "-80px"];
     "className" =: PStr " text-center space-y-5"]
    [Elem (Motion "p")
       ["variants" =: fadeUp;
        "className" =: PStr "text-sm md:text-base text-[#666] leading-relaxed font-medium"]
       [Text "스크린도어가 열리면, 인연도 함께 열립니다."];
     Elem (Motion "p")
       ["variants" =: fadeUp;
        "className" =: PStr "text-base md:text-base text-[#444] leading-relaxed max-w-xl mx-auto font-medium"]
       [Text "지하철 반대편 스크린도어에서, ";
        Elem (Html "span")
          ["className" =: PStr "font-bold text-[#222]"]
          [Text "첫인상으로만"];
        Text " 연결되는 새로운 소개팅 실험.";
        Elem (Html "br")
          ["className" =: PStr "hidden md:block"] [];
        Elem (Html "span")
          ["className" =: PStr "font-bold text-[#222]"]
          [Text "눈빛 하나로"];
        Text " 인연이 열리는 순간을 상상해보세요."];
     Elem (Motion "p")
       ["variants" =: fadeUp;
        "className" =: PStr "text-xs md:text-sm text-[#666] leading-relaxed max-w-xl mx-auto mt-4"]
       [Text "**완전 블라인드는 아니라서, 참여 전 기본 신상정보와 사진 1장을 확인해";
        Elem (Html "br")
          ["className" =: PStr "hidden md:inline"] [];
        Text "안전하고 신뢰할 수 있는 매칭을 위해 노력합니다.**"]].

(** Section 1, the hero: the picture and the three paragraphs that present the idea (page.tsx 277-460). *)
Definition hero_section : Node :=
  Elem (Html "section")
    ["id" =: PStr "about";
     "className" =: PStr "pt-28 md:pt-32 pb-12"]
    [screendoor;
     Elem (Html "div")
       ["className" =: PStr "mx-auto mt-8 h-1 w-20 bg-gradient-to-r from-transparent via-[#FF6B6B] to-transparent rounded-full blur-sm"] [];
     hero_copy].

(** Section 2, the concept (page.tsx 463-492). *)
Definition concept_section : Node :=
  Elem (Html "section")
    ["className" =: PStr "pb-12  md:pb-14 "]
    [Elem (Motion "div")
       ["initial" =: PObj ["opacity" =: PNum 0%float; "y" =: PNum 20%float];
        "whileInView" =: PObj ["opacity" =: PNum 1%float; "y" =: PNum 0%float];
        "viewport" =: PObj ["once" =: PBool true; "margin" =: PStr "-80px"];
        "transition" =: PObj ["duration" =: PNum 0.7%float];
        "className" =: PStr "rounded-xl p-6 md:p-8 bg-white shadow-sm border border-[#FFE8E8]"]
       [Elem (Html "h2")
          ["className" =: PStr "text-base md:text-xl font-semibold mb-5 text-[#222]"]
          [Text "첫인상은, 스크린을 넘어 현실에서 느껴야 하니까 🤔"];
        Elem (Html "div")
          ["className" =: PStr "space-y-4 text-sm md:text-base leading-relaxed text-[#555]"]
          [Elem (Html "p")
             ["className" =: PStr "font-medium"]
             [Elem (Html "span")
                ["className" =: PStr "font-semibold text-[#222]"]
                [Text "소개팅 앱의 사진과 실제는 다릅니다."];
              Elem (Html "br") [] [];
              Text "우리는 많은 사람들이 첫인상에서 연인으로 발전할 가능성을 판단한다고 믿습니다."];
           Elem (Html "p")
             ["className" =: PStr "pt-3 border-t font-medium border-[#FFE8E8]"]
             [Text "그런데 막상 만났을 때, 외모가 마음에 안 들어도 거절하기 쉽지 않죠.";
              Elem (Html "br") [] [];
              Elem (Html "span")
                ["className" =: PStr "font-semibold text-[#222]"]
                [Text "서로 쓰고 싶지 않은 시간과 돈을 낭비하는 일"];
              Text "을 방지하고 싶습니다."];
           Elem (Html "p")
             ["className" =: PStr "pt-3 text-[#FF6B6B] font-semibold"]
             [Text "지하철 스크린도어 앞에서, ";
              Elem (Html "span")
                ["className" =: PStr "font-bold"]
                [Text "10초의 첫인상"];
              Text "으로 결정하세요.";
              Elem (Html "br") [] [];
              Text "마음에 들면 타지 않고, 아니면 그냥 열차에 탑승하면 됩니다."]]]].

(** What replaces the survey once it is submitted (page.tsx 497-509). *)
Definition survey_thanks : Node :=
  Elem (Motion "div")
    ["initial" =: PObj ["opacity" =: PNum 0%float; "scale" =: PNum 0.95%float];
     "animate" =: PObj ["opacity" =: PNum 1%float; "scale" =: PNum 1%float];
     "transition" =: PObj ["duration" =: PNum 0.5%float];
     "className" =: PStr "rounded-xl p-8 md:p-10 bg-white shadow-sm border border-[#FFE8E8] text-center"]
    [Elem (Html "div")
       ["className" =: PStr "text-4xl mb-4"]
       [Text "✨"];
     Elem (Html "h3")
       ["className" =: PStr "text-lg md:text-xl font-semibold mb-2 text-[#222]"]
       [Text "설문에 참여해주셔서 감사합니다!"];
     Elem (Html "p")
       ["className" =: PStr "text-sm md:text-base text-[#666]"] []].

(** A button of the first question (page.tsx 539-564). *)
Definition gender_button (snap : State) (item : Item) : Node :=
  Elem (Motion "button")
    ["key" =: PStr (key item);
     "type" =: PStr "button";
     "onClick" =: PHandler (OnClickOption QGender item);
     "disabled" =: PBool (isSubmitting snap);
     "whileHover" =: PObj ["y" =: PNum (-1)%float; "scale" =: PNum 1.01%float];
     "whileTap" =: PObj ["scale" =: PNum 0.99%float];
     "transition" =: PObj ["type" =: PStr "spring"; "stiffness" =: PNum 300%float; "damping" =: PNum 20%float];
     "className" =: PStr ("rounded-lg px-4 py-3 text-sm font-medium border transition-colors "
         ++ (if bool_decide (gender snap = Some (key item)) then "border-[#FF6B6B] bg-[#FFF5F5] text-[#FF6B6B]" else "border-[#FFE8E8] bg-white text-[#444] hover:border-[#FFD9D9]")
         ++ " "
         ++ (if isSubmitting snap then "opacity-50 cursor-not-allowed" else ""))]
    [Text (label item)].

(** The first question (page.tsx 530-567). *)
Definition gender_question (snap : State) : Node :=
  Elem (Html "div") []
    [Elem (Html "label")
       ["className" =: PStr "block text-sm font-medium text-[#222] mb-3"]
       [Text "성별을 알려주세요"];
     Elem (Html "div")
       ["className" =: PStr "grid grid-cols-2 gap-2.5"]
       [Arr (gender_button snap <$> genderItems)]].

(** A button of the second question (page.tsx 582-601). *)
Definition ageGroup_button (snap : State) (item : Item) : Node :=
  Elem (Motion "button")
    ["key" =: PStr (key item);
     "type" =: PStr "button";
     "onClick" =: PHandler (OnClickOption QAgeGroup item);
     "disabled" =: PBool (isSubmitting snap);
     "whileHover" =: PObj ["y" =: PNum (-1)%float; "scale" =: PNum 1.01%float];
     "whileTap" =: PObj ["scale" =: PNum 0.99%float];
     "transition" =: PObj ["type" =: PStr "spring"; "stiffness" =: PNum 300%float; "damping" =: PNum 20%float];
     "className" =: PStr ("rounded-lg px-4 py-2.5 text-xs md:text-sm font-medium border transition-colors "
         ++ (if bool_decide (ageGroup snap = Some (key item)) then "border-[#FF6B6B] bg-[#FFF5F5] text-[#FF6B6B]" else "border-[#FFE8E8] bg-white text-[#444] hover:border-[#FFD9D9]")
         ++ " "
         ++ (if isSubmitting snap then "opacity-50 cursor-not-allowed" else ""))]
    [Text (label item)].

(** The second question (page.tsx 570-604). *)
Definition ageGroup_question (snap : State) : Node :=
  Elem (Html "div") []
    [Elem (Html "label")
       ["className" =: PStr "block text-sm font-medium text-[#222] mb-3"]
       [Text "나이대를 알려주세요"];
     Elem (Html "div")
       ["className" =: PStr "grid grid-cols-2 sm:grid-cols-3 gap-2.5"]
       [Arr (ageGroup_button snap <$> ageGroupItems)]].

(** A button of the third question (page.tsx 617-636). *)
Definition interest_button (snap : State) (item : Item) : Node :=
  Elem (Motion "button")
    ["key" =: PStr (key item);
     "type" =: PStr "button";
     "onClick" =: PHandler (OnClickOption QInterest item);
     "disabled" =: PBool (isSubmitting snap);
     "whileHover" =: PObj ["y" =: PNum (-1)%float; "scale" =: PNum 1.01%float];
     "whileTap" =: PObj ["scale" =: PNum 0.99%float];
     "transition" =: PObj ["type" =: PStr "spring"; "stiffness" =: PNum 300%float; "damping" =: PNum 20%float];
     "className" =: PStr ("rounded-lg px-4 py-2.5 text-xs md:text-sm font-medium border transition-colors "
         ++ (if bool_decide (interest snap = Some (key item)) then "border-[#FF6B6B] bg-[#FFF5F5] text-[#FF6B6B]" else "border-[#FFE8E8] bg-white text-[#444] hover:border-[#FFD9D9]")
         ++ " "
         ++ (if isSubmitting snap then "opacity-50 cursor-not-allowed" else ""))]
    [Text (label item)].

(** The third question (page.tsx 607-639). *)
Definition interest_question (snap : State) : Node :=
  Elem (Html "div") []
    [Elem (Html "label")
       ["className" =: PStr "block text-sm font-medium text-[#222] mb-3"]
       [Text "참여 의사가 있으신가요?"];
     Elem (Html "div")
       ["className" =: PStr "grid grid-cols-2 sm:grid-cols-3 gap-2.5"]
       [Arr (interest_button snap <$> interestItems)]].

(** A button of the fourth question, with its emoji (page.tsx 654-678). *)
Definition reaction_button (snap : State) (item : Item) : Node :=
  Elem (Motion "button")
    ["key" =: PStr (key item);
     "type" =: PStr "button";
     "onClick" =: PHandler (OnClickOption QReaction item);
     "disabled" =: PBool (isSubmitting snap);
     "whileHover" =: PObj ["y" =: PNum (-1)%float; "scale" =: PNum 1.01%float];
     "whileTap" =: PObj ["scale" =: PNum 0.99%float];
     "transition" =: PObj ["type" =: PStr "spring"; "stiffness" =: PNum 300%float; "damping" =: PNum 20%float];
     "className" =: PStr ("rounded-lg px-4 py-3 text-sm font-medium border transition-colors text-left flex items-center gap-2.5 "
         ++ (if bool_decide (reaction snap = Some (key item)) then "border-[#FF6B6B] bg-[#FFF5F5] text-[#FF6B6B]" else "border-[#FFE8E8] bg-white text-[#444] hover:border-[#FFD9D9]")
         ++ " "
         ++ (if isSubmitting snap then "opacity-50 cursor-not-allowed" else ""))]
    [Elem (Html "span")
       ["className" =: PStr "text-lg";
        "aria-hidden" =: PBool true]
       [Text (default "" (emoji item))];
     Elem (Html "span")
       ["className" =: PStr "text-xs md:text-sm leading-snug"]
       [Text (label item)]].

(** The fourth question (page.tsx 643-681). *)
Definition reaction_question (snap : State) : Node :=
  Elem (Html "div") []
    [Elem (Html "label")
       ["className" =: PStr "block text-sm font-medium text-[#222] mb-3"]
       [Text "이 아이디어, 당신은 어떻게 느끼시나요?"];
     Elem (Html "div")
       ["className" =: PStr "grid grid-cols-1 sm:grid-cols-2 gap-2.5"]
       [Arr (reaction_button snap <$> reactionItems)]].

(** The notice on the use of the answers (page.tsx 684-693). *)
Definition survey_notice : Node :=
  Elem (Html "div")
    ["className" =: PStr "pt-4 border-t border-[#FFE8E8]"]
    [Elem (Html "div")
       ["className" =: PStr "space-y-2"]
       [Elem (Html "p")
          ["className" =: PStr "text-xs text-[#999] leading-relaxed"]
          [Text "수집된 정보는 ";
           Elem (Html "span")
             ["className" =: PStr "font-medium text-[#222]"]
             [Text "매칭 및 오픈 알림"];
           Text " 용도로만 사용되며,";
           Elem (Html "span")
             ["className" =: PStr "font-medium text-[#222]"]
             [Text " 외부에 공개되거나 다른 용도로 사용되지 않습니다"];
           Text ".";
           Elem (Html "br") [] [];
           Text "실험 종료 후 즉시 폐기됩니다."]]].

(** The submit button of the survey, with a spinner while the submission is in flight (page.tsx 696-717). *)
Definition survey_submit (snap : State) : Node :=
  Elem (Html "div")
    ["className" =: PStr "pt-2"]
    [Elem (Motion "button")
       ["type" =: PStr "button";
        "onClick" =: PHandler OnSubmitSurvey;
        "disabled" =: PBool (submit_disabled snap);
        "whileHover" =: PObj ["scale" =: PNum (if isSubmitting snap then 1%float else 1.02%float)];
        "whileTap" =: PObj ["scale" =: PNum (if isSubmitting snap then 1%float else 0.98%float)];
        "className" =: PStr "w-full rounded-lg bg-gradient-to-r from-[#FF9E9E] to-[#FF6B6B] text-white font-medium px-6 py-3 text-sm shadow-sm disabled:opacity-50 disabled:cursor-not-allowed flex items-center justify-center gap-2"]
       [(if isSubmitting snap
         then
           Elem (Fragment) []
             [Elem (Html "svg")
                ["className" =: PStr "animate-spin h-4 w-4 text-white";
                 "xmlns" =: PStr "http://www.w3.org/2000/svg";
                 "fill" =: PStr "none";
                 "viewBox" =: PStr "0 0 24 24"]
                [Elem (Html "circle")
                   ["className" =: PStr "opacity-25";
                    "cx" =: PStr "12";
                    "cy" =: PStr "12";
                    "r" =: PStr "10";
                    "stroke" =: PStr "currentColor";
                    "strokeWidth" =: PStr "4"] [];
                 Elem (Html "path")
                   ["className" =: PStr "opacity-75";
                    "fill" =: PStr "currentColor";
                    "d" =: PStr "M4 12a8 8 0 018-8V0C5.373 0 0 5.373 0 12h4zm2 5.291A7.962 7.962 0 014 12H0c0 3.042 1.135 5.824 3 7.938l3-2.647z"] []];
              Text "제출 중..."]
         else
           Text "설문 제출하기")]].

(** The survey: the invitation, the four questions, the notice and the submit button (page.tsx 511-719). *)
Definition survey_form (snap : State) : Node :=
  Elem (Motion "div")
    ["initial" =: PObj ["opacity" =: PNum 0%float; "y" =: PNum 20%float];
     "whileInView" =: PObj ["opacity" =: PNum 1%float; "y" =: PNum 0%float];
     "viewport" =: PObj ["once" =: PBool true; "margin" =: PStr "-80px"];
     "transition" =: PObj ["duration" =: PNum 0.7%float];
     "className" =: PStr "rounded-xl p-6 md:p-8 bg-white shadow-sm border border-[#FFE8E8]"]
    [Elem (Html "div")
       ["className" =: PStr "mb-6"]
       [Elem (Html "h3")
          ["className" =: PStr "text-base md:text-lg font-semibold mb-2 text-[#222]"]
          [Text "💌 단 10초면 끝나요! 여러분의 설문이      ";
           Elem (Html "br") [] [];
           Text " “소개팅이 열립니다” 첫 실험을 만들어가요 🙇🏻"];
        Elem (Html "p")
          ["className" =: PStr "text-sm font-medium md:text-base text-[#666]"]
          [Text "👉 지금 참여하고, 첫 실험 소식을 가장 먼저 받아보세요!"]];
     Elem (Html "div")
       ["className" =: PStr "space-y-6"]
       [gender_question snap;
        ageGroup_question snap;
        interest_question snap;
        reaction_question snap;
        survey_notice;
        survey_submit snap]].

(** Section 3: the survey, or the thanks once it is submitted (page.tsx 495-721). *)
Definition survey_section (snap : State) : Node :=
  Elem (Html "section")
    ["className" =: PStr "pb-12 md:pb-16"]
    [(if isSubmitted snap then survey_thanks else survey_form snap)].

(** What replaces the signup form while the success view is up (page.tsx 726-739). *)
Definition signup_success : Node :=
  Elem (Motion "div")
    ["initial" =: PObj ["opacity" =: PNum 0%float; "scale" =: PNum 0.95%float];
     "animate" =: PObj ["opacity" =: PNum 1%float; "scale" =: PNum 1%float];
     "transition" =: PObj ["duration" =: PNum 0.5%float];
     "className" =: PStr "rounded-xl bg-gradient-to-r from-[#FF9E9E] to-[#FF6B6B] p-6 md:p-8 text-white shadow-sm text-center"]
    [Elem (Html "div")
       ["className" =: PStr "text-4xl mb-4"]
       [Text "✨"];
     Elem (Html "h3")
       ["className" =: PStr "text-lg md:text-xl font-semibold mb-2"]
       [Text "알림 받기 설정이 완료되었습니다!"];
     Elem (Html "p")
       ["className" =: PStr "text-sm md:text-base opacity-90"]
       [Text "첫 실험 소식을 가장 먼저 받아보세요."]].

(** The signup form: the controlled input and the submit button, with a spinner while the submission is in flight (page.tsx 741-786). *)
Definition signup_form (snap : State) : Node :=
  Elem (Motion "div")
    ["initial" =: PObj ["opacity" =: PNum 0%float];
     "whileInView" =: PObj ["opacity" =: PNum 1%float];
     "viewport" =: PObj ["once" =: PBool true; "margin" =: PStr "-80px"];
     "transition" =: PObj ["duration" =: PNum 0.8%float];
     "className" =: PStr "rounded-xl bg-gradient-to-r from-[#FF9E9E] to-[#FF6B6B] p-6 md:p-8 text-white shadow-sm"]
    [Elem (Html "div")
       ["className" =: PStr "text-center max-w-xl mx-auto"]
       [Elem (Html "h3")
          ["className" =: PStr "text-lg md:text-xl font-semibold leading-relaxed"] [];
        Elem (Html "p")
          ["className" =: PStr "mt-2 text-sm md:text-base opacity-90 leading-relaxed"]
          [Text "지금, “소개팅이 열립니다”의 첫 소식을 받아보세요."];
        Elem (Html "form")
          ["onSubmit" =: PHandler OnSubmit;
           "className" =: PStr "mt-6 flex flex-col sm:flex-row gap-2.5"]
          [Elem (Html "input")
             ["type" =: PStr "text";
              "placeholder" =: PStr "이메일 또는 카카오톡 ID 또는 인스타그램 ID";
              "value" =: PStr (emailOrId snap);
              "onChange" =: PHandler OnChangeInput;
              "disabled" =: PBool (isInterestSubmitting snap);
              "className" =: PStr "flex-1 rounded-full px-4 py-3 text-sm text-[#222] bg-white placeholder:text-[#999] border-2 border-white/80 focus:outline-none focus:border-white focus:ring-2 focus:ring-white/30 transition-all disabled:opacity-50 disabled:cursor-not-allowed"] [];
           Elem (Motion "button")
             ["type" =: PStr "submit";
              "disabled" =: PBool (isInterestSubmitting snap);
              "whileHover" =: PObj (if isInterestSubmitting snap then [] else ["scale" =: PNum 1.02%float]);
              "whileTap" =: PObj (if isInterestSubmitting snap then [] else ["scale" =: PNum 0.98%float]);
              "className" =: PStr "rounded-full bg-white text-[#FF6B6B] font-medium px-6 py-3 text-sm shadow-sm whitespace-nowrap border-2 border-white hover:bg-[#FFF5F5] transition-colors disabled:opacity-50 disabled:cursor-not-allowed flex items-center justify-center gap-2"]
             [(if isInterestSubmitting snap
               then
                 Elem (Fragment) []
                   [Elem (Html "svg")
                      ["className" =: PStr "animate-spin h-4 w-4 text-[#FF6B6B]";
                       "xmlns" =: PStr "http://www.w3.org/2000/svg";
                       "fill" =: PStr "none";
                       "viewBox" =: PStr "0 0 24 24"]
                      [Elem (Html "circle")
                         ["className" =: PStr "opacity-25";
                          "cx" =: PStr "12";
                          "cy" =: PStr "12";
                          "r" =: PStr "10";
                          "stroke" =: PStr "currentColor";
                          "strokeWidth" =: PStr "4"] [];
                       Elem (Html "path")
                         ["className" =: PStr "opacity-75";
                          "fill" =: PStr "currentColor";
                          "d" =: PStr "M4 12a8 8 0 018-8V0C5.373 0 0 5.373 0 12h4zm2 5.291A7.962 7.962 0 014 12H0c0 3.042 1.135 5.824 3 7.938l3-2.647z"] []];
                    Text "처리 중..."]
               else
                 Text "알림받기")]]]].

(** The privacy notice under the form (page.tsx 790-795). *)
Definition privacy_notice : Node :=
  Elem (Html "div")
    ["className" =: PStr "max-w-xl mx-auto mt-12 rounded-lg bg-white/80 text-[#555] p-4 text-xs shadow-sm border border-[#FFE8E8]"]
    [Text "제출하신 이메일 또는 ID는 ";
     Elem (Html "span")
       ["className" =: PStr "font-medium text-[#222]"]
       [Text "오픈 알림 발송"];
     Text " 용도로만 사용되며, 외부에 공개되거나 다른 용도로 사용되지 않습니다.";
     Elem (Html "br") [] [];
     Text "테스트 종료 후 즉시 폐기됩니다."].

(** Section 4: the signup form or its success view, and the privacy notice (page.tsx 724-796). *)
Definition interest_form_section (snap : State) : Node :=
  Elem (Html "section")
    ["id" =: PStr "signup";
     "className" =: PStr "pb-10 md:pb-12"]
    [(if isInterestSubmitted snap then signup_success else signup_form snap);
     privacy_notice].

(** The footer, with the second link to Instagram (page.tsx 799-820). *)
Definition footer : Node :=
  Elem (Html "footer")
    ["className" =: PStr "border-t border-[#FFE8E8] text-[#666] text-center py-8 mt-12"]
    [Elem (Html "div")
       ["className" =: PStr "flex flex-col items-center gap-1.5"]
       [Elem (Html "p")
          ["className" =: PStr "text-xs md:text-sm"]
          [Text "© 2025 소개팅이 열립니다 — 지하철 첫인상 매칭 실험"];
        Elem (Html "p")
          ["className" =: PStr "text-xs opacity-70"]
          [Text "스크린도어가 아닌, 인연의 도어가 열립니다."];
        Elem (Html "div")
          ["className" =: PStr "mt-3 flex items-center gap-3"]
          [Elem (Html "a")
             ["href" =: PStr "https://www.instagram.com/blind_date_explained/";
              "target" =: PStr "_blank";
              "rel" =: PStr "noopener noreferrer";
              "aria-label" =: PStr "Instagram";
              "className" =: PStr "opacity-60 hover:opacity-100 transition-opacity";
              "onClick" =: PHandler OnClickInstagram]
             [Elem (NextImage)
                ["src" =: PStr "/instagram.svg";
                 "alt" =: PStr "Instagram";
                 "width" =: PNum 18%float;
                 "height" =: PNum 18%float] []]]]].

(** What [Home] returns for a render that sees the state [snap] (page.tsx 228-823). *)
Definition Home (snap : State) : Node :=
  Elem (Html "main")
    ["className" =: PStr "min-h-screen w-full bg-[#FFF5F5] text-[#222]"]
    [header;
     Elem (Html "div")
       ["className" =: PStr "mx-auto max-w-3xl px-5 md:px-8"]
       [hero_section;
        concept_section;
        survey_section snap;
        interest_form_section snap;
        footer]].


(** The button of an option of question [q]. *)
Definition option_button (q : Question) : State → Item → Node :=
  match q with
  | QGender => gender_button
  | QAgeGroup => ageGroup_button
  | QInterest => interest_button
  | QReaction => reaction_button
  end.

(** The buttons of the options. *)
Create HintDb markup discriminated.

#[export] Hint Unfold gender_button ageGroup_button interest_button
  reaction_button : markup.

(** ** Reading a view off the markup *)

Definition questions : list Question := [QGender; QAgeGroup; QInterest; QReaction].

(** The handlers of the option buttons, in document order. *)
Definition option_handlers : list Handler :=
  flat_map (λ q, OnClickOption q <$> items_of q) questions.

(** An option is highlighted by the coral border. *)
Definition highlighted (e : Node) : bool :=
  bool_decide ("border-[#FF6B6B]" ∈ classes e).

(** What an element shows of an option of question [q], if it is one of its
    buttons. *)
Definition option_button_of (q : Question) (e : Node) : option OptionButton :=
  match handler "onClick" e with
  | Some (OnClickOption q' item) =>
    if decide (q' = q)
    then Some (mkButton item (highlighted e) (is_disabled e))
    else None
  | _ => None
  end.

Definition buttons_in (q : Question) (n : Node) : list OptionButton :=
  omap (option_button_of q) (elements n).

(** The first element of a tree that satisfies a test. *)
Definition find_element (f : Node → bool) (n : Node) : option Node :=
  head (List.filter f (elements n)).

Definition has_handler (k : string) (h : Handler) (e : Node) : bool :=
  bool_decide (handler k e = Some h).

(** The survey section of a tree: the form when the tree holds the submit
    button of the survey, the thanks otherwise. *)
Definition survey_view (n : Node) : SurveySection :=
  match find_element (has_handler "onClick" OnSubmitSurvey) n with
  | Some b =>
    SurveyForm (buttons_in QGender n) (buttons_in QAgeGroup n)
      (buttons_in QInterest n) (buttons_in QReaction n)
      (is_disabled b) (textContent b)
  | None => ThankYou
  end.

(** The signup section of a tree: the form when the tree holds the input
    and a submit button, the success view otherwise. *)
Definition signup_view (n : Node) : SignupSection :=
  match find_element (has_handler "onChange" OnChangeInput) n,
        find_element (λ e, bool_decide (attr "type" e = Some "submit")) n with
  | Some i, Some b =>
    SignupForm (default "" (attr "value" i)) (is_disabled i) (is_disabled b)
      (textContent b)
  | _, _ => SignupSuccess
  end.

Definition view_of (n : Node) : View := mkView (survey_view n) (signup_view n).

(** What a view lets the user do. *)
Definition offered (h : Handler) (v : View) : bool :=
  match h with
  | OnClickInstagram => true
  | OnClickOption q item => can_select q item v
  | OnSubmitSurvey => can_submit_survey v
  | OnChangeInput => can_type v
  | OnSubmit => can_submit_signup v
  end.

(** The handler that an event of the user runs. *)
Definition handler_of_event (e : Event) : option Handler :=
  match e with
  | ClickInstagram => Some OnClickInstagram
  | Select q item => Some (OnClickOption q item)
  | ClickSubmitSurvey => Some OnSubmitSurvey
  | ChangeInput _ => Some OnChangeInput
  | SubmitForm => Some OnSubmit
  | _ => None
  end.

(** ** Lemmas *)

Arguments option_button : simpl never.

(** Case analysis on the flags of the state that decide the shape of the
    markup.  The submit button of the survey is the only element that looks
    at whether the answers are complete: its flag is exposed and
    generalised, so that what remains evaluates. *)
Ltac snap_cases snap :=
  unfold Home, survey_section, survey_form, survey_submit, submit_disabled;
  generalize (survey_incomplete snap); intros [];
  destruct snap as [? ? ? ? ? ? [] [] ? ? [] []].

(** Both sides evaluate to the same markup. *)
Ltac by_markup snap := snap_cases snap; vm_compute; reflexivity.

Lemma omap_filter {A B} (f : A → option B) (p : A → bool) (l : list A) :
  (∀ x, p x = false → f x = None) → omap f (List.filter p l) = omap f l.
Proof.
  intros H. induction l as [|x l IH]; [done|]. cbn [List.filter omap list_omap].
  destruct (p x) eqn:E; cbn [omap list_omap]; rewrite IH; [done|].
  by rewrite (H x E).
Qed.

(** An element with the [onClick] of an option. *)
Definition is_option (e : Node) : bool :=
  match handler "onClick" e with Some (OnClickOption _ _) => true | _ => false end.

(** The option buttons of the page are those of the four questions, in the
    order of the page, and none once the survey is submitted. *)
Lemma option_elements snap :
  List.filter is_option (elements (Home snap))
  = if isSubmitted snap then []
    else flat_map (λ q, option_button q snap <$> items_of q) questions.
Proof.
  cbn [flat_map questions]. unfold option_button.
  destruct snap as [? ? ? ? ? ? [] [] ? ? [] []]; vm_compute; reflexivity.
Qed.

Lemma option_button_handler q snap item :
  handler "onClick" (option_button q snap item) = Some (OnClickOption q item).
Proof. by destruct q. Qed.

Lemma option_button_disabled q snap item :
  is_disabled (option_button q snap item) = isSubmitting snap.
Proof. by destruct q. Qed.

(** The button of an option is highlighted exactly when the key of the
    option is the answer held by the state. *)
Lemma option_button_highlighted q snap item :
  highlighted (option_button q snap item)
  = bool_decide (answer_of q snap = Some (key item)).
Proof.
  unfold highlighted, classes, option_button.
  destruct q; autounfold with markup; cbn [answer_of];
    match goal with |- context [bool_decide (?a = Some (key item))] =>
      destruct (bool_decide (a = Some (key item))) end;
    destruct (isSubmitting snap); vm_compute; reflexivity.
Qed.

(** What the button of an option shows: its item, highlighted when its key
    is the answer held by the state, disabled during a submission. *)
Lemma option_button_view q q' snap item :
  option_button_of q' (option_button q snap item)
  = if decide (q = q')
    then Some (mkButton item (bool_decide (answer_of q snap = Some (key item)))
                 (isSubmitting snap))
    else None.
Proof.
  unfold option_button_of. rewrite option_button_handler.
  destruct (decide _); [|done].
  by rewrite option_button_highlighted, option_button_disabled.
Qed.

Lemma omap_option_buttons q q' snap items :
  omap (option_button_of q') (option_button q snap <$> items)
  = if decide (q = q')
    then option_buttons items (answer_of q snap) (isSubmitting snap)
    else [].
Proof.
  induction items as [|item items IH]; [by destruct (decide _)|].
  rewrite fmap_cons. cbn [omap list_omap]. rewrite option_button_view.
  rewrite IH. by destruct (decide _).
Qed.

Lemma buttons_in_Home q snap :
  buttons_in q (Home snap)
  = if isSubmitted snap then []
    else option_buttons (items_of q) (answer_of q snap) (isSubmitting snap).
Proof.
  unfold buttons_in. rewrite <- (omap_filter _ is_option), option_elements.
  - destruct (isSubmitted snap); [done|]. cbn [flat_map questions].
    rewrite !omap_app, !omap_option_buttons.
    destruct q; cbn; by rewrite ?app_nil_r.
  - intros e. unfold is_option, option_button_of.
    by destruct (handler "onClick" e) as [[]|].
Qed.

(** The submit button of the survey: present until the survey is
    submitted, disabled while a question is open or a submission is in
    flight. *)
Lemma survey_submit_view snap :
  (λ b, (is_disabled b, textContent b))
    <$> find_element (has_handler "onClick" OnSubmitSurvey) (Home snap)
  = if isSubmitted snap then None
    else Some (submit_disabled snap,
               if isSubmitting snap then "제출 중..." else "설문 제출하기").
Proof. by_markup snap. Qed.

Lemma survey_view_Home snap : survey_view (Home snap) = render_survey snap.
Proof.
  unfold survey_view, render_survey. pose proof (survey_submit_view snap) as H.
  rewrite !buttons_in_Home.
  destruct (find_element _ _) as [b|], (isSubmitted snap); try done.
  injection H as -> ->. done.
Qed.

Lemma signup_view_Home snap : signup_view (Home snap) = render_signup snap.
Proof. unfold signup_view, render_signup. by_markup snap. Qed.

(** The handlers that the page offers, in document order. *)
Lemma controls_Home snap :
  controls (Home snap)
  = OnClickInstagram
    :: (if isSubmitted snap then []
        else (if isSubmitting snap then [] else option_handlers)
             ++ (if submit_disabled snap then [] else [OnSubmitSurvey]))
    ++ (if isInterestSubmitted snap || isInterestSubmitting snap then []
        else [OnSubmit; OnChangeInput])
    ++ [OnClickInstagram].
Proof. by_markup snap. Qed.

Lemma option_handlers_spec h :
  h ∈ option_handlers ↔ ∃ q item, h = OnClickOption q item ∧ item ∈ items_of q.
Proof.
  unfold option_handlers. rewrite elem_of_flat_map. split.
  - intros (q & _ & (item & -> & Hin)%list_elem_of_fmap). by eauto.
  - intros (q & item & -> & Hin). exists q. split.
    + unfold questions. destruct q; repeat constructor.
    + by apply list_elem_of_fmap_2.
Qed.

Lemma option_handlers_elem q item :
  OnClickOption q item ∈ option_handlers ↔ item ∈ items_of q.
Proof.
  rewrite option_handlers_spec. split; [|by eauto].
  by intros (? & ? & [= <- <-] & ?).
Qed.

Lemma option_handlers_other h :
  (∀ q item, h ≠ OnClickOption q item) → h ∈ option_handlers ↔ False.
Proof.
  intros Hh. rewrite option_handlers_spec. split; [|done].
  intros (q & item & -> & _). by eapply Hh.
Qed.

(** The identifiers of the page. *)
Lemma ids_Home snap : ids (Home snap) = ["about"; "signup"].
Proof. by_markup snap. Qed.

(** The in-page links of the page. *)
Lemma anchors_Home snap : anchors (Home snap) = ["about"; "signup"].
Proof. by_markup snap. Qed.

(** The text of an option button is the emoji of the option, when it has
    one, and its label. *)
Lemma option_button_text q snap item :
  textContent (option_button q snap item)
  = match q with
    | QReaction => (default "" (emoji item) ++ label item)%string
    | _ => label item
    end.
Proof. by destruct q. Qed.

Lemma option_button_key q snap item :
  attr "key" (option_button q snap item) = Some (key item).
Proof. by destruct q. Qed.

(** Only the options of the last question have an emoji. *)
Lemma emoji_only_reaction q item :
  item ∈ items_of q → q ≠ QReaction → emoji item = None.
Proof.
  intros Hin Hq. destruct q; [| | |done]; cbn in Hin; elem_cases Hin;
    by subst.
Qed.

(** The button of every option is on the page until the survey is
    submitted. *)
Lemma option_button_in_Home snap q item :
  isSubmitted snap = false → item ∈ items_of q →
  option_button q snap item ∈ elements (Home snap).
Proof.
  intros Hs Hin.
  assert (option_button q snap item
          ∈ List.filter is_option (elements (Home snap))) as Hf.
  { rewrite option_elements, Hs. apply elem_of_flat_map. exists q. split.
    - unfold questions. destruct q; repeat constructor.
    - by apply list_elem_of_fmap_2. }
  by apply list_elem_of_In, filter_In in Hf as [?%list_elem_of_In _].
Qed.

(** ** The markup and the view *)

(** C14: the view that the transition system consults is the abstraction of
    the markup: for every state, reading the option buttons with their
    highlight and their disabled flag, the submit button with its text and
    the signup form with its value off the markup of [Home] gives
    [render]. *)
Theorem view_of_Home snap : view_of (Home snap) = render snap.
Proof.
  unfold view_of, render. by rewrite survey_view_Home, signup_view_Home.
Qed.

(** The handlers that a user can trigger in the markup of [Home] are
    those that the view offers: an option exactly when it belongs to its
    question and the survey is neither submitted nor being submitted, the
    submit button of the survey when in addition every question is
    answered, the input and the submit button of the signup form unless a
    signup is in flight or the success view is up, the links to Instagram
    always. *)
Theorem controls_offered snap h :
  h ∈ controls (Home snap) ↔ offered h (render snap) = true.
Proof.
  rewrite controls_Home, elem_of_cons, !elem_of_app, list_elem_of_singleton.
  destruct h as [|q item| | |]; cbn [offered];
    rewrite ?can_select_render, ?can_submit_survey_render, ?can_type_render,
      ?can_submit_signup_render; unfold submit_disabled;
    destruct (isSubmitted snap), (isSubmitting snap),
      (survey_incomplete snap), (isInterestSubmitted snap),
      (isInterestSubmitting snap); cbn [orb];
    rewrite ?elem_of_app, ?elem_of_cons, ?option_handlers_elem,
      ?option_handlers_other, ?elem_of_nil by done;
    intuition congruence.
Qed.

(** C15: an event of the user is enabled in the transition system exactly
    when the page is mounted and the markup of the last render holds an
    operable control bound to the handler that the event runs. *)
Theorem enabled_by_markup {S : Type} `{!Sdk S} (e : Event) (h : Handler)
    (p : Page S) :
  handler_of_event e = Some h →
  enabled e p = mounted p && bool_decide (h ∈ controls (Home (rendered p))).
Proof.
  intros He. rewrite (bool_decide_ext _ _ (controls_offered _ _)).
  rewrite bool_decide_is_true. destruct e; simplify_eq/=; by rewrite ?andb_true_r.
Qed.

(** C26: the markup of [Home] is well formed in every state: the
    identifiers are distinct, the in-page links of the header point to
    sections that exist, the links that open a new tab withhold the opener,
    every image has a source, an alternative text and dimensions, every
    button states its type, and the buttons made from a list of options
    carry distinct keys. *)
Theorem Home_well_formed snap : well_formed (Home snap) = true.
Proof. by_markup snap. Qed.

(** C24: every option button of the page shows the label that its click
    sends: an element of the markup whose [onClick] is that of option
    [item] of question [q] belongs to an option of [q], has the key of the
    option as its React key and the label of the option, after its emoji,
    as its text. *)
Theorem option_shows_label snap q item e :
  e ∈ elements (Home snap) →
  handler "onClick" e = Some (OnClickOption q item) →
  item ∈ items_of q
  ∧ attr "key" e = Some (key item)
  ∧ textContent e = (default "" (emoji item) ++ label item)%string.
Proof.
  intros He Hh.
  assert (e ∈ List.filter is_option (elements (Home snap))) as Hf.
  { apply list_elem_of_In, filter_In. split; [by apply list_elem_of_In|].
    unfold is_option. by rewrite Hh. }
  rewrite option_elements in Hf. destruct (isSubmitted snap).
  { by apply elem_of_nil in Hf. }
  apply elem_of_flat_map in Hf as (q' & _ & (item' & -> & Hin)%list_elem_of_fmap).
  rewrite option_button_handler in Hh. simplify_eq.
  rewrite option_button_key, option_button_text. split_and!; [done..|].
  destruct q; [rewrite (emoji_only_reaction _ _ Hin)..|]; done.
Qed.

(** ** The animations *)

(** The props of the pointer feedback. *)
Definition gestures : list string := ["whileHover"; "whileTap"].

(** The element changes its size under gesture [g]. *)
Definition feedback (g : string) (e : Node) : bool :=
  negb (gesture_value g no_labels (props_of e) "scale" =? 1)%float.

(** The three paragraphs of the hero name no state of their own: they take
    the labels of the block around them, mount hidden under its
    ["hidden"] and come to rest in place under its ["show"], each by its
    own [fadeUp]; the block itself, whose [stagger] has no ["hidden"], is
    visible from the start. *)
Lemma hero_copy_fades_in :
  let ls := mkLabels (Some "hidden") None (Some "show") in
  (motions no_labels hero_copy).*1 = replicate 4 ls
  ∧ (λ m, mounts_hidden m.1 m.2) <$> motions no_labels hero_copy
    = [false; true; true; true]
  ∧ (λ m, in_place m.1 m.2) <$> motions no_labels hero_copy
    = [true; true; true; true].
Proof. by vm_compute. Qed.

(** C27: every animated element of the page comes to rest in place: in
    every state, once an element is in view and its animations have run, it
    is opaque, of its own size and at its place in the layout, whether its
    states are written as objects or named by labels that it takes from an
    ancestor.  No content stays hidden or displaced. *)
Theorem Home_rests_in_place snap ls e k :
  (ls, e) ∈ motions no_labels (Home snap) → k ∈ style_names →
  (rest_value ls (props_of e) k =? identity_value k)%float = true.
Proof.
  assert (forallb (λ m, in_place m.1 m.2) (motions no_labels (Home snap)) = true)
    as H by by_markup snap.
  intros He Hk. rewrite forallb_forall in H. apply list_elem_of_In, H in He.
  unfold in_place in He. rewrite forallb_forall in He.
  by apply He, list_elem_of_In.
Qed.

(** An option button reacts to the pointer in every state, also while the
    submission of the survey is in flight and the button is disabled. *)
Lemma option_feedback q snap item g :
  g ∈ gestures → feedback g (option_button q snap item) = true.
Proof.
  intros Hg. unfold gestures in Hg. elem_cases Hg; subst g;
    destruct q; unfold option_button; by vm_compute.
Qed.

(** The two submit buttons react to the pointer except while their own
    submission is in flight.  The button of the survey, which is also
    disabled while an answer is missing, reacts then. *)
Theorem submit_feedback snap g :
  g ∈ gestures →
  feedback g <$> find_element (has_handler "onClick" OnSubmitSurvey) (Home snap)
  = (if isSubmitted snap then None else Some (negb (isSubmitting snap)))
  ∧ feedback g
      <$> find_element (λ e, bool_decide (attr "type" e = Some "submit")) (Home snap)
    = (if isInterestSubmitted snap then None
       else Some (negb (isInterestSubmitting snap))).
Proof.
  intros Hg. unfold gestures in Hg. elem_cases Hg; subst g; split; by_markup snap.
Qed.

(** ** The handlers of the markup and the transition system *)

Section dispatch.
Context {S : Type} `{!Sdk S}.

(** The code that a handler of the markup runs when React calls it: the
    function of the render [snap] that the prop holds; [text] is the value
    of the input that an [onChange] receives. *)
Definition run_handler (h : Handler) (text : string) (snap : State) :
  JS (Page S) unit :=
  match h with
  | OnClickInstagram => onClick_instagram
  | OnClickOption q item => onClick_option q snap item
  | OnSubmitSurvey => onSubmitSurvey snap
  | OnChangeInput => onChange_input text
  | OnSubmit => onSubmit snap
  end.

(** The text that an event carries. *)
Definition input_of (e : Event) : string :=
  match e with ChangeInput text => text | _ => "" end.

(** What the transition system runs for an event of the user is the
    handler that the markup of the last render binds to the control,
    called with the snapshot of that render, then the render that React
    performs before the event ends. *)
Theorem handle_runs_markup_handler (e : Event) (h : Handler) :
  handler_of_event e = Some h →
  handle e
  = ((p ← get_st; run_handler h (input_of e) (rendered p));; commit).
Proof. intros He. by destruct e; simplify_eq/=. Qed.

End dispatch.

(** ** The theorems on concrete inputs *)

Lemma enabled_by_markup_witness :
  handler_of_event (Select QGender male) = Some (OnClickOption QGender male)
  ∧ enabled (Select QGender male) (run [Mount] (initial_page demo_world))
    = mounted (run [Mount] (initial_page demo_world))
      && bool_decide (OnClickOption QGender male
                      ∈ controls (Home (rendered (run [Mount] (initial_page demo_world))))).
Proof. split; [reflexivity|]. apply enabled_by_markup. reflexivity. Defined.

Lemma option_shows_label_witness :
  let e := option_button QReaction initial_state love in
  love ∈ items_of QReaction
  ∧ attr "key" e = Some "love"
  ∧ textContent e = "❤️완전 흥미로워요".
Proof.
  apply (option_shows_label initial_state QReaction love).
  - apply option_button_in_Home; [reflexivity|]. cbn. repeat constructor.
  - reflexivity.
Defined.

Lemma Home_rests_in_place_witness :
  let ls := mkLabels (Some "hidden") None (Some "show") in
  let e := Elem (Motion "p")
             ["variants" =: fadeUp;
              "className" =: PStr "text-sm md:text-base text-[#666] leading-relaxed font-medium"]
             [Text "스크린도어가 열리면, 인연도 함께 열립니다."] in
  (mount_value ls (props_of e) "opacity" =? 0)%float = true
  ∧ (rest_value ls (props_of e) "opacity" =? identity_value "opacity")%float = true.
Proof.
  cbn zeta. split; [reflexivity|].
  apply (Home_rests_in_place initial_state).
  - vm_compute. repeat constructor.
  - repeat constructor.
Defined.

Lemma handle_runs_markup_handler_witness :
  handler_of_event ClickSubmitSurvey = Some OnSubmitSurvey
  ∧ handle (S:=unit) ClickSubmitSurvey
    = ((p ← get_st; run_handler OnSubmitSurvey "" (rendered p));; commit).
Proof.
  split; [reflexivity|].
  exact (handle_runs_markup_handler ClickSubmitSurvey OnSubmitSurvey eq_refl).
Defined.
