(* ===== verification/Document.v ===== *)
(** * The document around the page and the configuration of its stylesheet

    [RootLayout] (layout.tsx 12-24) wraps the page in the [html] and [body]
    elements; [metadata] (layout.tsx 5-10) is what the framework puts in
    the head.  [config] (tailwind.config.ts 3-49) tells the stylesheet
    generator which files to scan for class names and extends its theme.

    The stylesheet generator is not part of the repository: [glob_match]
    and [extension_ref] describe the two things it does with [config],
    matching file names against the [content] patterns and resolving a
    class name against the keys of the theme.  The theorems say that the
    document is well formed and declares its language, that the two files
    that write class names are scanned, and which keys of the theme
    extension the document refers to. *)

From Stdlib Require Import Ascii.
From S2P Require Import Prelude JsString JsValue Effects Browser Identity.
From S2P Require Import Tracking PageState Survey Signup Observer View Page.
From S2P Require Import Markup Home.

#[local] Open Scope string_scope.
#[local] Open Scope list_scope.
#[local] Open Scope markup_scope.

(** ** The layout (layout.tsx) *)

Record Metadata : Type := mkMetadata {
  title : string;
  description : string;
  icons : list (string * string);
}.

Definition metadata : Metadata :=
  mkMetadata "소개팅이 열립니다"
    "지하철 반대편 첫인상으로 연결되는 새로운 소개팅 실험. 오픈 알림을 받아보세요."
    ["icon" =: "/favicon.ico"].

Definition RootLayout (children : list Node) : Node :=
  Elem (Html "html")
    ["lang" =: PStr "ko"]
    [Elem (Html "body")
       ["className" =: PStr "antialiased bg-[#FFF5F5] text-[#222] font-sans"]
       children].

(** The document of the route [/]: the layout around the page. *)
Definition document (snap : State) : Node := RootLayout [Home snap].

(** ** The configuration of the stylesheet (tailwind.config.ts) *)

Record Theme : Type := mkTheme {
  colors : list (string * string);
  boxShadow : list (string * string);
  borderRadius : list (string * string);
  fontFamily : list (string * list string);
  maxWidth : list (string * string);
}.

Record Config : Type := mkConfig {
  content : list string;
  extend : Theme;
  plugins : list string;
}.

Definition config : Config :=
  mkConfig
    [ "./src/app/**/*.{ts,tsx}";
      "./src/components/**/*.{ts,tsx}";
      "./src/**/*.{ts,tsx}" ]
    (mkTheme
       [ "pinkBg" =: "#FFF5F5";
         "pinkSoft" =: "#FFE8E8";
         "coral" =: "#FF6B6B";
         "coralSoft" =: "#FF9E9E";
         "divider" =: "#FFD9D9";
         "textDark" =: "#222222" ]
       [ "roseSoft" =: "0 4px 6px -1px rgba(244, 63, 94, 0.12), 0 2px 4px -2px rgba(244, 63, 94, 0.08)" ]
       [ "xl" =: "0.75rem";
         "2xl" =: "1rem" ]
       [ "sans" =:
           [ "'Noto Sans KR Variable'";
             "'Noto Sans KR'";
             "system-ui";
             "-apple-system";
             "Segoe UI";
             "Roboto";
             "Ubuntu";
             "Cantarell";
             "'Noto Sans'";
             "'Helvetica Neue'";
             "Arial";
             "'Apple Color Emoji'";
             "'Segoe UI Emoji'" ] ]
       [ "screen-lg" =: "1024px" ])
    [].

(** ** Matching file names against [content] *)

(** The alternatives of a pattern with at most one group [{a,b,...}]. *)
Fixpoint split_on (sep : ascii) (acc s : string) : list string :=
  match s with
  | "" => [acc]
  | String c s' =>
    if Ascii.eqb c sep then acc :: split_on sep "" s'
    else split_on sep (acc ++ String c "") s'
  end.

(** The text before and after the first occurrence of a character. *)
Fixpoint cut_at (sep : ascii) (acc s : string) : option (string * string) :=
  match s with
  | "" => None
  | String c s' =>
    if Ascii.eqb c sep then Some (acc, s')
    else cut_at sep (acc ++ String c "") s'
  end.

Definition braces (pat : string) : list string :=
  match cut_at "{" "" pat with
  | Some (before, rest) =>
    match cut_at "}" "" rest with
    | Some (alts, after) =>
      (λ a, (before ++ a ++ after)%string) <$> split_on "," "" alts
    | None => [pat]
    end
  | None => [pat]
  end.

(** [*]: any characters of one path segment, then [k]. *)
Definition star (k : string → bool) : string → bool :=
  fix star (path : string) : bool :=
    k path
    || match path with
       | String c path' => negb (Ascii.eqb c "/") && star path'
       | "" => false
       end.

(** [**/]: any number of directories, then [k]; [boundary] says that the
    path starts a segment. *)
Fixpoint dirs_at (k : string → bool) (boundary : bool) (path : string) : bool :=
  (boundary && k path)
  || match path with
     | String c path' => dirs_at k (Ascii.eqb c "/") path'
     | "" => false
     end.

Definition dirs (k : string → bool) : string → bool := dirs_at k true.

(** A pattern without wildcard. *)
Fixpoint literal (pat : string) : bool :=
  match pat with
  | "" => true
  | String c pat' => negb (Ascii.eqb c "*") && literal pat'
  end.

(** A pattern without braces against a path. *)
Fixpoint wild_match (pat : string) : string → bool :=
  match pat with
  | "" => λ path, String.eqb path ""
  | String c pat1 =>
    if Ascii.eqb c "*" then
      match pat1 with
      | String c1 (String c2 pat3) =>
        if Ascii.eqb c1 "*" && Ascii.eqb c2 "/"
        then dirs (wild_match pat3)
        else star (wild_match pat1)
      | _ => star (wild_match pat1)
      end
    else λ path,
      match path with
      | String c' path' => Ascii.eqb c c' && wild_match pat1 path'
      | "" => false
      end
  end.

(** A pattern of [content] against a path. *)
Definition glob_match (pat path : string) : bool :=
  existsb (λ p, wild_match p path) (braces pat).

(** The file is scanned for class names. *)
Definition scanned (cfg : Config) (path : string) : bool :=
  existsb (λ pat, glob_match pat path) (content cfg).

(** ** Resolving class names against the theme *)

(** A class without its variants: what follows the last colon outside
    square brackets. *)
Fixpoint utility_from (depth : nat) (acc s : string) : string :=
  match s with
  | "" => acc
  | String c s' =>
    if Ascii.eqb c "[" then utility_from (S depth) (acc ++ "[") s'
    else if Ascii.eqb c "]" then utility_from (pred depth) (acc ++ "]") s'
    else if Ascii.eqb c ":" && Nat.eqb depth 0 then utility_from 0 "" s'
    else utility_from depth (acc ++ String c "") s'
  end.

Definition utility (c : string) : string := utility_from 0 "" c.

(** What follows a prefix. *)
Definition after (pre s : string) : option string :=
  if String.prefix pre s
  then Some (drop_bytes (String.length pre) s)
  else None.

(** A value without its opacity modifier: [coral/50] is [coral]. *)
Definition without_opacity (k : string) : string :=
  match cut_at "/" "" k with Some (k', _) => k' | None => k end.

(** The groups of the theme. *)
Inductive Group : Type := Colors | BoxShadow | BorderRadius | FontFamily | MaxWidth.

#[export] Instance Group_eq_dec : EqDecision Group.
Proof. solve_decision. Defined.

(** The prefixes of the utilities that read a group of the theme. *)
Definition group_prefixes : list (string * Group) :=
  [ "bg-" =: Colors; "text-" =: Colors; "border-" =: Colors;
    "from-" =: Colors; "via-" =: Colors; "to-" =: Colors; "ring-" =: Colors;
    "placeholder-" =: Colors;
    "shadow-" =: BoxShadow; "rounded-" =: BorderRadius;
    "font-" =: FontFamily; "max-w-" =: MaxWidth ].

(** The keys that the configuration adds to a group. *)
Definition extension_keys (cfg : Config) (g : Group) : list string :=
  match g with
  | Colors => fst <$> colors (extend cfg)
  | BoxShadow => fst <$> boxShadow (extend cfg)
  | BorderRadius => fst <$> borderRadius (extend cfg)
  | FontFamily => fst <$> fontFamily (extend cfg)
  | MaxWidth => fst <$> maxWidth (extend cfg)
  end.

(** The keys of the theme extension that a class refers to. *)
Definition extension_ref (cfg : Config) (c : string) : list (Group * string) :=
  omap (λ pg : string * Group,
          k ← after pg.1 (utility c);
          let k := without_opacity k in
          if bool_decide (k ∈ extension_keys cfg pg.2) then Some (pg.2, k)
          else None)
       group_prefixes.

(** The colour that a class writes as an arbitrary value: [bg-[#FFF5F5]]
    writes [#FFF5F5]. *)
Definition arbitrary_color (c : string) : option string :=
  '(_, rest) ← cut_at "[" "" (utility c);
  '(v, _) ← cut_at "]" "" rest;
  if String.prefix "#" v then Some v else None.

(** The classes of a tree. *)
Definition all_classes (n : Node) : list string := flat_map classes (elements n).

(** ** Lemmas *)

Lemma glob_examples :
  glob_match "./src/app/**/*.{ts,tsx}" "./src/app/page.tsx" = true
  ∧ glob_match "./src/app/**/*.{ts,tsx}" "./src/app/a/b/c.ts" = true
  ∧ glob_match "./src/app/**/*.{ts,tsx}" "./src/app/page.css" = false
  ∧ glob_match "./src/components/**/*.{ts,tsx}" "./src/app/page.tsx" = false
  ∧ glob_match "./src/**/*.{ts,tsx}" "./src/lib/utils/analytics.ts" = true
  ∧ glob_match "./src/**/*.{ts,tsx}" "./tailwind.config.ts" = false
  ∧ glob_match "./src/*.ts" "./src/app/page.ts" = false.
Proof. by vm_compute. Qed.

Lemma utility_examples :
  utility "md:hover:text-[#FF6B6B]" = "text-[#FF6B6B]"
  ∧ utility "font-sans" = "font-sans"
  ∧ utility "placeholder:text-[#999]" = "text-[#999]"
  ∧ extension_ref config "md:rounded-xl" = [(BorderRadius, "xl")]
  ∧ extension_ref config "bg-coral/50" = [(Colors, "coral")]
  ∧ extension_ref config "text-xl" = []
  ∧ arbitrary_color "hover:border-[#FFD9D9]" = Some "#FFD9D9"
  ∧ arbitrary_color "w-[100px]" = None.
Proof. by vm_compute. Qed.

(** The layout adds two elements around its children. *)
Lemma elements_RootLayout ks :
  elements (RootLayout ks)
  = RootLayout ks :: children_of (RootLayout ks) ++ flat_map elements ks.
Proof. cbn. by rewrite app_nil_r. Qed.

Lemma ids_RootLayout n : ids (RootLayout [n]) = ids n.
Proof. unfold ids. rewrite elements_RootLayout. cbn. by rewrite app_nil_r. Qed.

Lemma anchors_RootLayout n : anchors (RootLayout [n]) = anchors n.
Proof. unfold anchors. rewrite elements_RootLayout. cbn. by rewrite app_nil_r. Qed.

(** The keys of the theme extension that the document may refer to. *)
Definition used_keys : list (Group * string) :=
  [(BorderRadius, "xl"); (FontFamily, "sans")].

Definition class_ok (c : string) : bool :=
  forallb (λ r, bool_decide (r ∈ used_keys)) (extension_ref config c).

Lemma option_button_classes q snap item :
  forallb class_ok (classes (option_button q snap item)) = true.
Proof.
  unfold classes, option_button.
  destruct q; autounfold with markup;
    match goal with |- context [bool_decide (?a = Some (key item))] =>
      destruct (bool_decide (a = Some (key item))) end;
    destruct (isSubmitting snap); vm_compute; reflexivity.
Qed.

(** The classes of the elements other than option buttons. *)
Lemma static_classes snap :
  forallb (λ e, is_option e || forallb class_ok (classes e))
    (elements (document snap)) = true.
Proof. unfold document, RootLayout. by_markup snap. Qed.

(** ** Theorems *)

(** The layout keeps a page well formed: around a well-formed tree it
    yields a well-formed document, with the same identifiers and in-page
    links, whose root declares the language of the text. *)
Theorem RootLayout_well_formed n :
  well_formed n = true →
  well_formed (RootLayout [n]) = true
  ∧ ids (RootLayout [n]) = ids n
  ∧ attr "lang" (RootLayout [n]) = Some "ko".
Proof.
  intros H. split_and!; [|apply ids_RootLayout|done].
  unfold well_formed, ids_unique, anchors_resolve in *.
  rewrite ids_RootLayout, anchors_RootLayout. split_andb.
  unfold RootLayout at 2. rewrite !keyed_wrap, elements_RootLayout.
  cbn [flat_map children_of RootLayout app forallb]. rewrite app_nil_r.
  by rewrite H, H0, H1, H2.
Qed.

(** A pattern that starts with literal text matches the paths that start
    with that text and go on as the rest of the pattern says. *)
Lemma wild_match_literal lit pat path :
  literal lit = true →
  wild_match (lit ++ pat) path = true
  ↔ ∃ rest, path = (lit ++ rest)%string ∧ wild_match pat rest = true.
Proof.
  intros Hl. revert path. induction lit as [|c lit IH]; intros path.
  - split; [by eauto|by intros (? & -> & ?)].
  - cbn in Hl. apply andb_prop in Hl as [Hc%negb_true_iff Hl].
    change (String c lit +:+ pat) with (String c (lit +:+ pat)).
    cbn [wild_match]. rewrite Hc. destruct path as [|c' path].
    { split; [done|by intros (? & ? & ?)]. }
    rewrite andb_true_iff, Ascii.eqb_eq, (IH Hl). split.
    + intros [-> (rest & -> & H)]. eauto.
    + intros (rest & [= -> ->] & H). eauto.
Qed.

(** What [**/] matches it also matches one directory further down. *)
Lemma dirs_under k seg path :
  dirs k path = true → dirs k (seg ++ "/" ++ path) = true.
Proof.
  unfold dirs. intros H. generalize true at 1.
  induction seg as [|c seg IH]; intros b.
  - change ("" +:+ "/" +:+ path) with (String "/" path). cbn [dirs_at].
    change (Ascii.eqb "/" "/") with true. rewrite H. apply orb_true_r.
  - change (String c seg +:+ "/" +:+ path) with (String c (seg +:+ "/" +:+ path)).
    cbn [dirs_at]. rewrite IH. apply orb_true_r.
Qed.

(** A pattern for the files under one directory of [./src] matches only
    files that the pattern for all of [./src] matches. *)
Lemma under_src dir ext path :
  literal dir = true →
  wild_match ("./src/" ++ dir ++ "/" ++ "**/*." ++ ext) path = true →
  wild_match ("./src/" ++ "**/*." ++ ext) path = true.
Proof.
  intros Hd. rewrite !(wild_match_literal "./src/") by done.
  intros (r1 & -> & H). apply (wild_match_literal dir) in H as (r2 & -> & H); [|done].
  apply (wild_match_literal "/") in H as (r3 & -> & H); [|done].
  eexists. split; [done|]. by apply dirs_under.
Qed.

Lemma glob_under_src dir path :
  dir ∈ ["app"; "components"] →
  glob_match ("./src/" ++ dir ++ "/**/*.{ts,tsx}") path = true →
  glob_match "./src/**/*.{ts,tsx}" path = true.
Proof.
  intros Hd. unfold glob_match.
  change (braces "./src/**/*.{ts,tsx}")
    with ((λ ext, "./src/" ++ "**/*." ++ ext)%string <$> ["ts"; "tsx"]).
  assert (braces ("./src/" ++ dir ++ "/**/*.{ts,tsx}")
          = (λ ext, "./src/" ++ dir ++ "/" ++ "**/*." ++ ext)%string
              <$> ["ts"; "tsx"]) as ->
    by (elem_cases Hd; by subst dir).
  assert (literal dir = true) as Hl by (elem_cases Hd; by subst dir).
  cbn [fmap list_fmap existsb]. rewrite !orb_true_iff.
  intros [H|[H|?]]; [left|right; left|done]; by apply (under_src dir).
Qed.

(** The three patterns of [content] select what the last one selects: the
    files with the extension ts or tsx anywhere under [./src]. *)
Theorem content_is_src path :
  scanned config path = glob_match "./src/**/*.{ts,tsx}" path.
Proof.
  unfold scanned. cbn [content config existsb]. rewrite orb_false_r.
  destruct (glob_match "./src/**/*.{ts,tsx}" path) eqn:H3; [by rewrite !orb_true_r|].
  rewrite orb_false_r. apply orb_false_iff. split; apply not_true_is_false; intros H.
  - apply (glob_under_src "app") in H; [congruence|repeat constructor].
  - apply (glob_under_src "components") in H; [congruence|repeat constructor].
Qed.

(** The files that write class names are scanned by the stylesheet
    generator, and the configuration file itself is not. *)
Theorem sources_scanned :
  scanned config "./src/app/page.tsx" = true
  ∧ scanned config "./src/app/layout.tsx" = true
  ∧ scanned config "./tailwind.config.ts" = false.
Proof. by vm_compute. Qed.

(** C39: of the keys that the configuration adds to the theme, the document
    refers to the font stack [sans] and the radius [xl] only, in every
    state: no class of any element names one of the six colours, the
    shadow, the radius [2xl] or the maximal width of the extension. *)
Theorem theme_extension_usage snap e c r :
  e ∈ elements (document snap) → c ∈ classes e →
  r ∈ extension_ref config c → r ∈ used_keys.
Proof.
  intros He Hc Hr. assert (class_ok c = true) as Hok.
  { pose proof (static_classes snap) as Hs. rewrite forallb_forall in Hs.
    specialize (Hs e (proj1 (list_elem_of_In _ _) He)).
    assert (forallb class_ok (classes e) = true) as Hcs; [|
      rewrite forallb_forall in Hcs; by apply Hcs, list_elem_of_In].
    destruct (is_option e) eqn:Ho; [|done]. clear Hs.
    unfold document in He. rewrite elements_RootLayout in He.
    cbn [flat_map] in He.
    rewrite app_nil_r in He.
    apply elem_of_cons in He as [->|He]; [done|].
    apply elem_of_app in He as [He|He]; [by elem_cases He; subst|].
    assert (e ∈ List.filter is_option (elements (Home snap))) as Hf.
    { by apply list_elem_of_In, filter_In; split; [apply list_elem_of_In|]. }
    rewrite option_elements in Hf. destruct (isSubmitted snap).
    { by apply elem_of_nil in Hf. }
    apply elem_of_flat_map in Hf as (q & _ & (item & -> & _)%list_elem_of_fmap).
    apply option_button_classes. }
  unfold class_ok in Hok. rewrite forallb_forall in Hok.
  apply list_elem_of_In, Hok in Hr. by apply bool_decide_eq_true_1 in Hr.
Qed.

(** The two keys are referred to: the body uses the font stack and the
    cards of the page use the radius. *)
Lemma extension_keys_referred snap :
  forallb (λ r, existsb (λ c, bool_decide (r ∈ extension_ref config c))
                  (all_classes (document snap)))
    used_keys = true.
Proof. unfold document, RootLayout. by_markup snap. Qed.

(** ** The theorems on concrete inputs *)

Lemma theme_extension_usage_witness :
  let body := Elem (Html "body")
                ["className" =: PStr "antialiased bg-[#FFF5F5] text-[#222] font-sans"]
                [Home initial_state] in
  body ∈ elements (document initial_state)
  ∧ "font-sans" ∈ classes body
  ∧ (FontFamily, "sans") ∈ extension_ref config "font-sans"
  ∧ (FontFamily, "sans") ∈ used_keys.
Proof.
  cbn zeta.
  assert (Elem (Html "body")
            ["className" =: PStr "antialiased bg-[#FFF5F5] text-[#222] font-sans"]
            [Home initial_state] ∈ elements (document initial_state)) as He.
  { apply elem_of_cons. right. apply elem_of_cons. by left. }
  assert ("font-sans" ∈ classes (Elem (Html "body")
            ["className" =: PStr "antialiased bg-[#FFF5F5] text-[#222] font-sans"]
            [Home initial_state])) as Hc.
  { vm_compute. repeat constructor. }
  assert ((FontFamily, "sans") ∈ extension_ref config "font-sans") as Hr.
  { vm_compute. repeat constructor. }
  split_and!; [done..|]. exact (theme_extension_usage _ _ _ _ He Hc Hr).
Defined.

Lemma RootLayout_well_formed_witness :
  well_formed (Home initial_state) = true
  ∧ well_formed (document initial_state) = true.
Proof.
  assert (well_formed (Home initial_state) = true) as H by (by vm_compute).
  split; [done|]. apply (RootLayout_well_formed _ H).
Defined.
