(* ===== verification/Typing.v ===== *)
(** * The values that the state takes

    The cells of [Home] are declared as [string | null] and [number]
    (page.tsx 9-22); in a session they range over much less.  An answer is
    [null] or the key of an option of its question, because it is only ever
    set by the [onClick] of a rendered option; [source] stays [null],
    because [setSource] is never called; the ref holds 0 or one of the four
    constants that the handlers of the options store.  [state_typed] and
    [progress_values] say so, and the theorems of this file show that every
    session keeps the state within them, and what follows for the markup:
    of the buttons of a question, the one highlighted is the answer. *)

From S2P Require Import Prelude JsString JsValue Effects Browser Identity.
From S2P Require Import Tracking PageState Survey Signup Observer View Page.
From S2P Require Import Machine Invariants Outputs Schedule Session.
From S2P Require Import Markup Home.

#[local] Open Scope string_scope.
#[local] Open Scope list_scope.
#[local] Open Scope nat_scope.

(** ** The types *)

(** An answer is absent or the key of an option of its question. *)
Definition answer_typed (q : Question) (snap : State) : bool :=
  match answer_of q snap with
  | None => true
  | Some k => bool_decide (k ∈ key <$> items_of q)
  end.

(** The cells of a render or of the current state are within their
    types. *)
Definition state_typed (snap : State) : bool :=
  forallb (λ q, answer_typed q snap) questions
  && bool_decide (source snap = None).

(** The values of [surveyProgressRef.current]. *)
Definition progress_values : list float := [0; 20; 40; 60; 80]%float.

(** The number of buttons of question [q] that a tree highlights. *)
Definition highlighted_buttons (q : Question) (n : Node) : nat :=
  count_if btn_selected (buttons_in q n).

(** The machine is within its types. *)
Definition typed (u : Ui) : Prop :=
  state_typed (u_cells u) = true ∧ state_typed (u_rendered u) = true
  ∧ u_ref u ∈ progress_values.

(** ** Lemmas *)

Lemma answer_typed_spec snap :
  (∀ q, answer_typed q snap = true) ↔ answers_from_items snap.
Proof.
  unfold answer_typed, answers_from_items. split.
  - intros H q k Hk. specialize (H q). rewrite Hk in H.
    apply bool_decide_eq_true_1, list_elem_of_fmap in H as (it & -> & Hin).
    by exists it.
  - intros H q. destruct (answer_of q snap) as [k|] eqn:Hk; [|done].
    destruct (H q k Hk) as (it & Hin & <-).
    by apply bool_decide_eq_true_2, list_elem_of_fmap_2.
Qed.

Lemma state_typed_spec snap :
  state_typed snap = true ↔ answers_from_items snap ∧ source snap = None.
Proof.
  unfold state_typed. rewrite andb_true_iff, bool_decide_eq_true.
  rewrite <- answer_typed_spec, forallb_forall.
  split; intros [H Hs]; (split; [|done]).
  - intros q. apply H, list_elem_of_In. unfold questions.
    destruct q; repeat constructor.
  - intros q _. apply H.
Qed.

Lemma progress_of_values q : progress_of q ∈ progress_values.
Proof. unfold progress_values. destruct q; cbn; repeat constructor. Qed.

(** No handler writes [source], and the ref is written by the options
    only. *)
Lemma m_body_source_ref e u :
  source (u_cells (m_body e u).1) = source (u_cells u)
  ∧ (u_ref (m_body e u).1 = u_ref u ∨ ∃ q, u_ref (m_body e u).1 = progress_of q).
Proof.
  destruct e; m_unfold; try (by split; [|left]).
  - split; [by destruct q, (hasStartedSurvey (u_rendered u))|by eauto].
  - by destruct (survey_incomplete _); split; [|left| |left].
  - by destruct (truthy_string _); split; [|left| |left].
  - by destruct (m_for_each_scroll (u_installed u) m u) as [[->| ->] _];
      split; [|left| |left].
  - by destruct (m_for_each_unload (u_installed u) u) as [-> _]; split; [|left].
  - by destruct (u_timers u !! i) as [[]|]; split; [|left| |left| |left| |left].
Qed.

Lemma source_ref_run es :
  let u := (mrun es initial_ui).1 in
  source (u_cells u) = None ∧ source (u_rendered u) = None
  ∧ u_ref u ∈ progress_values.
Proof.
  set (I := λ (u : Ui) (_ : list Out),
         source (u_cells u) = None ∧ source (u_rendered u) = None
         ∧ u_ref u ∈ progress_values).
  apply (mrun_invariant I I).
  - unfold I, progress_values. split_and!; [done..|]. cbn. by left.
  - intros e u os (Hc & Hr & Hf) He.
    assert (I (m_body e u).1 (os ++ (m_body e u).2)) as H;
      [|by destruct (commits e)].
    destruct (m_body_source_ref e u) as [Hs Hp].
    destruct (m_body_closures e u) as (Hr' & _). unfold I.
    rewrite Hs, Hr'. split_and!; [done..|].
    destruct Hp as [-> | [q ->]]; [done|apply progress_of_values].
  - intros u os (Hc & Hr & Hf). unfold I.
    destruct (m_commit_cells u) as (-> & -> & _ & ->). done.
Qed.

(** Every run of the machine stays within the types. *)
Lemma typed_run es : typed (mrun es initial_ui).1.
Proof.
  destruct (answers_inv_run es) as (Hc & Hr & _).
  destruct (source_ref_run es) as (Hsc & Hsr & Hf).
  unfold typed. by rewrite !state_typed_spec.
Qed.

(** Exactly the button of the answer is highlighted. *)
Lemma selected_exactly_one items it d :
  NoDup (key <$> items) → it ∈ items →
  count_if btn_selected (option_buttons items (Some (key it)) d) = 1.
Proof.
  induction items as [|it' l IH]; [by intros _ ?%elem_of_nil|].
  rewrite fmap_cons. intros [Hnotin Hnd]%NoDup_cons Hin.
  change (option_buttons (it' :: l) (Some (key it)) d)
    with (mkButton it' (bool_decide (Some (key it) = Some (key it'))) d
          :: option_buttons l (Some (key it)) d).
  cbn [count_if btn_selected]. case_bool_decide as Hk.
  - rewrite selected_none; [done|]. intros k [= <-]. by injection Hk as ->.
  - apply elem_of_cons in Hin as [->|Hin]; [done|]. by apply IH.
Qed.

Section typing.
Context {S : Type} `{!Sdk S}.
Implicit Types (w : World S) (es : list Event).

(** C19: every session keeps the state within its types: each answer held
    by the cells and by the last render is [null] or the key of an option
    of its question, [source] is [null], and the ref holds 0, 20, 40, 60 or
    80. *)
Theorem session_state_typed w es :
  let p := session w es in
  state_typed (cells p) = true ∧ state_typed (rendered p) = true
  ∧ surveyProgressRef p ∈ progress_values.
Proof.
  cbn zeta. pose proof (typed_run es) as H.
  by rewrite <- (session_ui w es) in H.
Qed.

(** In any session, as long as the survey is shown, the markup of the
    last render highlights exactly one button of each question that the
    render saw answered, and none of the others. *)
Theorem answered_option_highlighted w es q :
  let snap := rendered (session w es) in
  isSubmitted snap = false →
  highlighted_buttons q (Home snap)
  = if answer_of q snap is Some _ then 1 else 0.
Proof.
  cbn zeta. intros Hs. unfold highlighted_buttons. rewrite buttons_in_Home, Hs.
  pose proof (typed_run es) as (_ & Hr & _).
  rewrite <- (session_ui w es) in Hr. cbn [ui u_rendered] in Hr.
  apply state_typed_spec in Hr as [Hr _].
  destruct (answer_of q _) as [k|] eqn:Hk.
  - destruct (Hr q k Hk) as (it & Hin & <-).
    apply selected_exactly_one; [apply items_NoDup|done].
  - by apply selected_none.
Qed.

End typing.

(** ** The theorems on concrete inputs *)

Lemma answered_option_highlighted_witness :
  let snap := rendered (session demo_world [Mount; Select QGender male]) in
  isSubmitted snap = false
  ∧ answer_of QGender snap = Some "male"
  ∧ highlighted_buttons QGender (Home snap)
    = if answer_of QGender snap is Some _ then 1 else 0.
Proof.
  cbn zeta. split_and!; [by vm_compute..|].
  apply (answered_option_highlighted demo_world [Mount; Select QGender male]
           QGender).
  by vm_compute.
Defined.
